(** * DiscordRPG: item model, outcome formulas and work-unit lifecycle

    A shallow embedding of the gameplay core of the DiscordRPG bot:
      - [classes/items.py]      (item data model, rarity, upgrade, generator, reroll,
                                 crates, inventory)
      - [classes/character.py]  (class evolution, class and race bonuses, levelling)
      - [cogs/religion.py]      (active blessings)
      - [cogs/race.py]          (race multipliers)
      - [cogs/blacksmith.py]    (rarity of a stored item, dismantle, reforge, upgrade)
      - [cogs/adventure.py]     (adventure success chance, manual completion)
      - [cogs/combat.py]        (battle power, pairwise battle)
      - [cogs/autoplay.py]      (automatic adventures, battles, completion loop)
      - [cogs/character.py]     (starter gear)
      - [cogs/epic_adventures.py] (epic / legendary adventures)

    Python [int] is modelled by [Z], Python [float] by the kernel's binary64
    floats (same IEEE-754 arithmetic as CPython), the [random] module by a
    stream of raw draws that each call consumes in program order, and the
    SQLite store by records of rows.  The scheduled jobs and the adventure
    commands are also given with their exception handlers ([Handlers]):
    there a run may be ended by an exception and leaves the store as its
    writes made it. *)

From Stdlib Require Import String.
From Stdlib Require Import ZArith List Bool Lia.
From Stdlib Require Import Floats.PrimFloat Floats.FloatOps Floats.SpecFloat.
From Stdlib Require Numbers.Cyclic.Int63.Uint63.
Import ListNotations.

Set Warnings "-inexact-float".
Open Scope Z_scope.

(* ================================================================== *)
(** ** Python numbers *)
(* ================================================================== *)

Module Py.

(** [float(z)]: the conversion Python applies when an [int] meets a [float]
    in an arithmetic operation.  Exact for [|z| < 2^53]; the model is only
    used below [2^63]. *)
Definition float_of_int (z : Z) : float :=
  if z <? 0 then PrimFloat.opp (PrimFloat.of_uint63 (Uint63.of_Z (- z)))
  else PrimFloat.of_uint63 (Uint63.of_Z z).

(** The same conversion for an [int] of any size, as [int.__float__] and
    the mixed [int * float] of CPython compute it: the nearest binary64
    value, ties to even, and [OverflowError] ([None]) when that is out of
    range. *)
Definition float_of_long (z : Z) : option float :=
  match binary_normalize prec emax z 0 false with
  | S754_infinity _ => None
  | sf => Some (SF2Prim sf)
  end.

(** [int(x)] on a float: truncation toward zero; raises on infinities and
    NaN ([None]). *)
Definition int_of_float (x : float) : option Z :=
  match Prim2SF x with
  | S754_zero _ => Some 0
  | S754_finite s m e =>
      let a := if 0 <=? e then Z.pos m * 2 ^ e else Z.pos m / 2 ^ (- e) in
      Some (if s then - a else a)
  | S754_infinity _ | S754_nan => None
  end.

(** [x < y] on floats, and [min(x, y)], [max(x, y)] as the builtins compute
    them (the first argument is kept unless the second is strictly smaller,
    respectively larger). *)
Definition flt (x y : float) : bool := PrimFloat.ltb x y.
Definition fmin (x y : float) : float := if PrimFloat.ltb y x then y else x.
Definition fmax (x y : float) : float := if PrimFloat.ltb x y then y else x.

(** The random source: a stream of raw draws.  An exhausted stream keeps
    producing 0. *)
Definition Gen := list Z.

(** Computations that draw random numbers and may raise. *)
Definition Rand (A : Type) : Type := Gen -> option (A * Gen).

Definition ret {A} (a : A) : Rand A := fun g => Some (a, g).
Definition raise {A} : Rand A := fun _ => None.
Definition bind {A B} (m : Rand A) (k : A -> Rand B) : Rand B :=
  fun g => match m g with
           | Some (a, g') => k a g'
           | None => None
           end.
Definition lift {A} (o : option A) : Rand A :=
  fun g => match o with Some a => Some (a, g) | None => None end.

Definition draw : Rand Z :=
  fun g => match g with
           | [] => Some (0, [])
           | u :: g' => Some (u, g')
           end.

(** [random.randint(a, b)]: an integer in [a..b]; [ValueError] on an empty
    range. *)
Definition randint (a b : Z) : Rand Z :=
  if a <=? b then bind draw (fun u => ret (a + u mod (b - a + 1))) else raise.

(** [random.choice(seq)]: [IndexError] on an empty sequence. *)
Definition choice {A} (l : list A) : Rand A :=
  match l with
  | [] => raise
  | d :: _ => bind draw (fun u => ret (nth (Z.to_nat (u mod Z.of_nat (length l))) l d))
  end.

(** [random.random()]: a multiple of [2^-53] in [[0, 1)]. *)
Definition random : Rand float :=
  bind draw (fun u =>
    ret (PrimFloat.div (float_of_int (u mod 2 ^ 53)) (float_of_int (2 ^ 53)))).

(** [random.uniform(a, b)] is [a + (b - a) * random()]. *)
Definition uniform (a b : float) : Rand float :=
  bind random (fun r => ret (PrimFloat.add a (PrimFloat.mul (PrimFloat.sub b a) r))).

(** [random.sample(population, k)]: [k] elements taken from distinct
    positions; [ValueError] when [k] exceeds the population.  (The order in
    which the library keeps the not-yet-chosen elements is immaterial here.) *)
Fixpoint sample {A} (population : list A) (k : nat) : Rand (list A) :=
  match k with
  | O => ret []
  | S k' =>
      match population with
      | [] => raise
      | d :: _ =>
          bind draw (fun u =>
            let j := Z.to_nat (u mod Z.of_nat (length population)) in
            bind (sample (firstn j population ++ skipn (S j) population) k')
                 (fun rest => ret (nth j population d :: rest)))
      end
  end.

(** A [for] loop whose body threads a state and may draw or raise. *)
Fixpoint for_each {A S} (body : S -> A -> Rand S) (l : list A) (s : S) : Rand S :=
  match l with
  | [] => ret s
  | a :: rest => bind (body s a) (fun s' => for_each body rest s')
  end.

(** [itertools.accumulate(weights)]: the running sums. *)
Fixpoint accumulate_from (acc : float) (weights : list float) : list float :=
  match weights with
  | [] => []
  | w :: rest => let c := PrimFloat.add acc w in c :: accumulate_from c rest
  end.

Definition accumulate (weights : list float) : list float :=
  match weights with
  | [] => []
  | w :: rest => w :: accumulate_from w rest
  end.

(** The loop of [bisect.bisect_right(a, x, lo, hi)]:
    [while lo < hi: mid = (lo + hi) // 2;
     if x < a[mid]: hi = mid  else: lo = mid + 1]. *)
Fixpoint bisect_loop (fuel : nat) (a : list float) (x : float) (lo hi : nat) : nat :=
  match fuel with
  | O => lo
  | S fuel' =>
      if Nat.ltb lo hi then
        let mid := Nat.div (lo + hi) 2 in
        if PrimFloat.ltb x (nth mid a 0%float)
        then bisect_loop fuel' a x lo mid
        else bisect_loop fuel' a x (S mid) hi
      else lo
  end.

(** [hi - lo] rounds are enough: each round shrinks the interval. *)
Definition bisect (a : list float) (x : float) (lo hi : nat) : nat :=
  bisect_loop (hi - lo) a x lo hi.

(** [random.choices(population, weights=weights)[0]]: the element at the
    bisection point of [random() * total] in the cumulative weights.
    Integer weights are given by their float values. *)
Definition choices {A} (population : list A) (weights : list float) : Rand A :=
  let cum_weights := accumulate weights in
  let n := length population in
  if negb (Nat.eqb (length cum_weights) n) then raise
  else
    match population with
    | [] => raise
    | d :: _ =>
        let total := PrimFloat.add (last cum_weights 0%float) 0%float in
        if PrimFloat.leb total 0%float then raise
        else if negb (PrimFloat.is_finite total) then raise
        else
          bind random (fun r =>
            ret (nth (bisect cum_weights (PrimFloat.mul r total) 0 (n - 1))
                     population d))
    end.

End Py.

Notation "x <- m ;; k" := (Py.bind m (fun x => k))
  (at level 61, m at next level, right associativity).
Notation "x <-? o ;; k" := (match o with Some x => k | None => None end)
  (at level 61, o at next level, right associativity).

(** Integer ranges, for exhaustive checks over a bounded domain. *)
Fixpoint range_from (lo : Z) (n : nat) : list Z :=
  match n with
  | O => []
  | S k => lo :: range_from (lo + 1) k
  end.

(* ================================================================== *)
(** ** classes/items.py *)
(* ================================================================== *)

Module Items.

Inductive ItemType : Type :=
  | SWORD | SHIELD | AXE | BOW | SPEAR | WAND | DAGGER | KNIFE | HAMMER
  | STAFF | MACE | CROSSBOW | GREATSWORD | HALBERD | KATANA | SCYTHE
  | HELMET | CHESTPLATE | LEGGINGS | GAUNTLETS | BOOTS.

(** [list(ItemType)], in declaration order. *)
Definition all_item_types : list ItemType :=
  [SWORD; SHIELD; AXE; BOW; SPEAR; WAND; DAGGER; KNIFE; HAMMER;
   STAFF; MACE; CROSSBOW; GREATSWORD; HALBERD; KATANA; SCYTHE;
   HELMET; CHESTPLATE; LEGGINGS; GAUNTLETS; BOOTS].

Inductive ItemHand : Type := LEFT | RIGHT | BOTH | ANY.

Inductive ItemRarity : Type :=
  | COMMON | UNCOMMON | RARE | MAGIC | LEGENDARY | MYTHIC | DIVINE.

Definition all_rarities : list ItemRarity :=
  [COMMON; UNCOMMON; RARE; MAGIC; LEGENDARY; MYTHIC; DIVINE].

(** Position of a tier in the enumeration (0 = common ... 6 = divine). *)
Definition rarity_rank (r : ItemRarity) : Z :=
  match r with
  | COMMON => 0 | UNCOMMON => 1 | RARE => 2 | MAGIC => 3
  | LEGENDARY => 4 | MYTHIC => 5 | DIVINE => 6
  end.

(** [ItemRarity.get_stat_range] *)
Definition get_stat_range (rarity : ItemRarity) : Z * Z :=
  match rarity with
  | COMMON => (1, 9)
  | UNCOMMON => (10, 19)
  | RARE => (20, 29)
  | MAGIC => (30, 39)
  | LEGENDARY => (40, 44)
  | MYTHIC => (45, 49)
  | DIVINE => (50, 50)
  end.

Inductive Material : Type := scrap | dust | essence.

(** [ItemRarity.get_material_tier] *)
Definition get_material_tier (rarity : ItemRarity) : Material :=
  match rarity with
  | COMMON | UNCOMMON => scrap
  | RARE | MAGIC => dust
  | _ => essence
  end.

Inductive Slot : Type := weapon | shield | head | chest | legs | hands | feet.

(** [class Item] *)
Record Item : Type := mkItem {
  id : Z;
  owner_id : Z;
  name : string;
  type : ItemType;
  value : Z;
  damage : Z;
  armor : Z;
  hand : ItemHand;
  equipped : bool;
  health_bonus : Z;
  speed_bonus : Z;
  luck_bonus : float;
  crit_bonus : float;
  magic_bonus : Z;
  slot_type : option Slot;
  upgrade_level : Z
}.

(** [Item._get_upgrade_multiplier]: [1.0 + (0.05 * self.upgrade_level)] *)
Definition upgrade_multiplier (level : Z) : float :=
  PrimFloat.add 1.0%float (PrimFloat.mul 0.05%float (Py.float_of_int level)).

Definition _get_upgrade_multiplier (self : Item) : float :=
  upgrade_multiplier (upgrade_level self).

(** [int(stat * multiplier)] for an integer stat field. *)
Definition scaled (stat : Z) (multiplier : float) : option Z :=
  Py.int_of_float (PrimFloat.mul (Py.float_of_int stat) multiplier).

Definition effective_damage (self : Item) : option Z :=
  scaled (damage self) (_get_upgrade_multiplier self).
Definition effective_armor (self : Item) : option Z :=
  scaled (armor self) (_get_upgrade_multiplier self).
Definition effective_health_bonus (self : Item) : option Z :=
  scaled (health_bonus self) (_get_upgrade_multiplier self).
Definition effective_speed_bonus (self : Item) : option Z :=
  scaled (speed_bonus self) (_get_upgrade_multiplier self).
Definition effective_luck_bonus (self : Item) : float :=
  PrimFloat.mul (luck_bonus self) (_get_upgrade_multiplier self).
Definition effective_crit_bonus (self : Item) : float :=
  PrimFloat.mul (crit_bonus self) (_get_upgrade_multiplier self).
Definition effective_magic_bonus (self : Item) : option Z :=
  scaled (magic_bonus self) (_get_upgrade_multiplier self).

(** [int(x * 100)] for a percentage field stored as a fraction. *)
Definition percent_points (x : float) : option Z :=
  Py.int_of_float (PrimFloat.mul x 100%float).

(** [Item.stat_total] *)
Definition stat_total (self : Item) : option Z :=
  l <-? percent_points (luck_bonus self) ;;
  c <-? percent_points (crit_bonus self) ;;
  Some (damage self + armor self + health_bonus self + speed_bonus self
        + l + c + magic_bonus self).

(** The threshold chain of [Item.rarity]. *)
Definition rarity_of_total (total : Z) : ItemRarity :=
  if total >=? 50 then DIVINE
  else if total >=? 45 then MYTHIC
  else if total >=? 40 then LEGENDARY
  else if total >=? 30 then MAGIC
  else if total >=? 20 then RARE
  else if total >=? 10 then UNCOMMON
  else COMMON.

(** [Item.rarity] *)
Definition rarity (self : Item) : option ItemRarity :=
  total <-? stat_total self ;;
  Some (rarity_of_total total).

(** *** ItemGenerator *)

(** [ItemGenerator.get_slot_for_type] *)
Definition get_slot_for_type (item_type : ItemType) : Slot :=
  match item_type with
  | SHIELD => shield
  | HELMET => head
  | CHESTPLATE => chest
  | LEGGINGS => legs
  | GAUNTLETS => hands
  | BOOTS => feet
  | _ => weapon
  end.

(** [ItemGenerator.get_hand_for_type] *)
Definition get_hand_for_type (item_type : ItemType) : ItemHand :=
  match item_type with
  | GREATSWORD | BOW | CROSSBOW | STAFF | HALBERD | SCYTHE => BOTH
  | SHIELD => LEFT
  | _ => ANY
  end.

(** Keys of the ratio dictionaries. *)
Inductive StatKey : Type :=
  | k_damage | k_armor | k_health | k_speed | k_luck | k_crit | k_magic.

(** [ItemGenerator.get_type_stats]: the ratio dictionary of an item type, in
    insertion order. *)
Definition get_type_stats (item_type : ItemType) : list (StatKey * float) :=
  match item_type with
  | SWORD => [(k_damage, 0.8); (k_armor, 0.2)]
  | AXE => [(k_damage, 0.9); (k_armor, 0.1)]
  | DAGGER => [(k_damage, 0.85); (k_armor, 0.15)]
  | SPEAR => [(k_damage, 0.75); (k_armor, 0.25)]
  | KATANA => [(k_damage, 0.9); (k_armor, 0.1)]
  | SCYTHE => [(k_damage, 0.95); (k_armor, 0.05)]
  | HAMMER => [(k_damage, 0.6); (k_armor, 0.4)]
  | MACE => [(k_damage, 0.65); (k_armor, 0.35)]
  | KNIFE => [(k_damage, 0.7); (k_armor, 0.3)]
  | BOW => [(k_damage, 0.85); (k_armor, 0.15)]
  | CROSSBOW => [(k_damage, 0.9); (k_armor, 0.1)]
  | WAND => [(k_damage, 0.8); (k_armor, 0.2)]
  | STAFF => [(k_damage, 0.7); (k_armor, 0.3)]
  | SHIELD => [(k_damage, 0.1); (k_armor, 0.9)]
  | GREATSWORD => [(k_damage, 0.85); (k_armor, 0.15)]
  | HALBERD => [(k_damage, 0.8); (k_armor, 0.2)]
  | HELMET => [(k_armor, 0.4); (k_luck, 0.3); (k_magic, 0.2); (k_health, 0.1)]
  | CHESTPLATE => [(k_armor, 0.5); (k_health, 0.4); (k_speed, 0.1)]
  | LEGGINGS => [(k_armor, 0.6); (k_health, 0.3); (k_speed, 0.1)]
  | GAUNTLETS => [(k_armor, 0.3); (k_crit, 0.4); (k_speed, 0.2); (k_magic, 0.1)]
  | BOOTS => [(k_armor, 0.4); (k_speed, 0.4); (k_luck, 0.2)]
  end%float.

(** The seven stat variables that the generator and the reroll initialise to
    zero and then fill from the ratio dictionary. *)
Record Stats : Type := mkStats {
  s_damage : Z;
  s_armor : Z;
  s_health_bonus : Z;
  s_speed_bonus : Z;
  s_luck_bonus : float;
  s_crit_bonus : float;
  s_magic_bonus : Z
}.

Definition zero_stats : Stats := mkStats 0 0 0 0 0%float 0%float 0.

(** One iteration of [for stat, ratio in stat_ratios.items()]:
    [allocated_points = int(total * ratio)], stored in the field named by
    [stat]; luck and crit are stored as [allocated_points / 100.0]. *)
Definition allocate (total : Z) (acc : Stats) (entry : StatKey * float)
  : option Stats :=
  let '(stat, ratio) := entry in
  allocated_points <-? Py.int_of_float (PrimFloat.mul (Py.float_of_int total) ratio) ;;
  Some
    match stat with
    | k_damage => mkStats allocated_points (s_armor acc) (s_health_bonus acc)
        (s_speed_bonus acc) (s_luck_bonus acc) (s_crit_bonus acc) (s_magic_bonus acc)
    | k_armor => mkStats (s_damage acc) allocated_points (s_health_bonus acc)
        (s_speed_bonus acc) (s_luck_bonus acc) (s_crit_bonus acc) (s_magic_bonus acc)
    | k_health => mkStats (s_damage acc) (s_armor acc) allocated_points
        (s_speed_bonus acc) (s_luck_bonus acc) (s_crit_bonus acc) (s_magic_bonus acc)
    | k_speed => mkStats (s_damage acc) (s_armor acc) (s_health_bonus acc)
        allocated_points (s_luck_bonus acc) (s_crit_bonus acc) (s_magic_bonus acc)
    | k_luck => mkStats (s_damage acc) (s_armor acc) (s_health_bonus acc)
        (s_speed_bonus acc)
        (PrimFloat.div (Py.float_of_int allocated_points) 100%float)
        (s_crit_bonus acc) (s_magic_bonus acc)
    | k_crit => mkStats (s_damage acc) (s_armor acc) (s_health_bonus acc)
        (s_speed_bonus acc) (s_luck_bonus acc)
        (PrimFloat.div (Py.float_of_int allocated_points) 100%float)
        (s_magic_bonus acc)
    | k_magic => mkStats (s_damage acc) (s_armor acc) (s_health_bonus acc)
        (s_speed_bonus acc) (s_luck_bonus acc) (s_crit_bonus acc) allocated_points
    end.

Fixpoint distribute_loop (total : Z) (ratios : list (StatKey * float))
  (acc : Stats) : option Stats :=
  match ratios with
  | [] => Some acc
  | entry :: rest =>
      acc' <-? allocate total acc entry ;;
      distribute_loop total rest acc'
  end.

(** The distribution loop shared (textually) by [generate_item] and
    [reroll_item]. *)
Definition distribute (item_type : ItemType) (total : Z) : option Stats :=
  distribute_loop total (get_type_stats item_type) zero_stats.

Definition DAMAGE_PREFIXES : list string :=
  ["Sharp"; "Deadly"; "Vicious"; "Brutal"; "Savage"; "Piercing"; "Slashing";
   "Crushing"; "Devastating"; "Bloodthirsty"; "Merciless"; "Cruel"; "Fierce"]%string.

Definition ARMOR_PREFIXES : list string :=
  ["Sturdy"; "Fortified"; "Hardened"; "Protective"; "Defensive"; "Guardian";
   "Shielding"; "Warding"; "Impenetrable"; "Unbreaking"; "Stalwart"; "Resolute"]%string.

Definition MIXED_PREFIXES : list string :=
  ["Balanced"; "Versatile"; "Adaptive"; "Dynamic"; "Harmonious"; "Unified";
   "Complete"; "Perfect"]%string.

Definition LEGENDARY_PREFIXES : list string :=
  ["Ancient"; "Mythical"; "Legendary"; "Epic"; "Divine"; "Celestial"; "Infernal";
   "Eternal"; "Immortal"; "Primordial"; "Forgotten"; "Lost"; "Sacred"]%string.

Definition BASE_NAMES (item_type : ItemType) : list string :=
  match item_type with
  | SWORD => ["Blade"; "Edge"; "Sword"; "Saber"; "Cutlass"]
  | AXE => ["Axe"; "Hatchet"; "Cleaver"; "Chopper"]
  | HAMMER => ["Hammer"; "Maul"; "Mallet"; "Crusher"]
  | BOW => ["Bow"; "Longbow"; "Shortbow"; "Recurve"]
  | STAFF => ["Staff"; "Rod"; "Scepter"; "Cane"]
  | SHIELD => ["Shield"; "Buckler"; "Aegis"; "Guard"]
  | DAGGER => ["Dagger"; "Knife"; "Stiletto"; "Dirk"]
  | SPEAR => ["Spear"; "Pike"; "Lance"; "Javelin"]
  | WAND => ["Wand"; "Focus"; "Catalyst"; "Channel"]
  | MACE => ["Mace"; "Morningstar"; "Flail"; "Club"]
  | KNIFE => ["Knife"; "Blade"; "Cutter"; "Razor"]
  | CROSSBOW => ["Crossbow"; "Arbalest"; "Ballista"]
  | GREATSWORD => ["Greatsword"; "Claymore"; "Zweihander"]
  | HALBERD => ["Halberd"; "Poleaxe"; "Partisan"]
  | KATANA => ["Katana"; "Wakizashi"; "Nodachi"]
  | SCYTHE => ["Scythe"; "Reaper"; "Harvester"]
  | HELMET => ["Helmet"; "Crown"; "Circlet"; "Helm"; "Coif"]
  | CHESTPLATE => ["Chestplate"; "Breastplate"; "Cuirass"; "Vest"; "Mail"]
  | LEGGINGS => ["Leggings"; "Greaves"; "Pants"; "Chausses"; "Legguards"]
  | GAUNTLETS => ["Gauntlets"; "Gloves"; "Mittens"; "Handguards"; "Bracers"]
  | BOOTS => ["Boots"; "Shoes"; "Sabatons"; "Footguards"; "Treads"]
  end%string.

Definition SUFFIXES : list string :=
  ["of Power"; "of Legends"; "of the Gods"; "of Eternity"; "of Destruction";
   "of Protection"; "of the Ancients"]%string.

(** [ItemGenerator.generate_name] *)
Definition generate_name (item_type : ItemType) (damage armor total : Z)
  : Py.Rand string :=
  prefix <- (if total >=? 40 then Py.choice LEGENDARY_PREFIXES
             else if damage >? armor * 2 then Py.choice DAMAGE_PREFIXES
             else if armor >? damage * 2 then Py.choice ARMOR_PREFIXES
             else Py.choice MIXED_PREFIXES) ;;
  base_name <- Py.choice (BASE_NAMES item_type) ;;
  if total >=? 45 then
    suffix <- Py.choice SUFFIXES ;;
    Py.ret (prefix ++ " " ++ base_name ++ " " ++ suffix)%string
  else
    Py.ret (prefix ++ " " ++ base_name)%string.

(** The [stat_ranges] dictionary local to [generate_item]. *)
Definition stat_ranges (rarity : ItemRarity) : Z * Z :=
  match rarity with
  | COMMON => (1, 9)
  | UNCOMMON => (10, 19)
  | RARE => (20, 29)
  | MAGIC => (30, 39)
  | LEGENDARY => (40, 44)
  | MYTHIC => (45, 49)
  | DIVINE => (50, 50)
  end.

(** [ItemGenerator.generate_item], returning the rolled [total_stats] next to
    the item it builds. *)
Definition generate_item_rolled (owner_id min_stat max_stat : Z)
  (item_type : option ItemType) (rarity : option ItemRarity)
  : Py.Rand (Z * Item) :=
  item_type <- match item_type with
               | None => Py.choice all_item_types
               | Some t => Py.ret t
               end ;;
  let '(min_stat, max_stat) :=
    match rarity with
    | Some r => stat_ranges r
    | None => (min_stat, max_stat)
    end in
  total_stats <- Py.randint (Z.max 4 min_stat) max_stat ;;
  stats <- Py.lift (distribute item_type total_stats) ;;
  name <- generate_name item_type (s_damage stats) (s_armor stats) total_stats ;;
  let hand := get_hand_for_type item_type in
  let slot_type := get_slot_for_type item_type in
  k <- Py.randint 80 120 ;;
  let value := total_stats * k in
  Py.ret (total_stats,
          mkItem 0 owner_id name item_type value (s_damage stats) (s_armor stats)
                 hand false (s_health_bonus stats) (s_speed_bonus stats)
                 (s_luck_bonus stats) (s_crit_bonus stats) (s_magic_bonus stats)
                 (Some slot_type) 0).

(** [ItemGenerator.generate_item] *)
Definition generate_item (owner_id min_stat max_stat : Z)
  (item_type : option ItemType) (rarity : option ItemRarity) : Py.Rand Item :=
  r <- generate_item_rolled owner_id min_stat max_stat item_type rarity ;;
  Py.ret (snd r).

(** [ItemGenerator.generate_random_equipment] *)
Definition generate_random_equipment (owner_id min_stat max_stat : Z)
  : Py.Rand Item :=
  r <- Py.random ;;
  item_type <- (if Py.flt r 0.6%float then
                  Py.choice [SWORD; AXE; HAMMER; MACE; DAGGER; KNIFE; SPEAR; WAND;
                             STAFF; BOW; CROSSBOW; GREATSWORD; HALBERD; KATANA;
                             SCYTHE; SHIELD]
                else
                  Py.choice [HELMET; CHESTPLATE; LEGGINGS; GAUNTLETS; BOOTS]) ;;
  generate_item owner_id min_stat max_stat (Some item_type) None.

(** The dictionary returned by [reroll_item]. *)
Record NewStats : Type := mkNewStats {
  new_stats : Stats;
  new_name : string;
  new_value : Z
}.

(** [ItemGenerator.reroll_item] *)
Definition reroll_item (item : Item) : Py.Rand NewStats :=
  current_rarity <- Py.lift (rarity item) ;;
  let '(min_stat, max_stat) := get_stat_range current_rarity in
  new_total <- Py.randint min_stat max_stat ;;
  stats <- Py.lift (distribute (type item) new_total) ;;
  name <- generate_name (type item) (s_damage stats) (s_armor stats) new_total ;;
  k <- Py.randint 80 120 ;;
  Py.ret (mkNewStats stats name (new_total * k)).

(** [ItemGenerator.generate_armor]: the armor type of the slot, or a random
    armor type when the slot is not one of the five. *)
Definition armor_type_of_slot (slot : string) : option ItemType :=
  if String.eqb slot "head" then Some HELMET
  else if String.eqb slot "chest" then Some CHESTPLATE
  else if String.eqb slot "legs" then Some LEGGINGS
  else if String.eqb slot "hands" then Some GAUNTLETS
  else if String.eqb slot "feet" then Some BOOTS
  else None.

Definition generate_armor (owner_id : Z) (slot : string) (min_stat max_stat : Z)
  : Py.Rand Item :=
  item_type <- match armor_type_of_slot slot with
               | Some t => Py.ret t
               | None => Py.choice [HELMET; CHESTPLATE; LEGGINGS; GAUNTLETS; BOOTS]
               end ;;
  generate_item owner_id min_stat max_stat (Some item_type) None.

(** [Item.get_sell_price] *)
Definition rarity_mult (r : ItemRarity) : float :=
  match r with
  | COMMON => 1.0
  | UNCOMMON => 1.5
  | RARE => 2.0
  | MAGIC => 3.0
  | LEGENDARY => 5.0
  | MYTHIC => 10.0
  | DIVINE => 20.0
  end%float.

Definition get_sell_price (self : Item) : option Z :=
  let base_price := if value self >? 0 then value self else 100 in
  total <-? stat_total self ;;
  let stat_bonus := total * 50 in
  r <-? rarity self ;;
  Py.int_of_float
    (PrimFloat.add (Py.float_of_int base_price)
                   (PrimFloat.mul (Py.float_of_int stat_bonus) (rarity_mult r))).

(** *** CrateSystem *)

(** An entry of [CRATE_CONTENTS] keyed by a rarity. *)
Record CrateContents : Type := mkCrate {
  crate_min_stat : Z;
  crate_max_stat : Z;
  money_chance : float;
  money_range : Z * Z
}.

(** [CRATE_CONTENTS[crate_rarity]]: [KeyError] for mythic and divine. *)
Definition CRATE_CONTENTS (r : ItemRarity) : option CrateContents :=
  match r with
  | COMMON => Some (mkCrate 4 15 0.3%float (50, 200))
  | UNCOMMON => Some (mkCrate 10 25 0.25%float (100, 500))
  | RARE => Some (mkCrate 20 35 0.2%float (300, 1000))
  | MAGIC => Some (mkCrate 30 42 0.15%float (800, 2000))
  | LEGENDARY => Some (mkCrate 40 50 0.1%float (1500, 5000))
  | MYTHIC | DIVINE => None
  end.

(** [CRATE_CONTENTS["mystery"]["rarities"]] *)
Definition mystery_rarities : list (ItemRarity * float) :=
  [(COMMON, 0.4); (UNCOMMON, 0.3); (RARE, 0.15); (MAGIC, 0.1); (LEGENDARY, 0.05)]%float.

(** [crate_map.get(crate_type, ItemRarity.COMMON)] *)
Definition crate_map (crate_type : string) : ItemRarity :=
  if String.eqb crate_type "common" then COMMON
  else if String.eqb crate_type "uncommon" then UNCOMMON
  else if String.eqb crate_type "rare" then RARE
  else if String.eqb crate_type "magic" then MAGIC
  else if String.eqb crate_type "legendary" then LEGENDARY
  else COMMON.

(** The triple returned by [open_crate]: [("money", None, money)] or
    [("item", item, None)]. *)
Inductive CrateReward : Type :=
  | money_reward (money : Z)
  | item_reward (item : Item).

(** [CrateSystem.open_crate], returning the crate's rarity next to the
    reward. *)
Definition open_crate_rolled (crate_type : string) (owner_id : Z)
  : Py.Rand (ItemRarity * CrateReward) :=
  crate_rarity <- (if String.eqb crate_type "mystery"
                   then Py.choices (map fst mystery_rarities) (map snd mystery_rarities)
                   else Py.ret (crate_map crate_type)) ;;
  contents <- Py.lift (CRATE_CONTENTS crate_rarity) ;;
  r <- Py.random ;;
  if Py.flt r (money_chance contents) then
    money <- Py.randint (fst (money_range contents)) (snd (money_range contents)) ;;
    Py.ret (crate_rarity, money_reward money)
  else
    item <- generate_random_equipment owner_id (crate_min_stat contents)
              (crate_max_stat contents) ;;
    Py.ret (crate_rarity, item_reward item).

(** [CrateSystem.open_crate] *)
Definition open_crate (crate_type : string) (owner_id : Z) : Py.Rand CrateReward :=
  r <- open_crate_rolled crate_type owner_id ;;
  Py.ret (snd r).

(** *** Inventory *)

(** The [weapon_types] list of [Inventory.can_equip]. *)
Definition is_primary_weapon (t : ItemType) : bool :=
  match t with
  | SWORD | AXE | HAMMER | MACE | DAGGER | KNIFE | SPEAR | WAND | STAFF | BOW
  | CROSSBOW | GREATSWORD | HALBERD | KATANA | SCYTHE => true
  | _ => false
  end.

Definition hand_eqb (a b : ItemHand) : bool :=
  match a, b with
  | LEFT, LEFT | RIGHT, RIGHT | BOTH, BOTH | ANY, ANY => true
  | _, _ => false
  end.

(** [Inventory.equipped_items] *)
Definition equipped_items (items : list Item) : list Item :=
  filter equipped items.

(** [Inventory.total_damage], [Inventory.total_armor] *)
Definition total_damage (items : list Item) : Z :=
  fold_left (fun acc item => acc + damage item) (equipped_items items) 0.

Definition total_armor (items : list Item) : Z :=
  fold_left (fun acc item => acc + armor item) (equipped_items items) 0.

(** The answers of [can_equip], [equip_item] and [unequip_item]: [True]
    with its message, or [False] with one of the refusal messages. *)
Inductive EquipAnswer : Type :=
  | can_equip_ok
  | equipped_ok
  | unequipped_ok
  | refuse_not_found
  | refuse_not_equipped
  | refuse_one_primary_weapon
  | refuse_two_handed_with_others
  | refuse_two_handed_in_use
  | refuse_left_occupied
  | refuse_right_occupied
  | refuse_both_occupied.

(** [Inventory.can_equip] *)
Definition can_equip (items : list Item) (item : Item) : EquipAnswer :=
  let eq := equipped_items items in
  if is_primary_weapon (type item)
     && existsb (fun eq_item => is_primary_weapon (type eq_item)) eq
  then refuse_one_primary_weapon
  else if hand_eqb (hand item) BOTH then
    if (0 <? Z.of_nat (length eq)) then refuse_two_handed_with_others
    else can_equip_ok
  else if existsb (fun eq_item => hand_eqb (hand eq_item) BOTH) eq
  then refuse_two_handed_in_use
  else
    match hand item with
    | LEFT =>
        if existsb (fun eq_item => hand_eqb (hand eq_item) LEFT
                                   || hand_eqb (hand eq_item) ANY) eq
        then refuse_left_occupied else can_equip_ok
    | RIGHT =>
        if existsb (fun eq_item => hand_eqb (hand eq_item) RIGHT
                                   || hand_eqb (hand eq_item) ANY) eq
        then refuse_right_occupied else can_equip_ok
    | ANY =>
        let left_taken :=
          existsb (fun e => hand_eqb (hand e) LEFT || hand_eqb (hand e) ANY) eq in
        let right_taken :=
          existsb (fun e => hand_eqb (hand e) RIGHT || hand_eqb (hand e) ANY) eq in
        if left_taken && right_taken then refuse_both_occupied else can_equip_ok
    | BOTH => can_equip_ok
    end.

Definition set_equipped (item : Item) (b : bool) : Item :=
  mkItem (id item) (owner_id item) (name item) (type item) (value item)
    (damage item) (armor item) (hand item) b (health_bonus item)
    (speed_bonus item) (luck_bonus item) (crit_bonus item) (magic_bonus item)
    (slot_type item) (upgrade_level item).

(** Assignment to [item.equipped] for the object at position [i]. *)
Fixpoint set_equipped_at (items : list Item) (i : nat) (b : bool) : list Item :=
  match items, i with
  | [], _ => []
  | item :: rest, O => set_equipped item b :: rest
  | item :: rest, S j => item :: set_equipped_at rest j b
  end.

(** [Inventory.equip_item]; the item is designated by its position in
    [self.items], [None] standing for an object that is not in the list. *)
Definition equip_item (items : list Item) (i : option nat)
  : list Item * EquipAnswer :=
  match i with
  | None => (items, refuse_not_found)
  | Some i =>
      match nth_error items i with
      | None => (items, refuse_not_found)
      | Some item =>
          match can_equip items item with
          | can_equip_ok => (set_equipped_at items i true, equipped_ok)
          | reason => (items, reason)
          end
      end
  end.

(** [Inventory.unequip_item] *)
Definition unequip_item (items : list Item) (i : option nat)
  : list Item * EquipAnswer :=
  match i with
  | None => (items, refuse_not_found)
  | Some i =>
      match nth_error items i with
      | None => (items, refuse_not_found)
      | Some item =>
          if negb (equipped item) then (items, refuse_not_equipped)
          else (set_equipped_at items i false, unequipped_ok)
      end
  end.

End Items.

(* ================================================================== *)
(** ** The persistent store *)
(* ================================================================== *)

(** The tables the cogs read and write through [self.db], as lists of rows,
    and a journal of the writes in the order the program issues them. *)
Module Store.

Inductive Status : Type := active | completed | failed | cancelled.

Definition status_eqb (a b : Status) : bool :=
  match a, b with
  | active, active | completed, completed
  | failed, failed | cancelled, cancelled => true
  | _, _ => false
  end.

(** A row of [profile].  [c_xp_gain] and [c_gold_find] stand for the two
    entries of [RaceCog.get_race_multipliers(user_id)] that the completion
    loops read. *)
Record Character : Type := mkCharacter {
  c_user_id : Z;
  c_name : string;
  c_level : Z;
  c_xp : Z;
  c_money : Z;
  c_luck : float;
  c_completed : Z;
  c_xp_gain : float;
  c_gold_find : float
}.

(** A row of [inventory] as the cogs see it: a dictionary in which the
    bonus columns are read with [item.get(key, 0)]. *)
Record ItemRow : Type := mkItemRow {
  i_id : Z;
  i_owner : Z;
  i_name : string;
  i_type : Items.ItemType;
  i_value : Z;
  i_damage : Z;
  i_armor : Z;
  i_hand : Items.ItemHand;
  i_equipped : bool;
  i_health_bonus : option Z;
  i_speed_bonus : option Z;
  i_luck_bonus : option float;
  i_crit_bonus : option float;
  i_magic_bonus : option Z;
  i_slot_type : option Items.Slot;
  i_upgrade_level : option Z
}.

(** A row of [adventures]. *)
Record Adventure : Type := mkAdventure {
  a_user_id : Z;
  a_adventure_name : string;
  a_difficulty : Z;
  a_started_at : Z;
  a_finish_at : Z;
  a_status : Status
}.

Inductive EpicKind : Type := epic | legendary.

(** A row of [epic_adventures]. *)
Record EpicAdventure : Type := mkEpicAdventure {
  e_id : Z;
  e_user_id : Z;
  e_adventure_type : EpicKind;
  e_adventure_name : string;
  e_difficulty : Z;
  e_started_at : Z;
  e_finish_at : Z;
  e_base_xp_reward : Z;
  e_base_gold_reward : Z;
  e_item_quality_min : Z;
  e_item_quality_max : Z;
  e_status : Status
}.

Inductive BlessingEffect : Type :=
  | eff_luck | eff_xp_mult | eff_gold_mult | eff_battle_mult
  | eff_protection | eff_adventure_success.

(** A row of [divine_blessings]. *)
Record Blessing : Type := mkBlessing {
  b_user_id : Z;
  b_effect : BlessingEffect;
  b_value : float;
  b_expires_at : Z
}.

(** The writes a cog issues, as journal entries. *)
Inductive Write : Type :=
  | W_update_character (user_id : Z)
  | W_create_item (owner : Z)
  | W_insert_adventure (user_id : Z)
  | W_adventure_status (user_id finish_at : Z) (s : Status)
  | W_insert_epic (user_id : Z)
  | W_epic_status (id : Z) (s : Status)
  | W_delete_blessings (user_id : Z)
  | W_commit.

Record DB : Type := mkDB {
  profile : list Character;
  inventory : list ItemRow;
  adventures : list Adventure;
  epic_adventures : list EpicAdventure;
  divine_blessings : list Blessing;
  journal : list Write
}.

Definition log (w : Write) (db : DB) : DB :=
  mkDB (profile db) (inventory db) (adventures db) (epic_adventures db)
       (divine_blessings db) (journal db ++ [w]).

(** [db.get_character(user_id)] *)
Definition get_character (db : DB) (user_id : Z) : option Character :=
  find (fun c => c_user_id c =? user_id) (profile db).

(** [db.update_character(user_id, **fields)]: [upd] rewrites the named
    columns of the user's row. *)
Definition update_character (db : DB) (user_id : Z)
  (upd : Character -> Character) : DB :=
  log (W_update_character user_id)
    (mkDB (map (fun c => if c_user_id c =? user_id then upd c else c) (profile db))
          (inventory db) (adventures db) (epic_adventures db)
          (divine_blessings db) (journal db)).

Definition set_xp_money_level_completed (xp money level completed : Z)
  (c : Character) : Character :=
  mkCharacter (c_user_id c) (c_name c) level xp money (c_luck c) completed
              (c_xp_gain c) (c_gold_find c).

Definition set_xp_money_level (xp money level : Z) (c : Character) : Character :=
  set_xp_money_level_completed xp money level (c_completed c) c.

Definition set_xp_money (xp money : Z) (c : Character) : Character :=
  set_xp_money_level xp money (c_level c) c.

(** [db.get_equipped_items(user_id)] *)
Definition get_equipped_items (db : DB) (user_id : Z) : list ItemRow :=
  filter (fun i => (i_owner i =? user_id) && i_equipped i) (inventory db).

(** [create_item_in_db(item)]: every stat column is written. *)
Definition row_of_item (id : Z) (item : Items.Item) : ItemRow :=
  mkItemRow id (Items.owner_id item) (Items.name item) (Items.type item)
    (Items.value item) (Items.damage item) (Items.armor item) (Items.hand item)
    (Items.equipped item)
    (Some (Items.health_bonus item)) (Some (Items.speed_bonus item))
    (Some (Items.luck_bonus item)) (Some (Items.crit_bonus item))
    (Some (Items.magic_bonus item)) (Items.slot_type item)
    (Some (Items.upgrade_level item)).

Definition create_item_in_db (db : DB) (item : Items.Item) : DB :=
  log (W_create_item (Items.owner_id item))
    (mkDB (profile db)
          (inventory db ++ [row_of_item (Z.of_nat (length (inventory db)) + 1) item])
          (adventures db) (epic_adventures db) (divine_blessings db) (journal db)).

Definition commit (db : DB) : DB := log W_commit db.

(** [SELECT ... FROM adventures WHERE status = 'active'] restricted to a user. *)
Definition has_active_adventure (db : DB) (user_id : Z) : bool :=
  existsb (fun a => (a_user_id a =? user_id) && status_eqb (a_status a) active)
          (adventures db).

Definition has_active_epic (db : DB) (user_id : Z) : bool :=
  existsb (fun e => (e_user_id e =? user_id) && status_eqb (e_status e) active)
          (epic_adventures db).

(** [INSERT INTO adventures (...) VALUES (...)] *)
Definition insert_adventure (db : DB) (row : Adventure) : DB :=
  log (W_insert_adventure (a_user_id row))
    (mkDB (profile db) (inventory db) (adventures db ++ [row])
          (epic_adventures db) (divine_blessings db) (journal db)).

(** [INSERT INTO epic_adventures (...) VALUES (..., 'active')]; the id is
    assigned by the table. *)
Definition insert_epic (db : DB) (mk : Z -> EpicAdventure) : DB :=
  let row := mk (Z.of_nat (length (epic_adventures db)) + 1) in
  log (W_insert_epic (e_user_id row))
    (mkDB (profile db) (inventory db) (adventures db)
          (epic_adventures db ++ [row]) (divine_blessings db) (journal db)).

(** [UPDATE adventures SET status = 'completed'
     WHERE user_id = ? AND finish_at = ?] *)
Definition complete_adventures_of (db : DB) (user_id finish_at : Z) : DB :=
  log (W_adventure_status user_id finish_at completed)
    (mkDB (profile db) (inventory db)
          (map (fun a =>
                  if (a_user_id a =? user_id) && (a_finish_at a =? finish_at)
                  then mkAdventure (a_user_id a) (a_adventure_name a) (a_difficulty a)
                                   (a_started_at a) (a_finish_at a) completed
                  else a)
               (adventures db))
          (epic_adventures db) (divine_blessings db) (journal db)).

(** [db.get_active_adventure(user_id)]: the active row of the user, with
    its id.  The rows of [adventures] are never deleted, and a row is
    identified by its position in the table. *)
Fixpoint first_active (user_id : Z) (rows : list Adventure) (id : nat)
  : option (nat * Adventure) :=
  match rows with
  | [] => None
  | a :: rest =>
      if (a_user_id a =? user_id) && status_eqb (a_status a) active
      then Some (id, a)
      else first_active user_id rest (S id)
  end.

Definition get_active_adventure (db : DB) (user_id : Z) : option (nat * Adventure) :=
  first_active user_id (adventures db) 0.

(** [db.complete_adventure(adventure_id, success)]: the row with this id
    leaves 'active', for 'completed' or 'failed'.  Without such a row the
    statement changes nothing. *)
Fixpoint set_status (id : nat) (s : Status) (rows : list Adventure) : list Adventure :=
  match rows, id with
  | [], _ => []
  | a :: rest, O =>
      mkAdventure (a_user_id a) (a_adventure_name a) (a_difficulty a)
                  (a_started_at a) (a_finish_at a) s :: rest
  | a :: rest, S id' => a :: set_status id' s rest
  end.

Definition complete_adventure (db : DB) (id : nat) (success : bool) : DB :=
  let s := if success then completed else failed in
  match nth_error (adventures db) id with
  | Some a =>
      log (W_adventure_status (a_user_id a) (a_finish_at a) s)
        (mkDB (profile db) (inventory db) (set_status id s (adventures db))
              (epic_adventures db) (divine_blessings db) (journal db))
  | None => db
  end.

(** [db.create_item(owner, name, type, value, damage, armor, hand)]: the
    seven columns given are written, the others keep their defaults. *)
Definition create_item (db : DB) (owner : Z) (name : string)
  (type : Items.ItemType) (value damage armor : Z) (hand : Items.ItemHand) : DB :=
  log (W_create_item owner)
    (mkDB (profile db)
          (inventory db
           ++ [mkItemRow (Z.of_nat (length (inventory db)) + 1) owner name type
                 value damage armor hand false None None None None None None None])
          (adventures db) (epic_adventures db) (divine_blessings db) (journal db)).

(** [DELETE FROM divine_blessings WHERE user_id = ? AND ...]: the rows of
    the user that [gone] selects are deleted. *)
Definition delete_blessings (db : DB) (user_id : Z) (gone : Blessing -> bool) : DB :=
  log (W_delete_blessings user_id)
    (mkDB (profile db) (inventory db) (adventures db) (epic_adventures db)
          (filter (fun b => negb ((b_user_id b =? user_id) && gone b))
                  (divine_blessings db))
          (journal db)).

(** [UPDATE epic_adventures SET status = 'completed' WHERE id = ?] *)
Definition complete_epic (db : DB) (id : Z) : DB :=
  log (W_epic_status id completed)
    (mkDB (profile db) (inventory db) (adventures db)
          (map (fun e =>
                  if e_id e =? id
                  then mkEpicAdventure (e_id e) (e_user_id e) (e_adventure_type e)
                         (e_adventure_name e) (e_difficulty e) (e_started_at e)
                         (e_finish_at e) (e_base_xp_reward e) (e_base_gold_reward e)
                         (e_item_quality_min e) (e_item_quality_max e) completed
                  else e)
               (epic_adventures db))
          (divine_blessings db) (journal db)).

End Store.

(* ================================================================== *)
(** ** cogs/religion.py: active blessings *)
(* ================================================================== *)

Module Religion.
Import Store.

(** The dictionary built by [get_active_blessings]. *)
Record Active : Type := mkActive {
  luck : float;
  xp_mult : float;
  gold_mult : float;
  battle_mult : float;
  protection : bool;
  adventure_success : bool
}.

Definition no_blessing : Active :=
  mkActive 1.0%float 1.0%float 1.0%float 1.0%float false false.

(** One iteration of [for blessing in blessings]: luck adds, the three
    multipliers keep the maximum, the two flags are set. *)
Definition apply_blessing (act : Active) (b : Blessing) : Active :=
  match b_effect b with
  | eff_luck =>
      mkActive (PrimFloat.add (luck act) (b_value b)) (xp_mult act) (gold_mult act)
               (battle_mult act) (protection act) (adventure_success act)
  | eff_xp_mult =>
      mkActive (luck act) (Py.fmax (xp_mult act) (b_value b)) (gold_mult act)
               (battle_mult act) (protection act) (adventure_success act)
  | eff_gold_mult =>
      mkActive (luck act) (xp_mult act) (Py.fmax (gold_mult act) (b_value b))
               (battle_mult act) (protection act) (adventure_success act)
  | eff_battle_mult =>
      mkActive (luck act) (xp_mult act) (gold_mult act)
               (Py.fmax (battle_mult act) (b_value b)) (protection act)
               (adventure_success act)
  | eff_protection =>
      mkActive (luck act) (xp_mult act) (gold_mult act) (battle_mult act) true
               (adventure_success act)
  | eff_adventure_success =>
      mkActive (luck act) (xp_mult act) (gold_mult act) (battle_mult act)
               (protection act) true
  end.

(** [ReligionCog.get_active_blessings(user_id)] at clock reading [now]: the
    unexpired blessings are folded into the dictionary, the expired ones are
    deleted. *)
Definition get_active_blessings (db : DB) (user_id now : Z) : Active * DB :=
  let blessings :=
    filter (fun b => (b_user_id b =? user_id) && (now <? b_expires_at b))
           (divine_blessings db) in
  let db1 :=
    log (W_delete_blessings user_id)
      (mkDB (profile db) (inventory db) (adventures db) (epic_adventures db)
            (filter (fun b => negb ((b_user_id b =? user_id) && (b_expires_at b <=? now)))
                    (divine_blessings db))
            (journal db)) in
  (fold_left apply_blessing blessings no_blessing, commit db1).

End Religion.

(* ================================================================== *)
(** ** cogs/race.py: race multipliers *)
(* ================================================================== *)

Module Race.

(** A ["bonuses"] dictionary. *)
Record Bonuses : Type := mkBonuses {
  luck : float;
  xp_gain : float;
  gold_find : float;
  favor_gain : float
}.

(** The ["bonuses"] dictionaries of [RaceCog.RACES], by race key.  They are
    objects of the class: a caller that updates the dictionary it was handed
    updates the table. *)
Definition Table : Type := list (string * Bonuses).

Definition RACES : Table :=
  [ ("human"%string, mkBonuses 1.0 1.1 1.0 1.0);
    ("elf"%string, mkBonuses 1.2 1.0 0.9 1.3);
    ("dwarf"%string, mkBonuses 0.9 0.9 1.4 0.8);
    ("orc"%string, mkBonuses 0.8 1.3 0.8 0.7);
    ("halfling"%string, mkBonuses 1.4 0.8 1.1 1.1);
    ("gnome"%string, mkBonuses 1.3 0.9 1.0 1.2);
    ("dragonborn"%string, mkBonuses 1.0 1.1 1.1 0.9);
    ("tiefling"%string, mkBonuses 1.2 1.0 1.2 0.5);
    ("undead"%string, mkBonuses 1.5 0.7 0.9 0.0);
    ("demon"%string, mkBonuses 1.6 0.8 1.3 0.0) ]%float.

(** [str.lower()] on the ASCII letters. *)
Definition lower_ascii (c : Ascii.ascii) : Ascii.ascii :=
  let n := Ascii.nat_of_ascii c in
  if (Nat.leb 65 n && Nat.leb n 90)%bool then Ascii.ascii_of_nat (n + 32) else c.

Fixpoint lower (s : string) : string :=
  match s with
  | EmptyString => EmptyString
  | String c rest => String (lower_ascii c) (lower rest)
  end.

Fixpoint table_get (table : Table) (key : string) : option Bonuses :=
  match table with
  | [] => None
  | (k, b) :: rest => if String.eqb k key then Some b else table_get rest key
  end.

Fixpoint table_set (table : Table) (key : string) (b : Bonuses) : Table :=
  match table with
  | [] => []
  | (k, old) :: rest =>
      if String.eqb k key then (k, b) :: rest else (k, old) :: table_set rest key b
  end.

(** The dictionary object a call returns: the table's own dictionary of a
    race, or a dictionary built by the call. *)
Inductive Dict : Type :=
  | shared (key : string)
  | own (b : Bonuses).

(** [RaceCog.get_race_multipliers(user_id)]; [char] is what
    [db.get_character(user_id)] holds about the race: [None] without a
    character, [Some None] for a row without a race. *)
Definition get_race_multipliers (table : Table) (char : option (option string))
  : Dict :=
  match char with
  | None => own (mkBonuses 1.0 1.0 1.0 1.0)
  | Some race =>
      let race_name := lower (match race with Some r => r | None => "Human"%string end) in
      match table_get table race_name with
      | Some _ => shared race_name
      | None => own (mkBonuses 1.0 1.1 1.0 1.0)
      end
  end.

(** Reading a dictionary object. *)
Definition read (table : Table) (d : Dict) : Bonuses :=
  match d with
  | shared key =>
      match table_get table key with
      | Some b => b
      | None => mkBonuses 1.0 1.1 1.0 1.0
      end
  | own b => b
  end.

(** [d['xp_gain'] *= m] and [d['gold_find'] *= m]. *)
Definition imul_xp_gain (table : Table) (d : Dict) (m : float) : Table * Dict :=
  let b := read table d in
  let b' := mkBonuses (luck b) (PrimFloat.mul (xp_gain b) m) (gold_find b) (favor_gain b) in
  match d with
  | shared key => (table_set table key b', d)
  | own _ => (table, own b')
  end.

Definition imul_gold_find (table : Table) (d : Dict) (m : float) : Table * Dict :=
  let b := read table d in
  let b' := mkBonuses (luck b) (xp_gain b) (PrimFloat.mul (gold_find b) m) (favor_gain b) in
  match d with
  | shared key => (table_set table key b', d)
  | own _ => (table, own b')
  end.

End Race.

(* ================================================================== *)
(** ** cogs/blacksmith.py *)
(* ================================================================== *)

Module Blacksmith.
Import Store.

(** [item.get(key, 0)] followed by [int(... * 100)] for a percentage column;
    the default [0] is an [int]. *)
Definition get_percent_points (x : option float) : option Z :=
  match x with
  | None => Some 0
  | Some v => Py.int_of_float (PrimFloat.mul v 100%float)
  end.

Definition get_or_0 (x : option Z) : Z :=
  match x with None => 0 | Some v => v end.

(** The total computed at the head of [_get_item_rarity] (and again, twice,
    in [reforge]). *)
Definition row_stat_total (item : ItemRow) : option Z :=
  l <-? get_percent_points (i_luck_bonus item) ;;
  c <-? get_percent_points (i_crit_bonus item) ;;
  Some (i_damage item + i_armor item + get_or_0 (i_health_bonus item)
        + get_or_0 (i_speed_bonus item) + l + c + get_or_0 (i_magic_bonus item)).

(** The threshold chain of [BlacksmithCog._get_item_rarity]. *)
Definition rarity_of_total (total : Z) : Items.ItemRarity :=
  if total >=? 50 then Items.DIVINE
  else if total >=? 45 then Items.MYTHIC
  else if total >=? 40 then Items.LEGENDARY
  else if total >=? 30 then Items.MAGIC
  else if total >=? 20 then Items.RARE
  else if total >=? 10 then Items.UNCOMMON
  else Items.COMMON.

(** [BlacksmithCog._get_item_rarity] *)
Definition _get_item_rarity (item : ItemRow) : option Items.ItemRarity :=
  total <-? row_stat_total item ;;
  Some (rarity_of_total total).

(** The [Item] object that [reforge] builds from a row. *)
Definition item_of_row (item : ItemRow) : Items.Item :=
  Items.mkItem (i_id item) (i_owner item) (i_name item) (i_type item)
    (i_value item) (i_damage item) (i_armor item) (i_hand item) (i_equipped item)
    (get_or_0 (i_health_bonus item)) (get_or_0 (i_speed_bonus item))
    (match i_luck_bonus item with None => 0%float | Some v => v end)
    (match i_crit_bonus item with None => 0%float | Some v => v end)
    (get_or_0 (i_magic_bonus item)) (i_slot_type item)
    (get_or_0 (i_upgrade_level item)).

(** The [UPDATE inventory SET name, damage, armor, value, health_bonus,
    speed_bonus, luck_bonus, crit_bonus, magic_bonus] of [reforge]. *)
Definition apply_new_stats (item : ItemRow) (n : Items.NewStats) : ItemRow :=
  let s := Items.new_stats n in
  mkItemRow (i_id item) (i_owner item) (Items.new_name n) (i_type item)
    (Items.new_value n) (Items.s_damage s) (Items.s_armor s) (i_hand item)
    (i_equipped item)
    (Some (Items.s_health_bonus s)) (Some (Items.s_speed_bonus s))
    (Some (Items.s_luck_bonus s)) (Some (Items.s_crit_bonus s))
    (Some (Items.s_magic_bonus s)) (i_slot_type item) (i_upgrade_level item).

(** The stat part of [reforge] once materials are paid and the player has
    confirmed: reroll the item and store the new stats. *)
Definition reforge (item : ItemRow) : Py.Rand ItemRow :=
  n <- Items.reroll_item (item_of_row item) ;;
  Py.ret (apply_new_stats item n).

(** [reforge] applied [n] times in a row. *)
Fixpoint reforge_n (n : nat) (item : ItemRow) : Py.Rand ItemRow :=
  match n with
  | O => Py.ret item
  | S k => item' <- reforge item ;; reforge_n k item'
  end.

(** The preview of [upgrade]: [int(item['damage'] * multiplier)] with
    [multiplier = 1.0 + (0.05 * level)]. *)
Definition preview_effective (stat level : Z) : option Z :=
  Py.int_of_float
    (PrimFloat.mul (Py.float_of_int stat)
       (PrimFloat.add 1.0%float (PrimFloat.mul 0.05%float (Py.float_of_int level)))).

(** [_get_upgrade_success_rate] *)
Definition _get_upgrade_success_rate (target_level : Z) : float :=
  if (1 <=? target_level) && (target_level <=? 3) then 1.0%float
  else if (4 <=? target_level) && (target_level <=? 6) then 0.7%float
  else if (7 <=? target_level) && (target_level <=? 9) then 0.4%float
  else if (10 <=? target_level) && (target_level <=? 10) then 0.1%float
  else 1.0%float.

(** The level written by [upgrade]: [None] when the command refuses (the
    item is already at +10). *)
Definition upgrade (current_level : Z) : Py.Rand (option Z) :=
  if current_level >=? 10 then Py.ret None
  else
    let target_level := current_level + 1 in
    r <- Py.random ;;
    if Py.flt r (_get_upgrade_success_rate target_level) then
      Py.ret (Some target_level)
    else if target_level =? 10 then Py.ret (Some 0)
    else if target_level >=? 7 then Py.ret (Some (Z.max 0 (current_level - 1)))
    else Py.ret (Some current_level).

(** [REROLL_COSTS] *)
Definition REROLL_COSTS (m : Items.Material) : Z :=
  match m with
  | Items.scrap => 3
  | Items.dust => 3
  | Items.essence => 2
  end.

(** [UPGRADE_COSTS], in insertion order: level range and the cost per
    material. *)
Definition UPGRADE_COSTS : list ((Z * Z) * (Items.Material -> Z)) :=
  [ ((1, 3), fun m => match m with Items.scrap => 1 | Items.dust => 1 | Items.essence => 1 end);
    ((4, 6), fun m => match m with Items.scrap => 2 | Items.dust => 2 | Items.essence => 1 end);
    ((7, 9), fun m => match m with Items.scrap => 3 | Items.dust => 3 | Items.essence => 2 end);
    ((10, 10), fun m => match m with Items.scrap => 5 | Items.dust => 5 | Items.essence => 3 end) ].

(** [_get_upgrade_cost] *)
Definition _get_upgrade_cost (target_level : Z) (material_type : Items.Material) : Z :=
  match find (fun entry => (fst (fst entry) <=? target_level)
                           && (target_level <=? snd (fst entry))) UPGRADE_COSTS with
  | Some entry => snd entry material_type
  | None => 1
  end.

(** [_get_dismantle_yield] *)
Definition _get_dismantle_yield (rarity : Items.ItemRarity)
  : Py.Rand (Items.Material * Z) :=
  let material_type := Items.get_material_tier rarity in
  match material_type with
  | Items.essence => Py.ret (Items.essence, 1)
  | _ => amount <- Py.randint 1 3 ;; Py.ret (material_type, amount)
  end.

(** The two yield sums of [_dismantle_bulk], one draw per matching item
    each: the total shown in the confirmation
    ([sum(self._get_dismantle_yield(target_rarity)[1] for _ in matching_items)])
    and, after the confirmation, the total credited. *)
Definition yield_loop (rarity : Items.ItemRarity) (matching_items : list ItemRow)
  : Py.Rand Z :=
  Py.for_each
    (fun acc _ =>
       y <- _get_dismantle_yield rarity ;;
       Py.ret (acc + snd y))
    matching_items 0.

(** The items [_dismantle_bulk] selects: unequipped, of the target tier. *)
Definition matching_items (all_items : list ItemRow) (target_rarity : Items.ItemRarity)
  : option (list ItemRow) :=
  fold_right
    (fun item acc =>
       rest <-? acc ;;
       if negb (i_equipped item) then
         r <-? _get_item_rarity item ;;
         Some (if Items.rarity_rank r =? Items.rarity_rank target_rarity
               then item :: rest else rest)
       else Some rest)
    (Some []) all_items.

Definition bulk_yields (target_rarity : Items.ItemRarity) (matching : list ItemRow)
  : Py.Rand (Z * Z) :=
  total_yield <- yield_loop target_rarity matching ;;
  actual_yield <- yield_loop target_rarity matching ;;
  Py.ret (total_yield, actual_yield).

(** The "Bonus" percentage shown by [upgrade]:
    [int(multiplier * 100 - 100)] with [multiplier = 1.0 + (0.05 * level)]. *)
Definition bonus_percent (level : Z) : option Z :=
  Py.int_of_float
    (PrimFloat.sub
       (PrimFloat.mul
          (PrimFloat.add 1.0%float (PrimFloat.mul 0.05%float (Py.float_of_int level)))
          100%float)
       100%float).

(** How the [upgrade] command ends: one of its three refusals, or an attempt
    that leaves the given amount of the material and the given level. *)
Inductive UpgradeOutcome : Type :=
  | upgrade_max_level
  | upgrade_not_enough (cost : Z)
  | upgrade_declined
  | upgrade_attempted (materials level : Z).

(** The [upgrade] command on an item of the caller: [current_materials] is
    the caller's amount of the material of the item's tier, [confirm] the
    answer to the confirmation prompt. *)
Definition upgrade_command (item : ItemRow) (current_materials : Z) (confirm : bool)
  : Py.Rand UpgradeOutcome :=
  let current_level := get_or_0 (i_upgrade_level item) in
  if current_level >=? 10 then Py.ret upgrade_max_level
  else
    let target_level := current_level + 1 in
    rarity <- Py.lift (_get_item_rarity item) ;;
    let material_type := Items.get_material_tier rarity in
    let cost := _get_upgrade_cost target_level material_type in
    if current_materials <? cost then Py.ret (upgrade_not_enough cost)
    else if negb confirm then Py.ret upgrade_declined
    else
      let materials := current_materials - cost in
      level <- upgrade current_level ;;
      match level with
      | Some l => Py.ret (upgrade_attempted materials l)
      | None => Py.ret upgrade_max_level
      end.

End Blacksmith.

(* ================================================================== *)
(** ** cogs/adventure.py *)
(* ================================================================== *)

Module Adventure.
Import Store.

(** [calculate_adventure_power]: [sum(item['damage'] + item['armor'])] over
    the equipped items. *)
Definition calculate_adventure_power (db : DB) (user_id : Z) : Z :=
  fold_left (fun acc item => acc + (i_damage item + i_armor item))
            (get_equipped_items db user_id) 0.

(** The success chance computed in [adventure] and in [complete_adventure]:
    [min(95, base_chance + level_bonus + equipment_chance + luck_bonus)]. *)
Definition success_chance (level difficulty equipment_bonus : Z) (luck : float)
  : float :=
  let base_chance := 60 in
  let level_bonus := Z.max 0 (level - difficulty) * 5 in
  let equipment_chance := Z.min 20 (equipment_bonus / 10) in
  let luck_bonus :=
    PrimFloat.mul (PrimFloat.sub luck 1.0%float) (Py.float_of_int 10) in
  Py.fmin (Py.float_of_int 95)
    (PrimFloat.add (Py.float_of_int (base_chance + level_bonus + equipment_chance))
                   luck_bonus).

(** [success = random.random() < (success_chance / 100)] *)
Definition roll_success (chance : float) : Py.Rand bool :=
  r <- Py.random ;;
  Py.ret (Py.flt r (PrimFloat.div chance (Py.float_of_int 100))).

(** The head of [complete_adventure]: the chance of the character on the
    given adventure row, then the draw. *)
Definition complete_adventure_success (db : DB) (user_id : Z)
  (adventure_data : Adventure) : Py.Rand (float * bool) :=
  char_data <- Py.lift (get_character db user_id) ;;
  let equipment_bonus := calculate_adventure_power db user_id in
  let chance := success_chance (c_level char_data) (a_difficulty adventure_data)
                               equipment_bonus (c_luck char_data) in
  success <- roll_success chance ;;
  Py.ret (chance, success).

(** An entry of [ADVENTURES]:
    (name, min_minutes, max_minutes, min_reward, max_reward, difficulty). *)
Record Info : Type := mkInfo {
  info_name : string;
  min_minutes : Z;
  max_minutes : Z;
  min_reward : Z;
  max_reward : Z;
  difficulty : Z
}.

Definition ADVENTURES : list Info :=
  [ mkInfo "Help a farmer with lost sheep" 5 10 50 150 1;
    mkInfo "Clear rats from the cellar" 8 15 80 200 2;
    mkInfo "Deliver an urgent message" 10 20 100 250 2;
    mkInfo "Find a lost pet" 12 18 120 280 2;
    mkInfo "Escort a merchant caravan" 12 25 120 300 3;
    mkInfo "Investigate strange noises" 15 30 150 400 4;
    mkInfo "Guard a village festival" 20 35 180 450 3;
    mkInfo "Hunt wild boars in the forest" 20 40 200 500 5;
    mkInfo "Rescue trapped miners" 25 45 220 550 4;
    mkInfo "Explore ancient ruins" 25 50 250 600 6;
    mkInfo "Defeat goblin raiders" 30 60 300 700 7;
    mkInfo "Search for lost treasure" 45 90 400 800 6;
    mkInfo "Retrieve stolen artifacts" 50 100 450 900 8;
    mkInfo "Investigate haunted manor" 60 120 500 1000 9;
    mkInfo "Slay a dangerous beast" 70 140 600 1200 9;
    mkInfo "Defend against orc siege" 80 160 700 1400 10;
    mkInfo "Venture into dragon's lair" 90 180 800 1600 10;
    mkInfo "Infiltrate enemy fortress" 100 180 900 1700 11;
    mkInfo "Journey to distant lands" 120 240 1000 2000 12;
    mkInfo "Seal an ancient evil" 150 300 1200 2400 13;
    mkInfo "Navigate the Shadowlands" 180 360 1400 2800 14;
    mkInfo "Save the kingdom" 200 400 1600 3200 15;
    mkInfo "Quest for the Holy Grail" 240 420 1800 3600 16;
    mkInfo "Explore the Underdark" 360 600 2000 4000 17;
    mkInfo "Cross the Elemental Planes" 420 720 2200 4400 18;
    mkInfo "Challenge the Gods" 480 960 2500 5000 20;
    mkInfo "Conquer the Nine Hells" 600 1200 3000 6000 22;
    mkInfo "Reforge the World" 720 1440 3500 7000 25;
    mkInfo "Transcend mortal limits" 1440 2880 5000 10000 30;
    mkInfo "Become one with eternity" 2160 4320 7000 14000 35;
    mkInfo "Reshape reality itself" 2880 5760 10000 20000 40;
    mkInfo "Achieve ultimate ascension" 4320 10080 15000 30000 50 ].

(** The lookup loop of [complete_adventure]: the first entry whose name is
    the adventure's; [None] leads to "Adventure data corrupted!" and no
    reward. *)
Definition find_adventure_info (adventure_name : string) : option Info :=
  find (fun adv => String.eqb (info_name adv) adventure_name) ADVENTURES.

(** The item reward of a successful [complete_adventure]: with chance
    [0.1 + difficulty * 0.02], an item with between
    [max(4, difficulty + 1)] and [min(50, difficulty + 8)] stat points. *)
Definition item_reward (owner_id difficulty : Z) : Py.Rand (option Items.Item) :=
  let item_chance :=
    PrimFloat.add 0.1%float (PrimFloat.mul (Py.float_of_int difficulty) 0.02%float) in
  r <- Py.random ;;
  if Py.flt r item_chance then
    let min_stat := Z.max 4 (difficulty + 1) in
    let max_stat := Z.min 50 (difficulty + 8) in
    item <- Items.generate_item owner_id min_stat max_stat None None ;;
    Py.ret (Some item)
  else Py.ret None.

End Adventure.

(* ================================================================== *)
(** ** cogs/combat.py *)
(* ================================================================== *)

Module Combat.
Import Store.

Definition sum_Z (f : ItemRow -> Z) (items : list ItemRow) : Z :=
  fold_left (fun acc item => acc + f item) items 0.

Definition sum_float (f : ItemRow -> float) (items : list ItemRow) : float :=
  fold_left (fun acc item => PrimFloat.add acc (f item)) items 0%float.

Definition get_float (x : option float) : float :=
  match x with None => 0%float | Some v => v end.

(** [CombatCog.calculate_battle_power(user_id)], with the clock reading
    [now] used by the blessing lookup and [religion_cog] telling whether
    that cog is loaded.  The function draws nothing from the random
    source. *)
Definition calculate_battle_power (religion_cog : bool) (now : Z)
  (db : DB) (user_id : Z) : Py.Rand (Z * DB) :=
  char_data <- Py.lift (get_character db user_id) ;;
  let items := get_equipped_items db user_id in
  let base_power := c_level char_data * 5 in
  let equipment_power := sum_Z (fun item => i_damage item + i_armor item) items in
  let health_bonus := sum_Z (fun item => Blacksmith.get_or_0 (i_health_bonus item)) items in
  let speed_bonus := sum_Z (fun item => Blacksmith.get_or_0 (i_speed_bonus item)) items in
  let luck_bonus := sum_float (fun item => get_float (i_luck_bonus item)) items in
  let crit_bonus := sum_float (fun item => get_float (i_crit_bonus item)) items in
  let magic_bonus := sum_Z (fun item => Blacksmith.get_or_0 (i_magic_bonus item)) items in
  l <- Py.lift (Items.percent_points luck_bonus) ;;
  c <- Py.lift (Items.percent_points crit_bonus) ;;
  let equipment_power := equipment_power + (health_bonus + speed_bonus + l + c + magic_bonus) in
  let class_bonus := c_level char_data * 2 in
  let luck_modifier := c_luck char_data in
  let '(luck_modifier, battle_multiplier, db) :=
    if religion_cog then
      let '(blessing_bonuses, db') := Religion.get_active_blessings db user_id now in
      (PrimFloat.add luck_modifier (Religion.luck blessing_bonuses),
       Religion.battle_mult blessing_bonuses, db')
    else (luck_modifier, 1.0%float, db) in
  total <- Py.lift (Py.int_of_float
             (PrimFloat.mul
                (PrimFloat.mul
                   (Py.float_of_int (base_power + equipment_power + class_bonus))
                   luck_modifier)
                battle_multiplier)) ;;
  Py.ret (Z.max 1 total, db).

(** [CombatCog.simulate_battle]: returns the winner and the two rolls. *)
Definition simulate_battle (fighter1 fighter2 : Z * Z)
  : Py.Rand (Z * (float * float)) :=
  let '(user1, power1) := fighter1 in
  let '(user2, power2) := fighter2 in
  j1 <- Py.uniform 0.8%float 1.2%float ;;
  let roll1 := PrimFloat.mul (Py.float_of_int power1) j1 in
  j2 <- Py.uniform 0.8%float 1.2%float ;;
  let roll2 := PrimFloat.mul (Py.float_of_int power2) j2 in
  c1 <- Py.random ;;
  let roll1 := if Py.flt c1 0.1%float then PrimFloat.mul roll1 1.5%float else roll1 in
  c2 <- Py.random ;;
  let roll2 := if Py.flt c2 0.1%float then PrimFloat.mul roll2 1.5%float else roll2 in
  let winner := if Py.flt roll2 roll1 then user1 else user2 in
  Py.ret (winner, (roll1, roll2)).

End Combat.

(* ================================================================== *)
(** ** cogs/autoplay.py *)
(* ================================================================== *)

Module Autoplay.
Import Store.

(** [AutoPlayCog.calculate_battle_power(char)]: the jitter
    [random.randint(-20, 20)] is drawn inside the function. *)
Definition calculate_battle_power (religion_cog : bool) (now : Z)
  (db : DB) (char : Character) : Py.Rand (Z * DB) :=
  let char_items := get_equipped_items db (c_user_id char) in
  jitter <- Py.randint (-20) 20 ;;
  let base_power :=
    c_level char * 10
    + Combat.sum_Z (fun item => i_damage item + i_armor item) char_items
    + jitter in
  if religion_cog then
    let '(blessing_bonuses, db') :=
      Religion.get_active_blessings db (c_user_id char) now in
    let battle_multiplier := Religion.battle_mult blessing_bonuses in
    base_power <- Py.lift (Py.int_of_float
                    (PrimFloat.mul (Py.float_of_int base_power) battle_multiplier)) ;;
    Py.ret (base_power, db')
  else
    Py.ret (base_power, db).

(** The per-character power inside [AutoPlayCog.simulate_battle]. *)
Definition simulate_power (db : DB) (char : Character) : Py.Rand Z :=
  let items := get_equipped_items db (c_user_id char) in
  let equipment := Combat.sum_Z (fun item => i_damage item + i_armor item) items in
  armor_bonuses <-
    Py.for_each
      (fun acc item =>
         l <- Py.lift (Blacksmith.get_percent_points (i_luck_bonus item)) ;;
         c <- Py.lift (Blacksmith.get_percent_points (i_crit_bonus item)) ;;
         Py.ret (acc + (Blacksmith.get_or_0 (i_health_bonus item)
                        + Blacksmith.get_or_0 (i_speed_bonus item)
                        + l + c + Blacksmith.get_or_0 (i_magic_bonus item))))
      items 0 ;;
  jitter <- Py.randint (-20) 20 ;;
  Py.ret (c_level char * 10 + equipment + armor_bonuses + jitter).

(** [AutoPlayCog.simulate_battle]: winner, loser and [power_diff]. *)
Definition simulate_battle (db : DB) (char1 char2 : Character)
  : Py.Rand (Character * Character * Z) :=
  char1_power <- simulate_power db char1 ;;
  char2_power <- simulate_power db char2 ;;
  if char1_power >=? char2_power
  then Py.ret (char1, char2, char1_power - char2_power)
  else Py.ret (char2, char1, char2_power - char1_power).

(** The three team formats. *)
Inductive TeamBattle : Type := battle_3v3 | battle_5v5 | battle_10v10.

Definition team_size (b : TeamBattle) : Z :=
  match b with battle_3v3 => 3 | battle_5v5 => 5 | battle_10v10 => 10 end.

(** The bounds passed to [random.uniform] in [run_3v3_battle],
    [run_5v5_battle] and [run_10v10_battle]. *)
Definition jitter_range (b : TeamBattle) : float * float :=
  match b with
  | battle_3v3 => (0.85, 1.15)
  | battle_5v5 => (0.8, 1.2)
  | battle_10v10 => (0.75, 1.25)
  end%float.

(** The constant each roll is multiplied by in those three functions. *)
Definition coordination_penalty (b : TeamBattle) : float :=
  match b with
  | battle_3v3 => 0.8
  | battle_5v5 => 0.75
  | battle_10v10 => 0.65
  end%float.

(** [sum(self.calculate_battle_power(f) for f in team)] *)
Definition team_power (religion_cog : bool) (now : Z) (team : list Character)
  (db : DB) : Py.Rand (Z * DB) :=
  Py.for_each
    (fun (acc : Z * DB) f =>
       r <- calculate_battle_power religion_cog now (snd acc) f ;;
       Py.ret (fst acc + fst r, snd r))
    team (0, db).

Inductive Side : Type := team_a | team_b.

Record TeamResult : Type := mkTeamResult {
  team_a_roll : float;
  team_b_roll : float;
  winning_team : Side
}.

(** The resolution common to [run_3v3_battle], [run_5v5_battle] and
    [run_10v10_battle], from "Calculate team powers" to the choice of
    [winning_team]. *)
Definition resolve_team_battle (b : TeamBattle) (religion_cog : bool) (now : Z)
  (team_a_members team_b_members : list Character) (db : DB)
  : Py.Rand (TeamResult * DB) :=
  pa <- team_power religion_cog now team_a_members db ;;
  pb <- team_power religion_cog now team_b_members (snd pa) ;;
  let '(lo, hi) := jitter_range b in
  ja <- Py.uniform lo hi ;;
  let a_roll := PrimFloat.mul (PrimFloat.mul (Py.float_of_int (fst pa)) ja)
                              (coordination_penalty b) in
  jb <- Py.uniform lo hi ;;
  let b_roll := PrimFloat.mul (PrimFloat.mul (Py.float_of_int (fst pb)) jb)
                              (coordination_penalty b) in
  Py.ret (mkTeamResult a_roll b_roll (if Py.flt b_roll a_roll then team_a else team_b),
          snd pb).

Definition adventure_types : list string :=
  ["Forest Exploration"; "Cave Diving"; "Monster Hunt"; "Treasure Quest";
   "Dungeon Raid"; "Dragon Slaying"; "Artifact Search"; "Bandit Clearing";
   "Ancient Ruins"; "Crystal Mining"; "Beast Taming"; "Shadow Realm"]%string.

(** The characters returned by
    [SELECT ... FROM profile WHERE user_id NOT IN
     (SELECT user_id FROM adventures WHERE status = 'active')],
    filtered for online users. *)
Definition available_chars (online : Z -> bool) (db : DB) : list Character :=
  filter (fun c => online (c_user_id c))
    (filter (fun c => negb (has_active_adventure db (c_user_id c))) (profile db)).

(** The body of [for char in selected] in [auto_adventure_loop] (the
    single-character branch runs the same statements): pick a duration by
    level, pick a name, insert the row.  [insert_fails] tells for which users
    the [INSERT] raises; the handler then moves on to the next character. *)
Definition start_adventure (now : Z) (insert_fails : Z -> bool)
  (db : DB) (char : Character) : Py.Rand DB :=
  duration <- (if c_level char <? 10 then Py.randint 5 10
               else if c_level char <? 20 then Py.randint 20 30
               else Py.randint 60 120) ;;
  adventure_type <- Py.choice adventure_types ;;
  let start_time := now in
  let end_time := start_time + duration * 60 in
  if insert_fails (c_user_id char) then Py.ret db
  else Py.ret (insert_adventure db
                 (mkAdventure (c_user_id char) adventure_type 1 start_time end_time active)).

(** [auto_adventure_loop], one run. Timestamps count seconds. *)
Definition auto_adventure_loop (channel : bool) (online : Z -> bool) (now : Z)
  (insert_fails : Z -> bool) (db : DB) : Py.Rand DB :=
  if negb channel then Py.ret db
  else
    let available := available_chars online db in
    match available with
    | [] => Py.ret db
    | _ =>
        k <- Py.randint 10 20 ;;
        let num_adventures := Z.min k (Z.of_nat (length available)) in
        selected <- Py.sample available (Z.to_nat num_adventures) ;;
        db' <- Py.for_each (start_adventure now insert_fails) selected db ;;
        Py.ret (commit db')
    end.

(** [min(50, 1 + int((new_xp / 100) ** 0.5))]; the power [** 0.5] is taken
    as the square root. *)
Definition level_for_xp (new_xp : Z) : option Z :=
  r <-? Py.int_of_float
          (PrimFloat.sqrt (PrimFloat.div (Py.float_of_int new_xp) (Py.float_of_int 100))) ;;
  Some (Z.min 50 (1 + r)).

(** The body of [for adventure in online_completed] in [level_up_check]
    (the single-completion branch runs the same statements). *)
Definition complete_one (db : DB) (adventure : Adventure) : Py.Rand DB :=
  let user_id := a_user_id adventure in
  base_xp <- Py.randint 25 75 ;;
  base_gold <- Py.randint 50 200 ;;
  char_data <- Py.lift (get_character db user_id) ;;
  final_xp <- Py.lift (Py.int_of_float
                (PrimFloat.mul (Py.float_of_int base_xp) (c_xp_gain char_data))) ;;
  final_gold <- Py.lift (Py.int_of_float
                  (PrimFloat.mul (Py.float_of_int base_gold) (c_gold_find char_data))) ;;
  let new_xp := c_xp char_data + final_xp in
  let new_gold := c_money char_data + final_gold in
  new_level <- Py.lift (level_for_xp new_xp) ;;
  let db :=
    update_character db user_id
      (set_xp_money_level_completed new_xp new_gold new_level
         (c_completed char_data + 1)) in
  let db := complete_adventures_of db user_id (a_finish_at adventure) in
  r <- Py.random ;;
  if Py.flt r 0.4%float then
    item <- Items.generate_random_equipment user_id
              (Z.max 4 (new_level + 1)) (new_level + 6) ;;
    Py.ret (create_item_in_db db item)
  else Py.ret db.

(** The rows selected at the head of [level_up_check]:
    [SELECT a.*, p.name FROM adventures a JOIN profile p ...
     WHERE a.status = 'active' AND a.finish_at <= now], online users only. *)
Definition online_completed (online : Z -> bool) (now : Z) (db : DB)
  : list Adventure :=
  filter (fun a => online (a_user_id a))
    (filter (fun a =>
               status_eqb (a_status a) active && (a_finish_at a <=? now)
               && existsb (fun c => c_user_id c =? a_user_id a) (profile db))
            (adventures db)).

(** [level_up_check], one run. *)
Definition level_up_check (channel : bool) (online : Z -> bool) (now : Z)
  (db : DB) : Py.Rand DB :=
  if negb channel then Py.ret db
  else
    let due := online_completed online now db in
    match due with
    | [] => Py.ret db
    | _ =>
        db' <- Py.for_each complete_one due db ;;
        Py.ret (commit db')
    end.

(** *** Battles between characters *)

(** The formats [auto_battle_loop] chooses from. *)
Inductive BattleType : Type := type_1v1 | type_3v3 | type_5v5 | type_10v10.

(** The number of characters each [run_*_battle] draws with
    [random.sample] (two for the duel). *)
Definition fighters_needed (t : BattleType) : nat :=
  match t with
  | type_1v1 => 2
  | type_3v3 => 6
  | type_5v5 => 10
  | type_10v10 => 20
  end.

(** The choice of the format in [auto_battle_loop], from the number of
    available characters; [None] when fewer than two are available (the
    loop returns). *)
Definition choose_battle_type (available : nat) : Py.Rand (option BattleType) :=
  if Nat.ltb available 2 then Py.ret None
  else
    t <- (if Nat.leb 20 available then
            Py.choices [type_10v10; type_5v5; type_3v3; type_1v1] [25; 25; 30; 20]%float
          else if Nat.leb 10 available then
            Py.choices [type_5v5; type_3v3; type_1v1] [35; 40; 25]%float
          else if Nat.leb 6 available then
            Py.choices [type_3v3; type_1v1] [55; 45]%float
          else Py.ret type_1v1) ;;
    Py.ret (Some t).

(** [level_groups] of [run_1v1_battle]: a dictionary from
    [(level // 5) * 5] to the characters of that band, in insertion order. *)
Fixpoint group_append (key : Z) (char : Character)
  (groups : list (Z * list Character)) : list (Z * list Character) :=
  match groups with
  | [] => [(key, [char])]
  | (k, members) :: rest =>
      if k =? key then (k, members ++ [char]) :: rest
      else (k, members) :: group_append key char rest
  end.

Definition level_groups (chars : list Character) : list (Z * list Character) :=
  fold_left (fun groups char => group_append (c_level char / 5 * 5) char groups)
            chars [].

(** The pairing of [run_1v1_battle]: a random band with at least two
    characters, and two of its characters; [None] when no band has two. *)
Definition pick_fighters (chars : list Character)
  : Py.Rand (option (Character * Character)) :=
  let valid_groups :=
    filter (fun g => Nat.leb 2 (length g)) (map snd (level_groups chars)) in
  match valid_groups with
  | [] => Py.ret None
  | _ =>
      group <- Py.choice valid_groups ;;
      pair <- Py.sample group 2 ;;
      match pair with
      | [fighter1; fighter2] => Py.ret (Some (fighter1, fighter2))
      | _ => Py.raise
      end
  end.

Definition set_xp (xp : Z) (c : Character) : Character :=
  set_xp_money xp (c_money c) c.

(** What [run_1v1_battle] awards. *)
Record Award : Type := mkAward {
  winner_xp : Z;
  loser_xp : Z;
  winner_gold : Z
}.

(** The reward part of [run_1v1_battle], from "Award XP and gold" to the
    item chances, over the race table and the store.  [race_of] gives the
    race column of a user as [get_race_multipliers] reads it.  The pvp
    counters written with the xp are columns outside [Character]. *)
Definition award_1v1 (religion_cog : bool) (now : Z)
  (race_of : Z -> option (option string))
  (table : Race.Table) (db : DB) (winner loser : Character)
  : Py.Rand (Award * Race.Table * DB) :=
  base_winner_xp <- Py.randint 50 150 ;;
  base_loser_xp <- Py.randint 10 50 ;;
  base_winner_gold <- Py.randint 100 300 ;;
  let winner_multipliers := Race.get_race_multipliers table (race_of (c_user_id winner)) in
  let loser_multipliers := Race.get_race_multipliers table (race_of (c_user_id loser)) in
  let '(table, winner_multipliers, loser_multipliers, db) :=
    if religion_cog then
      let '(winner_blessings, db) :=
        Religion.get_active_blessings db (c_user_id winner) now in
      let '(loser_blessings, db) :=
        Religion.get_active_blessings db (c_user_id loser) now in
      let '(table, winner_multipliers) :=
        Race.imul_xp_gain table winner_multipliers (Religion.xp_mult winner_blessings) in
      let '(table, winner_multipliers) :=
        Race.imul_gold_find table winner_multipliers (Religion.gold_mult winner_blessings) in
      let '(table, loser_multipliers) :=
        Race.imul_xp_gain table loser_multipliers (Religion.xp_mult loser_blessings) in
      (table, winner_multipliers, loser_multipliers, db)
    else (table, winner_multipliers, loser_multipliers, db) in
  winner_xp <- Py.lift (Py.int_of_float
                 (PrimFloat.mul (Py.float_of_int base_winner_xp)
                    (Race.xp_gain (Race.read table winner_multipliers)))) ;;
  loser_xp <- Py.lift (Py.int_of_float
                (PrimFloat.mul (Py.float_of_int base_loser_xp)
                   (Race.xp_gain (Race.read table loser_multipliers)))) ;;
  winner_gold <- Py.lift (Py.int_of_float
                   (PrimFloat.mul (Py.float_of_int base_winner_gold)
                      (Race.gold_find (Race.read table winner_multipliers)))) ;;
  winner_char <- Py.lift (get_character db (c_user_id winner)) ;;
  loser_char <- Py.lift (get_character db (c_user_id loser)) ;;
  let db := update_character db (c_user_id winner)
              (set_xp_money (c_xp winner_char + winner_xp)
                            (c_money winner_char + winner_gold)) in
  let db := update_character db (c_user_id loser)
              (set_xp (c_xp loser_char + loser_xp)) in
  r <- Py.random ;;
  db <- (if Py.flt r 0.3%float then
           item <- Items.generate_random_equipment (c_user_id winner)
                     (Z.max 4 (c_level winner + 2)) (c_level winner + 8) ;;
           Py.ret (create_item_in_db db item)
         else Py.ret db) ;;
  r <- Py.random ;;
  db <- (if Py.flt r 0.05%float then
           item <- Items.generate_random_equipment (c_user_id loser)
                     (Z.max 3 (c_level loser)) (c_level loser + 4) ;;
           Py.ret (create_item_in_db db item)
         else Py.ret db) ;;
  Py.ret (mkAward winner_xp loser_xp winner_gold, table, db).

(** [run_1v1_battle]: pairing, [simulate_battle], rewards.  [None] when no
    level band holds two characters. *)
Definition run_1v1_battle (religion_cog : bool) (now : Z)
  (race_of : Z -> option (option string))
  (table : Race.Table) (db : DB) (chars : list Character)
  : Py.Rand (option (Character * Character * Award) * Race.Table * DB) :=
  fighters <- pick_fighters chars ;;
  match fighters with
  | None => Py.ret (None, table, db)
  | Some (fighter1, fighter2) =>
      result <- simulate_battle db fighter1 fighter2 ;;
      let '(winner, loser, _) := result in
      a <- award_1v1 religion_cog now race_of table db winner loser ;;
      let '(award, table, db) := a in
      Py.ret (Some (winner, loser, award), table, db)
  end.

End Autoplay.

(* ================================================================== *)
(** ** cogs/character.py: starter gear *)
(* ================================================================== *)

Module CharacterCog.

(** The two items [create] generates after the character row is written:
    [generate_item(user, min_stat=3, max_stat=3, item_type=SWORD)] and the
    same with [SHIELD]. *)
Definition starter_sword (user_id : Z) : Py.Rand Items.Item :=
  Items.generate_item user_id 3 3 (Some Items.SWORD) None.

Definition starter_shield (user_id : Z) : Py.Rand Items.Item :=
  Items.generate_item user_id 3 3 (Some Items.SHIELD) None.

End CharacterCog.

(* ================================================================== *)
(** ** classes/character.py *)
(* ================================================================== *)

Module Classes.

Inductive CharacterClass : Type :=
  | NOVICE
  | WARRIOR | SWORDSMAN | KNIGHT | WARLORD | BERSERKER | PALADIN
  | THIEF | ROGUE | ASSASSIN | BANDIT | SHADOW | NIGHTBLADE
  | MAGE | WIZARD | WARLOCK | SORCERER | ARCHMAGE | NECROMANCER
  | RANGER | HUNTER | TRACKER | BOWMASTER | BEASTMASTER | MARKSMAN
  | RAIDER | VIKING | CHIEFTAIN | RAVAGER | CONQUEROR | WARCHIEF
  | RITUALIST | MYSTIC | SHAMAN | ORACLE | SAGE | PROPHET
  | PARAGON | CHAMPION | HERO | LEGEND | ETERNAL | IMMORTAL.

(** [list(CharacterClass)] *)
Definition all_classes : list CharacterClass :=
  [NOVICE;
   WARRIOR; SWORDSMAN; KNIGHT; WARLORD; BERSERKER; PALADIN;
   THIEF; ROGUE; ASSASSIN; BANDIT; SHADOW; NIGHTBLADE;
   MAGE; WIZARD; WARLOCK; SORCERER; ARCHMAGE; NECROMANCER;
   RANGER; HUNTER; TRACKER; BOWMASTER; BEASTMASTER; MARKSMAN;
   RAIDER; VIKING; CHIEFTAIN; RAVAGER; CONQUEROR; WARCHIEF;
   RITUALIST; MYSTIC; SHAMAN; ORACLE; SAGE; PROPHET;
   PARAGON; CHAMPION; HERO; LEGEND; ETERNAL; IMMORTAL].

(** [CharacterClass.value] *)
Definition class_value (c : CharacterClass) : string :=
  match c with
  | NOVICE => "Novice"
  | WARRIOR => "Warrior" | SWORDSMAN => "Swordsman" | KNIGHT => "Knight"
  | WARLORD => "Warlord" | BERSERKER => "Berserker" | PALADIN => "Paladin"
  | THIEF => "Thief" | ROGUE => "Rogue" | ASSASSIN => "Assassin"
  | BANDIT => "Bandit" | SHADOW => "Shadow" | NIGHTBLADE => "Nightblade"
  | MAGE => "Mage" | WIZARD => "Wizard" | WARLOCK => "Warlock"
  | SORCERER => "Sorcerer" | ARCHMAGE => "Archmage" | NECROMANCER => "Necromancer"
  | RANGER => "Ranger" | HUNTER => "Hunter" | TRACKER => "Tracker"
  | BOWMASTER => "Bowmaster" | BEASTMASTER => "Beastmaster" | MARKSMAN => "Marksman"
  | RAIDER => "Raider" | VIKING => "Viking" | CHIEFTAIN => "Chieftain"
  | RAVAGER => "Ravager" | CONQUEROR => "Conqueror" | WARCHIEF => "Warchief"
  | RITUALIST => "Ritualist" | MYSTIC => "Mystic" | SHAMAN => "Shaman"
  | ORACLE => "Oracle" | SAGE => "Sage" | PROPHET => "Prophet"
  | PARAGON => "Paragon" | CHAMPION => "Champion" | HERO => "Hero"
  | LEGEND => "Legend" | ETERNAL => "Eternal" | IMMORTAL => "Immortal"
  end.

Definition class_eqb (a b : CharacterClass) : bool :=
  String.eqb (class_value a) (class_value b).

Inductive Race : Type :=
  | HUMAN | ELF | DWARF | ORC | HALFLING | GNOME | DRAGONBORN | TIEFLING
  | UNDEAD | DEMON.

(** [ClassEvolution.EVOLUTION_PATHS.get(current_class, [])] *)
Definition get_evolutions (current_class : CharacterClass) : list CharacterClass :=
  match current_class with
  | NOVICE => [WARRIOR; THIEF; MAGE; RANGER; RAIDER; RITUALIST; PARAGON]
  | WARRIOR => [SWORDSMAN; KNIGHT]
  | THIEF => [ROGUE; ASSASSIN]
  | MAGE => [WIZARD; WARLOCK]
  | RANGER => [HUNTER; TRACKER]
  | RAIDER => [VIKING; CHIEFTAIN]
  | RITUALIST => [MYSTIC; SHAMAN]
  | PARAGON => [CHAMPION]
  | SWORDSMAN => [WARLORD]
  | KNIGHT => [PALADIN]
  | ROGUE => [BANDIT]
  | ASSASSIN => [SHADOW]
  | WIZARD => [SORCERER]
  | WARLOCK => [NECROMANCER]
  | HUNTER => [BOWMASTER]
  | TRACKER => [BEASTMASTER]
  | VIKING => [RAVAGER]
  | CHIEFTAIN => [CONQUEROR]
  | MYSTIC => [ORACLE]
  | SHAMAN => [SAGE]
  | CHAMPION => [HERO]
  | WARLORD => [BERSERKER]
  | PALADIN => [BERSERKER]
  | BANDIT => [NIGHTBLADE]
  | SHADOW => [NIGHTBLADE]
  | SORCERER => [ARCHMAGE]
  | NECROMANCER => [ARCHMAGE]
  | BOWMASTER => [MARKSMAN]
  | BEASTMASTER => [MARKSMAN]
  | RAVAGER => [WARCHIEF]
  | CONQUEROR => [WARCHIEF]
  | ORACLE => [PROPHET]
  | SAGE => [PROPHET]
  | HERO => [LEGEND]
  | BERSERKER => [ETERNAL]
  | NIGHTBLADE => [ETERNAL]
  | ARCHMAGE => [ETERNAL]
  | MARKSMAN => [ETERNAL]
  | WARCHIEF => [ETERNAL]
  | PROPHET => [ETERNAL]
  | LEGEND => [ETERNAL]
  | ETERNAL => [IMMORTAL]
  | IMMORTAL => []
  end.

(** [ClassEvolution.can_evolve] *)
Definition can_evolve (level : Z) : bool := level >=? 5.

(** The evolution tier computed at the head of [get_class_bonuses]. *)
Definition tier_of_level (level : Z) : Z :=
  if level >=? 30 then 6
  else if level >=? 25 then 5
  else if level >=? 20 then 4
  else if level >=? 15 then 3
  else if level >=? 10 then 2
  else if level >=? 5 then 1
  else 0.

(** [str.endswith] and the substring test [in] on strings. *)
Fixpoint endswith (s suffix : string) : bool :=
  String.eqb s suffix
  || match s with
     | EmptyString => false
     | String _ rest => endswith rest suffix
     end.

Fixpoint contains (s sub : string) : bool :=
  String.prefix sub s
  || match s with
     | EmptyString => false
     | String _ rest => contains rest sub
     end.

Definition endswith_any (s : string) (suffixes : list string) : bool :=
  existsb (endswith s) suffixes.

(** The dictionary returned by [get_class_bonuses]. *)
Record ClassBonuses : Type := mkClassBonuses {
  attack_mult : float;
  defense_mult : float;
  magic_mult : float;
  speed_mult : float;
  luck_mult : float;
  raid_mult : float;
  steal_chance : float;
  crit_chance : float;
  dodge_chance : float;
  lifesteal : float;
  favor_mult : float
}.

Definition base_bonuses : ClassBonuses :=
  mkClassBonuses 1.0%float 1.0%float 1.0%float 1.0%float 1.0%float 1.0%float 0.0%float 0.05%float 0.05%float 0.0%float 1.0.

(** The seven lines of [get_class_bonuses], in the order of its
    [if ... elif] chain, each with the tuple its [endswith] tests. *)
Inductive Line : Type :=
  | warrior_line | thief_line | mage_line | ranger_line | raider_line
  | ritualist_line | paragon_line.

Definition line_suffixes (l : Line) : list string :=
  match l with
  | warrior_line => ["Warrior"; "Swordsman"; "Knight"; "Warlord"; "Berserker"; "Paladin"]
  | thief_line => ["Thief"; "Rogue"; "Assassin"; "Bandit"; "Shadow"; "Nightblade"]
  | mage_line => ["Mage"; "Wizard"; "Warlock"; "Sorcerer"; "Archmage"; "Necromancer"]
  | ranger_line => ["Ranger"; "Hunter"; "Tracker"; "Bowmaster"; "Beastmaster"; "Marksman"]
  | raider_line => ["Raider"; "Viking"; "Chieftain"; "Ravager"; "Conqueror"; "Warchief"]
  | ritualist_line => ["Ritualist"; "Mystic"; "Shaman"; "Oracle"; "Sage"; "Prophet"]
  | paragon_line => ["Paragon"; "Champion"; "Hero"; "Legend"; "Eternal"; "Immortal"]
  end%string.

(** The branch of the chain a class value takes: the first line one of whose
    names the value ends with. *)
Definition line_of (value : string) : option Line :=
  find (fun l => endswith_any value (line_suffixes l))
       [warrior_line; thief_line; mage_line; ranger_line; raider_line;
        ritualist_line; paragon_line].

(** [ClassStats.get_class_bonuses] *)
Definition get_class_bonuses (char_class : CharacterClass) (level : Z) : ClassBonuses :=
  let b := base_bonuses in
  let tier := Py.float_of_int (tier_of_level level) in
  let value := class_value char_class in
  let plus (x k : float) := PrimFloat.add x (PrimFloat.mul k tier) in
  match line_of value with
  | Some warrior_line =>
      let defense := plus (defense_mult b) 0.1%float in
      let attack := plus (attack_mult b) 0.05%float in
      if contains value "Berserker" then
        mkClassBonuses (PrimFloat.add attack 0.2%float) defense (magic_mult b) (speed_mult b)
          (luck_mult b) (raid_mult b) (steal_chance b) (crit_chance b)
          (dodge_chance b) 0.15%float (favor_mult b)
      else if contains value "Paladin" then
        mkClassBonuses attack (PrimFloat.add defense 0.2%float)
          (PrimFloat.add (magic_mult b) 0.1%float) (speed_mult b)
          (luck_mult b) (raid_mult b) (steal_chance b) (crit_chance b)
          (dodge_chance b) (lifesteal b) (favor_mult b)
      else
        mkClassBonuses attack defense (magic_mult b) (speed_mult b)
          (luck_mult b) (raid_mult b) (steal_chance b) (crit_chance b)
          (dodge_chance b) (lifesteal b) (favor_mult b)
  | Some thief_line =>
      let steal := PrimFloat.mul 0.08%float tier in
      let crit := plus (crit_chance b) 0.05%float in
      let dodge := plus (dodge_chance b) 0.03%float in
      let speed := plus (speed_mult b) 0.1%float in
      if contains value "Assassin" then
        mkClassBonuses (attack_mult b) (defense_mult b) (magic_mult b) speed
          (luck_mult b) (raid_mult b) steal (PrimFloat.add crit 0.15%float) dodge
          (lifesteal b) (favor_mult b)
      else if contains value "Shadow" then
        mkClassBonuses (attack_mult b) (defense_mult b) (magic_mult b) speed
          (luck_mult b) (raid_mult b) steal crit (PrimFloat.add dodge 0.2%float)
          (lifesteal b) (favor_mult b)
      else
        mkClassBonuses (attack_mult b) (defense_mult b) (magic_mult b) speed
          (luck_mult b) (raid_mult b) steal crit dodge (lifesteal b) (favor_mult b)
  | Some mage_line =>
      let magic := plus (magic_mult b) 0.15%float in
      let attack := plus (attack_mult b) 0.1%float in
      if contains value "Necromancer" then
        mkClassBonuses attack (defense_mult b) magic (speed_mult b)
          (luck_mult b) (raid_mult b) (steal_chance b) (crit_chance b)
          (dodge_chance b) 0.2%float (favor_mult b)
      else if contains value "Archmage" then
        mkClassBonuses attack (defense_mult b) (PrimFloat.add magic 0.3%float) (speed_mult b)
          (luck_mult b) (raid_mult b) (steal_chance b) (crit_chance b)
          (dodge_chance b) (lifesteal b) (favor_mult b)
      else
        mkClassBonuses attack (defense_mult b) magic (speed_mult b)
          (luck_mult b) (raid_mult b) (steal_chance b) (crit_chance b)
          (dodge_chance b) (lifesteal b) (favor_mult b)
  | Some ranger_line =>
      let attack := plus (attack_mult b) 0.08%float in
      let speed := plus (speed_mult b) 0.12%float in
      let luck := plus (luck_mult b) 0.05%float in
      if contains value "Marksman" then
        mkClassBonuses attack (defense_mult b) (magic_mult b) speed luck
          (raid_mult b) (steal_chance b) (PrimFloat.add (crit_chance b) 0.25%float)
          (dodge_chance b) (lifesteal b) (favor_mult b)
      else
        mkClassBonuses attack (defense_mult b) (magic_mult b) speed luck
          (raid_mult b) (steal_chance b) (crit_chance b)
          (dodge_chance b) (lifesteal b) (favor_mult b)
  | Some raider_line =>
      let raid := plus (raid_mult b) 0.1%float in
      let attack := plus (attack_mult b) 0.12%float in
      if contains value "Warchief" then
        mkClassBonuses attack (defense_mult b) (magic_mult b) (speed_mult b)
          (luck_mult b) (PrimFloat.add raid 0.3%float) (steal_chance b) (crit_chance b)
          (dodge_chance b) (lifesteal b) (favor_mult b)
      else
        mkClassBonuses attack (defense_mult b) (magic_mult b) (speed_mult b)
          (luck_mult b) raid (steal_chance b) (crit_chance b)
          (dodge_chance b) (lifesteal b) (favor_mult b)
  | Some ritualist_line =>
      let favor := plus (favor_mult b) 0.05%float in
      let magic := plus (magic_mult b) 0.08%float in
      let luck := plus (luck_mult b) 0.03%float in
      if contains value "Prophet" then
        mkClassBonuses (attack_mult b) (defense_mult b) magic (speed_mult b)
          (PrimFloat.add luck 0.2%float) (raid_mult b) (steal_chance b) (crit_chance b)
          (dodge_chance b) (lifesteal b) (PrimFloat.add favor 0.3%float)
      else
        mkClassBonuses (attack_mult b) (defense_mult b) magic (speed_mult b)
          luck (raid_mult b) (steal_chance b) (crit_chance b)
          (dodge_chance b) (lifesteal b) favor
  | Some paragon_line =>
      let attack := plus (attack_mult b) 0.1%float in
      let defense := plus (defense_mult b) 0.1%float in
      let magic := plus (magic_mult b) 0.05%float in
      let speed := plus (speed_mult b) 0.05%float in
      let luck := plus (luck_mult b) 0.02%float in
      let raid := plus (raid_mult b) 0.05%float in
      if contains value "Immortal" then
        mkClassBonuses attack defense magic speed luck raid (steal_chance b)
          (crit_chance b) (PrimFloat.add (dodge_chance b) 0.1%float) 0.1%float (favor_mult b)
      else
        mkClassBonuses attack defense magic speed luck raid (steal_chance b)
          (crit_chance b) (dodge_chance b) (lifesteal b) (favor_mult b)
  | None => b
  end.

(** The dictionary returned by [RaceStats.get_race_bonuses]. *)
Record RaceBonuses : Type := mkRaceBonuses {
  hp_bonus : Z;
  attack_bonus : Z;
  defense_bonus : Z;
  magic_bonus : Z;
  speed_bonus : Z;
  luck_bonus : Z;
  xp_mult : float;
  gold_mult : float
}.

(** [RaceStats.get_race_bonuses] *)
Definition get_race_bonuses (race : Race) : RaceBonuses :=
  match race with
  | HUMAN => mkRaceBonuses 0 0 0 0 0 0 1.1%float 1.0%float
  | ELF => mkRaceBonuses 0 0 0 3 0 2 1.0%float 0.9%float
  | DWARF => mkRaceBonuses 0 0 2 0 (-1) 0 1.0%float 1.4%float
  | ORC => mkRaceBonuses 0 3 0 0 0 (-2) 1.3%float 1.0%float
  | HALFLING => mkRaceBonuses 0 0 0 0 0 4 0.8%float 1.1%float
  | GNOME => mkRaceBonuses 0 0 0 2 0 3 0.9%float 1.0%float
  | DRAGONBORN => mkRaceBonuses 0 1 1 0 0 0 1.1%float 1.1%float
  | TIEFLING => mkRaceBonuses 0 0 0 2 0 2 1.0%float 1.2%float
  | UNDEAD => mkRaceBonuses (-10) 0 0 0 0 5 0.7%float 1.0%float
  | DEMON => mkRaceBonuses 0 0 0 0 0 6 0.8%float 1.3%float
  end.

(** [class Character]: the attributes the methods below read or write. *)
Record Character : Type := mkCharacter {
  char_class : CharacterClass;
  race : Race;
  level : Z;
  xp : Z;
  hp : Z;
  max_hp : Z;
  base_attack : Z;
  base_defense : Z;
  base_magic : Z;
  base_speed : Z;
  reset_points : Z
}.

(** [Character.__init__] *)
Definition new_character : Character :=
  mkCharacter NOVICE HUMAN 1 0 100 100 10 10 10 10 2.

(** [Character.xp_required] *)
Definition xp_required (self : Character) : Z := level self ^ 2 * 100.

(** One round of the [while] loop of [gain_xp]. *)
Definition level_up (self : Character) : Character :=
  mkCharacter (char_class self) (race self) (level self + 1)
    (xp self - xp_required self) (max_hp self + 10) (max_hp self + 10)
    (base_attack self + 2) (base_defense self + 2) (base_magic self + 1)
    (base_speed self + 1) (reset_points self).

(** The loop [while self.xp >= self.xp_required]; [None] when the rounds
    allowed are used up before the condition fails. *)
Fixpoint gain_xp_loop (rounds : nat) (self : Character) (levels_gained : Z)
  : option (Character * Z) :=
  if xp self >=? xp_required self then
    match rounds with
    | O => None
    | S k => gain_xp_loop k (level_up self) (levels_gained + 1)
    end
  else Some (self, levels_gained).

(** The dictionary returned by [Character.total_stats]. *)
Record TotalStats : Type := mkTotalStats {
  total_hp : Z;
  total_attack : Z;
  total_defense : Z;
  total_magic : Z;
  total_speed : Z;
  total_luck : float;
  total_raid_power : Z;
  total_steal_chance : float;
  total_crit_chance : float;
  total_dodge_chance : float;
  total_lifesteal : float;
  total_favor_mult : float;
  total_xp_mult : float;
  total_gold_mult : float
}.

(** [int(n * mult)] for an [int] [n] and a [float] [mult]: [n] is converted
    first, which raises when it is out of the float range, and so does
    [int] when the product is infinite. *)
Definition scaled (n : Z) (mult : float) : option Z :=
  f <-? Py.float_of_long n ;;
  Py.int_of_float (PrimFloat.mul f mult).

(** [Character.total_stats].  The attributes [luck] and [raid_stats], which
    no method of the class writes, are passed next to [self].  The entries
    are computed in the order of the dictionary display; the quotient
    [luck_bonus / 100] of two small integers is the float quotient. *)
Definition total_stats (self : Character) (luck : float) (raid_stats : Z)
  : option TotalStats :=
  let class_bonuses := get_class_bonuses (char_class self) (level self) in
  let race_bonuses := get_race_bonuses (race self) in
  attack <-? scaled (base_attack self + attack_bonus race_bonuses)
                    (attack_mult class_bonuses) ;;
  defense <-? scaled (base_defense self + defense_bonus race_bonuses)
                     (defense_mult class_bonuses) ;;
  magic <-? scaled (base_magic self + magic_bonus race_bonuses)
                   (magic_mult class_bonuses) ;;
  speed <-? scaled (base_speed self + speed_bonus race_bonuses)
                   (speed_mult class_bonuses) ;;
  luck_part <-? Py.float_of_long (luck_bonus race_bonuses) ;;
  raid_power <-? scaled raid_stats (raid_mult class_bonuses) ;;
  Some (mkTotalStats
          (max_hp self + hp_bonus race_bonuses)
          attack defense magic speed
          (PrimFloat.add (PrimFloat.mul luck (luck_mult class_bonuses))
                         (PrimFloat.div luck_part 100%float))
          raid_power
          (steal_chance class_bonuses) (crit_chance class_bonuses)
          (dodge_chance class_bonuses) (lifesteal class_bonuses)
          (favor_mult class_bonuses)
          (xp_mult race_bonuses) (gold_mult race_bonuses)).

Definition add_xp (self : Character) (actual_xp : Z) : Character :=
  mkCharacter (char_class self) (race self) (level self) (xp self + actual_xp)
    (hp self) (max_hp self) (base_attack self) (base_defense self)
    (base_magic self) (base_speed self) (reset_points self).

(** The first two statements of [gain_xp]:
    [stats = self.total_stats; actual_xp = int(amount * stats["xp_mult"])]. *)
Definition actual_xp (self : Character) (luck : float) (raid_stats amount : Z)
  : option Z :=
  stats <-? total_stats self luck raid_stats ;;
  scaled amount (total_xp_mult stats).

(** [Character.gain_xp], returning the character next to
    [(leveled_up, levels_gained)].  Every round of the loop but at most one
    (at level 0) takes at least 100 xp, which bounds the rounds. *)
Definition gain_xp (self : Character) (luck : float) (raid_stats amount : Z)
  : option (Character * (bool * Z)) :=
  actual <-? actual_xp self luck raid_stats amount ;;
  let self := add_xp self actual in
  r <-? gain_xp_loop (Z.to_nat (xp self / 100) + 1) self 0 ;;
  Some (fst r, (snd r >? 0, snd r)).

(** [Character.evolve_class] *)
Definition evolve_class (self : Character) (new_class : CharacterClass)
  : Character * bool :=
  if existsb (class_eqb new_class) (get_evolutions (char_class self)) then
    (mkCharacter new_class (race self) (level self) (xp self) (hp self)
       (max_hp self) (base_attack self) (base_defense self) (base_magic self)
       (base_speed self) (reset_points self), true)
  else (self, false).

(** [Character.change_race] *)
Definition change_race (self : Character) (new_race : Race) : Character * bool :=
  if reset_points self >? 0 then
    (mkCharacter (char_class self) new_race (level self) (xp self) (hp self)
       (max_hp self) (base_attack self) (base_defense self) (base_magic self)
       (base_speed self) (reset_points self - 1), true)
  else (self, false).

End Classes.

(* ================================================================== *)
(** ** cogs/epic_adventures.py *)
(* ================================================================== *)

Module Epic.
Import Store.

(** An entry of [EPIC_ADVENTURES] / [LEGENDARY_ADVENTURES]. *)
Record Definition_ : Type := mkDef {
  d_name : string;
  min_level : Z;
  duration_hours : Z * Z;
  base_xp : Z;
  base_gold : Z;
  item_quality : Z * Z;
  success_rate : float
}.

Definition EPIC_ADVENTURES : list Definition_ :=
  [ mkDef "Dragon's Lair Expedition" 10 (4, 6) 2500 5000 (10, 20) 0.7%float;
    mkDef "Demon Lord's Fortress" 10 (4, 6) 2800 4500 (11, 21) 0.65%float;
    mkDef "Lost City of Gold" 10 (5, 7) 2000 8000 (10, 19) 0.75%float;
    mkDef "Titan's Challenge" 12 (5, 8) 3500 6000 (12, 22) 0.6%float;
    mkDef "Void Realm Exploration" 11 (4, 7) 3000 5500 (11, 23) 0.68%float ].

Definition LEGENDARY_ADVENTURES : list Definition_ :=
  [ mkDef "Godslayer Quest" 15 (12, 24) 10000 20000 (15, 30) 0.5%float;
    mkDef "World Tree Ascension" 15 (10, 20) 8000 15000 (14, 28) 0.55%float;
    mkDef "Chaos Dimension Rift" 18 (14, 24) 12000 25000 (16, 32) 0.45%float;
    mkDef "Phoenix Rebirth Ritual" 16 (8, 16) 9000 18000 (15, 29) 0.6%float;
    mkDef "Underworld Conquest" 20 (16, 24) 15000 30000 (17, 35) 0.4%float ].

Definition lookup (name : string) (table : list Definition_) : option Definition_ :=
  find (fun d => String.eqb (d_name d) name) table.

(** The characters selected at the head of [auto_epic_adventures]: level 10
    or more, no active epic adventure, online. *)
Definition online_eligible (online : Z -> bool) (db : DB) : list Character :=
  filter (fun c => online (c_user_id c))
    (filter (fun c => (c_level c >=? 10) && negb (has_active_epic db (c_user_id c)))
            (profile db)).

(** The body of [for char in selected] in [auto_epic_adventures]. Timestamps
    count seconds; the drawn duration in hours is truncated to seconds. *)
Definition start_epic (now : Z) (insert_fails : Z -> bool)
  (db : DB) (char : Character) : Py.Rand DB :=
  legendary_roll <- (if c_level char >=? 15
                     then r <- Py.random ;; Py.ret (Py.flt r 0.4%float)
                     else Py.ret false) ;;
  let '(adventure_type, adventures_dict) :=
    if legendary_roll then (legendary, LEGENDARY_ADVENTURES)
    else (epic, EPIC_ADVENTURES) in
  let available := filter (fun d => c_level char >=? min_level d) adventures_dict in
  match available with
  | [] => Py.ret db
  | _ =>
      adventure_data <- Py.choice available ;;
      let '(min_hours, max_hours) := duration_hours adventure_data in
      duration <- Py.uniform (Py.float_of_int min_hours) (Py.float_of_int max_hours) ;;
      seconds <- Py.lift (Py.int_of_float
                   (PrimFloat.mul duration (Py.float_of_int 3600))) ;;
      let start_time := now in
      let end_time := start_time + seconds in
      if has_active_epic db (c_user_id char) then Py.ret db
      else if insert_fails (c_user_id char) then Py.ret db
      else
        Py.ret (insert_epic db (fun id =>
          mkEpicAdventure id (c_user_id char) adventure_type (d_name adventure_data)
            (match adventure_type with legendary => 3 | epic => 2 end)
            start_time end_time (base_xp adventure_data) (base_gold adventure_data)
            (fst (item_quality adventure_data)) (snd (item_quality adventure_data))
            active))
  end.

(** [auto_epic_adventures], one run. *)
Definition auto_epic_adventures (channel : bool) (online : Z -> bool) (now : Z)
  (insert_fails : Z -> bool) (db : DB) : Py.Rand DB :=
  if negb channel then Py.ret db
  else
    let eligible := online_eligible online db in
    match eligible with
    | [] => Py.ret db
    | _ =>
        k <- Py.randint 2 6 ;;
        let num_selected := Z.min k (Z.of_nat (length eligible)) in
        selected <- Py.sample eligible (Z.to_nat num_selected) ;;
        db' <- Py.for_each (start_epic now insert_fails) selected db ;;
        Py.ret (commit db')
    end.

(** The item loop of a successful epic adventure: [num_items] pieces of
    equipment, renamed and revalued, each written to the inventory. *)
Fixpoint create_items (n : nat) (adventure : EpicAdventure) (db : DB) : Py.Rand DB :=
  match n with
  | O => Py.ret db
  | S k =>
      item <- Items.generate_random_equipment (e_user_id adventure)
                (e_item_quality_min adventure) (e_item_quality_max adventure) ;;
      let '(prefix, factor) :=
        match e_adventure_type adventure with
        | epic => ("Epic "%string, 1.5%float)
        | legendary => ("Legendary "%string, 2%float)
        end in
      value <- Py.lift (Py.int_of_float
                 (PrimFloat.mul (Py.float_of_int (Items.value item)) factor)) ;;
      let item :=
        Items.mkItem (Items.id item) (Items.owner_id item)
          (prefix ++ Items.name item)%string (Items.type item) value
          (Items.damage item) (Items.armor item) (Items.hand item)
          (Items.equipped item) (Items.health_bonus item) (Items.speed_bonus item)
          (Items.luck_bonus item) (Items.crit_bonus item) (Items.magic_bonus item)
          (Items.slot_type item) (Items.upgrade_level item) in
      create_items k adventure (create_item_in_db db item)
  end.

(** The body of [for adventure in completed] in [check_epic_completions].
    The blessing multipliers are applied to the amounts of this call only. *)
Definition complete_one (religion_cog : bool) (now : Z)
  (db : DB) (adventure : EpicAdventure) : Py.Rand DB :=
  match get_character db (e_user_id adventure) with
  | None => Py.ret db
  | Some char =>
      let rate :=
        match lookup (e_adventure_name adventure) EPIC_ADVENTURES with
        | Some d => success_rate d
        | None =>
            match lookup (e_adventure_name adventure) LEGENDARY_ADVENTURES with
            | Some d => success_rate d
            | None => 0.6%float
            end
        end in
      let luck_bonus := PrimFloat.mul (PrimFloat.sub (c_luck char) 1.0%float) 0.1%float in
      let rate := Py.fmin 0.95%float (PrimFloat.add rate luck_bonus) in
      r <- Py.random ;;
      db <-
        (if Py.flt r rate then
           let '(xp_gain, gold_find, db) :=
             if religion_cog then
               let '(blessing_bonuses, db') :=
                 Religion.get_active_blessings db (c_user_id char) now in
               (PrimFloat.mul (c_xp_gain char) (Religion.xp_mult blessing_bonuses),
                PrimFloat.mul (c_gold_find char) (Religion.gold_mult blessing_bonuses),
                db')
             else (c_xp_gain char, c_gold_find char, db) in
           xp_variance <- Py.uniform 0.8%float 1.2%float ;;
           gold_variance <- Py.uniform 0.8%float 1.2%float ;;
           final_xp <- Py.lift (Py.int_of_float
                         (PrimFloat.mul
                            (PrimFloat.mul (Py.float_of_int (e_base_xp_reward adventure))
                                           xp_variance)
                            xp_gain)) ;;
           final_gold <- Py.lift (Py.int_of_float
                           (PrimFloat.mul
                              (PrimFloat.mul (Py.float_of_int (e_base_gold_reward adventure))
                                             gold_variance)
                              gold_find)) ;;
           let new_xp := c_xp char + final_xp in
           let new_gold := c_money char + final_gold in
           new_level <- Py.lift (Autoplay.level_for_xp new_xp) ;;
           let db := update_character db (c_user_id char)
                       (set_xp_money_level new_xp new_gold new_level) in
           num_items <- (match e_adventure_type adventure with
                         | epic => Py.randint 1 3
                         | legendary => Py.randint 2 4
                         end) ;;
           create_items (Z.to_nat num_items) adventure db
         else
           final_xp <- Py.lift (Py.int_of_float
                         (PrimFloat.mul
                            (PrimFloat.mul (Py.float_of_int (e_base_xp_reward adventure))
                                           0.2%float)
                            (c_xp_gain char))) ;;
           final_gold <- Py.lift (Py.int_of_float
                           (PrimFloat.mul
                              (PrimFloat.mul (Py.float_of_int (e_base_gold_reward adventure))
                                             0.1%float)
                              (c_gold_find char))) ;;
           Py.ret (update_character db (c_user_id char)
                     (set_xp_money (c_xp char + final_xp) (c_money char + final_gold)))) ;;
      Py.ret (commit (complete_epic db (e_id adventure)))
  end.

(** [check_epic_completions], one run. *)
Definition check_epic_completions (channel religion_cog : bool) (now : Z)
  (db : DB) : Py.Rand DB :=
  if negb channel then Py.ret db
  else
    Py.for_each (complete_one religion_cog now)
      (filter (fun e => status_eqb (e_status e) active && (e_finish_at e <=? now))
              (epic_adventures db))
      db.

End Epic.


(* ================================================================== *)
(** ** The jobs and commands with their exception handlers *)
(* ================================================================== *)

(** Code that reads and writes the store, draws random numbers and may
    raise.  The jobs catch every exception at their outermost level and log
    it, and the commands leave it to the framework: nothing is rolled back,
    so an exception ends the run and leaves the store as the writes before it
    made it.  Any statement sent to the database may raise as well:
    [Faults] tells, for the write statements in the order they are issued,
    which ones do (none, once the list is used up). *)
Module Job.
Import Store.

Definition Faults : Type := list bool.

Inductive Outcome (A : Type) : Type :=
  | returned (a : A) (db : DB) (g : Py.Gen) (faults : Faults)
  | raised (db : DB).

Arguments returned {A} a db g faults.
Arguments raised {A} db.

Definition M (A : Type) : Type := DB -> Py.Gen -> Faults -> Outcome A.

(** The store a run leaves, whichever way it ends. *)
Definition store {A} (o : Outcome A) : DB :=
  match o with
  | returned _ db _ _ => db
  | raised db => db
  end.

Definition ret {A} (a : A) : M A := fun db g faults => returned a db g faults.

Definition bind {A B} (m : M A) (k : A -> M B) : M B :=
  fun db g faults =>
    match m db g faults with
    | returned a db' g' faults' => k a db' g' faults'
    | raised db' => raised db'
    end.

(** A computation that does not touch the store. *)
Definition rand {A} (r : Py.Rand A) : M A :=
  fun db g faults =>
    match r g with
    | Some (a, g') => returned a db g' faults
    | None => raised db
    end.

(** Reading the store. *)
Definition get : M DB := fun db g faults => returned db db g faults.

(** One write statement. *)
Definition write (f : DB -> DB) : M unit :=
  fun db g faults =>
    match faults with
    | true :: _ => raised db
    | false :: rest => returned tt (f db) g rest
    | [] => returned tt (f db) g []
    end.

(** One write statement under [try: ... except Exception: continue]: when
    it raises, the handler logs the error and the loop goes on. *)
Definition attempt (f : DB -> DB) : M unit :=
  fun db g faults =>
    match faults with
    | true :: rest => returned tt db g rest
    | false :: rest => returned tt (f db) g rest
    | [] => returned tt (f db) g []
    end.

Fixpoint for_each {A} (body : A -> M unit) (l : list A) : M unit :=
  match l with
  | [] => ret tt
  | a :: rest => bind (body a) (fun _ => for_each body rest)
  end.

End Job.

Notation "x <~ m ;; k" := (Job.bind m (fun x => k))
  (at level 61, m at next level, right associativity).

(** The scheduled jobs and the adventure commands over [Job]: which
    statements are sent to the database, in which order, under which
    handler, and what may raise in between.  The amounts written are
    computed as in [Autoplay], [Epic] and [Adventure]. *)
Module Handlers.
Import Store.

(** *** cogs/religion.py *)

(** [ReligionCog.get_active_blessings(user_id)] at clock reading [now]: the
    [SELECT], the [DELETE] of the expired rows, the commit, and the
    dictionary folded from the rows selected. *)
Definition get_active_blessings (user_id now : Z) : Job.M Religion.Active :=
  db <~ Job.get ;;
  let active := fst (Religion.get_active_blessings db user_id now) in
  _ <~ Job.write (fun db =>
         delete_blessings db user_id (fun b => b_expires_at b <=? now)) ;;
  _ <~ Job.write commit ;;
  Job.ret active.

(** *** cogs/autoplay.py *)

(** The draws of one departure in [auto_adventure_loop] and the row it
    inserts. Timestamps count seconds. *)
Definition new_adventure (now : Z) (char : Character) : Py.Rand Adventure :=
  duration <- (if c_level char <? 10 then Py.randint 5 10
               else if c_level char <? 20 then Py.randint 20 30
               else Py.randint 60 120) ;;
  adventure_type <- Py.choice Autoplay.adventure_types ;;
  let start_time := now in
  let end_time := start_time + duration * 60 in
  Py.ret (mkAdventure (c_user_id char) adventure_type 1 start_time end_time active).

(** The body of [for char in selected]: when the [INSERT] raises, the inner
    handler logs it and the loop continues. *)
Definition start_adventure (now : Z) (char : Character) : Job.M unit :=
  row <~ Job.rand (new_adventure now char) ;;
  Job.attempt (fun db => insert_adventure db row).

(** [auto_adventure_loop] from the [SELECT] to the last statement before
    [await channel.send]: no [await] lies in between.  With one character
    selected the [INSERT] and the commit share a handler, so a failed
    [INSERT] skips the commit and ends the run. *)
Definition auto_adventure_loop (channel : bool) (online : Z -> bool) (now : Z)
  : Job.M unit :=
  if negb channel then Job.ret tt
  else
    db <~ Job.get ;;
    let available := Autoplay.available_chars online db in
    match available with
    | [] => Job.ret tt
    | _ =>
        k <~ Job.rand (Py.randint 10 20) ;;
        let num_adventures := Z.min k (Z.of_nat (length available)) in
        selected <~ Job.rand (Py.sample available (Z.to_nat num_adventures)) ;;
        match selected with
        | [] => Job.ret tt
        | [char] =>
            row <~ Job.rand (new_adventure now char) ;;
            _ <~ Job.write (fun db => insert_adventure db row) ;;
            Job.write commit
        | _ =>
            _ <~ Job.for_each (start_adventure now) selected ;;
            Job.write commit
        end
    end.

(** The body of [for adventure in online_completed] in [level_up_check]
    (the single-completion branch runs the same statements). *)
Definition complete_one (adventure : Adventure) : Job.M unit :=
  let user_id := a_user_id adventure in
  base_xp <~ Job.rand (Py.randint 25 75) ;;
  base_gold <~ Job.rand (Py.randint 50 200) ;;
  db <~ Job.get ;;
  char_data <~ Job.rand (Py.lift (get_character db user_id)) ;;
  final_xp <~ Job.rand (Py.lift (Py.int_of_float
                (PrimFloat.mul (Py.float_of_int base_xp) (c_xp_gain char_data)))) ;;
  final_gold <~ Job.rand (Py.lift (Py.int_of_float
                  (PrimFloat.mul (Py.float_of_int base_gold) (c_gold_find char_data)))) ;;
  let new_xp := c_xp char_data + final_xp in
  let new_gold := c_money char_data + final_gold in
  new_level <~ Job.rand (Py.lift (Autoplay.level_for_xp new_xp)) ;;
  _ <~ Job.write (fun db =>
         update_character db user_id
           (set_xp_money_level_completed new_xp new_gold new_level
              (c_completed char_data + 1))) ;;
  _ <~ Job.write (fun db => complete_adventures_of db user_id (a_finish_at adventure)) ;;
  r <~ Job.rand Py.random ;;
  if Py.flt r 0.4%float then
    item <~ Job.rand (Items.generate_random_equipment user_id
                        (Z.max 4 (new_level + 1)) (new_level + 6)) ;;
    Job.write (fun db => create_item_in_db db item)
  else Job.ret tt.

(** [level_up_check] from the [SELECT] to the commit. *)
Definition level_up_check (channel : bool) (online : Z -> bool) (now : Z)
  : Job.M unit :=
  if negb channel then Job.ret tt
  else
    db <~ Job.get ;;
    let due := Autoplay.online_completed online now db in
    match due with
    | [] => Job.ret tt
    | _ =>
        _ <~ Job.for_each complete_one due ;;
        Job.write commit
    end.

(** *** cogs/epic_adventures.py *)

(** The draws of one departure in [auto_epic_adventures] and the row it
    would insert; [None] when no adventure fits the level ([continue]). *)
Definition new_epic (now : Z) (char : Character)
  : Py.Rand (option (Z -> EpicAdventure)) :=
  legendary_roll <- (if c_level char >=? 15
                     then r <- Py.random ;; Py.ret (Py.flt r 0.4%float)
                     else Py.ret false) ;;
  let '(adventure_type, adventures_dict) :=
    if legendary_roll then (legendary, Epic.LEGENDARY_ADVENTURES)
    else (epic, Epic.EPIC_ADVENTURES) in
  let available :=
    filter (fun d => c_level char >=? Epic.min_level d) adventures_dict in
  match available with
  | [] => Py.ret None
  | _ =>
      adventure_data <- Py.choice available ;;
      let '(min_hours, max_hours) := Epic.duration_hours adventure_data in
      duration <- Py.uniform (Py.float_of_int min_hours) (Py.float_of_int max_hours) ;;
      seconds <- Py.lift (Py.int_of_float
                   (PrimFloat.mul duration (Py.float_of_int 3600))) ;;
      let start_time := now in
      let end_time := start_time + seconds in
      Py.ret (Some (fun id =>
        mkEpicAdventure id (c_user_id char) adventure_type (Epic.d_name adventure_data)
          (match adventure_type with legendary => 3 | epic => 2 end)
          start_time end_time (Epic.base_xp adventure_data)
          (Epic.base_gold adventure_data)
          (fst (Epic.item_quality adventure_data))
          (snd (Epic.item_quality adventure_data))
          active))
  end.

(** The body of [for char in selected] in [auto_epic_adventures]: the
    second look at the table comes right before the [INSERT], under the
    same inner handler. *)
Definition start_epic (now : Z) (char : Character) : Job.M unit :=
  row <~ Job.rand (new_epic now char) ;;
  match row with
  | None => Job.ret tt
  | Some mk =>
      db <~ Job.get ;;
      if has_active_epic db (c_user_id char) then Job.ret tt
      else Job.attempt (fun db => insert_epic db mk)
  end.

(** [auto_epic_adventures] from the [SELECT] to the commit. *)
Definition auto_epic_adventures (channel : bool) (online : Z -> bool) (now : Z)
  : Job.M unit :=
  if negb channel then Job.ret tt
  else
    db <~ Job.get ;;
    let eligible := Epic.online_eligible online db in
    match eligible with
    | [] => Job.ret tt
    | _ =>
        k <~ Job.rand (Py.randint 2 6) ;;
        let num_selected := Z.min k (Z.of_nat (length eligible)) in
        selected <~ Job.rand (Py.sample eligible (Z.to_nat num_selected)) ;;
        _ <~ Job.for_each (start_epic now) selected ;;
        Job.write commit
    end.

(** The item loop of a successful epic adventure. *)
Fixpoint create_items (n : nat) (adventure : EpicAdventure) : Job.M unit :=
  match n with
  | O => Job.ret tt
  | S k =>
      item <~ Job.rand (Items.generate_random_equipment (e_user_id adventure)
                          (e_item_quality_min adventure)
                          (e_item_quality_max adventure)) ;;
      let '(prefix, factor) :=
        match e_adventure_type adventure with
        | epic => ("Epic "%string, 1.5%float)
        | legendary => ("Legendary "%string, 2%float)
        end in
      value <~ Job.rand (Py.lift (Py.int_of_float
                 (PrimFloat.mul (Py.float_of_int (Items.value item)) factor))) ;;
      let item :=
        Items.mkItem (Items.id item) (Items.owner_id item)
          (prefix ++ Items.name item)%string (Items.type item) value
          (Items.damage item) (Items.armor item) (Items.hand item)
          (Items.equipped item) (Items.health_bonus item) (Items.speed_bonus item)
          (Items.luck_bonus item) (Items.crit_bonus item) (Items.magic_bonus item)
          (Items.slot_type item) (Items.upgrade_level item) in
      _ <~ Job.write (fun db => create_item_in_db db item) ;;
      create_items k adventure
  end.

(** The body of [for adventure in completed] in [check_epic_completions],
    up to its commit; [await channel.send] follows.  The blessing
    multipliers are applied to the amounts of this call only. *)
Definition epic_complete_one (religion_cog : bool) (now : Z)
  (adventure : EpicAdventure) : Job.M unit :=
  db <~ Job.get ;;
  match get_character db (e_user_id adventure) with
  | None => Job.ret tt
  | Some char =>
      let rate :=
        match Epic.lookup (e_adventure_name adventure) Epic.EPIC_ADVENTURES with
        | Some d => Epic.success_rate d
        | None =>
            match Epic.lookup (e_adventure_name adventure) Epic.LEGENDARY_ADVENTURES with
            | Some d => Epic.success_rate d
            | None => 0.6%float
            end
        end in
      let luck_bonus := PrimFloat.mul (PrimFloat.sub (c_luck char) 1.0%float) 0.1%float in
      let rate := Py.fmin 0.95%float (PrimFloat.add rate luck_bonus) in
      r <~ Job.rand Py.random ;;
      _ <~ (if Py.flt r rate then
              multipliers <~
                (if religion_cog then
                   blessing_bonuses <~ get_active_blessings (c_user_id char) now ;;
                   Job.ret
                     (PrimFloat.mul (c_xp_gain char) (Religion.xp_mult blessing_bonuses),
                      PrimFloat.mul (c_gold_find char) (Religion.gold_mult blessing_bonuses))
                 else Job.ret (c_xp_gain char, c_gold_find char)) ;;
              let '(xp_gain, gold_find) := multipliers in
              xp_variance <~ Job.rand (Py.uniform 0.8%float 1.2%float) ;;
              gold_variance <~ Job.rand (Py.uniform 0.8%float 1.2%float) ;;
              final_xp <~ Job.rand (Py.lift (Py.int_of_float
                            (PrimFloat.mul
                               (PrimFloat.mul
                                  (Py.float_of_int (e_base_xp_reward adventure))
                                  xp_variance)
                               xp_gain))) ;;
              final_gold <~ Job.rand (Py.lift (Py.int_of_float
                              (PrimFloat.mul
                                 (PrimFloat.mul
                                    (Py.float_of_int (e_base_gold_reward adventure))
                                    gold_variance)
                                 gold_find))) ;;
              let new_xp := c_xp char + final_xp in
              let new_gold := c_money char + final_gold in
              new_level <~ Job.rand (Py.lift (Autoplay.level_for_xp new_xp)) ;;
              _ <~ Job.write (fun db =>
                     update_character db (c_user_id char)
                       (set_xp_money_level new_xp new_gold new_level)) ;;
              num_items <~ Job.rand (match e_adventure_type adventure with
                                     | epic => Py.randint 1 3
                                     | legendary => Py.randint 2 4
                                     end) ;;
              create_items (Z.to_nat num_items) adventure
            else
              final_xp <~ Job.rand (Py.lift (Py.int_of_float
                            (PrimFloat.mul
                               (PrimFloat.mul
                                  (Py.float_of_int (e_base_xp_reward adventure))
                                  0.2%float)
                               (c_xp_gain char)))) ;;
              final_gold <~ Job.rand (Py.lift (Py.int_of_float
                              (PrimFloat.mul
                                 (PrimFloat.mul
                                    (Py.float_of_int (e_base_gold_reward adventure))
                                    0.1%float)
                                 (c_gold_find char)))) ;;
              Job.write (fun db =>
                update_character db (c_user_id char)
                  (set_xp_money (c_xp char + final_xp) (c_money char + final_gold)))) ;;
      _ <~ Job.write (fun db => complete_epic db (e_id adventure)) ;;
      Job.write commit
  end.

(** [check_epic_completions], when no other code runs at the [await] that
    ends each round of its loop. *)
Definition check_epic_completions (channel religion_cog : bool) (now : Z)
  : Job.M unit :=
  if negb channel then Job.ret tt
  else
    db <~ Job.get ;;
    Job.for_each (epic_complete_one religion_cog now)
      (filter (fun e => status_eqb (e_status e) active && (e_finish_at e <=? now))
              (epic_adventures db)).

(** *** cogs/adventure.py: the commands [!status], [!complete], [!cancel] *)

(** [AdventureCog.complete_adventure(ctx, adventure_data)] for the author
    [user_id], up to [await ctx.send]; [id] is [adventure_data['id']].  The
    entries of [get_race_multipliers] are those of the profile row, and the
    blessing multipliers are applied to the amounts of this call only.  The
    transaction log is another table. *)
Definition complete_adventure (religion_cog : bool) (now : Z) (user_id : Z)
  (id : nat) (adventure_data : Adventure) : Job.M unit :=
  db <~ Job.get ;;
  char_data <~ Job.rand (Py.lift (get_character db user_id)) ;;
  let equipment_bonus := Adventure.calculate_adventure_power db user_id in
  let chance :=
    Adventure.success_chance (c_level char_data) (a_difficulty adventure_data)
                             equipment_bonus (c_luck char_data) in
  success <~ Job.rand (Adventure.roll_success chance) ;;
  _ <~ Job.write (fun db => Store.complete_adventure db id success) ;;
  match Adventure.find_adventure_info (a_adventure_name adventure_data) with
  | None => Job.ret tt
  | Some info =>
      let difficulty := Adventure.difficulty info in
      if success then
        gold_reward <~ Job.rand (Py.randint (Adventure.min_reward info)
                                            (Adventure.max_reward info)) ;;
        k <~ Job.rand (Py.randint 5 15) ;;
        let xp_reward := difficulty * 10 + k in
        steps <~ Job.rand (Py.lift (Py.float_of_long
                   (Z.max 0 (difficulty - c_level char_data)))) ;;
        let difficulty_bonus := PrimFloat.mul steps 0.1%float in
        gold_reward <~ Job.rand (Py.lift (Py.int_of_float
                         (PrimFloat.mul (Py.float_of_int gold_reward)
                            (PrimFloat.add 1%float difficulty_bonus)))) ;;
        multipliers <~
          (if religion_cog then
             blessing_bonuses <~ get_active_blessings user_id now ;;
             _ <~ (if Religion.adventure_success blessing_bonuses then
                     _ <~ Job.write (fun db =>
                            delete_blessings db user_id
                              (fun b => match b_effect b with
                                        | eff_adventure_success => true
                                        | _ => false
                                        end)) ;;
                     Job.write commit
                   else Job.ret tt) ;;
             Job.ret
               (PrimFloat.mul (c_xp_gain char_data) (Religion.xp_mult blessing_bonuses),
                PrimFloat.mul (c_gold_find char_data) (Religion.gold_mult blessing_bonuses))
           else Job.ret (c_xp_gain char_data, c_gold_find char_data)) ;;
        let '(xp_gain, gold_find) := multipliers in
        gold_float <~ Job.rand (Py.lift (Py.float_of_long gold_reward)) ;;
        gold_reward <~ Job.rand (Py.lift (Py.int_of_float
                         (PrimFloat.mul gold_float gold_find))) ;;
        xp_reward <~ Job.rand (Py.lift (Py.int_of_float
                       (PrimFloat.mul (Py.float_of_int xp_reward) xp_gain))) ;;
        let new_money := c_money char_data + gold_reward in
        _ <~ Job.write (fun db =>
               update_character db user_id
                 (set_xp_money_level_completed (c_xp char_data + xp_reward) new_money
                    (c_level char_data) (c_completed char_data + 1))) ;;
        item <~ Job.rand (Adventure.item_reward user_id difficulty) ;;
        match item with
        | Some item =>
            Job.write (fun db =>
              create_item db user_id (Items.name item) (Items.type item)
                (Items.value item) (Items.damage item) (Items.armor item)
                (Items.hand item))
        | None => Job.ret tt
        end
      else
        consolation_xp <~ Job.rand (Py.randint 1 5) ;;
        Job.write (fun db =>
          update_character db user_id
            (Autoplay.set_xp (c_xp char_data + consolation_xp)))
  end.

(** [!status] and [!complete]: an adventure whose time is up is completed;
    the other branches only send a message. *)
Definition status (religion_cog : bool) (now : Z) (user_id : Z) : Job.M unit :=
  db <~ Job.get ;;
  match get_active_adventure db user_id with
  | None => Job.ret tt
  | Some (id, row) =>
      if a_finish_at row <=? now
      then complete_adventure religion_cog now user_id id row
      else Job.ret tt
  end.

Definition complete (religion_cog : bool) (now : Z) (user_id : Z) : Job.M unit :=
  db <~ Job.get ;;
  match get_active_adventure db user_id with
  | None => Job.ret tt
  | Some (id, row) =>
      if now <? a_finish_at row then Job.ret tt
      else complete_adventure religion_cog now user_id id row
  end.

(** [!cancel], after [await ctx.confirm] has returned [True]: the row read
    before the confirmation is marked, whatever the table holds by then. *)
Definition cancel_confirmed (id : nat) : Job.M unit :=
  Job.write (fun db => Store.complete_adventure db id false).

End Handlers.

(* ================================================================== *)
(** * Vocabulary of the statements *)
(* ================================================================== *)

(** [o] is [Some v]. *)
Definition opt_is (o : option Z) (v : Z) : bool :=
  match o with
  | Some a => a =? v
  | None => false
  end.

(** [o1] and [o2] are defined and [o1 <= o2]. *)
Definition opt_le (o1 o2 : option Z) : bool :=
  match o1, o2 with
  | Some a, Some b => a <=? b
  | _, _ => false
  end.

(** The item with its upgrade level set to [level] (what
    [UPDATE inventory SET upgrade_level = ?] leaves). *)
Definition with_upgrade_level (it : Items.Item) (level : Z) : Items.Item :=
  Items.mkItem (Items.id it) (Items.owner_id it) (Items.name it) (Items.type it)
    (Items.value it) (Items.damage it) (Items.armor it) (Items.hand it)
    (Items.equipped it) (Items.health_bonus it) (Items.speed_bonus it)
    (Items.luck_bonus it) (Items.crit_bonus it) (Items.magic_bonus it)
    (Items.slot_type it) level.

(** The integer stat fields with their [effective_*] properties, and the two
    fractional ones. *)
Definition int_stat_fields : list ((Items.Item -> Z) * (Items.Item -> option Z)) :=
  [ (Items.damage, Items.effective_damage);
    (Items.armor, Items.effective_armor);
    (Items.health_bonus, Items.effective_health_bonus);
    (Items.speed_bonus, Items.effective_speed_bonus);
    (Items.magic_bonus, Items.effective_magic_bonus) ].

Definition fraction_stat_fields : list ((Items.Item -> float) * (Items.Item -> float)) :=
  [ (Items.luck_bonus, Items.effective_luck_bonus);
    (Items.crit_bonus, Items.effective_crit_bonus) ].

(** Exhaustive check of the upgrade transform on one base value: level 0
    returns the base, level 10 returns [floor(3 * base / 2)], and each level
    gives at least what the previous one gives. *)
Definition upgrade_check (base : Z) : bool :=
  opt_is (Items.scaled base (Items.upgrade_multiplier 0)) base
  && opt_is (Items.scaled base (Items.upgrade_multiplier 10)) (3 * base / 2)
  && forallb (fun l => opt_le (Items.scaled base (Items.upgrade_multiplier l))
                              (Items.scaled base (Items.upgrade_multiplier (l + 1))))
             (range_from 0 10).

(** The same for a fractional field holding [k / 100.0]. *)
Definition fraction_of_points (k : Z) : float :=
  PrimFloat.div (Py.float_of_int k) 100%float.

Definition upgrade_fraction_check (k : Z) : bool :=
  let x := fraction_of_points k in
  PrimFloat.eqb (PrimFloat.mul x (Items.upgrade_multiplier 0)) x
  && forallb (fun l1 =>
       forallb (fun l2 =>
          negb (l1 <=? l2)
          || PrimFloat.leb (PrimFloat.mul x (Items.upgrade_multiplier l1))
                           (PrimFloat.mul x (Items.upgrade_multiplier l2)))
         (range_from 0 11))
       (range_from 0 11).

(** The stat total of a freshly distributed set of stats, computed as
    [Item.stat_total] computes it. *)
Definition stats_total (s : Items.Stats) : option Z :=
  l <-? Items.percent_points (Items.s_luck_bonus s) ;;
  c <-? Items.percent_points (Items.s_crit_bonus s) ;;
  Some (Items.s_damage s + Items.s_armor s + Items.s_health_bonus s
        + Items.s_speed_bonus s + l + c + Items.s_magic_bonus s).

(** Exhaustive check of the distribution on one item type and one total:
    the stats are produced and their total lies between 0 and [total]. *)
Definition within_budget_check (ty : Items.ItemType) (total : Z) : bool :=
  match Items.distribute ty total with
  | Some s =>
      match stats_total s with
      | Some t => (0 <=? t) && (t <=? total)
      | None => false
      end
  | None => false
  end.

(** The ratio dictionaries in hundredths. *)
Definition ratio_percent (ty : Items.ItemType) : list (Items.StatKey * Z) :=
  match ty with
  | Items.SWORD | Items.WAND | Items.HALBERD => [(Items.k_damage, 80); (Items.k_armor, 20)]
  | Items.AXE | Items.KATANA | Items.CROSSBOW => [(Items.k_damage, 90); (Items.k_armor, 10)]
  | Items.DAGGER | Items.BOW | Items.GREATSWORD => [(Items.k_damage, 85); (Items.k_armor, 15)]
  | Items.SPEAR => [(Items.k_damage, 75); (Items.k_armor, 25)]
  | Items.SCYTHE => [(Items.k_damage, 95); (Items.k_armor, 5)]
  | Items.HAMMER => [(Items.k_damage, 60); (Items.k_armor, 40)]
  | Items.MACE => [(Items.k_damage, 65); (Items.k_armor, 35)]
  | Items.KNIFE | Items.STAFF => [(Items.k_damage, 70); (Items.k_armor, 30)]
  | Items.SHIELD => [(Items.k_damage, 10); (Items.k_armor, 90)]
  | Items.HELMET => [(Items.k_armor, 40); (Items.k_luck, 30); (Items.k_magic, 20); (Items.k_health, 10)]
  | Items.CHESTPLATE => [(Items.k_armor, 50); (Items.k_health, 40); (Items.k_speed, 10)]
  | Items.LEGGINGS => [(Items.k_armor, 60); (Items.k_health, 30); (Items.k_speed, 10)]
  | Items.GAUNTLETS => [(Items.k_armor, 30); (Items.k_crit, 40); (Items.k_speed, 20); (Items.k_magic, 10)]
  | Items.BOOTS => [(Items.k_armor, 40); (Items.k_speed, 40); (Items.k_luck, 20)]
  end.

(** Sum of [floor(total * ratio)] over a ratio dictionary, in exact
    arithmetic. *)
Definition floor_allocation_sum (total : Z) (ratios : list (Items.StatKey * Z)) : Z :=
  fold_right (fun kp acc => total * snd kp / 100 + acc) 0 ratios.

(** Raw draws for which [random.random()] returns 0.5 and 0.7. *)
Definition draw_050 : Z := 2 ^ 52.
Definition draw_070 : Z := 6305039478318694.

(** A level-1 character with luck 1.0 and nothing equipped, and a
    difficulty-1 adventure of ten minutes that is over. *)
Definition novice : Store.Character :=
  Store.mkCharacter 7 "Ayla" 1 0 0 1.0%float 0 1.0%float 1.0%float.

Definition novice_adventure : Store.Adventure :=
  Store.mkAdventure 7 "Forest Exploration" 1 0 600 Store.active.

Definition novice_db : Store.DB :=
  Store.mkDB [novice] [] [novice_adventure] [] [] [].

(** Two level-10 characters with nothing equipped. *)
Definition fighter_1 : Store.Character :=
  Store.mkCharacter 1 "Brakk" 10 0 0 1.0%float 0 1.0%float 1.0%float.
Definition fighter_2 : Store.Character :=
  Store.mkCharacter 2 "Cylia" 10 0 0 1.0%float 0 1.0%float 1.0%float.
Definition arena_db : Store.DB :=
  Store.mkDB [fighter_1; fighter_2] [] [] [] [] [].

(** Width of the jitter interval of a team format. *)
Definition jitter_width (b : Autoplay.TeamBattle) : float :=
  PrimFloat.sub (snd (Autoplay.jitter_range b)) (fst (Autoplay.jitter_range b)).

(** An uncommon dagger (damage 9, armor 1: stat total 10) as stored. *)
Definition worn_dagger : Store.ItemRow :=
  Store.mkItemRow 12 7 "Sharp Dagger" Items.DAGGER 900 9 1 Items.ANY false
    (Some 0) (Some 0) (Some 0%float) (Some 0%float) (Some 0)
    (Some Items.weapon) (Some 0).

(** Journal entries that apply a reward (currency, xp, level, items), and
    those that move a work unit out of 'active'. *)
Definition is_reward (w : Store.Write) : bool :=
  match w with
  | Store.W_update_character _ | Store.W_create_item _ => true
  | _ => false
  end.

Definition is_finalize (w : Store.Write) : bool :=
  match w with
  | Store.W_adventure_status _ _ _ | Store.W_epic_status _ _ => true
  | _ => false
  end.

(** In a chronological list of writes, no reward is written before the
    first status transition. *)
Fixpoint rewards_follow_finalize (ws : list Store.Write) : bool :=
  match ws with
  | [] => true
  | w :: rest =>
      if is_finalize w then true
      else if is_reward w then false
      else rewards_follow_finalize rest
  end.

(** A level-12 character and an epic adventure of theirs that is over. *)
Definition veteran : Store.Character :=
  Store.mkCharacter 9 "Doran" 12 14400 500 1.0%float 3 1.0%float 1.0%float.

Definition veteran_epic : Store.EpicAdventure :=
  Store.mkEpicAdventure 1 9 Store.epic "Lost City of Gold" 2 0 18000
    2000 8000 10 19 Store.active.

Definition veteran_db : Store.DB :=
  Store.mkDB [veteran] [] [] [veteran_epic] [] [].

(** The active work units of a participant, per category. *)
Definition active_adventures (user_id : Z) (db : Store.DB) : list Store.Adventure :=
  filter (fun a => (Store.a_user_id a =? user_id)
                   && Store.status_eqb (Store.a_status a) Store.active)
         (Store.adventures db).

Definition active_epics (user_id : Z) (db : Store.DB) : list Store.EpicAdventure :=
  filter (fun e => (Store.e_user_id e =? user_id)
                   && Store.status_eqb (Store.e_status e) Store.active)
         (Store.epic_adventures db).

Definition at_most_one_active (db : Store.DB) : Prop :=
  forall user_id,
    (length (active_adventures user_id db) <= 1)%nat
    /\ (length (active_epics user_id db) <= 1)%nat.

(** All work units of a participant, per category. *)
Definition adventures_of (user_id : Z) (db : Store.DB) : list Store.Adventure :=
  filter (fun a => Store.a_user_id a =? user_id) (Store.adventures db).

Definition epics_of (user_id : Z) (db : Store.DB) : list Store.EpicAdventure :=
  filter (fun e => Store.e_user_id e =? user_id) (Store.epic_adventures db).

(** [profile] has one row per user. *)
Definition keyed (db : Store.DB) : Prop :=
  NoDup (map Store.c_user_id (Store.profile db)).

(** [!create]: a row is added for a user who has none. *)
Definition create_character (db : Store.DB) (c : Store.Character) : option Store.DB :=
  match Store.get_character db (Store.c_user_id c) with
  | Some _ => None
  | None =>
      Some (Store.mkDB (Store.profile db ++ [c]) (Store.inventory db)
              (Store.adventures db) (Store.epic_adventures db)
              (Store.divine_blessings db) (Store.journal db))
  end.

(** The profile rows of [db'] belong to the same users as those of [db]. *)
Definition same_users (db db' : Store.DB) : Prop :=
  map Store.c_user_id (Store.profile db') = map Store.c_user_id (Store.profile db).

(** One write to the store.  The statements of the cogs that insert into
    [adventures], [epic_adventures] or [profile], or change the status of a
    work unit, each have their constructor; a row is inserted only for a
    participant who has no active unit of the category at that moment (that
    the code inserts under no other condition is proved of the jobs, see
    [block]).  Every other statement of the cogs adds no user to [profile],
    removes none, and leaves the two tables of work units alone:
    [step_elsewhere] covers it. *)
Inductive step : Store.DB -> Store.DB -> Prop :=
  | step_create db c db' :
      create_character db c = Some db' ->
      step db db'
  | step_insert_adventure db row :
      Store.has_active_adventure db (Store.a_user_id row) = false ->
      step db (Store.insert_adventure db row)
  | step_insert_epic db mk :
      Store.has_active_epic db
        (Store.e_user_id (mk (Z.of_nat (length (Store.epic_adventures db)) + 1)))
      = false ->
      step db (Store.insert_epic db mk)
  | step_complete_adventures_of db user_id finish_at :
      step db (Store.complete_adventures_of db user_id finish_at)
  | step_complete_adventure db id success :
      step db (Store.complete_adventure db id success)
  | step_complete_epic db id :
      step db (Store.complete_epic db id)
  | step_update_character db user_id upd :
      (forall c, Store.c_user_id (upd c) = Store.c_user_id c) ->
      step db (Store.update_character db user_id upd)
  | step_create_item_in_db db item :
      step db (Store.create_item_in_db db item)
  | step_create_item db owner name type value damage armor hand :
      step db (Store.create_item db owner name type value damage armor hand)
  | step_delete_blessings db user_id gone :
      step db (Store.delete_blessings db user_id gone)
  | step_commit db :
      step db (Store.commit db)
  | step_elsewhere db db' :
      same_users db db' ->
      Store.adventures db' = Store.adventures db ->
      Store.epic_adventures db' = Store.epic_adventures db ->
      step db db'.

(** The stores reached from [db0] by writes, one at a time: whatever runs
    between two writes, and wherever a run is cut short, the store is one of
    these. *)
Inductive reachable (db0 : Store.DB) : Store.DB -> Prop :=
  | reach_start : reachable db0 db0
  | reach_step db db' : reachable db0 db -> step db db' -> reachable db0 db'.

(** One stretch of a job or of a command that no [await] interrupts, run on
    whatever store it finds, and the store it leaves on return or at the
    exception that ends it.  A round of the loop of
    [check_epic_completions] ends with an [await]: each round is a stretch
    of its own, on a row selected before the earlier rounds; the same holds
    for [!cancel] after its confirmation. *)
Inductive block : Store.DB -> Store.DB -> Prop :=
  | block_auto_adventure_loop channel online now db g faults :
      block db (Job.store
        (Handlers.auto_adventure_loop channel online now db g faults))
  | block_level_up_check channel online now db g faults :
      block db (Job.store (Handlers.level_up_check channel online now db g faults))
  | block_auto_epic_adventures channel online now db g faults :
      block db (Job.store
        (Handlers.auto_epic_adventures channel online now db g faults))
  | block_epic_complete_one religion_cog now adventure db g faults :
      block db (Job.store
        (Handlers.epic_complete_one religion_cog now adventure db g faults))
  | block_check_epic_completions channel religion_cog now db g faults :
      block db (Job.store
        (Handlers.check_epic_completions channel religion_cog now db g faults))
  | block_status religion_cog now user_id db g faults :
      block db (Job.store (Handlers.status religion_cog now user_id db g faults))
  | block_complete religion_cog now user_id db g faults :
      block db (Job.store (Handlers.complete religion_cog now user_id db g faults))
  | block_complete_adventure religion_cog now user_id id adventure_data db g faults :
      block db (Job.store
        (Handlers.complete_adventure religion_cog now user_id id adventure_data
           db g faults))
  | block_cancel_confirmed id db g faults :
      block db (Job.store (Handlers.cancel_confirmed id db g faults))
  | block_create_character db c db' :
      create_character db c = Some db' ->
      block db db'.

(** Whatever the store, the draws and the statements that raise, and
    however the run ends, the store [m] leaves is related to the one it
    found by [R]. *)
Definition confined {A} (R : Store.DB -> Store.DB -> Prop) (m : Job.M A) : Prop :=
  forall db g faults, R db (Job.store (m db g faults)).

(** The adventures, respectively the epic adventures, of every participant
    who has an active one in [db] are the same in [db']. *)
Definition adventures_kept (db db' : Store.DB) : Prop :=
  forall user_id,
    Store.has_active_adventure db user_id = true ->
    adventures_of user_id db' = adventures_of user_id db.

Definition epics_kept (db db' : Store.DB) : Prop :=
  forall user_id,
    Store.has_active_epic db user_id = true ->
    epics_of user_id db' = epics_of user_id db.

(** A sword with base damage 7 and armor 3. *)
Definition sample_sword : Items.Item :=
  Items.mkItem 1 7 "Sharp Blade" Items.SWORD 900 7 3 Items.ANY true 0 0
    0%float 0%float 0 (Some Items.weapon) 0.

(** A sword with base damage 3. *)
Definition small_sword : Items.Item :=
  Items.mkItem 1 7 "Sharp Blade" Items.SWORD 900 3 0 Items.ANY true 0 0
    0%float 0%float 0 (Some Items.weapon) 0.

(** What a run of [auto_epic_adventures] guarantees. *)
Definition epic_frame (db db' : Store.DB) : Prop :=
  Store.profile db' = Store.profile db
  /\ Store.adventures db' = Store.adventures db
  /\ (forall user_id, (length (active_epics user_id db') <= 1)%nat)
  /\ (forall user_id, Store.has_active_epic db user_id = true ->
        epics_of user_id db' = epics_of user_id db).

(** The arena after a run of [auto_adventure_loop] at second 1000 with only
    the first fighter online, and after a second run five minutes later
    with both online. *)
Definition arena_after_departure : Store.DB :=
  Job.store
    (Handlers.auto_adventure_loop true (fun user_id => user_id =? 1) 1000
       arena_db [3; 0; 4; 2] []).

Definition arena_after_second_departure : Store.DB :=
  Job.store
    (Handlers.auto_adventure_loop true (fun _ => true) 1300
       arena_after_departure [5; 0; 1; 7] []).

(** The return of both fighters at second 5000, cut short: the fourth
    statement of [level_up_check], the update of the second fighter's
    profile row, raises. *)
Definition arena_after_interrupted_return : Store.DB :=
  Job.store
    (Handlers.level_up_check true (fun _ => true) 5000
       arena_after_second_departure [10; 20; 30; 40; 2 ^ 52; 1; 2; 3; 4; 5; 6; 7; 8; 9]
       [false; false; false; true]).

(** The string a slot is stored as ([get_slot_for_type] returns it). *)
Definition slot_name (s : Items.Slot) : string :=
  match s with
  | Items.weapon => "weapon"
  | Items.shield => "shield"
  | Items.head => "head"
  | Items.chest => "chest"
  | Items.legs => "legs"
  | Items.hands => "hands"
  | Items.feet => "feet"
  end.

(** The five armor types, which [get_type_stats] looks up in [armor_stats]. *)
Definition is_armor (t : Items.ItemType) : bool :=
  match t with
  | Items.HELMET | Items.CHESTPLATE | Items.LEGGINGS | Items.GAUNTLETS
  | Items.BOOTS => true
  | _ => false
  end.

(** The range [generate_item] rolls the total in. *)
Definition rolled_range (min_stat max_stat : Z) (rarity : option Items.ItemRarity)
  : Z * Z :=
  match rarity with
  | Some r => Items.stat_ranges r
  | None => (min_stat, max_stat)
  end.

(** The prefix list [generate_name] draws from. *)
Definition name_prefixes (damage armor total : Z) : list string :=
  if total >=? 40 then Items.LEGENDARY_PREFIXES
  else if damage >? armor * 2 then Items.DAMAGE_PREFIXES
  else if armor >? damage * 2 then Items.ARMOR_PREFIXES
  else Items.MIXED_PREFIXES.

(** A call on an [Inventory]: [equip_item] or [unequip_item] of the object
    at a position, or of an object that is not in the list. *)
Inductive InventoryCall : Type :=
  | call_equip (i : option nat)
  | call_unequip (i : option nat).

Definition run_call (items : list Items.Item) (c : InventoryCall) : list Items.Item :=
  match c with
  | call_equip i => fst (Items.equip_item items i)
  | call_unequip i => fst (Items.unequip_item items i)
  end.

Definition run_calls (items : list Items.Item) (calls : list InventoryCall)
  : list Items.Item :=
  fold_left run_call calls items.

(** An equipped item of the given hand exists. *)
Definition holds (h : Items.ItemHand) (items : list Items.Item) : bool :=
  existsb (fun e => Items.hand_eqb (Items.hand e) h) (Items.equipped_items items).

(** The equipped items are none, one, or two of which one has the hand
    [ANY] or one the hand [LEFT] and the other the hand [RIGHT]. *)
Definition hands_consistent (items : list Items.Item) : Prop :=
  (length (Items.equipped_items items) <= 1)%nat
  \/ (length (Items.equipped_items items) = 2%nat
      /\ (holds Items.ANY items = true
          \/ (holds Items.LEFT items = true /\ holds Items.RIGHT items = true))).

(** Two items as the generator makes them, not equipped: a shield (left
    hand) and a sword (any hand). *)
Definition spare_shield : Items.Item :=
  Items.mkItem 0 7 "Sturdy Shield" Items.SHIELD 900 1 9 Items.LEFT false 0 0
    0%float 0%float 0 (Some Items.shield) 0.

Definition spare_sword : Items.Item :=
  Items.mkItem 0 7 "Sharp Blade" Items.SWORD 900 8 2 Items.ANY false 0 0
    0%float 0%float 0 (Some Items.weapon) 0.

(** A blessing of the user that has not expired at [now]. *)
Definition is_active_blessing (user_id now : Z) (b : Store.Blessing) : Prop :=
  Store.b_user_id b = user_id /\ now < Store.b_expires_at b.

Definition effect_eqb (a b : Store.BlessingEffect) : bool :=
  match a, b with
  | Store.eff_luck, Store.eff_luck
  | Store.eff_xp_mult, Store.eff_xp_mult
  | Store.eff_gold_mult, Store.eff_gold_mult
  | Store.eff_battle_mult, Store.eff_battle_mult
  | Store.eff_protection, Store.eff_protection
  | Store.eff_adventure_success, Store.eff_adventure_success => true
  | _, _ => false
  end.

(** A multiplier of the blessing dictionary is 1.0 or the value of one of
    the given blessings of the given effect. *)
Definition one_of_values (x : float) (eff : Store.BlessingEffect)
  (blessings : list Store.Blessing) : Prop :=
  x = 1.0%float
  \/ exists b, In b blessings /\ Store.b_effect b = eff /\ x = Store.b_value b.

(** The key of the level band of a character in [run_1v1_battle]. *)
Definition level_band (c : Store.Character) : Z := Store.c_level c / 5 * 5.

(** The groups of [level_groups] hold characters already seen, each group
    those of one band, without repeating a user. *)
Definition groups_ok (seen : list Store.Character)
  (groups : list (Z * list Store.Character))
  : Prop :=
  forall k members,
    In (k, members) groups ->
    incl members seen
    /\ (forall c, In c members -> level_band c = k)
    /\ NoDup (map Store.c_user_id members).

(** The arena with an xp blessing on each fighter (times 2 for the first,
    times 1.5 for the second), both valid until clock 100. *)
Definition blessed_arena_db : Store.DB :=
  Store.mkDB [fighter_1; fighter_2] [] [] []
    [Store.mkBlessing 1 Store.eff_xp_mult 2%float 100;
     Store.mkBlessing 2 Store.eff_xp_mult 1.5%float 100] [].

(** Every user is a human; the first user is an elf and the others dwarves. *)
Definition all_human (user_id : Z) : option (option string) :=
  Some (Some "Human"%string).

Definition elf_and_dwarves (user_id : Z) : option (option string) :=
  if user_id =? 1 then Some (Some "Elf"%string) else Some (Some "Dwarf"%string).

(** The revaluation of an epic ([* 1.5]) or legendary ([* 2]) item is
    defined and equals the truncated exact product. *)
Definition revalued_check (value : Z) : bool :=
  opt_is (Py.int_of_float (PrimFloat.mul (Py.float_of_int value) 1.5%float))
         (3 * value / 2)
  && opt_is (Py.int_of_float (PrimFloat.mul (Py.float_of_int value) 2%float))
            (2 * value).

(** The name prefix and the value of an item of an epic adventure. *)
Definition epic_prefix (kind : Store.EpicKind) : string :=
  match kind with
  | Store.epic => "Epic "
  | Store.legendary => "Legendary "
  end.

Definition epic_value (kind : Store.EpicKind) (value : Z) : Z :=
  match kind with
  | Store.epic => 3 * value / 2
  | Store.legendary => 2 * value
  end.

(** The number of evolutions that lead from Novice to a class. *)
Definition class_tier (c : Classes.CharacterClass) : nat :=
  match c with
  | Classes.NOVICE => 0
  | Classes.WARRIOR | Classes.THIEF | Classes.MAGE | Classes.RANGER
  | Classes.RAIDER | Classes.RITUALIST | Classes.PARAGON => 1
  | Classes.SWORDSMAN | Classes.KNIGHT | Classes.ROGUE | Classes.ASSASSIN
  | Classes.WIZARD | Classes.WARLOCK | Classes.HUNTER | Classes.TRACKER
  | Classes.VIKING | Classes.CHIEFTAIN | Classes.MYSTIC | Classes.SHAMAN
  | Classes.CHAMPION => 2
  | Classes.WARLORD | Classes.PALADIN | Classes.BANDIT | Classes.SHADOW
  | Classes.SORCERER | Classes.NECROMANCER | Classes.BOWMASTER
  | Classes.BEASTMASTER | Classes.RAVAGER | Classes.CONQUEROR
  | Classes.ORACLE | Classes.SAGE | Classes.HERO => 3
  | Classes.BERSERKER | Classes.NIGHTBLADE | Classes.ARCHMAGE
  | Classes.MARKSMAN | Classes.WARCHIEF | Classes.PROPHET
  | Classes.LEGEND => 4
  | Classes.ETERNAL => 5
  | Classes.IMMORTAL => 6
  end.

(** [evolves n c c']: [n] evolutions lead from [c] to [c']. *)
Inductive evolves : nat -> Classes.CharacterClass -> Classes.CharacterClass -> Prop :=
  | evolves_refl c : evolves 0 c c
  | evolves_step n c c1 c' :
      In c1 (Classes.get_evolutions c) -> evolves n c1 c' -> evolves (S n) c c'.

(** The line under which the enumeration lists a class. *)
Definition class_line (c : Classes.CharacterClass) : option Classes.Line :=
  match c with
  | Classes.NOVICE => None
  | Classes.WARRIOR | Classes.SWORDSMAN | Classes.KNIGHT | Classes.WARLORD
  | Classes.BERSERKER | Classes.PALADIN => Some Classes.warrior_line
  | Classes.THIEF | Classes.ROGUE | Classes.ASSASSIN | Classes.BANDIT
  | Classes.SHADOW | Classes.NIGHTBLADE => Some Classes.thief_line
  | Classes.MAGE | Classes.WIZARD | Classes.WARLOCK | Classes.SORCERER
  | Classes.ARCHMAGE | Classes.NECROMANCER => Some Classes.mage_line
  | Classes.RANGER | Classes.HUNTER | Classes.TRACKER | Classes.BOWMASTER
  | Classes.BEASTMASTER | Classes.MARKSMAN => Some Classes.ranger_line
  | Classes.RAIDER | Classes.VIKING | Classes.CHIEFTAIN | Classes.RAVAGER
  | Classes.CONQUEROR | Classes.WARCHIEF => Some Classes.raider_line
  | Classes.RITUALIST | Classes.MYSTIC | Classes.SHAMAN | Classes.ORACLE
  | Classes.SAGE | Classes.PROPHET => Some Classes.ritualist_line
  | Classes.PARAGON | Classes.CHAMPION | Classes.HERO | Classes.LEGEND
  | Classes.ETERNAL | Classes.IMMORTAL => Some Classes.paragon_line
  end.

(** The class names [get_class_bonuses] tests with [in]. *)
Definition special_names : list string :=
  ["Berserker"; "Paladin"; "Assassin"; "Shadow"; "Necromancer"; "Archmage";
   "Marksman"; "Warchief"; "Prophet"; "Immortal"]%string.

(** The xp taken by [k] level-ups starting at [level]. *)
Fixpoint xp_spent (level : Z) (k : nat) : Z :=
  match k with
  | O => 0
  | S k' => level ^ 2 * 100 + xp_spent (level + 1) k'
  end.

(* ================================================================== *)
(** * Properties *)
(* ================================================================== *)

(** ** Tools *)

Lemma range_from_In : forall n lo z,
  lo <= z < lo + Z.of_nat n -> In z (range_from lo n).
Proof.
  induction n as [|n IH]; intros lo z Hz; simpl.
  - lia.
  - destruct (Z.eq_dec lo z) as [->|Hne]; [now left|right].
    apply IH. lia.
Qed.

Lemma forallb_range (P : Z -> bool) (lo : Z) (n : nat) :
  forallb P (range_from lo n) = true ->
  forall z, lo <= z < lo + Z.of_nat n -> P z = true.
Proof.
  intros H z Hz. rewrite forallb_forall in H. apply H, range_from_In, Hz.
Qed.

Lemma bind_Some {A B} (m : Py.Rand A) (k : A -> Py.Rand B) g b g' :
  Py.bind m k g = Some (b, g') ->
  exists a g1, m g = Some (a, g1) /\ k a g1 = Some (b, g').
Proof.
  unfold Py.bind. destruct (m g) as [[a g1]|]; [|discriminate].
  intros H. now exists a, g1.
Qed.

Lemma lift_Some {A} (o : option A) g a g' :
  Py.lift o g = Some (a, g') -> o = Some a /\ g' = g.
Proof.
  unfold Py.lift. destruct o; [|discriminate]. intros H; inversion H; auto.
Qed.

Lemma ret_Some {A} (x : A) g a g' :
  Py.ret x g = Some (a, g') -> a = x /\ g' = g.
Proof. unfold Py.ret. intros H; inversion H; auto. Qed.

Lemma randint_range a b g v g' :
  Py.randint a b g = Some (v, g') -> a <= v <= b.
Proof.
  unfold Py.randint. destruct (Z.leb_spec a b) as [Hab|Hab]; [|discriminate].
  intros H. apply bind_Some in H. destruct H as (u & g1 & _ & H).
  apply ret_Some in H. destruct H as [-> _].
  pose proof (Z.mod_pos_bound u (b - a + 1)). lia.
Qed.

(** Break a hypothesis [(x <- m ;; k) g = Some _] into its steps. *)
Tactic Notation "step_bind" hyp(H) "as" ident(x) ident(Hx) :=
  apply bind_Some in H;
  let g := fresh "g" in destruct H as (x & g & Hx & H).

Lemma all_item_types_complete : forall ty, In ty Items.all_item_types.
Proof. intros []; simpl; tauto. Qed.

(** ** Rarity classification *)

Section Rarity.
Import Items.

Lemma rarity_of_total_spec (t : Z) :
  (t < 10 /\ rarity_of_total t = COMMON)
  \/ (10 <= t < 20 /\ rarity_of_total t = UNCOMMON)
  \/ (20 <= t < 30 /\ rarity_of_total t = RARE)
  \/ (30 <= t < 40 /\ rarity_of_total t = MAGIC)
  \/ (40 <= t < 45 /\ rarity_of_total t = LEGENDARY)
  \/ (45 <= t < 50 /\ rarity_of_total t = MYTHIC)
  \/ (50 <= t /\ rarity_of_total t = DIVINE).
Proof.
  unfold rarity_of_total. rewrite !Z.geb_leb.
  repeat match goal with
         | |- context [?a <=? ?b] => destruct (Z.leb_spec a b)
         end; intuition lia.
Qed.

Lemma rarity_of_total_monotone (t1 t2 : Z) :
  t1 <= t2 -> rarity_rank (rarity_of_total t1) <= rarity_rank (rarity_of_total t2).
Proof.
  intros Hle.
  destruct (rarity_of_total_spec t1) as [H1|[H1|[H1|[H1|[H1|[H1|H1]]]]]];
  destruct (rarity_of_total_spec t2) as [H2|[H2|[H2|[H2|[H2|[H2|H2]]]]]];
  destruct H1 as [B1 ->]; destruct H2 as [B2 ->]; simpl; lia.
Qed.

Lemma blacksmith_rarity_of_total_eq (t : Z) :
  Blacksmith.rarity_of_total t = rarity_of_total t.
Proof. reflexivity. Qed.

Lemma percent_points_zero : percent_points 0%float = Some 0.
Proof. reflexivity. Qed.

Lemma row_of_item_rarity (id : Z) (item : Item) :
  Blacksmith._get_item_rarity (Store.row_of_item id item) = rarity item.
Proof. reflexivity. Qed.

Lemma item_of_row_rarity (row : Store.ItemRow) :
  rarity (Blacksmith.item_of_row row) = Blacksmith._get_item_rarity row.
Proof.
  unfold rarity, Blacksmith._get_item_rarity, stat_total, Blacksmith.row_stat_total.
  destruct row as [? ? ? ? ? ? ? ? ? h s l c m ? ?]; simpl.
  destruct l as [l|], c as [c|]; simpl;
    rewrite ?percent_points_zero; reflexivity.
Qed.

(** C5. The rarity classifier is monotonic in the stat total; its seven
    tiers are exactly the intervals [0,10), [10,20), [20,30), [30,40),
    [40,45), [45,50) and [50, oo), which partition the non-negative totals;
    the boundary totals 9, 10, 19, 20, 29, 30, 39, 40, 44, 45, 49, 50 fall in
    common, uncommon, uncommon, rare, rare, magic, magic, legendary,
    legendary, mythic, mythic, divine; and the classifier of the item class
    and the one of the blacksmith cog return the same tier on every total,
    on every item and on every stored row. *)
Theorem rarity_classifier_partition :
  (forall t1 t2, t1 <= t2 ->
     rarity_rank (rarity_of_total t1) <= rarity_rank (rarity_of_total t2))
  /\ (forall t, 0 <= t ->
        (rarity_of_total t = COMMON <-> 0 <= t < 10)
        /\ (rarity_of_total t = UNCOMMON <-> 10 <= t < 20)
        /\ (rarity_of_total t = RARE <-> 20 <= t < 30)
        /\ (rarity_of_total t = MAGIC <-> 30 <= t < 40)
        /\ (rarity_of_total t = LEGENDARY <-> 40 <= t < 45)
        /\ (rarity_of_total t = MYTHIC <-> 45 <= t < 50)
        /\ (rarity_of_total t = DIVINE <-> 50 <= t))
  /\ map rarity_of_total [9; 10; 19; 20; 29; 30; 39; 40; 44; 45; 49; 50]
     = [COMMON; UNCOMMON; UNCOMMON; RARE; RARE; MAGIC; MAGIC; LEGENDARY;
        LEGENDARY; MYTHIC; MYTHIC; DIVINE]
  /\ (forall t, Blacksmith.rarity_of_total t = rarity_of_total t)
  /\ (forall id item,
        Blacksmith._get_item_rarity (Store.row_of_item id item) = rarity item)
  /\ (forall row,
        Blacksmith._get_item_rarity row = rarity (Blacksmith.item_of_row row)).
Proof.
  split; [|split; [|split; [|split; [|split]]]].
  - exact rarity_of_total_monotone.
  - intros t Ht.
    destruct (rarity_of_total_spec t) as [H|[H|[H|[H|[H|[H|H]]]]]];
      destruct H as [B ->]; repeat split; intros; try discriminate; try lia;
      reflexivity.
  - reflexivity.
  - exact blacksmith_rarity_of_total_eq.
  - exact row_of_item_rarity.
  - intros row. symmetry. apply item_of_row_rarity.
Qed.

Lemma rarity_classifier_partition_witness :
  rarity_rank (rarity_of_total 12) <= rarity_rank (rarity_of_total 47)
  /\ (rarity_of_total 44 = LEGENDARY <-> 40 <= 44 < 45).
Proof.
  split.
  - apply (proj1 rarity_classifier_partition 12 47). lia.
  - apply (proj1 (proj2 rarity_classifier_partition) 44). lia.
Defined.

End Rarity.

(** ** Upgrade transform *)

Section Upgrade.
Import Items.

Lemma opt_is_Some o v : opt_is o v = true -> o = Some v.
Proof.
  destruct o as [a|]; simpl; [|discriminate].
  intros H. apply Z.eqb_eq in H. now subst.
Qed.

Lemma opt_le_Some o1 o2 :
  opt_le o1 o2 = true -> exists a b, o1 = Some a /\ o2 = Some b /\ a <= b.
Proof.
  destruct o1 as [a|], o2 as [b|]; simpl; try discriminate.
  intros H. apply Z.leb_le in H. now exists a, b.
Qed.

Lemma upgrade_check_all : forallb upgrade_check (range_from 0 (Z.to_nat 2001)) = true.
Proof. vm_compute. reflexivity. Qed.

Lemma upgrade_fraction_check_all :
  forallb upgrade_fraction_check (range_from 0 101) = true.
Proof. vm_compute. reflexivity. Qed.

Lemma upgrade_multiplier_0 : upgrade_multiplier 0 = 1.0%float.
Proof. reflexivity. Qed.

Lemma upgrade_multiplier_10 : upgrade_multiplier 10 = 1.5%float.
Proof. reflexivity. Qed.

Lemma scaled_level_facts (base : Z) :
  0 <= base <= 2000 ->
  scaled base (upgrade_multiplier 0) = Some base
  /\ scaled base (upgrade_multiplier 10) = Some (3 * base / 2)
  /\ forall l, 0 <= l < 10 ->
       exists a b, scaled base (upgrade_multiplier l) = Some a
                   /\ scaled base (upgrade_multiplier (l + 1)) = Some b
                   /\ a <= b.
Proof.
  intros Hb.
  pose proof (forallb_range _ _ _ upgrade_check_all base ltac:(lia)) as H.
  unfold upgrade_check in H.
  apply andb_true_iff in H. destruct H as [H Hadj].
  apply andb_true_iff in H. destruct H as [H0 H10].
  split; [now apply opt_is_Some|]. split; [now apply opt_is_Some|].
  intros l Hl. apply opt_le_Some.
  exact (forallb_range _ _ _ Hadj l ltac:(lia)).
Qed.

Lemma scaled_monotone (base : Z) :
  0 <= base <= 2000 ->
  forall (n : nat) l1, 0 <= l1 -> l1 + Z.of_nat n <= 10 ->
    exists v1 v2, scaled base (upgrade_multiplier l1) = Some v1
                  /\ scaled base (upgrade_multiplier (l1 + Z.of_nat n)) = Some v2
                  /\ v1 <= v2.
Proof.
  intros Hb. destruct (scaled_level_facts base Hb) as (H0 & H10 & Hadj).
  induction n as [|n IH]; intros l1 Hl1 Hle.
  - rewrite Z.add_0_r.
    destruct (Z.eq_dec l1 10) as [->|Hne].
    + exists (3 * base / 2), (3 * base / 2). repeat split; auto; lia.
    + destruct (Hadj l1 ltac:(lia)) as (a & b & Ha & _ & _).
      exists a, a. repeat split; auto; lia.
  - destruct (IH l1 Hl1 ltac:(lia)) as (v1 & v2 & E1 & E2 & Hv).
    destruct (Hadj (l1 + Z.of_nat n) ltac:(lia)) as (a & b & Ea & Eb & Hab).
    rewrite E2 in Ea. inversion Ea; subst a.
    exists v1, b. split; [exact E1|]. split; [|lia].
    replace (l1 + Z.of_nat (S n)) with (l1 + Z.of_nat n + 1) by lia. exact Eb.
Qed.

Lemma scaled_upgrade_facts (base l1 l2 : Z) :
  0 <= base <= 2000 -> 0 <= l1 <= l2 -> l2 <= 10 ->
  exists v1 v2,
    scaled base (upgrade_multiplier l1) = Some v1
    /\ scaled base (upgrade_multiplier l2) = Some v2
    /\ v1 <= v2
    /\ scaled base (upgrade_multiplier 0) = Some base
    /\ scaled base (upgrade_multiplier 10) = Some (3 * base / 2).
Proof.
  intros Hb Hl Hl2.
  destruct (scaled_monotone base Hb (Z.to_nat (l2 - l1)) l1 ltac:(lia) ltac:(lia))
    as (v1 & v2 & E1 & E2 & Hv).
  replace (l1 + Z.of_nat (Z.to_nat (l2 - l1))) with l2 in E2 by lia.
  destruct (scaled_level_facts base Hb) as (H0 & H10 & _).
  exists v1, v2. auto.
Qed.

Lemma fraction_upgrade_facts (k l1 l2 : Z) :
  0 <= k <= 100 -> 0 <= l1 <= l2 -> l2 <= 10 ->
  let x := fraction_of_points k in
  PrimFloat.leb (PrimFloat.mul x (upgrade_multiplier l1))
                (PrimFloat.mul x (upgrade_multiplier l2)) = true
  /\ PrimFloat.eqb (PrimFloat.mul x (upgrade_multiplier 0)) x = true.
Proof.
  intros Hk Hl Hl2 x.
  pose proof (forallb_range _ _ _ upgrade_fraction_check_all k ltac:(lia)) as H.
  unfold upgrade_fraction_check in H.
  apply andb_true_iff in H. destruct H as [H0 Hmono].
  split; [|exact H0].
  pose proof (forallb_range _ _ _ Hmono l1 ltac:(lia)) as H1.
  pose proof (forallb_range _ _ _ H1 l2 ltac:(lia)) as H2.
  apply orb_true_iff in H2. destruct H2 as [H2|H2]; [|exact H2].
  apply negb_true_iff, Z.leb_gt in H2. lia.
Qed.

Lemma upgrade_level_capped (current_level : Z) g new_level g' :
  0 <= current_level <= 10 ->
  Blacksmith.upgrade current_level g = Some (Some new_level, g') ->
  0 <= new_level <= 10.
Proof.
  intros Hc H. unfold Blacksmith.upgrade in H.
  destruct (Z.geb_spec current_level 10) as [Hge|Hlt].
  - apply ret_Some in H. destruct H; discriminate.
  - step_bind H as r Hr.
    destruct (Py.flt r _).
    + apply ret_Some in H. destruct H as [H _]. inversion H. lia.
    + destruct (Z.eqb_spec (current_level + 1) 10).
      * apply ret_Some in H. destruct H as [H _]. inversion H. lia.
      * destruct (current_level + 1 >=? 7);
          apply ret_Some in H; destruct H as [H _]; inversion H; lia.
Qed.

(** C4 (amended). For every integer stat field with a base value from 0 to
    2000 and upgrade levels [0 <= l1 <= l2 <= 10], the effective value
    [int(base * (1.0 + 0.05 * level))] is non-decreasing in the level, level 0
    returns the base value, and level 10 returns [floor(3 * base / 2)] (the
    multiplier at level 10 is exactly 1.5, the result is truncated).  For
    the two fractional fields (luck, crit) holding [k / 100.0] with
    [0 <= k <= 100] the effective value is not truncated: it is
    non-decreasing in the level, equal to the base at level 0 and is the
    base times 1.5 at level 10.  The blacksmith's preview computes the same
    value, and an upgrade attempt leaves the level within 0..10. *)
Theorem upgrade_transform_monotone_floor :
  (forall fld, In fld int_stat_fields ->
     forall it l1 l2,
       0 <= fst fld it <= 2000 -> 0 <= l1 <= l2 -> l2 <= 10 ->
       exists v1 v2,
         snd fld (with_upgrade_level it l1) = Some v1
         /\ snd fld (with_upgrade_level it l2) = Some v2
         /\ v1 <= v2
         /\ snd fld (with_upgrade_level it 0) = Some (fst fld it)
         /\ snd fld (with_upgrade_level it 10) = Some (3 * fst fld it / 2))
  /\ (forall fld, In fld fraction_stat_fields ->
        forall it k l1 l2,
          0 <= k <= 100 -> fst fld it = fraction_of_points k ->
          0 <= l1 <= l2 -> l2 <= 10 ->
          PrimFloat.leb (snd fld (with_upgrade_level it l1))
                        (snd fld (with_upgrade_level it l2)) = true
          /\ PrimFloat.eqb (snd fld (with_upgrade_level it 0)) (fst fld it) = true
          /\ snd fld (with_upgrade_level it 10)
             = PrimFloat.mul (fst fld it) 1.5%float)
  /\ (forall stat level,
        Blacksmith.preview_effective stat level
        = scaled stat (upgrade_multiplier level))
  /\ (forall current_level g new_level g',
        0 <= current_level <= 10 ->
        Blacksmith.upgrade current_level g = Some (Some new_level, g') ->
        0 <= new_level <= 10).
Proof.
  split; [|split; [|split]].
  - intros fld Hin it l1 l2 Hb Hl Hl2.
    simpl in Hin.
    destruct Hin as [<-|[<-|[<-|[<-|[<-|[]]]]]]; simpl in *;
      apply scaled_upgrade_facts; assumption.
  - intros fld Hin it k l1 l2 Hk Hx Hl Hl2.
    simpl in Hin.
    destruct Hin as [<-|[<-|[]]]; simpl in *;
      unfold effective_luck_bonus, effective_crit_bonus, _get_upgrade_multiplier;
      simpl; rewrite Hx;
      destruct (fraction_upgrade_facts k l1 l2 Hk Hl Hl2) as [Hm H0];
      (split; [exact Hm|split; [exact H0|reflexivity]]).
  - reflexivity.
  - exact upgrade_level_capped.
Qed.

Lemma upgrade_transform_monotone_floor_witness :
  exists v1 v2,
    effective_damage (with_upgrade_level sample_sword 3) = Some v1
    /\ effective_damage (with_upgrade_level sample_sword 10) = Some v2
    /\ v1 <= v2
    /\ effective_damage (with_upgrade_level sample_sword 0) = Some 7
    /\ effective_damage (with_upgrade_level sample_sword 10) = Some (3 * 7 / 2).
Proof.
  apply (proj1 upgrade_transform_monotone_floor (damage, effective_damage)).
  - simpl. auto.
  - simpl. lia.
  - lia.
  - lia.
Defined.

(** C4, as stated, fails: an item with base damage 3 at upgrade level 10 has
    effective damage 4, which is not 1.5 times 3. *)
Lemma upgrade_level_10_not_exact :
  damage small_sword = 3
  /\ effective_damage (with_upgrade_level small_sword 10) = Some 4
  /\ (2 * 4 =? 3 * 3) = false.
Proof. repeat split. Qed.

End Upgrade.

(** ** Item generation *)

Section Generator.
Import Items.

Lemma within_budget_check_all :
  forallb (fun ty => forallb (within_budget_check ty) (range_from 0 (Z.to_nat 2001)))
          all_item_types = true.
Proof. vm_compute. reflexivity. Qed.

Lemma distribute_within_budget (ty : ItemType) (total : Z) :
  0 <= total <= 2000 ->
  exists s t, distribute ty total = Some s /\ stats_total s = Some t
              /\ 0 <= t <= total.
Proof.
  intros Ht.
  pose proof within_budget_check_all as H. rewrite forallb_forall in H.
  specialize (H ty (all_item_types_complete ty)).
  pose proof (forallb_range _ _ _ H total ltac:(lia)) as Hc.
  unfold within_budget_check in Hc.
  destruct (distribute ty total) as [s|] eqn:Ed; [|discriminate].
  destruct (stats_total s) as [t|] eqn:Es; [|discriminate].
  apply andb_true_iff in Hc. destruct Hc as [H0 H1].
  apply Z.leb_le in H0. apply Z.leb_le in H1. exists s, t.
  split; [reflexivity|split; [exact Es|lia]].
Qed.

(** What [generate_item] returns: the rolled total is at least 4 and the
    stats of the item are the distribution of that total for its type. *)
Lemma generate_item_rolled_inv owner min_stat max_stat ty rarity g total it g' :
  generate_item_rolled owner min_stat max_stat ty rarity g = Some ((total, it), g') ->
  4 <= total
  /\ (forall r, rarity = Some r -> fst (get_stat_range r) <= total <= snd (get_stat_range r))
  /\ (rarity = None -> min_stat <= total <= max_stat)
  /\ exists s, distribute (type it) total = Some s /\ stat_total it = stats_total s.
Proof.
  unfold generate_item_rolled. intros H.
  step_bind H as ty' Hty.
  match type of H with
  | context [let '(_, _) := ?X in _] => destruct X as [lo hi] eqn:Er
  end.
  step_bind H as t Ht. apply randint_range in Ht.
  step_bind H as s Hd. apply lift_Some in Hd. destruct Hd as [Hd ->].
  step_bind H as nm Hnm. step_bind H as k Hk.
  apply ret_Some in H. destruct H as [H _]. inversion H; subst total it; clear H.
  simpl. split; [lia|]. split; [|split].
  - intros r ->. destruct r; simpl in *; inversion Er; subst; simpl; lia.
  - intros ->. inversion Er; subst. lia.
  - exists s. split; [exact Hd|reflexivity].
Qed.

Lemma ratio_percent_spec (ty : ItemType) :
  get_type_stats ty
  = map (fun kp => (fst kp, fraction_of_points (snd kp))) (ratio_percent ty).
Proof. destruct ty; reflexivity. Qed.

Lemma ratio_percent_sum (ty : ItemType) :
  fold_right (fun kp acc => snd kp + acc) 0 (ratio_percent ty) = 100.
Proof. destruct ty; reflexivity. Qed.

Lemma floor_allocation_within_budget (ty : ItemType) (total : Z) :
  0 <= total -> 0 <= floor_allocation_sum total (ratio_percent ty) <= total.
Proof.
  intros Ht. unfold floor_allocation_sum.
  destruct ty; simpl;
    repeat match goal with
           | |- context [?a * ?p / 100] =>
               let q := fresh "q" in
               pose proof (Z.mul_div_le (a * p) 100 ltac:(lia));
               pose proof (Z.div_pos (a * p) 100 ltac:(lia) ltac:(lia));
               set (q := a * p / 100) in *; clearbody q
           end; lia.
Qed.

(** C10. Whenever the generator returns an item (any owner, any item type
    or a random one, any min/max budget, any forced rarity, any random
    draws) and the rolled total is at most 2000, the item's stat total is
    defined and does not exceed the rolled total.  The ratio dictionaries
    are hundredths summing to 100, so that in exact arithmetic the floors
    sum to at most the total for every non-negative total.  The produced
    total can be strictly smaller: a dagger generated with forced rarity
    uncommon and rolled total 10 has stat total 9, below the rolled total
    and below the minimum 10 of the forced tier. *)
Theorem generated_total_within_budget :
  (forall owner min_stat max_stat ty rarity g total it g',
     generate_item_rolled owner min_stat max_stat ty rarity g = Some ((total, it), g') ->
     total <= 2000 ->
     exists t, stat_total it = Some t /\ 0 <= t <= total)
  /\ (forall ty,
        get_type_stats ty
        = map (fun kp => (fst kp, fraction_of_points (snd kp))) (ratio_percent ty)
        /\ fold_right (fun kp acc => snd kp + acc) 0 (ratio_percent ty) = 100
        /\ forall total, 0 <= total ->
             0 <= floor_allocation_sum total (ratio_percent ty) <= total)
  /\ (exists it g',
        generate_item_rolled 7 4 50 (Some DAGGER) (Some UNCOMMON) [0; 1; 2; 3]
        = Some ((10, it), g')
        /\ stat_total it = Some 9
        /\ rarity it = Some COMMON
        /\ fst (get_stat_range UNCOMMON) = 10).
Proof.
  split; [|split].
  - intros owner min_stat max_stat ty rarity g total it g' H Hmax.
    apply generate_item_rolled_inv in H.
    destruct H as (H4 & _ & _ & s & Hd & Hst).
    destruct (distribute_within_budget (type it) total ltac:(lia))
      as (s' & t & Hd' & Ht & Hle).
    rewrite Hd in Hd'. inversion Hd'; subst s'.
    exists t. rewrite Hst. auto.
  - intros ty. split; [apply ratio_percent_spec|].
    split; [apply ratio_percent_sum|].
    intros total Ht. now apply floor_allocation_within_budget.
  - eexists. eexists. split; [vm_compute; reflexivity|].
    repeat split; reflexivity.
Qed.

Lemma generated_total_within_budget_witness :
  exists t,
    stat_total (mkItem 0 7 "Savage Dagger" DAGGER 820 8 1 ANY false 0 0
                       0%float 0%float 0 (Some weapon) 0) = Some t
    /\ 0 <= t <= 10.
Proof.
  apply (proj1 generated_total_within_budget 7 4 50 (Some DAGGER) (Some UNCOMMON)
               [0; 4; 0; 2] 10 _ []).
  - vm_compute. reflexivity.
  - lia.
Defined.

End Generator.

(** ** Adventure success *)

Section AdventureSuccess.
Import Store Adventure.

(** C6, as stated, fails: the chance of a level-1 character with luck 1.0
    and no equipment on a difficulty-1 adventure is 60, not 65. *)
Lemma novice_chance_is_not_65 :
  success_chance 1 1 0 1.0%float = 60%float
  /\ PrimFloat.eqb 60%float 65%float = false.
Proof. split; reflexivity. Qed.

(** C6 (amended). For a level-1 character with no equipment and luck 1.0 on
    a difficulty-1 adventure the success chance is exactly 60 (60 base + 0
    level bonus + 0 equipment + 0 luck); with that chance a draw of 0.50
    succeeds and a draw of 0.70 fails.  The chance is
    [min(95, 60 + 5 * max(0, level - difficulty)
             + min(20, equipment_power // 10) + 10 * (luck - 1.0))]:
    capped at 95, the equipment term uses floor division, and there is no
    lower bound at 0. *)
Theorem novice_success_chance :
  success_chance 1 1 0 1.0%float = 60%float
  /\ Py.random [draw_050] = Some (0.5%float, [])
  /\ Py.random [draw_070] = Some (0.7%float, [])
  /\ roll_success (success_chance 1 1 0 1.0%float) [draw_050] = Some (true, [])
  /\ roll_success (success_chance 1 1 0 1.0%float) [draw_070] = Some (false, [])
  /\ complete_adventure_success novice_db 7 novice_adventure [draw_050]
     = Some ((60%float, true), [])
  /\ complete_adventure_success novice_db 7 novice_adventure [draw_070]
     = Some ((60%float, false), [])
  /\ (forall level difficulty equipment_bonus luck,
        success_chance level difficulty equipment_bonus luck
        = Py.fmin 95%float
            (PrimFloat.add
               (Py.float_of_int (60 + Z.max 0 (level - difficulty) * 5
                                 + Z.min 20 (equipment_bonus / 10)))
               (PrimFloat.mul (PrimFloat.sub luck 1.0%float) 10%float)))
  /\ success_chance 30 1 500 1.0%float = 95%float
  /\ success_chance 1 1 19 1.0%float = 61%float
  /\ success_chance 1 1 0 (-6.0)%float = (-10)%float.
Proof.
  repeat split; try reflexivity.
Qed.

End AdventureSuccess.

(** ** Battle power *)

Section Power.
Import Store.

Lemma combat_power_ignores_draws religion_cog now db user_id g1 g2 :
  option_map fst (Combat.calculate_battle_power religion_cog now db user_id g1)
  = option_map fst (Combat.calculate_battle_power religion_cog now db user_id g2).
Proof.
  unfold Combat.calculate_battle_power, Py.bind, Py.lift, Py.ret.
  destruct (get_character db user_id) as [c|]; [|reflexivity].
  destruct (Items.percent_points _) as [l|]; [|reflexivity].
  destruct (Items.percent_points _) as [k|]; [|reflexivity].
  destruct religion_cog.
  - destruct (Religion.get_active_blessings db user_id now) as [b db'].
    destruct (Py.int_of_float _); reflexivity.
  - destruct (Py.int_of_float _); reflexivity.
Qed.

Lemma combat_power_draws_nothing religion_cog now db user_id g r g' :
  Combat.calculate_battle_power religion_cog now db user_id g = Some (r, g') ->
  g' = g.
Proof.
  unfold Combat.calculate_battle_power, Py.bind, Py.lift, Py.ret.
  destruct (get_character db user_id) as [c|]; [|discriminate].
  destruct (Items.percent_points _) as [l|]; [|discriminate].
  destruct (Items.percent_points _) as [k|]; [|discriminate].
  destruct religion_cog.
  - destruct (Religion.get_active_blessings db user_id now) as [b db'].
    destruct (Py.int_of_float _); [|discriminate].
    intros H; inversion H; reflexivity.
  - destruct (Py.int_of_float _); [|discriminate].
    intros H; inversion H; reflexivity.
Qed.

Lemma randint_depends_on_head a b g1 g2 :
  hd 0 g1 mod (b - a + 1) = hd 0 g2 mod (b - a + 1) ->
  option_map fst (Py.randint a b g1) = option_map fst (Py.randint a b g2).
Proof.
  intros H. unfold Py.randint, Py.bind, Py.draw, Py.ret, Py.raise.
  destruct (a <=? b); [|reflexivity].
  destruct g1, g2; simpl in *; rewrite ?H; reflexivity.
Qed.

Lemma autoplay_power_one_draw religion_cog now db char g1 g2 :
  hd 0 g1 mod 41 = hd 0 g2 mod 41 ->
  option_map fst (Autoplay.calculate_battle_power religion_cog now db char g1)
  = option_map fst (Autoplay.calculate_battle_power religion_cog now db char g2).
Proof.
  intros H.
  pose proof (randint_depends_on_head (-20) 20 g1 g2 H) as Hj.
  unfold Autoplay.calculate_battle_power, Py.bind in *.
  destruct (Py.randint (-20) 20 g1) as [[j1 g1']|],
           (Py.randint (-20) 20 g2) as [[j2 g2']|];
    simpl in Hj; try discriminate; [|reflexivity].
  inversion Hj; subst j2.
  destruct religion_cog.
  - destruct (Religion.get_active_blessings db (c_user_id char) now) as [b db'].
    unfold Py.lift, Py.ret.
    destruct (Py.int_of_float _); reflexivity.
  - reflexivity.
Qed.

(** C7, as stated, fails for [AutoPlayCog.calculate_battle_power]: over the
    same store and the same character, two evaluations return 80 and 120,
    because the function itself draws [random.randint(-20, 20)]. *)
Lemma autoplay_power_not_deterministic :
  option_map fst (Autoplay.calculate_battle_power false 0 arena_db fighter_1 [0])
  = Some (80, arena_db)
  /\ option_map fst (Autoplay.calculate_battle_power false 0 arena_db fighter_1 [40])
     = Some (120, arena_db).
Proof. split; reflexivity. Qed.

(** C7 (amended). [CombatCog.calculate_battle_power] is deterministic given
    the store, the user and the clock reading used to select the active
    blessings: it draws nothing from the random source and its result is
    the same whatever that source holds.
    [AutoPlayCog.calculate_battle_power] draws one [random.randint(-20, 20)]
    inside the function: its result is determined by the store, the
    character, the clock reading and that one draw. *)
Theorem battle_power_determinism :
  (forall religion_cog now db user_id g1 g2,
     option_map fst (Combat.calculate_battle_power religion_cog now db user_id g1)
     = option_map fst (Combat.calculate_battle_power religion_cog now db user_id g2))
  /\ (forall religion_cog now db user_id g r g',
        Combat.calculate_battle_power religion_cog now db user_id g = Some (r, g') ->
        g' = g)
  /\ (forall religion_cog now db char g1 g2,
        hd 0 g1 mod 41 = hd 0 g2 mod 41 ->
        option_map fst (Autoplay.calculate_battle_power religion_cog now db char g1)
        = option_map fst (Autoplay.calculate_battle_power religion_cog now db char g2))
  /\ (forall now db char u g,
        Autoplay.calculate_battle_power false now db char (u :: g)
        = Some ((c_level char * 10
                 + Combat.sum_Z (fun item => i_damage item + i_armor item)
                                (get_equipped_items db (c_user_id char))
                 + (-20 + u mod 41), db), g)).
Proof.
  split; [exact combat_power_ignores_draws|].
  split; [exact combat_power_draws_nothing|].
  split; [exact autoplay_power_one_draw|].
  intros now db char u g. reflexivity.
Qed.

Lemma battle_power_determinism_witness :
  option_map fst (Autoplay.calculate_battle_power true 5 arena_db fighter_1 [3; 9])
  = option_map fst (Autoplay.calculate_battle_power true 5 arena_db fighter_1 [44]).
Proof.
  apply (proj1 (proj2 (proj2 battle_power_determinism))).
  reflexivity.
Defined.

End Power.

(** ** Battles *)

Section Battles.
Import Store.

(** C9, as stated, fails for [CombatCog.simulate_battle]: with powers 100
    and 100, both jitter factors 1.0 and no critical hit, the rolls are
    100.0 and 100.0 and the winner is the second participant. *)
Lemma combat_tie_goes_to_second :
  Py.uniform 0.8%float 1.2%float [draw_050] = Some (1.0%float, [])
  /\ Combat.simulate_battle (1, 100) (2, 100)
       [draw_050; draw_050; draw_050; draw_050]
     = Some ((2, (100%float, 100%float)), []).
Proof. split; reflexivity. Qed.

Lemma combat_winner_rule u1 p1 u2 p2 g w r1 r2 g' :
  Combat.simulate_battle (u1, p1) (u2, p2) g = Some ((w, (r1, r2)), g') ->
  w = if PrimFloat.ltb r2 r1 then u1 else u2.
Proof.
  unfold Combat.simulate_battle. intros H.
  step_bind H as j1 Hj1. step_bind H as j2 Hj2.
  step_bind H as c1 Hc1. step_bind H as c2 Hc2.
  apply ret_Some in H. destruct H as [H _]. inversion H. reflexivity.
Qed.

Lemma autoplay_winner_rule db c1 c2 g w l d g' :
  Autoplay.simulate_battle db c1 c2 g = Some ((w, l, d), g') ->
  exists p1 p2 g1,
    Autoplay.simulate_power db c1 g = Some (p1, g1)
    /\ Autoplay.simulate_power db c2 g1 = Some (p2, g')
    /\ (p2 <= p1 -> w = c1 /\ l = c2 /\ d = p1 - p2)
    /\ (p1 < p2 -> w = c2 /\ l = c1 /\ d = p2 - p1).
Proof.
  unfold Autoplay.simulate_battle. intros H.
  step_bind H as p1 Hp1. step_bind H as p2 Hp2.
  exists p1, p2, g0. split; [exact Hp1|].
  destruct (Z.geb_spec p1 p2) as [Hge|Hlt];
    apply ret_Some in H; destruct H as [H ->]; inversion H; subst;
    (split; [exact Hp2|split; intros; [try lia; auto | try lia; auto]]).
Qed.

(** C9 (amended). The tie-break is deterministic but differs between the
    two battle routines.  In [CombatCog.simulate_battle] the first
    participant wins exactly when its roll is strictly greater, so a tie
    (powers 100 and 100, jitter 1.0 and 1.0, no critical hit) goes to the
    second participant.  In [AutoPlayCog.simulate_battle] the first
    participant wins whenever its power is greater or equal, so a tie goes
    to the first participant. *)
Theorem battle_tie_break :
  (forall u1 p1 u2 p2 g w r1 r2 g',
     Combat.simulate_battle (u1, p1) (u2, p2) g = Some ((w, (r1, r2)), g') ->
     w = if PrimFloat.ltb r2 r1 then u1 else u2)
  /\ Combat.simulate_battle (1, 100) (2, 100)
       [draw_050; draw_050; draw_050; draw_050]
     = Some ((2, (100%float, 100%float)), [])
  /\ (forall db c1 c2 g w l d g',
        Autoplay.simulate_battle db c1 c2 g = Some ((w, l, d), g') ->
        exists p1 p2 g1,
          Autoplay.simulate_power db c1 g = Some (p1, g1)
          /\ Autoplay.simulate_power db c2 g1 = Some (p2, g')
          /\ (p2 <= p1 -> w = c1 /\ l = c2 /\ d = p1 - p2)
          /\ (p1 < p2 -> w = c2 /\ l = c1 /\ d = p2 - p1))
  /\ Autoplay.simulate_battle arena_db fighter_1 fighter_2 [20; 20]
     = Some ((fighter_1, fighter_2, 0), []).
Proof.
  split; [exact combat_winner_rule|].
  split; [reflexivity|].
  split; [exact autoplay_winner_rule|reflexivity].
Qed.

Lemma battle_tie_break_witness :
  2 = if PrimFloat.ltb 100%float 100%float then 1 else 2.
Proof.
  apply (proj1 battle_tie_break 1 100 2 100
               [draw_050; draw_050; draw_050; draw_050] 2 _ _ []).
  reflexivity.
Defined.

(** C8, as stated, fails: the jitter interval of the larger team format is
    wider, not narrower (3v3 draws from [0.85, 1.15], 5v5 from [0.8, 1.2]). *)
Lemma larger_team_jitter_is_wider :
  Autoplay.team_size Autoplay.battle_3v3 < Autoplay.team_size Autoplay.battle_5v5
  /\ Autoplay.jitter_range Autoplay.battle_3v3 = (0.85, 1.15)%float
  /\ Autoplay.jitter_range Autoplay.battle_5v5 = (0.8, 1.2)%float
  /\ PrimFloat.ltb (jitter_width Autoplay.battle_3v3)
                   (jitter_width Autoplay.battle_5v5) = true.
Proof. repeat split. Qed.

Lemma team_battle_inv b religion_cog now ta tb db g res db' g' :
  Autoplay.resolve_team_battle b religion_cog now ta tb db g = Some ((res, db'), g') ->
  exists pa pb dba ja jb ga gb gj,
    Autoplay.team_power religion_cog now ta db g = Some ((pa, dba), ga)
    /\ Autoplay.team_power religion_cog now tb dba ga = Some ((pb, db'), gb)
    /\ Py.uniform (fst (Autoplay.jitter_range b)) (snd (Autoplay.jitter_range b)) gb
       = Some (ja, gj)
    /\ Py.uniform (fst (Autoplay.jitter_range b)) (snd (Autoplay.jitter_range b)) gj
       = Some (jb, g')
    /\ Autoplay.team_a_roll res
       = PrimFloat.mul (PrimFloat.mul (Py.float_of_int pa) ja)
                       (Autoplay.coordination_penalty b)
    /\ Autoplay.team_b_roll res
       = PrimFloat.mul (PrimFloat.mul (Py.float_of_int pb) jb)
                       (Autoplay.coordination_penalty b)
    /\ Autoplay.winning_team res
       = if PrimFloat.ltb (Autoplay.team_b_roll res) (Autoplay.team_a_roll res)
         then Autoplay.team_a else Autoplay.team_b.
Proof.
  unfold Autoplay.resolve_team_battle. intros H.
  step_bind H as pa Hpa. step_bind H as pb Hpb.
  destruct (Autoplay.jitter_range b) as [lo hi].
  step_bind H as ja Hja. step_bind H as jb Hjb.
  apply ret_Some in H. destruct H as [H ->]. inversion H; subst; clear H.
  destruct pa as [pa dba], pb as [pb dbb]. simpl in *.
  exists pa, pb, dba, ja, jb, g0, g1, g2.
  repeat split; assumption || reflexivity.
Qed.

(** C8 (amended). In team battles each side's aggregate power is
    multiplied by its own uniform jitter factor and by a fixed
    coordination penalty.  For a larger team format the jitter interval is
    wider (3v3: [0.85, 1.15], 5v5: [0.8, 1.2], 10v10: [0.75, 1.25]) and the
    penalty, always below 1.0, is smaller (0.8, 0.75, 0.65).  Team A wins
    exactly when its adjusted value is strictly higher; otherwise team B
    wins. *)
Theorem team_battle_jitter_and_penalty :
  (forall b1 b2,
     Autoplay.team_size b1 < Autoplay.team_size b2 ->
     PrimFloat.ltb (fst (Autoplay.jitter_range b2)) (fst (Autoplay.jitter_range b1)) = true
     /\ PrimFloat.ltb (snd (Autoplay.jitter_range b1)) (snd (Autoplay.jitter_range b2)) = true
     /\ PrimFloat.ltb (jitter_width b1) (jitter_width b2) = true
     /\ PrimFloat.ltb (Autoplay.coordination_penalty b2)
                      (Autoplay.coordination_penalty b1) = true
     /\ PrimFloat.ltb (Autoplay.coordination_penalty b1) 1.0%float = true
     /\ PrimFloat.ltb (Autoplay.coordination_penalty b2) 1.0%float = true)
  /\ (forall b religion_cog now ta tb db g res db' g',
        Autoplay.resolve_team_battle b religion_cog now ta tb db g
        = Some ((res, db'), g') ->
        exists pa pb dba ja jb ga gb gj,
          Autoplay.team_power religion_cog now ta db g = Some ((pa, dba), ga)
          /\ Autoplay.team_power religion_cog now tb dba ga = Some ((pb, db'), gb)
          /\ Py.uniform (fst (Autoplay.jitter_range b)) (snd (Autoplay.jitter_range b)) gb
             = Some (ja, gj)
          /\ Py.uniform (fst (Autoplay.jitter_range b)) (snd (Autoplay.jitter_range b)) gj
             = Some (jb, g')
          /\ Autoplay.team_a_roll res
             = PrimFloat.mul (PrimFloat.mul (Py.float_of_int pa) ja)
                             (Autoplay.coordination_penalty b)
          /\ Autoplay.team_b_roll res
             = PrimFloat.mul (PrimFloat.mul (Py.float_of_int pb) jb)
                             (Autoplay.coordination_penalty b)
          /\ Autoplay.winning_team res
             = if PrimFloat.ltb (Autoplay.team_b_roll res) (Autoplay.team_a_roll res)
               then Autoplay.team_a else Autoplay.team_b).
Proof.
  split; [|exact team_battle_inv].
  intros b1 b2 Hlt.
  destruct b1, b2; simpl in Hlt; try lia; repeat split.
Qed.

Lemma team_battle_jitter_and_penalty_witness :
  PrimFloat.ltb (fst (Autoplay.jitter_range Autoplay.battle_10v10))
                (fst (Autoplay.jitter_range Autoplay.battle_3v3)) = true
  /\ PrimFloat.ltb (snd (Autoplay.jitter_range Autoplay.battle_3v3))
                   (snd (Autoplay.jitter_range Autoplay.battle_10v10)) = true
  /\ PrimFloat.ltb (jitter_width Autoplay.battle_3v3)
                   (jitter_width Autoplay.battle_10v10) = true
  /\ PrimFloat.ltb (Autoplay.coordination_penalty Autoplay.battle_10v10)
                   (Autoplay.coordination_penalty Autoplay.battle_3v3) = true
  /\ PrimFloat.ltb (Autoplay.coordination_penalty Autoplay.battle_3v3) 1.0%float = true
  /\ PrimFloat.ltb (Autoplay.coordination_penalty Autoplay.battle_10v10) 1.0%float = true.
Proof.
  apply (proj1 team_battle_jitter_and_penalty Autoplay.battle_3v3 Autoplay.battle_10v10).
  simpl. lia.
Defined.

End Battles.

(** ** Reroll *)

Section Reroll.
Import Items.

Lemma get_stat_range_rarity (r : ItemRarity) :
  rarity_of_total (snd (get_stat_range r)) = r
  /\ 0 <= fst (get_stat_range r) <= snd (get_stat_range r)
  /\ snd (get_stat_range r) <= 50.
Proof. destruct r; simpl; repeat split; lia. Qed.

(** A reroll never moves an item to a higher tier. *)
Lemma reroll_tier_never_rises (item : Item) g n g' :
  reroll_item item g = Some (n, g') ->
  exists r t,
    rarity item = Some r
    /\ stats_total (new_stats n) = Some t
    /\ rarity_rank (rarity_of_total t) <= rarity_rank r.
Proof.
  unfold reroll_item. intros H.
  step_bind H as r Hr. apply lift_Some in Hr. destruct Hr as [Hr ->].
  destruct (get_stat_range r) as [lo hi] eqn:Erange.
  step_bind H as total Ht. apply randint_range in Ht.
  step_bind H as s Hd. apply lift_Some in Hd. destruct Hd as [Hd ->].
  step_bind H as nm Hnm. step_bind H as k Hk.
  apply ret_Some in H. destruct H as [-> _]. simpl.
  destruct (get_stat_range_rarity r) as (Hmax & Hlo & Hhi).
  rewrite Erange in *. simpl in *.
  destruct (distribute_within_budget (type item) total ltac:(lia))
    as (s' & t & Hd' & Hst & Hle).
  rewrite Hd in Hd'. inversion Hd'; subst s'.
  exists r, t. split; [exact Hr|]. split; [exact Hst|].
  replace (rarity_rank r) with (rarity_rank (rarity_of_total hi))
    by (now rewrite Hmax).
  apply rarity_of_total_monotone. lia.
Qed.

Lemma reforge_tier_never_rises (item : Store.ItemRow) g item' g' :
  Blacksmith.reforge item g = Some (item', g') ->
  exists r r',
    Blacksmith._get_item_rarity item = Some r
    /\ Blacksmith._get_item_rarity item' = Some r'
    /\ rarity_rank r' <= rarity_rank r.
Proof.
  unfold Blacksmith.reforge. intros H.
  step_bind H as n Hn. apply ret_Some in H. destruct H as [-> _].
  apply reroll_tier_never_rises in Hn.
  destruct Hn as (r & t & Hr & Ht & Hle).
  rewrite item_of_row_rarity in Hr.
  exists r, (rarity_of_total t). split; [exact Hr|]. split; [|exact Hle].
  unfold Blacksmith._get_item_rarity.
  change (Blacksmith.row_stat_total (Blacksmith.apply_new_stats item n))
    with (stats_total (new_stats n)).
  rewrite Ht. reflexivity.
Qed.

(** X1. However many times an item is reforged, its tier never rises:
    after any number of reforges that went through, the tier computed from
    the stored row is the tier before the first reforge or a lower one. *)
Lemma reforge_n_tier_never_rises : forall (k : nat) (item : Store.ItemRow) g item' g' r,
  Blacksmith._get_item_rarity item = Some r ->
  Blacksmith.reforge_n k item g = Some (item', g') ->
  exists r',
    Blacksmith._get_item_rarity item' = Some r'
    /\ rarity_rank r' <= rarity_rank r.
Proof.
  induction k as [|k IH]; intros item g item' g' r Hr H; simpl in H.
  - apply ret_Some in H. destruct H as [-> _]. exists r. split; [exact Hr|lia].
  - step_bind H as item1 H1.
    apply reforge_tier_never_rises in H1.
    destruct H1 as (r0 & r1 & Hr0 & Hr1 & Hle).
    rewrite Hr in Hr0. inversion Hr0; subst r0.
    destruct (IH _ _ _ _ _ Hr1 H) as (r' & Hr' & Hle').
    exists r'. split; [exact Hr'|lia].
Qed.

Lemma reforge_n_tier_never_rises_witness :
  exists item' g' r',
    Blacksmith.reforge_n 2 worn_dagger [3; 1; 4; 1; 5; 9; 2; 6] = Some (item', g')
    /\ Blacksmith._get_item_rarity item' = Some r'
    /\ rarity_rank r' <= rarity_rank UNCOMMON.
Proof.
  destruct (Blacksmith.reforge_n 2 worn_dagger [3; 1; 4; 1; 5; 9; 2; 6])
    as [[item' g']|] eqn:E; [|vm_compute in E; discriminate].
  destruct (reforge_n_tier_never_rises 2 worn_dagger [3; 1; 4; 1; 5; 9; 2; 6]
              item' g' UNCOMMON eq_refl E) as (r' & H1 & H2).
  exists item', g', r'. split; [reflexivity|]. split; [exact H1|exact H2].
Defined.

(** C3 (evaluation at the failing input). An uncommon dagger with damage 9
    and armor 1 is reforged with the draw that picks the new total 10, the
    lowest value of the uncommon range: the new stats are damage 8 and
    armor 1, total 9, and the item is now common. *)
Theorem reforge_changes_tier :
  Blacksmith._get_item_rarity worn_dagger = Some UNCOMMON
  /\ get_stat_range UNCOMMON = (10, 19)
  /\ distribute DAGGER 10
     = Some (mkStats 8 1 0 0 0%float 0%float 0)
  /\ exists row' g',
       Blacksmith.reforge worn_dagger [0; 0; 0; 0] = Some (row', g')
       /\ Store.i_damage row' = 8
       /\ Store.i_armor row' = 1
       /\ Blacksmith.row_stat_total row' = Some 9
       /\ Blacksmith._get_item_rarity row' = Some COMMON.
Proof.
  split; [reflexivity|]. split; [reflexivity|]. split; [reflexivity|].
  eexists. eexists. split; [vm_compute; reflexivity|].
  repeat split; reflexivity.
Qed.

End Reroll.

(** ** Order of reward and status transition *)

Section RewardOrder.
Import Store.

(** In [level_up_check] the character is rewarded first and the adventure
    is marked completed afterwards, for every adventure it processes. *)
Lemma complete_one_journal db adventure g db' g' :
  Autoplay.complete_one db adventure g = Some (db', g') ->
  exists rest,
    journal db'
    = journal db
      ++ W_update_character (a_user_id adventure)
      :: W_adventure_status (a_user_id adventure) (a_finish_at adventure) completed
      :: rest
    /\ rewards_follow_finalize
         (W_update_character (a_user_id adventure)
          :: W_adventure_status (a_user_id adventure) (a_finish_at adventure) completed
          :: rest) = false.
Proof.
  unfold Autoplay.complete_one. intros H.
  step_bind H as base_xp Hx. step_bind H as base_gold Hg.
  step_bind H as char_data Hc. step_bind H as final_xp Hfx.
  step_bind H as final_gold Hfg. step_bind H as new_level Hl.
  step_bind H as r Hr.
  destruct (Py.flt r _).
  - step_bind H as item Hi. apply ret_Some in H. destruct H as [-> _].
    exists [W_create_item (Items.owner_id item)]. simpl.
    rewrite <- !app_assoc. split; reflexivity.
  - apply ret_Some in H. destruct H as [-> _].
    exists []. simpl. rewrite <- !app_assoc. split; reflexivity.
Qed.

(** C1 (evaluation at the failing input). [level_up_check] on a due
    adventure writes the reward ([update_character]) before the status
    transition, and [check_epic_completions] writes the reward and the
    items before it, on success and on failure alike. *)
Theorem reward_precedes_status_transition :
  (exists db' g',
     Autoplay.level_up_check true (fun _ => true) 600 novice_db [0; 0; draw_070]
     = Some (db', g')
     /\ journal db' = [W_update_character 7; W_adventure_status 7 600 completed; W_commit]
     /\ rewards_follow_finalize (journal db') = false)
  /\ (exists db' g',
        Epic.check_epic_completions true false 18000 veteran_db
          [0; draw_050; draw_050; 0; draw_050; 0; 5; 0; 0; 0]
        = Some (db', g')
        /\ journal db'
           = [W_update_character 9; W_create_item 9; W_epic_status 1 completed; W_commit]
        /\ rewards_follow_finalize (journal db') = false)
  /\ (exists db' g',
        Epic.check_epic_completions true false 18000 veteran_db [2 ^ 53 - 1]
        = Some (db', g')
        /\ journal db' = [W_update_character 9; W_epic_status 1 completed; W_commit]
        /\ rewards_follow_finalize (journal db') = false).
Proof.
  split; [|split]; eexists; eexists;
    (split; [vm_compute; reflexivity|split; reflexivity]).
Qed.

End RewardOrder.

(** ** One active work unit per participant *)

Section WorkUnits.
Import Store.

(** *** Lists *)

Lemma remove_nth_split {A} (d : A) : forall (j : nat) (l : list A),
  (j < length l)%nat ->
  exists l1 l2, l = l1 ++ nth j l d :: l2
                /\ firstn j l ++ skipn (S j) l = l1 ++ l2.
Proof.
  induction j as [|j IH]; intros [|x l] Hj; simpl in *; try lia.
  - exists [], l. split; reflexivity.
  - destruct (IH l ltac:(lia)) as (l1 & l2 & E1 & E2).
    exists (x :: l1), l2. simpl. split; [f_equal; exact E1|f_equal; exact E2].
Qed.

Lemma sample_spec {A B} (f : A -> B) : forall (k : nat) (l : list A) g sel g',
  Py.sample l k g = Some (sel, g') ->
  NoDup (map f l) ->
  NoDup (map f sel) /\ incl sel l.
Proof.
  induction k as [|k IH]; intros l g sel g' H Hnd.
  - apply ret_Some in H. destruct H as [-> _]. split; [constructor|intros x []].
  - destruct l as [|d l0]; [discriminate|].
    change (Py.sample (d :: l0) (S k))
      with (Py.bind Py.draw (fun u =>
              let j := Z.to_nat (u mod Z.of_nat (length (d :: l0))) in
              Py.bind (Py.sample (firstn j (d :: l0) ++ skipn (S j) (d :: l0)) k)
                      (fun rest => Py.ret (nth j (d :: l0) d :: rest)))) in H.
    remember (d :: l0) as l eqn:El.
    step_bind H as u Hu. step_bind H as rest Hrest.
    apply ret_Some in H. destruct H as [-> _].
    set (j := Z.to_nat (u mod Z.of_nat (length l))) in *.
    assert (Hj : (j < length l)%nat).
    { subst j. assert (0 < Z.of_nat (length l)) by (subst l; simpl; lia).
      pose proof (Z.mod_pos_bound u (Z.of_nat (length l)) ltac:(lia)). lia. }
    destruct (remove_nth_split d j l Hj) as (l1 & l2 & E1 & E2).
    rewrite E2 in Hrest.
    assert (Hsplit : NoDup (map f (l1 ++ l2))
                     /\ ~ In (f (nth j l d)) (map f (l1 ++ l2))).
    { rewrite E1 in Hnd at 1. rewrite map_app in Hnd. simpl in Hnd.
      apply NoDup_remove in Hnd. rewrite map_app. exact Hnd. }
    destruct Hsplit as [Hnd' Hnotin].
    destruct (IH _ _ _ _ Hrest Hnd') as [Hsel Hincl].
    split.
    + simpl. constructor; [|exact Hsel].
      intros Hin. apply Hnotin.
      apply in_map_iff in Hin. destruct Hin as (x & Hx & Hxin).
      apply in_map_iff. exists x. split; [exact Hx|apply Hincl, Hxin].
    + intros x [<-|Hx].
      * apply nth_In, Hj.
      * apply Hincl in Hx. rewrite E1.
        apply in_app_or in Hx. apply in_or_app.
        destruct Hx; [left|right; right]; assumption.
Qed.

Lemma filter_keeps_distinct_keys {K R} (key : R -> K) (keep : R -> bool) :
  forall rows, NoDup (map key rows) -> NoDup (map key (filter keep rows)).
Proof.
  intros rows. induction rows as [|r rows IH]; simpl; intros Hnd.
  - constructor.
  - inversion Hnd as [|? ? Hfresh Hrest]; subst.
    destruct (keep r); simpl; [|now apply IH].
    constructor; [|now apply IH].
    rewrite in_map_iff. intros (r' & Hkey & Hin).
    apply filter_In in Hin. apply Hfresh.
    rewrite in_map_iff. exists r'. tauto.
Qed.

Lemma NoDup_snoc {A} (l : list A) (x : A) :
  NoDup l -> ~ In x l -> NoDup (l ++ [x]).
Proof.
  induction l as [|y l IH]; simpl; intros Hnd Hx.
  - constructor; [intros []|constructor].
  - inversion Hnd as [|? ? Hy Hnd']; subst. constructor.
    + intros Hin. apply in_app_or in Hin. destruct Hin as [Hin|[->|[]]]; tauto.
    + apply IH; tauto.
Qed.

Lemma filter_map_shrinks {A} (p : A -> bool) (f : A -> A) (l : list A) :
  (forall a, p (f a) = true -> p a = true) ->
  (length (filter p (map f l)) <= length (filter p l))%nat.
Proof.
  intros Hp. induction l as [|x l IH]; simpl; [lia|].
  destruct (p (f x)) eqn:E.
  - rewrite (Hp x E). simpl. lia.
  - destruct (p x); simpl; lia.
Qed.

(** *** Active units and the store operations *)

Lemma no_active_adventure_iff db user_id :
  has_active_adventure db user_id = false <-> active_adventures user_id db = [].
Proof.
  unfold has_active_adventure, active_adventures.
  induction (adventures db) as [|a l IH]; simpl; [tauto|].
  destruct ((a_user_id a =? user_id) && status_eqb (a_status a) active); simpl.
  - split; discriminate.
  - exact IH.
Qed.

Lemma no_active_epic_iff db user_id :
  has_active_epic db user_id = false <-> active_epics user_id db = [].
Proof.
  unfold has_active_epic, active_epics.
  induction (epic_adventures db) as [|a l IH]; simpl; [tauto|].
  destruct ((e_user_id a =? user_id) && status_eqb (e_status a) active); simpl.
  - split; discriminate.
  - exact IH.
Qed.

Lemma update_character_users db user_id upd :
  (forall c, c_user_id (upd c) = c_user_id c) ->
  same_users db (update_character db user_id upd).
Proof.
  intros Hupd. unfold same_users, update_character. simpl.
  rewrite map_map. apply map_ext. intros c.
  destruct (c_user_id c =? user_id); [apply Hupd|reflexivity].
Qed.

(** *** Starting adventures *)

Lemma start_adventure_effect now insert_fails db char g db' g' :
  Autoplay.start_adventure now insert_fails db char g = Some (db', g') ->
  profile db' = profile db
  /\ epic_adventures db' = epic_adventures db
  /\ (adventures db' = adventures db
      \/ exists row, a_user_id row = c_user_id char
                     /\ adventures db' = adventures db ++ [row]).
Proof.
  unfold Autoplay.start_adventure. intros H.
  step_bind H as duration Hd. step_bind H as ty Hty.
  destruct (insert_fails (c_user_id char));
    apply ret_Some in H; destruct H as [-> _]; simpl; auto.
  split; [reflexivity|]. split; [reflexivity|]. right.
  eexists. split; [|reflexivity]. reflexivity.
Qed.

Lemma start_adventures_effect now insert_fails :
  forall selected db g db' g',
    Py.for_each (Autoplay.start_adventure now insert_fails) selected db g = Some (db', g') ->
    NoDup (map c_user_id selected) ->
    (forall c, In c selected -> active_adventures (c_user_id c) db = []) ->
    (forall user_id, (length (active_adventures user_id db) <= 1)%nat) ->
    profile db' = profile db
    /\ epic_adventures db' = epic_adventures db
    /\ (forall user_id, (length (active_adventures user_id db') <= 1)%nat)
    /\ (forall user_id, ~ In user_id (map c_user_id selected) ->
          adventures_of user_id db' = adventures_of user_id db).
Proof.
  induction selected as [|c selected IH]; intros db g db' g' H Hnd Hfree Hone;
    simpl in H.
  - apply ret_Some in H. destruct H as [-> _]. auto.
  - step_bind H as db1 H1.
    apply start_adventure_effect in H1. destruct H1 as (Hp & He & Ha).
    simpl in Hnd. inversion Hnd as [|? ? Hnotin Hnd']; subst.
    assert (Hfree1 : forall c', In c' selected ->
                       active_adventures (c_user_id c') db1 = []).
    { intros c' Hc'. specialize (Hfree c' (or_intror Hc')).
      destruct Ha as [Ha|(row & Hrow & Ha)]; unfold active_adventures in *;
        rewrite Ha; [exact Hfree|].
      rewrite filter_app, Hfree. simpl.
      destruct (Z.eqb_spec (a_user_id row) (c_user_id c')) as [E|E]; [|reflexivity].
      exfalso. apply Hnotin. rewrite <- Hrow, E. now apply in_map. }
    assert (Hone1 : forall user_id, (length (active_adventures user_id db1) <= 1)%nat).
    { intros user_id. specialize (Hone user_id).
      destruct Ha as [Ha|(row & Hrow & Ha)]; unfold active_adventures in *;
        rewrite Ha; [exact Hone|].
      rewrite filter_app, length_app. simpl.
      destruct (Z.eqb_spec (a_user_id row) user_id) as [E|E]; simpl; [|lia].
      specialize (Hfree c (or_introl eq_refl)).
      unfold active_adventures in Hfree.
      rewrite <- E, Hrow, Hfree.
      destruct (status_eqb (a_status row) active); simpl; lia. }
    destruct (IH _ _ _ _ H Hnd' Hfree1 Hone1) as (Hp' & He' & Hone' & Hrows).
    split; [congruence|]. split; [congruence|]. split; [exact Hone'|].
    intros user_id Hnot. simpl in Hnot.
    rewrite Hrows by tauto.
    unfold adventures_of.
    destruct Ha as [Ha|(row & Hrow & Ha)]; rewrite Ha; [reflexivity|].
    rewrite filter_app. simpl.
    destruct (Z.eqb_spec (a_user_id row) user_id) as [E|E];
      [|now rewrite app_nil_r].
    exfalso. apply Hnot. left. congruence.
Qed.

Lemma available_chars_spec online db :
  (forall c, In c (Autoplay.available_chars online db) ->
     active_adventures (c_user_id c) db = [])
  /\ (keyed db -> NoDup (map c_user_id (Autoplay.available_chars online db))).
Proof.
  unfold Autoplay.available_chars. split.
  - intros c Hc. apply filter_In in Hc. destruct Hc as [Hc _].
    apply filter_In in Hc. destruct Hc as [_ Hc].
    apply negb_true_iff in Hc. now apply no_active_adventure_iff.
  - intros Hk. now repeat apply filter_keeps_distinct_keys.
Qed.

Lemma auto_adventure_loop_effect channel online now insert_fails db g db' g' :
  Autoplay.auto_adventure_loop channel online now insert_fails db g = Some (db', g') ->
  keyed db ->
  (forall user_id, (length (active_adventures user_id db) <= 1)%nat) ->
  profile db' = profile db
  /\ epic_adventures db' = epic_adventures db
  /\ (forall user_id, (length (active_adventures user_id db') <= 1)%nat)
  /\ (forall user_id, has_active_adventure db user_id = true ->
        adventures_of user_id db' = adventures_of user_id db).
Proof.
  unfold Autoplay.auto_adventure_loop. intros H Hk Hone.
  destruct channel; simpl in H;
    [|apply ret_Some in H; destruct H as [-> _]; auto].
  destruct (available_chars_spec online db) as [Hfree Hnd].
  specialize (Hnd Hk).
  destruct (Autoplay.available_chars online db) as [|c0 l0] eqn:Eav;
    [apply ret_Some in H; destruct H as [-> _]; auto|].
  rewrite <- Eav in *. clear Eav c0 l0.
  step_bind H as k Hkk. step_bind H as selected Hsel. step_bind H as db1 Hloop.
  apply ret_Some in H. destruct H as [-> _].
  destruct (sample_spec c_user_id _ _ _ _ _ Hsel Hnd) as [Hnd' Hincl].
  destruct (start_adventures_effect _ _ _ _ _ _ _ Hloop Hnd'
              (fun c Hc => Hfree c (Hincl c Hc)) Hone)
    as (Hp & He & Hone' & Hrows).
  split; [exact Hp|]. split; [exact He|]. split; [exact Hone'|].
  intros user_id Hact. apply Hrows.
  intros Hin. apply in_map_iff in Hin. destruct Hin as (c & Hc & Hcin).
  specialize (Hfree c (Hincl c Hcin)). rewrite Hc in Hfree.
  apply no_active_adventure_iff in Hfree. congruence.
Qed.

(** *** Starting epic adventures *)

Lemma start_epic_effect now insert_fails db char g db' g' :
  Epic.start_epic now insert_fails db char g = Some (db', g') ->
  profile db' = profile db
  /\ adventures db' = adventures db
  /\ (epic_adventures db' = epic_adventures db
      \/ has_active_epic db (c_user_id char) = false
         /\ exists row, e_user_id row = c_user_id char
                        /\ epic_adventures db' = epic_adventures db ++ [row]).
Proof.
  unfold Epic.start_epic. intros H.
  step_bind H as roll Hroll.
  destruct (if roll then (legendary, Epic.LEGENDARY_ADVENTURES)
            else (epic, Epic.EPIC_ADVENTURES)) as [kind table].
  destruct (filter _ table) as [|d0 avail];
    [apply ret_Some in H; destruct H as [-> _]; auto|].
  step_bind H as data Hdata.
  destruct (Epic.duration_hours data) as [lo hi].
  step_bind H as duration Hdur. step_bind H as seconds Hsec.
  destruct (has_active_epic db (c_user_id char)) eqn:Eact;
    [apply ret_Some in H; destruct H as [-> _]; auto|].
  destruct (insert_fails (c_user_id char));
    apply ret_Some in H; destruct H as [-> _]; simpl; auto.
  split; [reflexivity|]. split; [reflexivity|]. right.
  split; [reflexivity|]. eexists. split; [|reflexivity]. reflexivity.
Qed.

Lemma start_epic_keeps_one now insert_fails db char g db' g' :
  (forall user_id, (length (active_epics user_id db) <= 1)%nat) ->
  Epic.start_epic now insert_fails db char g = Some (db', g') ->
  forall user_id, (length (active_epics user_id db') <= 1)%nat.
Proof.
  intros Hone H user_id. apply start_epic_effect in H.
  destruct H as (_ & _ & [He|(Hfree & row & Hrow & He)]);
    unfold active_epics in *; rewrite He; [apply Hone|].
  rewrite filter_app, length_app. simpl.
  destruct (Z.eqb_spec (e_user_id row) user_id) as [E|E]; simpl;
    [|specialize (Hone user_id); lia].
  apply no_active_epic_iff in Hfree. unfold active_epics in Hfree.
  rewrite <- E, Hrow, Hfree.
  destruct (status_eqb (e_status row) active); simpl; lia.
Qed.

Lemma start_epic_noop now insert_fails db char g db' g' :
  has_active_epic db (c_user_id char) = true ->
  Epic.start_epic now insert_fails db char g = Some (db', g') ->
  db' = db.
Proof.
  unfold Epic.start_epic. intros Hact H.
  step_bind H as roll Hroll.
  destruct (if roll then (legendary, Epic.LEGENDARY_ADVENTURES)
            else (epic, Epic.EPIC_ADVENTURES)) as [kind table].
  destruct (filter _ table) as [|d0 avail];
    [apply ret_Some in H; destruct H as [-> _]; auto|].
  step_bind H as data Hdata.
  destruct (Epic.duration_hours data) as [lo hi].
  step_bind H as duration Hdur. step_bind H as seconds Hsec.
  rewrite Hact in H. apply ret_Some in H. destruct H as [-> _]. reflexivity.
Qed.

Lemma start_epics_effect now insert_fails :
  forall selected db g db' g',
    Py.for_each (Epic.start_epic now insert_fails) selected db g = Some (db', g') ->
    (forall user_id, (length (active_epics user_id db) <= 1)%nat) ->
    profile db' = profile db /\ adventures db' = adventures db
    /\ (forall user_id, (length (active_epics user_id db') <= 1)%nat)
    /\ (forall user_id, ~ In user_id (map c_user_id selected) ->
          epics_of user_id db' = epics_of user_id db).
Proof.
  induction selected as [|c selected IH]; intros db g db' g' H Hone; simpl in H.
  - apply ret_Some in H. destruct H as [-> _]. auto.
  - step_bind H as db1 H1.
    pose proof (start_epic_keeps_one _ _ _ _ _ _ _ Hone H1) as Hone1.
    apply start_epic_effect in H1. destruct H1 as (Hp & Ha & He).
    destruct (IH _ _ _ _ H Hone1) as (Hp' & Ha' & Hone' & Hrows).
    split; [congruence|]. split; [congruence|]. split; [exact Hone'|].
    intros user_id Hnot. simpl in Hnot. rewrite Hrows by tauto.
    unfold epics_of.
    destruct He as [He|(_ & row & Hrow & He)]; rewrite He; [reflexivity|].
    rewrite filter_app. simpl.
    destruct (Z.eqb_spec (e_user_id row) user_id) as [E|E];
      [|now rewrite app_nil_r].
    exfalso. apply Hnot. left. congruence.
Qed.

Lemma auto_epic_adventures_effect channel online now insert_fails db g db' g' :
  Epic.auto_epic_adventures channel online now insert_fails db g = Some (db', g') ->
  keyed db ->
  (forall user_id, (length (active_epics user_id db) <= 1)%nat) ->
  epic_frame db db'.
Proof.
  unfold Epic.auto_epic_adventures, epic_frame. intros H Hk Hone.
  destruct channel; simpl in H;
    [|apply ret_Some in H; destruct H as [-> _]; auto].
  assert (Hfree : forall c, In c (Epic.online_eligible online db) ->
                    has_active_epic db (c_user_id c) = false).
  { intros c Hc. unfold Epic.online_eligible in Hc.
    apply filter_In in Hc. destruct Hc as [Hc _].
    apply filter_In in Hc. destruct Hc as [_ Hc].
    apply andb_true_iff in Hc. destruct Hc as [_ Hc].
    now apply negb_true_iff in Hc. }
  assert (Hnd : NoDup (map c_user_id (Epic.online_eligible online db))).
  { unfold Epic.online_eligible. now repeat apply filter_keeps_distinct_keys. }
  destruct (Epic.online_eligible online db) as [|c0 l0] eqn:Eel;
    [apply ret_Some in H; destruct H as [-> _]; auto|].
  rewrite <- Eel in *. clear Eel c0 l0.
  step_bind H as k Hkk. step_bind H as selected Hsel. step_bind H as db1 Hloop.
  apply ret_Some in H. destruct H as [-> _].
  destruct (sample_spec c_user_id _ _ _ _ _ Hsel Hnd) as [_ Hincl].
  destruct (start_epics_effect _ _ _ _ _ _ _ Hloop Hone) as (Hp & Ha & Hone' & Hrows).
  split; [exact Hp|]. split; [exact Ha|]. split; [exact Hone'|].
  intros user_id Hact. apply Hrows.
  intros Hin. apply in_map_iff in Hin. destruct Hin as (c & Hc & Hcin).
  specialize (Hfree c (Hincl c Hcin)). congruence.
Qed.

(** *** Completing work units *)
(** *** Single writes *)

Lemma complete_adventures_of_shrinks db user_id finish_at uid :
  (length (active_adventures uid (complete_adventures_of db user_id finish_at))
   <= length (active_adventures uid db))%nat.
Proof.
  unfold active_adventures, complete_adventures_of. simpl.
  apply filter_map_shrinks. intros a.
  destruct ((a_user_id a =? user_id) && (a_finish_at a =? finish_at)); simpl;
    [|tauto].
  rewrite andb_false_r. discriminate.
Qed.

Lemma complete_epic_shrinks db id uid :
  (length (active_epics uid (complete_epic db id))
   <= length (active_epics uid db))%nat.
Proof.
  unfold active_epics, complete_epic. simpl.
  apply filter_map_shrinks. intros e.
  destruct (e_id e =? id); simpl; [|tauto].
  rewrite andb_false_r. discriminate.
Qed.

Lemma set_status_shrinks uid s :
  s <> active ->
  forall rows id,
    (length (filter (fun a => (a_user_id a =? uid)%Z && status_eqb (a_status a) active)
                    (set_status id s rows))
     <= length (filter (fun a => (a_user_id a =? uid)%Z && status_eqb (a_status a) active)
                       rows))%nat.
Proof.
  intros Hs. induction rows as [|a rows IH]; intros [|id]; simpl; try lia.
  - assert (E : status_eqb s active = false)
      by (destruct s; [now elim Hs|reflexivity|reflexivity|reflexivity]).
    rewrite E, andb_false_r.
    destruct ((a_user_id a =? uid) && status_eqb (a_status a) active); simpl; lia.
  - specialize (IH id).
    destruct ((a_user_id a =? uid) && status_eqb (a_status a) active); simpl; lia.
Qed.

Lemma complete_adventure_shrinks db id success uid :
  (length (active_adventures uid (Store.complete_adventure db id success))
   <= length (active_adventures uid db))%nat.
Proof.
  unfold active_adventures, Store.complete_adventure.
  destruct (nth_error (adventures db) id); [|lia]. simpl.
  apply set_status_shrinks. destruct success; discriminate.
Qed.

(** A write that keeps the users of [profile] and gives no participant a
    further active unit keeps the invariant. *)
Lemma frame_invariant db db' :
  same_users db db' ->
  (forall uid, (length (active_adventures uid db')
                <= length (active_adventures uid db))%nat) ->
  (forall uid, (length (active_epics uid db')
                <= length (active_epics uid db))%nat) ->
  keyed db /\ at_most_one_active db -> keyed db' /\ at_most_one_active db'.
Proof.
  intros Hu Ha He [Hk Hone]. split.
  - unfold keyed. rewrite Hu. exact Hk.
  - intros uid. destruct (Hone uid) as [H1 H2].
    specialize (Ha uid). specialize (He uid). lia.
Qed.

Lemma create_character_invariant db c db' :
  create_character db c = Some db' ->
  keyed db /\ at_most_one_active db -> keyed db' /\ at_most_one_active db'.
Proof.
  unfold create_character, get_character. intros H [Hk Hone].
  destruct (find _ (profile db)) eqn:Ef; [discriminate|].
  inversion H; subst db'; clear H. split; [|exact Hone].
  unfold keyed in *. simpl. rewrite map_app. simpl.
  apply NoDup_snoc; [exact Hk|].
  intros Hin. apply in_map_iff in Hin. destruct Hin as (x & Hx & Hxin).
  pose proof (find_none _ _ Ef x Hxin) as Hf. simpl in Hf.
  apply Z.eqb_neq in Hf. congruence.
Qed.

Lemma insert_adventure_invariant db row :
  has_active_adventure db (a_user_id row) = false ->
  keyed db /\ at_most_one_active db ->
  keyed (insert_adventure db row) /\ at_most_one_active (insert_adventure db row).
Proof.
  intros Hfree [Hk Hone]. split; [exact Hk|].
  intros uid. destruct (Hone uid) as [H1 H2]. split; [|exact H2].
  unfold active_adventures, insert_adventure. simpl.
  rewrite filter_app, length_app. simpl.
  destruct (Z.eqb_spec (a_user_id row) uid) as [E|E]; simpl;
    [|unfold active_adventures in H1; lia].
  apply no_active_adventure_iff in Hfree. unfold active_adventures in Hfree.
  rewrite <- E, Hfree.
  destruct (status_eqb (a_status row) active); simpl; lia.
Qed.

Lemma insert_epic_invariant db mk :
  has_active_epic db
    (e_user_id (mk (Z.of_nat (length (epic_adventures db)) + 1))) = false ->
  keyed db /\ at_most_one_active db ->
  keyed (insert_epic db mk) /\ at_most_one_active (insert_epic db mk).
Proof.
  intros Hfree [Hk Hone]. split; [exact Hk|].
  intros uid. destruct (Hone uid) as [H1 H2]. split; [exact H1|].
  unfold active_epics, insert_epic. simpl.
  rewrite filter_app, length_app. simpl.
  set (row := mk (Z.of_nat (length (epic_adventures db)) + 1)) in *.
  destruct (Z.eqb_spec (e_user_id row) uid) as [E|E]; simpl;
    [|unfold active_epics in H2; lia].
  apply no_active_epic_iff in Hfree. unfold active_epics in Hfree.
  rewrite <- E, Hfree.
  destruct (status_eqb (e_status row) active); simpl; lia.
Qed.

Lemma step_invariant db db' :
  step db db' ->
  keyed db /\ at_most_one_active db -> keyed db' /\ at_most_one_active db'.
Proof.
  intros Hstep Hinv.
  destruct Hstep as
    [db c db' H | db row H | db mk H | db user_id finish_at | db id success
    | db id | db user_id upd H | db item
    | db owner name type value damage armor hand | db user_id gone | db
    | db db' Hp Ha He].
  - eapply create_character_invariant; eauto.
  - now apply insert_adventure_invariant.
  - now apply insert_epic_invariant.
  - apply (frame_invariant db); [reflexivity| |intros; apply Nat.le_refl|exact Hinv].
    intros uid. apply complete_adventures_of_shrinks.
  - apply (frame_invariant db); [| |intros uid|exact Hinv].
    + unfold same_users, Store.complete_adventure.
      destruct (nth_error (adventures db) id); reflexivity.
    + intros uid. apply complete_adventure_shrinks.
    + unfold active_epics, Store.complete_adventure.
      destruct (nth_error (adventures db) id); simpl; apply Nat.le_refl.
  - apply (frame_invariant db); [reflexivity|intros; apply Nat.le_refl| |exact Hinv].
    intros uid. apply complete_epic_shrinks.
  - apply (frame_invariant db);
      [now apply update_character_users|intros; apply Nat.le_refl
      |intros; apply Nat.le_refl|exact Hinv].
  - apply (frame_invariant db); [reflexivity|intros; apply Nat.le_refl
                                 |intros; apply Nat.le_refl|exact Hinv].
  - apply (frame_invariant db); [reflexivity|intros; apply Nat.le_refl
                                 |intros; apply Nat.le_refl|exact Hinv].
  - apply (frame_invariant db); [reflexivity|intros; apply Nat.le_refl
                                 |intros; apply Nat.le_refl|exact Hinv].
  - apply (frame_invariant db); [reflexivity|intros; apply Nat.le_refl
                                 |intros; apply Nat.le_refl|exact Hinv].
  - apply (frame_invariant db); [| | |exact Hinv].
    + exact Hp.
    + intros uid. unfold active_adventures. rewrite Ha. apply Nat.le_refl.
    + intros uid. unfold active_epics. rewrite He. apply Nat.le_refl.
Qed.

Lemma reachable_invariant db0 db :
  reachable db0 db ->
  keyed db0 /\ at_most_one_active db0 -> keyed db /\ at_most_one_active db.
Proof.
  intros Hreach Hinv. induction Hreach as [|db db' _ IH Hstep]; [exact Hinv|].
  eapply step_invariant; eassumption.
Qed.

Lemma reachable_trans a b c : reachable a b -> reachable b c -> reachable a c.
Proof.
  intros Hab Hbc. induction Hbc as [|x y _ IH Hstep]; [exact Hab|].
  eapply reach_step; eassumption.
Qed.

Lemma reachable_one db db' : step db db' -> reachable db db'.
Proof. intros H. eapply reach_step; [apply reach_start|exact H]. Qed.

(** *** Computations over the store *)

Section Confined.
Variable R : DB -> DB -> Prop.
Hypothesis R_refl : forall db, R db db.
Hypothesis R_trans : forall a b c, R a b -> R b c -> R a c.

Lemma confined_ret {A} (a : A) : confined R (Job.ret a).
Proof. intros db g faults. apply R_refl. Qed.

Lemma confined_rand {A} (r : Py.Rand A) : confined R (Job.rand r).
Proof.
  intros db g faults. unfold Job.rand. destruct (r g) as [[a g']|]; apply R_refl.
Qed.

Lemma confined_get : confined R Job.get.
Proof. intros db g faults. apply R_refl. Qed.

Lemma confined_write f : (forall db, R db (f db)) -> confined R (Job.write f).
Proof.
  intros Hf db g [|[] rest]; simpl; [apply Hf|apply R_refl|apply Hf].
Qed.

Lemma confined_attempt f : (forall db, R db (f db)) -> confined R (Job.attempt f).
Proof.
  intros Hf db g [|[] rest]; simpl; [apply Hf|apply R_refl|apply Hf].
Qed.

Lemma confined_bind {A B} (m : Job.M A) (k : A -> Job.M B) :
  confined R m -> (forall a, confined R (k a)) -> confined R (Job.bind m k).
Proof.
  intros Hm Hk db g faults. unfold Job.bind. specialize (Hm db g faults).
  destruct (m db g faults) as [a db1 g1 faults1|db1]; simpl in *; [|exact Hm].
  eapply R_trans; [exact Hm|apply Hk].
Qed.

Lemma confined_for_each {A} (body : A -> Job.M unit) :
  (forall a, confined R (body a)) ->
  forall l, confined R (Job.for_each body l).
Proof.
  intros Hbody. induction l as [|a l IH]; simpl.
  - apply confined_ret.
  - apply confined_bind; [apply Hbody|intros _; exact IH].
Qed.

(** *** The two jobs that start work units *)

Hypothesis R_commit : forall db, R db (commit db).
Hypothesis R_insert_adventure : forall db row,
  has_active_adventure db (a_user_id row) = false ->
  R db (insert_adventure db row).
Hypothesis R_insert_epic : forall db mk,
  has_active_epic db
    (e_user_id (mk (Z.of_nat (length (epic_adventures db)) + 1))) = false ->
  R db (insert_epic db mk).

Lemma new_adventure_user now char g row g' :
  Handlers.new_adventure now char g = Some (row, g') ->
  a_user_id row = c_user_id char.
Proof.
  unfold Handlers.new_adventure. intros H.
  step_bind H as duration Hd. step_bind H as ty Hty.
  apply ret_Some in H. destruct H as [-> _]. reflexivity.
Qed.

Lemma new_epic_user now char g mk g' :
  Handlers.new_epic now char g = Some (Some mk, g') ->
  forall id, e_user_id (mk id) = c_user_id char.
Proof.
  unfold Handlers.new_epic. intros H.
  step_bind H as roll Hroll.
  destruct (if roll then (legendary, Epic.LEGENDARY_ADVENTURES)
            else (epic, Epic.EPIC_ADVENTURES)) as [kind table].
  destruct (filter _ table) as [|d0 avail];
    [apply ret_Some in H; destruct H as [H _]; discriminate|].
  step_bind H as data Hdata.
  destruct (Epic.duration_hours data) as [lo hi].
  step_bind H as duration Hdur. step_bind H as seconds Hsec.
  apply ret_Some in H. destruct H as [H _].
  injection H as Hmk. subst mk. reflexivity.
Qed.

Lemma has_active_adventure_insert db row uid :
  has_active_adventure (insert_adventure db row) uid
  = has_active_adventure db uid
    || ((a_user_id row =? uid) && status_eqb (a_status row) active).
Proof.
  unfold has_active_adventure, insert_adventure. simpl.
  rewrite existsb_app. simpl. now rewrite orb_false_r.
Qed.

(** The departures of a list of distinct characters none of whom has an
    active adventure. *)
Lemma start_adventures_confined now :
  forall selected db g faults,
    NoDup (map c_user_id selected) ->
    (forall c, In c selected -> has_active_adventure db (c_user_id c) = false) ->
    R db (Job.store
            (Job.for_each (Handlers.start_adventure now) selected db g faults)).
Proof.
  induction selected as [|c selected IH]; intros db g faults Hnd Hfree; simpl.
  - apply R_refl.
  - inversion Hnd as [|? ? Hnotin Hnd']; subst.
    unfold Job.bind at 1. unfold Handlers.start_adventure at 1.
    unfold Job.bind at 1. unfold Job.rand at 1.
    destruct (Handlers.new_adventure now c g) as [[row g1]|] eqn:Erow;
      [|apply R_refl].
    apply new_adventure_user in Erow.
    assert (Hskip : forall g' faults',
              R db (Job.store
                      (Job.for_each (Handlers.start_adventure now) selected
                         db g' faults'))).
    { intros g' faults'. apply IH; [exact Hnd'|].
      intros c' Hc'. apply Hfree. now right. }
    assert (Hdone : forall g' faults',
              R db (Job.store
                      (Job.for_each (Handlers.start_adventure now) selected
                         (insert_adventure db row) g' faults'))).
    { intros g' faults'. eapply R_trans.
      - apply R_insert_adventure. rewrite Erow. apply Hfree. now left.
      - apply IH; [exact Hnd'|]. intros c' Hc'.
        rewrite has_active_adventure_insert, (Hfree c' (or_intror Hc')). simpl.
        destruct (Z.eqb_spec (a_user_id row) (c_user_id c')) as [E|E];
          [|reflexivity].
        exfalso. apply Hnotin. rewrite <- Erow, E. now apply in_map. }
    destruct faults as [|[] rest]; simpl; [apply Hdone|apply Hskip|apply Hdone].
Qed.

Lemma auto_adventure_loop_confined channel online now db g faults :
  keyed db ->
  R db (Job.store (Handlers.auto_adventure_loop channel online now db g faults)).
Proof.
  intros Hk. unfold Handlers.auto_adventure_loop.
  destruct channel; simpl; [|apply R_refl].
  unfold Job.bind at 1. unfold Job.get at 1.
  destruct (available_chars_spec online db) as [Hfree Hnd].
  specialize (Hnd Hk).
  destruct (Autoplay.available_chars online db) as [|c0 l0] eqn:Eav;
    [apply R_refl|].
  rewrite <- Eav in *. clear Eav c0 l0.
  unfold Job.bind at 1. unfold Job.rand at 1.
  destruct (Py.randint 10 20 g) as [[k g1]|]; [|apply R_refl].
  unfold Job.bind at 1. unfold Job.rand at 1.
  destruct (Py.sample _ _ g1) as [[selected g2]|] eqn:Esel; [|apply R_refl].
  destruct (sample_spec c_user_id _ _ _ _ _ Esel Hnd) as [Hnd' Hincl].
  assert (Hfree' : forall c, In c selected ->
                     has_active_adventure db (c_user_id c) = false).
  { intros c Hc. apply no_active_adventure_iff, Hfree, Hincl, Hc. }
  clear Esel Hincl Hfree Hnd.
  destruct selected as [|ch [|ch' rest]].
  - apply R_refl.
  - unfold Job.bind at 1. unfold Job.rand at 1.
    destruct (Handlers.new_adventure now ch g2) as [[row g3]|] eqn:Erow;
      [|apply R_refl].
    apply new_adventure_user in Erow.
    assert (Hins : R db (insert_adventure db row)).
    { apply R_insert_adventure. rewrite Erow. apply Hfree'. now left. }
    assert (Hend : forall faults',
              R db (Job.store (Job.write commit (insert_adventure db row) g3 faults'))).
    { intros [|[] rest]; simpl;
        [eapply R_trans; [exact Hins|apply R_commit]
        |exact Hins
        |eapply R_trans; [exact Hins|apply R_commit]]. }
    unfold Job.bind. destruct faults as [|[] rest]; simpl;
      [apply (Hend [])|apply R_refl|apply Hend].
  - unfold Job.bind at 1.
    pose proof (start_adventures_confined now (ch :: ch' :: rest)
                  db g2 faults Hnd' Hfree') as Hloop.
    destruct (Job.for_each _ (ch :: ch' :: rest) db g2 faults)
      as [[] db1 g3 faults1|db1]; simpl in *; [|exact Hloop].
    destruct faults1 as [|[] rest1]; simpl;
      [eapply R_trans; [exact Hloop|apply R_commit]
      |exact Hloop
      |eapply R_trans; [exact Hloop|apply R_commit]].
Qed.

Lemma start_epic_confined now char :
  confined R (Handlers.start_epic now char).
Proof.
  intros db g faults. unfold Handlers.start_epic.
  unfold Job.bind at 1. unfold Job.rand at 1.
  destruct (Handlers.new_epic now char g) as [[[mk|] g1]|] eqn:Erow;
    try apply R_refl.
  unfold Job.bind, Job.get.
  destruct (has_active_epic db (c_user_id char)) eqn:Eact; [apply R_refl|].
  assert (Hins : R db (insert_epic db mk)).
  { apply R_insert_epic. rewrite (new_epic_user _ _ _ _ _ Erow). exact Eact. }
  destruct faults as [|[] rest]; simpl; [exact Hins|apply R_refl|exact Hins].
Qed.

Lemma auto_epic_adventures_confined channel online now :
  confined R (Handlers.auto_epic_adventures channel online now).
Proof.
  unfold Handlers.auto_epic_adventures.
  destruct channel; simpl; [|apply confined_ret].
  apply confined_bind; [apply confined_get|]. intros db.
  destruct (Epic.online_eligible online db); [apply confined_ret|].
  apply confined_bind; [apply confined_rand|]. intros k.
  apply confined_bind; [apply confined_rand|]. intros selected.
  apply confined_bind; [|intros _; now apply confined_write].
  apply confined_for_each. intros ch. apply start_epic_confined.
Qed.

End Confined.

(** *** Every stretch of code is a sequence of writes *)

Ltac one_write :=
  apply reachable_one;
  first [ apply step_update_character; intros ?; reflexivity
        | apply step_complete_adventures_of
        | apply step_complete_adventure
        | apply step_complete_epic
        | apply step_create_item_in_db
        | apply step_create_item
        | apply step_delete_blessings
        | apply step_commit ].

Ltac confine :=
  cbv zeta;
  repeat first
    [ apply (confined_ret reachable reach_start)
    | apply (confined_rand reachable reach_start)
    | apply (confined_get reachable reach_start)
    | apply (confined_write reachable reach_start); intros ?; one_write
    | apply (confined_bind reachable reachable_trans); [|intros ?]
    | match goal with
      | |- confined _ (if ?b then _ else _) => destruct b
      | |- confined _ (match ?x with _ => _ end) => destruct x
      end ].

Lemma get_active_blessings_confined user_id now :
  confined reachable (Handlers.get_active_blessings user_id now).
Proof. unfold Handlers.get_active_blessings. confine. Qed.

Lemma complete_one_confined adventure :
  confined reachable (Handlers.complete_one adventure).
Proof. unfold Handlers.complete_one. confine. Qed.

Lemma level_up_check_confined channel online now :
  confined reachable (Handlers.level_up_check channel online now).
Proof.
  unfold Handlers.level_up_check. confine.
  apply (confined_for_each reachable reach_start reachable_trans).
  intros adventure. apply complete_one_confined.
Qed.

Lemma create_items_confined adventure :
  forall n, confined reachable (Handlers.create_items n adventure).
Proof.
  induction n as [|n IH]; simpl; [confine|].
  confine; exact IH.
Qed.

Lemma epic_complete_one_confined religion_cog now adventure :
  confined reachable (Handlers.epic_complete_one religion_cog now adventure).
Proof.
  unfold Handlers.epic_complete_one.
  confine;
    first [apply create_items_confined|apply get_active_blessings_confined].
Qed.

Lemma check_epic_completions_confined channel religion_cog now :
  confined reachable (Handlers.check_epic_completions channel religion_cog now).
Proof.
  unfold Handlers.check_epic_completions. confine.
  apply (confined_for_each reachable reach_start reachable_trans).
  intros adventure. apply epic_complete_one_confined.
Qed.

Lemma complete_adventure_confined religion_cog now user_id id adventure_data :
  confined reachable
    (Handlers.complete_adventure religion_cog now user_id id adventure_data).
Proof.
  unfold Handlers.complete_adventure.
  confine; apply get_active_blessings_confined.
Qed.

Lemma status_confined religion_cog now user_id :
  confined reachable (Handlers.status religion_cog now user_id).
Proof.
  unfold Handlers.status.
  apply (confined_bind reachable reachable_trans);
    [apply (confined_get reachable reach_start)|intros db].
  destruct (get_active_adventure db user_id) as [[id row]|];
    [|apply (confined_ret reachable reach_start)].
  destruct (a_finish_at row <=? now);
    [apply complete_adventure_confined|apply (confined_ret reachable reach_start)].
Qed.

Lemma complete_confined religion_cog now user_id :
  confined reachable (Handlers.complete religion_cog now user_id).
Proof.
  unfold Handlers.complete.
  apply (confined_bind reachable reachable_trans);
    [apply (confined_get reachable reach_start)|intros db].
  destruct (get_active_adventure db user_id) as [[id row]|];
    [|apply (confined_ret reachable reach_start)].
  destruct (now <? a_finish_at row);
    [apply (confined_ret reachable reach_start)|apply complete_adventure_confined].
Qed.

Lemma block_reachable db db' : keyed db -> block db db' -> reachable db db'.
Proof.
  intros Hk Hb.
  destruct Hb as
    [channel online now db g faults | channel online now db g faults
    | channel online now db g faults | religion_cog now adventure db g faults
    | channel religion_cog now db g faults | religion_cog now user_id db g faults
    | religion_cog now user_id db g faults
    | religion_cog now user_id id adventure_data db g faults | id db g faults
    | db c db' H].
  - apply (auto_adventure_loop_confined reachable reach_start reachable_trans);
      [intros; apply reachable_one, step_commit
      |intros; now apply reachable_one, step_insert_adventure
      |exact Hk].
  - apply level_up_check_confined.
  - apply (auto_epic_adventures_confined reachable reach_start reachable_trans);
      [intros; apply reachable_one, step_commit
      |intros; now apply reachable_one, step_insert_epic].
  - apply epic_complete_one_confined.
  - apply check_epic_completions_confined.
  - apply status_confined.
  - apply complete_confined.
  - apply complete_adventure_confined.
  - apply (confined_write reachable reach_start).
    intros db1. apply reachable_one, step_complete_adventure.
  - apply reachable_one. eapply step_create. exact H.
Qed.

(** *** A participant who has an active unit gets no second one *)

Lemma has_active_adventure_of db uid :
  has_active_adventure db uid
  = existsb (fun a => status_eqb (a_status a) active) (adventures_of uid db).
Proof.
  unfold has_active_adventure, adventures_of.
  induction (adventures db) as [|a l IH]; simpl; [reflexivity|].
  destruct (a_user_id a =? uid); simpl; now rewrite IH.
Qed.

Lemma has_active_epic_of db uid :
  has_active_epic db uid
  = existsb (fun e => status_eqb (e_status e) active) (epics_of uid db).
Proof.
  unfold has_active_epic, epics_of.
  induction (epic_adventures db) as [|e l IH]; simpl; [reflexivity|].
  destruct (e_user_id e =? uid); simpl; now rewrite IH.
Qed.

Lemma adventures_kept_refl db : adventures_kept db db.
Proof. intros uid _. reflexivity. Qed.

Lemma adventures_kept_trans a b c :
  adventures_kept a b -> adventures_kept b c -> adventures_kept a c.
Proof.
  intros Hab Hbc uid Hact. specialize (Hab uid Hact).
  rewrite <- Hab. apply Hbc.
  rewrite has_active_adventure_of, Hab, <- has_active_adventure_of. exact Hact.
Qed.

Lemma adventures_kept_insert db row :
  has_active_adventure db (a_user_id row) = false ->
  adventures_kept db (insert_adventure db row).
Proof.
  intros Hfree uid Hact. unfold adventures_of, insert_adventure. simpl.
  rewrite filter_app. simpl.
  destruct (Z.eqb_spec (a_user_id row) uid) as [E|E]; [|apply app_nil_r].
  congruence.
Qed.

Lemma epics_kept_refl db : epics_kept db db.
Proof. intros uid _. reflexivity. Qed.

Lemma epics_kept_trans a b c :
  epics_kept a b -> epics_kept b c -> epics_kept a c.
Proof.
  intros Hab Hbc uid Hact. specialize (Hab uid Hact).
  rewrite <- Hab. apply Hbc.
  rewrite has_active_epic_of, Hab, <- has_active_epic_of. exact Hact.
Qed.

Lemma epics_kept_insert db mk :
  has_active_epic db
    (e_user_id (mk (Z.of_nat (length (epic_adventures db)) + 1))) = false ->
  epics_kept db (insert_epic db mk).
Proof.
  intros Hfree uid Hact. unfold epics_of, insert_epic. simpl.
  rewrite filter_app. simpl.
  destruct (Z.eqb_spec
              (e_user_id (mk (Z.of_nat (length (epic_adventures db)) + 1))) uid)
    as [E|E]; [|apply app_nil_r].
  congruence.
Qed.

Lemma start_epic_skips now char db g faults :
  has_active_epic db (c_user_id char) = true ->
  Job.store (Handlers.start_epic now char db g faults) = db.
Proof.
  intros Hact. unfold Handlers.start_epic.
  unfold Job.bind at 1. unfold Job.rand at 1.
  destruct (Handlers.new_epic now char g) as [[[mk|] g1]|]; try reflexivity.
  unfold Job.bind, Job.get. rewrite Hact. reflexivity.
Qed.

(** C2. The store changes by single writes.  Starting from a store with one
    profile row per user in which every participant has at most one active
    adventure and at most one active epic adventure (the empty store, for
    one), every store reached by such writes has the same property, where a
    row is inserted only for a participant without an active unit of the
    category.  The code inserts under no other condition: every stretch of
    the four scheduled jobs and of the commands [!status], [!complete] and
    [!cancel] that no [await] interrupts, and character creation, started in
    a reachable store, leaves a reachable store, whether it returns or is
    ended by an exception, raised by the code or by any of its statements
    to the database.  A run of [auto_adventure_loop] leaves the adventures
    of a participant who already has an active one unchanged, a run of
    [auto_epic_adventures] leaves the epic adventures of a participant who
    already has an active one unchanged, and the attempt to start an epic
    adventure for such a participant changes nothing in the store; the last
    three parts state the same of the runs of [Autoplay.auto_adventure_loop],
    [Epic.auto_epic_adventures] and [Epic.start_epic] that return. *)
Theorem one_active_unit_per_participant :
  (forall db0 db,
     keyed db0 -> at_most_one_active db0 -> reachable db0 db ->
     keyed db /\ at_most_one_active db)
  /\ (forall db0 db db',
        keyed db0 -> at_most_one_active db0 -> reachable db0 db ->
        block db db' ->
        reachable db0 db')
  /\ (forall channel online now db g faults,
        keyed db ->
        adventures_kept db
          (Job.store (Handlers.auto_adventure_loop channel online now db g faults)))
  /\ (forall channel online now db g faults,
        epics_kept db
          (Job.store (Handlers.auto_epic_adventures channel online now db g faults)))
  /\ (forall now char db g faults,
        has_active_epic db (c_user_id char) = true ->
        Job.store (Handlers.start_epic now char db g faults) = db)
  /\ (forall channel online now insert_fails db g db' g' user_id,
        keyed db -> at_most_one_active db ->
        has_active_adventure db user_id = true ->
        Autoplay.auto_adventure_loop channel online now insert_fails db g = Some (db', g') ->
        adventures_of user_id db' = adventures_of user_id db)
  /\ (forall channel online now insert_fails db g db' g' user_id,
        keyed db -> at_most_one_active db ->
        has_active_epic db user_id = true ->
        Epic.auto_epic_adventures channel online now insert_fails db g = Some (db', g') ->
        epics_of user_id db' = epics_of user_id db)
  /\ (forall now insert_fails db char g db' g',
        has_active_epic db (c_user_id char) = true ->
        Epic.start_epic now insert_fails db char g = Some (db', g') ->
        db' = db).
Proof.
  split; [|split; [|split; [|split; [|split; [|split; [|split]]]]]].
  - intros db0 db Hk Hone Hreach. now apply (reachable_invariant db0).
  - intros db0 db db' Hk Hone Hreach Hb.
    apply (reachable_trans db0 db); [exact Hreach|].
    apply block_reachable; [|exact Hb].
    now apply (reachable_invariant db0).
  - intros channel online now db g faults Hk.
    apply (auto_adventure_loop_confined adventures_kept adventures_kept_refl
             adventures_kept_trans);
      [intros db1 uid _; reflexivity|apply adventures_kept_insert|exact Hk].
  - intros channel online now db g faults.
    apply (auto_epic_adventures_confined epics_kept epics_kept_refl
             epics_kept_trans);
      [intros db1 uid _; reflexivity|apply epics_kept_insert].
  - intros now char db g faults Hact. now apply start_epic_skips.
  - intros channel online now insert_fails db g db' g' user_id Hk Hone Hact H.
    apply auto_adventure_loop_effect in H; [|exact Hk|intros uid; apply Hone].
    destruct H as (_ & _ & _ & Hrows). now apply Hrows.
  - intros channel online now insert_fails db g db' g' user_id Hk Hone Hact H.
    apply auto_epic_adventures_effect in H; [|exact Hk|intros uid; apply Hone].
    destruct H as (_ & _ & _ & Hrows). now apply Hrows.
  - intros now insert_fails db char g db' g' Hact H.
    eapply start_epic_noop; eassumption.
Qed.

Lemma arena_db_keyed : keyed arena_db.
Proof.
  unfold keyed. simpl. constructor; [simpl; intros [H|[]]; discriminate|].
  constructor; [intros []|constructor].
Qed.

Lemma arena_db_at_most_one_active : at_most_one_active arena_db.
Proof. intros user_id. split; simpl; lia. Qed.

Lemma one_active_unit_per_participant_witness :
  has_active_adventure arena_after_departure 1 = true
  /\ reachable arena_db arena_after_second_departure
  /\ keyed arena_after_second_departure
  /\ at_most_one_active arena_after_second_departure
  /\ adventures_of 1 arena_after_second_departure
     = adventures_of 1 arena_after_departure
  /\ length (adventures arena_after_second_departure) = 2%nat
  /\ reachable arena_db arena_after_interrupted_return
  /\ keyed arena_after_interrupted_return
  /\ at_most_one_active arena_after_interrupted_return.
Proof.
  destruct one_active_unit_per_participant as (Hinv & Hblock & Hkept & _).
  assert (H1 : reachable arena_db arena_after_departure).
  { apply (Hblock arena_db arena_db);
      [exact arena_db_keyed|exact arena_db_at_most_one_active
      |apply reach_start|apply block_auto_adventure_loop]. }
  assert (H2 : reachable arena_db arena_after_second_departure).
  { apply (Hblock arena_db arena_after_departure);
      [exact arena_db_keyed|exact arena_db_at_most_one_active
      |exact H1|apply block_auto_adventure_loop]. }
  assert (H3 : reachable arena_db arena_after_interrupted_return).
  { apply (Hblock arena_db arena_after_second_departure);
      [exact arena_db_keyed|exact arena_db_at_most_one_active
      |exact H2|apply block_level_up_check]. }
  split; [reflexivity|]. split; [exact H2|].
  destruct (Hinv arena_db arena_after_second_departure arena_db_keyed
              arena_db_at_most_one_active H2) as [Hk2 Hone2].
  split; [exact Hk2|]. split; [exact Hone2|]. split; [|split; [reflexivity|]].
  - apply Hkept; [|reflexivity].
    apply (Hinv arena_db arena_after_departure arena_db_keyed
             arena_db_at_most_one_active H1).
  - split; [exact H3|].
    apply (Hinv arena_db arena_after_interrupted_return arena_db_keyed
             arena_db_at_most_one_active H3).
Defined.

End WorkUnits.

(** ** The random source on valid requests *)

Lemma draw_returns g : exists u g', Py.draw g = Some (u, g').
Proof. destruct g as [|u g]; simpl; eauto. Qed.

Lemma bind_returns {A B} (m : Py.Rand A) (k : A -> Py.Rand B) g a g1 r :
  m g = Some (a, g1) -> k a g1 = r -> Py.bind m k g = r.
Proof. intros Hm Hk. unfold Py.bind. rewrite Hm. exact Hk. Qed.

Lemma bind_raises {A B} (m : Py.Rand A) (k : A -> Py.Rand B) g :
  m g = None -> Py.bind m k g = None.
Proof. intros Hm. unfold Py.bind. rewrite Hm. reflexivity. Qed.

Lemma randint_returns a b g :
  a <= b -> exists v g', Py.randint a b g = Some (v, g') /\ a <= v <= b.
Proof.
  intros Hab. unfold Py.randint. destruct (Z.leb_spec a b) as [_|Hlt]; [|lia].
  destruct (draw_returns g) as (u & g' & Hd).
  exists (a + u mod (b - a + 1)), g'. split.
  - eapply bind_returns; [exact Hd|reflexivity].
  - pose proof (Z.mod_pos_bound u (b - a + 1)). lia.
Qed.

Lemma randint_raises a b g : b < a -> Py.randint a b g = None.
Proof.
  intros H. unfold Py.randint. destruct (Z.leb_spec a b); [lia|reflexivity].
Qed.

Lemma choice_In {A} (l : list A) g x g' :
  Py.choice l g = Some (x, g') -> In x l.
Proof.
  destruct l as [|d l]; [discriminate|]. unfold Py.choice. intros H.
  step_bind H as u Hu. apply ret_Some in H. destruct H as [-> _].
  apply nth_In.
  pose proof (Z.mod_pos_bound u (Z.of_nat (length (d :: l)))) as Hb.
  simpl length in *. lia.
Qed.

Lemma choice_returns {A} (l : list A) g :
  l <> [] -> exists x g', Py.choice l g = Some (x, g') /\ In x l.
Proof.
  intros Hl. destruct l as [|d l]; [congruence|].
  destruct (draw_returns g) as (u & g' & Hd).
  assert (E : Py.choice (d :: l) g
              = Some (nth (Z.to_nat (u mod Z.of_nat (length (d :: l)))) (d :: l) d, g')).
  { unfold Py.choice. eapply bind_returns; [exact Hd|reflexivity]. }
  eexists. exists g'. split; [exact E|]. eapply choice_In, E.
Qed.

Lemma random_returns g : exists r g', Py.random g = Some (r, g').
Proof.
  destruct (draw_returns g) as (u & g' & Hd). unfold Py.random.
  eexists. exists g'. eapply bind_returns; [exact Hd|reflexivity].
Qed.

Lemma choices_In {A} (population : list A) weights g x g' :
  Py.choices population weights g = Some (x, g') -> In x population.
Proof.
  unfold Py.choices. destruct (negb _); [discriminate|].
  destruct population as [|d rest]; [discriminate|].
  destruct (PrimFloat.leb _ _); [discriminate|].
  destruct (negb _); [discriminate|].
  intros H. step_bind H as r Hr. apply ret_Some in H. destruct H as [-> _].
  destruct (nth_in_or_default
              (Py.bisect (Py.accumulate weights)
                 (PrimFloat.mul r
                    (PrimFloat.add (last (Py.accumulate weights) 0%float) 0%float))
                 0 (length (d :: rest) - 1))
              (d :: rest) d) as [Hin|Heq].
  - exact Hin.
  - rewrite Heq. now left.
Qed.

Lemma choices_returns {A} (population : list A) weights g :
  Nat.eqb (length (Py.accumulate weights)) (length population) = true ->
  population <> [] ->
  PrimFloat.leb (PrimFloat.add (last (Py.accumulate weights) 0%float) 0%float)
                0%float = false ->
  PrimFloat.is_finite
    (PrimFloat.add (last (Py.accumulate weights) 0%float) 0%float) = true ->
  exists x g', Py.choices population weights g = Some (x, g') /\ In x population.
Proof.
  intros Hlen Hne Hpos Hfin.
  destruct population as [|d rest]; [congruence|].
  destruct (random_returns g) as (r & g' & Hr).
  assert (E : exists x, Py.choices (d :: rest) weights g = Some (x, g')).
  { unfold Py.choices. rewrite Hlen, Hpos, Hfin. simpl negb. cbv iota.
    eexists. eapply bind_returns; [exact Hr|reflexivity]. }
  destruct E as (x & E). exists x, g'. split; [exact E|]. eapply choices_In, E.
Qed.

(** ** The item generator on every request *)

Section GeneratorMore.
Import Items.

(** X2. The tier table and the tier classifier agree: for a stat total from
    1 to 50, the classifier returns a tier exactly when the total lies in the
    range [get_stat_range] gives for that tier; and the table local to
    [generate_item] is the same table. *)
Theorem stat_range_round_trip :
  (forall r, stat_ranges r = get_stat_range r)
  /\ (forall r t, 1 <= t <= 50 ->
        (rarity_of_total t = r
         <-> fst (get_stat_range r) <= t <= snd (get_stat_range r))).
Proof.
  split.
  - intros r. destruct r; reflexivity.
  - intros r t Ht.
    destruct (rarity_of_total_spec t) as [H|[H|[H|[H|[H|[H|H]]]]]];
      destruct H as [B ->]; destruct r; simpl; split; intros; try discriminate;
      try lia; reflexivity.
Qed.

Lemma stat_range_round_trip_witness :
  rarity_of_total 44 = LEGENDARY
  <-> fst (get_stat_range LEGENDARY) <= 44 <= snd (get_stat_range LEGENDARY).
Proof. apply (proj2 stat_range_round_trip LEGENDARY 44). lia. Defined.

Lemma base_names_nonempty (ty : ItemType) : BASE_NAMES ty <> [].
Proof. destruct ty; discriminate. Qed.

End GeneratorMore.

Section GeneratorTotal.
Import Items.

Lemma name_prefixes_nonempty d a t : name_prefixes d a t <> [].
Proof.
  unfold name_prefixes.
  destruct (t >=? 40); [discriminate|].
  destruct (d >? a * 2); [discriminate|].
  destruct (a >? d * 2); discriminate.
Qed.

Lemma generate_name_prefix ty d a t :
  generate_name ty d a t
  = (prefix <- Py.choice (name_prefixes d a t) ;;
     base_name <- Py.choice (BASE_NAMES ty) ;;
     if t >=? 45 then
       suffix <- Py.choice SUFFIXES ;;
       Py.ret (prefix ++ " " ++ base_name ++ " " ++ suffix)%string
     else Py.ret (prefix ++ " " ++ base_name)%string).
Proof.
  unfold generate_name, name_prefixes.
  destruct (t >=? 40); [reflexivity|].
  destruct (d >? a * 2); [reflexivity|].
  destruct (a >? d * 2); reflexivity.
Qed.

Lemma generate_name_spec ty d a t g :
  exists nm g',
    generate_name ty d a t g = Some (nm, g')
    /\ exists prefix base_name,
         In prefix (name_prefixes d a t)
         /\ In base_name (BASE_NAMES ty)
         /\ if t >=? 45
            then exists suffix,
                   In suffix SUFFIXES
                   /\ nm = (prefix ++ " " ++ base_name ++ " " ++ suffix)%string
            else nm = (prefix ++ " " ++ base_name)%string.
Proof.
  rewrite generate_name_prefix.
  destruct (choice_returns (name_prefixes d a t) g (name_prefixes_nonempty d a t))
    as (prefix & g1 & Hp & Hpin).
  destruct (choice_returns (BASE_NAMES ty) g1 (base_names_nonempty ty))
    as (base & g2 & Hb & Hbin).
  destruct (t >=? 45) eqn:E45.
  - destruct (choice_returns SUFFIXES g2 ltac:(discriminate))
      as (suffix & g3 & Hs & Hsin).
    exists (prefix ++ " " ++ base ++ " " ++ suffix)%string, g3. split.
    + eapply bind_returns; [exact Hp|].
      eapply bind_returns; [exact Hb|].
      eapply bind_returns; [exact Hs|reflexivity].
    + exists prefix, base. split; [exact Hpin|]. split; [exact Hbin|].
      exists suffix. split; [exact Hsin|reflexivity].
  - exists (prefix ++ " " ++ base)%string, g2. split.
    + eapply bind_returns; [exact Hp|].
      eapply bind_returns; [exact Hb|reflexivity].
    + exists prefix, base. split; [exact Hpin|]. split; [exact Hbin|reflexivity].
Qed.

(** X3. [generate_name] returns a name for every item type, every stat
    triple and every state of the random source.  The name is
    "prefix base" with the base taken from the type's list and the prefix
    from the list selected by the stats (the legendary list from total 40,
    else by which of damage and armor is more than twice the other), and it
    carries a third part, taken from the suffix list, exactly when the total
    is 45 or more. *)
Theorem generate_name_shape :
  forall ty d a t g,
    exists nm g',
      generate_name ty d a t g = Some (nm, g')
      /\ exists prefix base_name,
           In prefix (name_prefixes d a t)
           /\ In base_name (BASE_NAMES ty)
           /\ if t >=? 45
              then exists suffix,
                     In suffix SUFFIXES
                     /\ nm = (prefix ++ " " ++ base_name ++ " " ++ suffix)%string
              else nm = (prefix ++ " " ++ base_name)%string.
Proof. exact generate_name_spec. Qed.

Lemma generate_item_rolled_range owner min_stat max_stat oty orar g :
  generate_item_rolled owner min_stat max_stat oty orar g
  = (item_type <- match oty with
                  | None => Py.choice all_item_types
                  | Some t => Py.ret t
                  end ;;
     total_stats <- Py.randint (Z.max 4 (fst (rolled_range min_stat max_stat orar)))
                               (snd (rolled_range min_stat max_stat orar)) ;;
     stats <- Py.lift (distribute item_type total_stats) ;;
     name <- generate_name item_type (s_damage stats) (s_armor stats) total_stats ;;
     k <- Py.randint 80 120 ;;
     Py.ret (total_stats,
             mkItem 0 owner name item_type (total_stats * k) (s_damage stats)
                    (s_armor stats) (get_hand_for_type item_type) false
                    (s_health_bonus stats) (s_speed_bonus stats)
                    (s_luck_bonus stats) (s_crit_bonus stats) (s_magic_bonus stats)
                    (Some (get_slot_for_type item_type)) 0)) g.
Proof.
  unfold generate_item_rolled, rolled_range.
  destruct orar as [r|]; [destruct (stat_ranges r)|]; reflexivity.
Qed.

Lemma item_type_returns (oty : option ItemType) g :
  exists ty g',
    match oty with
    | None => Py.choice all_item_types
    | Some t => Py.ret t
    end g = Some (ty, g')
    /\ forall t, oty = Some t -> ty = t.
Proof.
  destruct oty as [t|].
  - exists t, g. split; [reflexivity|]. intros t' H. now inversion H.
  - destruct (choice_returns all_item_types g ltac:(discriminate))
      as (ty & g' & H & _).
    exists ty, g'. split; [exact H|]. intros t' H'. discriminate.
Qed.

(** An empty range makes the generator raise, whatever else is asked. *)
Lemma generate_item_rolled_raises owner min_stat max_stat oty orar g :
  snd (rolled_range min_stat max_stat orar)
    < Z.max 4 (fst (rolled_range min_stat max_stat orar)) ->
  generate_item_rolled owner min_stat max_stat oty orar g = None.
Proof.
  intros Hr. rewrite generate_item_rolled_range.
  destruct (item_type_returns oty g) as (ty & g1 & Hty & _).
  eapply bind_returns; [exact Hty|].
  apply bind_raises, randint_raises, Hr.
Qed.

(** A non-empty range up to 2000 makes it return. *)
Lemma generate_item_rolled_returns owner min_stat max_stat oty orar g :
  Z.max 4 (fst (rolled_range min_stat max_stat orar))
    <= snd (rolled_range min_stat max_stat orar) <= 2000 ->
  exists total it g',
    generate_item_rolled owner min_stat max_stat oty orar g = Some ((total, it), g').
Proof.
  intros Hr. rewrite generate_item_rolled_range.
  destruct (item_type_returns oty g) as (ty & g1 & Hty & _).
  destruct (randint_returns _ _ g1 (proj1 Hr)) as (total & g2 & Ht & Hb).
  destruct (distribute_within_budget ty total ltac:(lia)) as (s & t & Hd & _).
  destruct (generate_name_spec ty (s_damage s) (s_armor s) total g2)
    as (nm & g3 & Hn & _).
  destruct (randint_returns 80 120 g3 ltac:(lia)) as (k & g4 & Hk & _).
  do 2 eexists. exists g4.
  eapply bind_returns; [exact Hty|].
  eapply bind_returns; [exact Ht|].
  eapply bind_returns; [unfold Py.lift; rewrite Hd; reflexivity|].
  eapply bind_returns; [exact Hn|].
  eapply bind_returns; [exact Hk|reflexivity].
Qed.

(** Everything [generate_item] fixes about the item it returns. *)
Lemma generate_item_rolled_fields owner min_stat max_stat oty orar g total it g' :
  generate_item_rolled owner min_stat max_stat oty orar g = Some ((total, it), g') ->
  id it = 0 /\ owner_id it = owner /\ equipped it = false /\ upgrade_level it = 0
  /\ hand it = get_hand_for_type (type it)
  /\ slot_type it = Some (get_slot_for_type (type it))
  /\ (forall t, oty = Some t -> type it = t)
  /\ (exists k, 80 <= k <= 120 /\ value it = total * k)
  /\ exists s,
       distribute (type it) total = Some s
       /\ damage it = s_damage s /\ armor it = s_armor s
       /\ health_bonus it = s_health_bonus s /\ speed_bonus it = s_speed_bonus s
       /\ luck_bonus it = s_luck_bonus s /\ crit_bonus it = s_crit_bonus s
       /\ magic_bonus it = s_magic_bonus s.
Proof.
  rewrite generate_item_rolled_range. intros H.
  step_bind H as ty Hty.
  step_bind H as t Ht.
  step_bind H as s Hd. apply lift_Some in Hd. destruct Hd as [Hd ->].
  step_bind H as nm Hnm. step_bind H as k Hk. apply randint_range in Hk.
  apply ret_Some in H. destruct H as [H _]. inversion H; subst total it; clear H.
  simpl. repeat (split; [reflexivity|]).
  split.
  - intros t' ->. apply ret_Some in Hty. now destruct Hty.
  - split; [exists k; split; [exact Hk|reflexivity]|].
    exists s. split; [exact Hd|]. repeat split; reflexivity.
Qed.

Lemma generate_item_Some owner min_stat max_stat oty orar g it g' :
  generate_item owner min_stat max_stat oty orar g = Some (it, g') ->
  exists total,
    generate_item_rolled owner min_stat max_stat oty orar g = Some ((total, it), g').
Proof.
  unfold generate_item. intros H. step_bind H as r Hr.
  apply ret_Some in H. destruct H as [-> ->]. destruct r as [total it].
  exists total. exact Hr.
Qed.

Lemma generate_item_of_rolled owner min_stat max_stat oty orar g r :
  generate_item_rolled owner min_stat max_stat oty orar g = r ->
  generate_item owner min_stat max_stat oty orar g
  = match r with Some ((_, it), g') => Some (it, g') | None => None end.
Proof.
  intros <-. unfold generate_item, Py.bind.
  destruct (generate_item_rolled _ _ _ _ _ _) as [[[total it] g']|]; reflexivity.
Qed.

(** What a caller of [generate_item] without a forced tier gets on a valid
    range. *)
Lemma generate_item_valid_range owner min_stat max_stat oty g :
  Z.max 4 min_stat <= max_stat <= 2000 ->
  exists it g' t,
    generate_item owner min_stat max_stat oty None g = Some (it, g')
    /\ owner_id it = owner
    /\ (forall ty, oty = Some ty -> type it = ty)
    /\ stat_total it = Some t /\ 0 <= t <= max_stat.
Proof.
  intros Hr.
  destruct (generate_item_rolled_returns owner min_stat max_stat oty None g Hr)
    as (total & it & g' & H).
  pose proof (generate_item_rolled_inv _ _ _ _ _ _ _ _ _ H) as (H4 & _ & Hb & s & Hd & Hst).
  pose proof (generate_item_rolled_fields _ _ _ _ _ _ _ _ _ H)
    as (_ & Ho & _ & _ & _ & _ & Hty & _).
  specialize (Hb eq_refl).
  destruct (distribute_within_budget (type it) total ltac:(simpl in Hr; lia))
    as (s' & t & Hd' & Ht & Hle).
  rewrite Hd in Hd'. inversion Hd'; subst s'.
  exists it, g', t. split.
  - rewrite (generate_item_of_rolled _ _ _ _ _ _ _ H). reflexivity.
  - split; [exact Ho|]. split; [exact Hty|]. split; [now rewrite Hst|].
    simpl in Hr. lia.
Qed.

Lemma generate_item_empty_range owner min_stat max_stat oty g :
  max_stat < Z.max 4 min_stat ->
  generate_item owner min_stat max_stat oty None g = None.
Proof.
  intros Hr.
  rewrite (generate_item_of_rolled _ _ _ _ _ _ _
             (generate_item_rolled_raises owner min_stat max_stat oty None g Hr)).
  reflexivity.
Qed.

(** X4. Without a forced tier, [generate_item] raises ([ValueError] of
    [random.randint]) for every request whose [max_stat] is below
    [max(4, min_stat)], whatever the owner, the item type and the random
    source; and for every request with [max(4, min_stat) <= max_stat <= 2000]
    it returns an item of the owner and of the requested type whose stat
    total is defined and at most [max_stat]. *)
Theorem generate_item_raises_iff_empty_range :
  forall owner min_stat max_stat oty g,
    (max_stat < Z.max 4 min_stat ->
     generate_item owner min_stat max_stat oty None g = None)
    /\ (Z.max 4 min_stat <= max_stat <= 2000 ->
        exists it g' t,
          generate_item owner min_stat max_stat oty None g = Some (it, g')
          /\ owner_id it = owner
          /\ (forall ty, oty = Some ty -> type it = ty)
          /\ stat_total it = Some t /\ 0 <= t <= max_stat).
Proof.
  intros owner min_stat max_stat oty g. split.
  - apply generate_item_empty_range.
  - apply generate_item_valid_range.
Qed.

Lemma generate_item_raises_iff_empty_range_witness :
  generate_item 7 3 3 None None [5; 6] = None
  /\ exists it g' t,
       generate_item 7 4 50 (Some BOOTS) None [5; 6] = Some (it, g')
       /\ owner_id it = 7
       /\ (forall ty, Some BOOTS = Some ty -> type it = ty)
       /\ stat_total it = Some t /\ 0 <= t <= 50.
Proof.
  split.
  - apply (proj1 (generate_item_raises_iff_empty_range 7 3 3 None [5; 6])). lia.
  - apply (proj2 (generate_item_raises_iff_empty_range 7 4 50 (Some BOOTS) [5; 6])). lia.
Defined.

(** X5. The starter gear of a new character is never generated: both calls
    that [create] makes after writing the character row,
    [generate_item(user, min_stat=3, max_stat=3, item_type=SWORD)] and the
    same for the shield, raise for every user and every state of the random
    source, because the generator rolls in [randint(max(4, 3), 3)]. *)
Theorem starter_gear_always_raises :
  forall user_id g,
    CharacterCog.starter_sword user_id g = None
    /\ CharacterCog.starter_shield user_id g = None.
Proof.
  intros user_id g. unfold CharacterCog.starter_sword, CharacterCog.starter_shield.
  split; apply generate_item_empty_range; lia.
Qed.

(** X6. With a forced tier [generate_item] ignores the [min_stat] and
    [max_stat] it is given and always returns: the rolled total lies in
    [max(4, lo) .. hi] for the tier's range [lo .. hi], and the item's own
    tier is the forced one or a lower one. *)
Theorem generate_item_forced_rarity :
  forall owner min_stat max_stat oty r g,
    generate_item_rolled owner min_stat max_stat oty (Some r) g
    = generate_item_rolled owner 4 50 oty (Some r) g
    /\ exists total it g' r',
         generate_item_rolled owner min_stat max_stat oty (Some r) g
         = Some ((total, it), g')
         /\ Z.max 4 (fst (get_stat_range r)) <= total <= snd (get_stat_range r)
         /\ rarity it = Some r'
         /\ rarity_rank r' <= rarity_rank r.
Proof.
  intros owner min_stat max_stat oty r g. split.
  - rewrite !generate_item_rolled_range. reflexivity.
  - assert (Hr : Z.max 4 (fst (rolled_range min_stat max_stat (Some r)))
                 <= snd (rolled_range min_stat max_stat (Some r)) <= 2000)
      by (destruct r; simpl; lia).
    destruct (generate_item_rolled_returns owner min_stat max_stat oty (Some r) g Hr)
      as (total & it & g' & H).
    pose proof (generate_item_rolled_inv _ _ _ _ _ _ _ _ _ H)
      as (H4 & Hb & _ & s & Hd & Hst).
    specialize (Hb r eq_refl).
    destruct (get_stat_range_rarity r) as (Hmax & Hlo & Hhi).
    destruct (distribute_within_budget (type it) total ltac:(lia))
      as (s' & t & Hd' & Ht & Hle).
    rewrite Hd in Hd'. inversion Hd'; subst s'.
    exists total, it, g', (rarity_of_total t).
    split; [exact H|]. split; [lia|]. split.
    + unfold rarity. rewrite Hst, Ht. reflexivity.
    + replace (rarity_rank r)
        with (rarity_rank (rarity_of_total (snd (get_stat_range r))))
        by (now rewrite Hmax).
      apply rarity_of_total_monotone. lia.
Qed.

Lemma distribute_by_kind (ty : ItemType) (total : Z) (s : Stats) :
  distribute ty total = Some s ->
  (is_armor ty = true -> s_damage s = 0)
  /\ (is_armor ty = false ->
      s_health_bonus s = 0 /\ s_speed_bonus s = 0 /\ s_magic_bonus s = 0
      /\ s_luck_bonus s = 0%float /\ s_crit_bonus s = 0%float).
Proof.
  unfold distribute. intros H.
  destruct ty; cbn [get_type_stats distribute_loop allocate] in H;
    repeat match type of H with
           | context [Py.int_of_float ?x] =>
               destruct (Py.int_of_float x); [|discriminate]
           end;
    injection H as <-; cbn; split; intros; try discriminate;
    repeat split; reflexivity.
Qed.

(** X7. What the generator fixes about every item it returns, whatever was
    asked: the item is unequipped, at upgrade level 0, with id 0 and the
    given owner; its hand and slot are those of its type; its value is the
    rolled total times a factor from 80 to 120; one of the five armor types
    has damage 0; a weapon or a shield has no health, speed, magic, luck or
    crit bonus. *)
Theorem generated_item_fields :
  forall owner min_stat max_stat oty orar g total it g',
    generate_item_rolled owner min_stat max_stat oty orar g = Some ((total, it), g') ->
    id it = 0 /\ owner_id it = owner /\ equipped it = false /\ upgrade_level it = 0
    /\ hand it = get_hand_for_type (type it)
    /\ slot_type it = Some (get_slot_for_type (type it))
    /\ (forall t, oty = Some t -> type it = t)
    /\ (exists k, 80 <= k <= 120 /\ value it = total * k)
    /\ (is_armor (type it) = true -> damage it = 0)
    /\ (is_armor (type it) = false ->
        health_bonus it = 0 /\ speed_bonus it = 0 /\ magic_bonus it = 0
        /\ luck_bonus it = 0%float /\ crit_bonus it = 0%float).
Proof.
  intros owner min_stat max_stat oty orar g total it g' H.
  destruct (generate_item_rolled_fields _ _ _ _ _ _ _ _ _ H)
    as (Hid & Ho & He & Hu & Hh & Hs & Hty & Hv & s & Hd & Hf).
  destruct Hf as (-> & _ & -> & -> & -> & -> & ->).
  destruct (distribute_by_kind _ _ _ Hd) as [Ha Hw].
  do 8 (split; [assumption|]). split; assumption.
Qed.

Lemma generated_item_fields_witness :
  exists it,
    generate_item_rolled 7 4 50 (Some HELMET) None [10; 0; 0; 0]
    = Some ((14, it), [])
    /\ damage it = 0 /\ hand it = ANY /\ slot_type it = Some head.
Proof.
  eexists. split; [vm_compute; reflexivity|].
  pose proof (generated_item_fields 7 4 50 (Some HELMET) None [10; 0; 0; 0] 14 _ []
                ltac:(vm_compute; reflexivity))
    as (_ & _ & _ & _ & Hh & Hs & _ & _ & Ha & _).
  split; [apply Ha; reflexivity|]. split; [exact Hh|exact Hs].
Defined.

End GeneratorTotal.

Section EquipmentAndCrates.
Import Items.

Lemma armor_type_of_slot_spec slot t :
  armor_type_of_slot slot = Some t ->
  is_armor t = true /\ slot_name (get_slot_for_type t) = slot.
Proof.
  unfold armor_type_of_slot.
  repeat match goal with
         | |- context [String.eqb slot ?s] =>
             destruct (String.eqb_spec slot s) as [->|_]
         end; intros H; inversion H; subst; split; reflexivity.
Qed.

Lemma armor_types_are_armor t :
  In t [HELMET; CHESTPLATE; LEGGINGS; GAUNTLETS; BOOTS] -> is_armor t = true.
Proof. simpl. intuition (subst; reflexivity). Qed.

Lemma armor_hand_any t : is_armor t = true -> get_hand_for_type t = ANY.
Proof. destruct t; simpl; intros H; try discriminate; reflexivity. Qed.

(** X8. [generate_armor]: every item it returns is of one of the five armor
    types, deals no damage and takes the hand [ANY]; for the five slot names
    the item's slot is the requested one, for any other string an armor
    type is drawn.  It raises exactly under the generator's condition: never
    when [max(4, min_stat) <= max_stat <= 2000], always when [max_stat] is
    below [max(4, min_stat)]. *)
Theorem generate_armor_slot_round_trip :
  forall owner slot min_stat max_stat g,
    (forall it g',
       generate_armor owner slot min_stat max_stat g = Some (it, g') ->
       is_armor (type it) = true /\ damage it = 0 /\ hand it = ANY
       /\ (forall t, armor_type_of_slot slot = Some t ->
             type it = t /\ option_map slot_name (slot_type it) = Some slot))
    /\ (Z.max 4 min_stat <= max_stat <= 2000 ->
        exists it g', generate_armor owner slot min_stat max_stat g = Some (it, g'))
    /\ (max_stat < Z.max 4 min_stat ->
        generate_armor owner slot min_stat max_stat g = None).
Proof.
  intros owner slot min_stat max_stat g.
  assert (Hty : exists ty g1,
            match armor_type_of_slot slot with
            | Some t => Py.ret t
            | None => Py.choice [HELMET; CHESTPLATE; LEGGINGS; GAUNTLETS; BOOTS]
            end g = Some (ty, g1)
            /\ is_armor ty = true
            /\ forall t, armor_type_of_slot slot = Some t -> ty = t).
  { destruct (armor_type_of_slot slot) as [t|] eqn:Es.
    - exists t, g. split; [reflexivity|]. split.
      + apply (armor_type_of_slot_spec slot t Es).
      + intros t' H. now inversion H.
    - destruct (choice_returns [HELMET; CHESTPLATE; LEGGINGS; GAUNTLETS; BOOTS] g
                  ltac:(discriminate)) as (ty & g1 & Hc & Hin).
      exists ty, g1. split; [exact Hc|]. split.
      + now apply armor_types_are_armor.
      + intros t' H. discriminate. }
  destruct Hty as (ty & g1 & Hc & Harm & Hslot).
  assert (E : generate_armor owner slot min_stat max_stat g
              = generate_item owner min_stat max_stat (Some ty) None g1).
  { unfold generate_armor. eapply bind_returns; [exact Hc|reflexivity]. }
  rewrite E. split; [|split].
  - intros it g' H. apply generate_item_Some in H. destruct H as (total & H).
    destruct (generate_item_rolled_fields _ _ _ _ _ _ _ _ _ H)
      as (_ & _ & _ & _ & Hh & Hs & Hty & _ & s & Hd & Hdmg & _).
    specialize (Hty ty eq_refl). rewrite Hty in *.
    destruct (distribute_by_kind _ _ _ Hd) as [Ha _].
    split; [exact Harm|]. split; [rewrite Hdmg; now apply Ha|].
    split; [rewrite Hh; now apply armor_hand_any|].
    intros t Ht. rewrite <- (Hslot t Ht). split; [reflexivity|].
    rewrite Hs. simpl. f_equal. rewrite (Hslot t Ht).
    apply (armor_type_of_slot_spec slot t Ht).
  - intros Hr.
    destruct (generate_item_valid_range owner min_stat max_stat (Some ty) g1 Hr)
      as (it & g' & _ & H & _).
    now exists it, g'.
  - intros Hr. now apply generate_item_empty_range.
Qed.

Lemma generate_armor_slot_round_trip_witness :
  exists it g', generate_armor 7 "feet" 4 50 [3; 1; 4] = Some (it, g').
Proof.
  apply (proj1 (proj2 (generate_armor_slot_round_trip 7 "feet" 4 50 [3; 1; 4]))).
  lia.
Defined.

Lemma equipment_type_returns g :
  exists r g1 ty g2,
    Py.random g = Some (r, g1)
    /\ (if Py.flt r 0.6%float then
          Py.choice [SWORD; AXE; HAMMER; MACE; DAGGER; KNIFE; SPEAR; WAND;
                     STAFF; BOW; CROSSBOW; GREATSWORD; HALBERD; KATANA;
                     SCYTHE; SHIELD]
        else
          Py.choice [HELMET; CHESTPLATE; LEGGINGS; GAUNTLETS; BOOTS]) g1
       = Some (ty, g2)
    /\ is_armor ty = negb (Py.flt r 0.6%float).
Proof.
  destruct (random_returns g) as (r & g1 & Hr).
  exists r, g1. destruct (Py.flt r 0.6%float).
  - destruct (choice_returns
                [SWORD; AXE; HAMMER; MACE; DAGGER; KNIFE; SPEAR; WAND;
                 STAFF; BOW; CROSSBOW; GREATSWORD; HALBERD; KATANA;
                 SCYTHE; SHIELD] g1 ltac:(discriminate)) as (ty & g2 & Hc & Hin).
    exists ty, g2. split; [exact Hr|]. split; [exact Hc|].
    simpl in Hin. intuition (subst; reflexivity).
  - destruct (choice_returns [HELMET; CHESTPLATE; LEGGINGS; GAUNTLETS; BOOTS] g1
                ltac:(discriminate)) as (ty & g2 & Hc & Hin).
    exists ty, g2. split; [exact Hr|]. split; [exact Hc|].
    now apply armor_types_are_armor.
Qed.

Lemma generate_random_equipment_valid owner min_stat max_stat g :
  Z.max 4 min_stat <= max_stat <= 2000 ->
  exists it g' t,
    generate_random_equipment owner min_stat max_stat g = Some (it, g')
    /\ owner_id it = owner
    /\ stat_total it = Some t /\ 0 <= t <= max_stat.
Proof.
  intros Hr.
  destruct (equipment_type_returns g) as (r & g1 & ty & g2 & Hrand & Hc & _).
  destruct (generate_item_valid_range owner min_stat max_stat (Some ty) g2 Hr)
    as (it & g' & t & H & Ho & _ & Ht).
  exists it, g', t. split; [|split; [exact Ho|exact Ht]].
  unfold generate_random_equipment.
  eapply bind_returns; [exact Hrand|].
  eapply bind_returns; [exact Hc|exact H].
Qed.

Lemma generate_random_equipment_empty owner min_stat max_stat g :
  max_stat < Z.max 4 min_stat ->
  generate_random_equipment owner min_stat max_stat g = None.
Proof.
  intros Hr.
  destruct (equipment_type_returns g) as (r & g1 & ty & g2 & Hrand & Hc & _).
  unfold generate_random_equipment.
  eapply bind_returns; [exact Hrand|].
  eapply bind_returns; [exact Hc|].
  now apply generate_item_empty_range.
Qed.

Lemma generate_random_equipment_inv owner min_stat max_stat g it g' :
  generate_random_equipment owner min_stat max_stat g = Some (it, g') ->
  owner_id it = owner /\ equipped it = false
  /\ exists total k,
       Z.max 4 min_stat <= total <= max_stat /\ 80 <= k <= 120
       /\ value it = total * k.
Proof.
  intros H.
  destruct (equipment_type_returns g) as (r & g1 & ty & g2 & Hrand & Hc & _).
  unfold generate_random_equipment in H.
  rewrite (bind_returns _ _ _ _ _ _ Hrand eq_refl) in H.
  rewrite (bind_returns _ _ _ _ _ _ Hc eq_refl) in H.
  apply generate_item_Some in H. destruct H as (total & H).
  destruct (generate_item_rolled_fields _ _ _ _ _ _ _ _ _ H)
    as (_ & Ho & He & _ & _ & _ & _ & (k & Hk & Hv) & _).
  destruct (generate_item_rolled_inv _ _ _ _ _ _ _ _ _ H) as (H4 & _ & Hb & _).
  specialize (Hb eq_refl).
  split; [exact Ho|]. split; [exact He|].
  exists total, k. split; [lia|]. split; [exact Hk|exact Hv].
Qed.

(** X9. [generate_random_equipment] draws the kind first: the item is one of
    the five armor types exactly when the first [random()] is not below 0.6.
    On a range with [max(4, min_stat) <= max_stat <= 2000] it always returns
    an item of the owner with a stat total of at most [max_stat]; on a range
    with [max_stat < max(4, min_stat)] it always raises. *)
Theorem generate_random_equipment_total :
  forall owner min_stat max_stat g,
    (Z.max 4 min_stat <= max_stat <= 2000 ->
     exists it g' t,
       generate_random_equipment owner min_stat max_stat g = Some (it, g')
       /\ owner_id it = owner
       /\ stat_total it = Some t /\ 0 <= t <= max_stat)
    /\ (max_stat < Z.max 4 min_stat ->
        generate_random_equipment owner min_stat max_stat g = None)
    /\ (forall it g',
          generate_random_equipment owner min_stat max_stat g = Some (it, g') ->
          exists r g1,
            Py.random g = Some (r, g1)
            /\ is_armor (type it) = negb (Py.flt r 0.6%float)).
Proof.
  intros owner min_stat max_stat g. split; [|split].
  - apply generate_random_equipment_valid.
  - apply generate_random_equipment_empty.
  - intros it g' H.
    destruct (equipment_type_returns g) as (r & g1 & ty & g2 & Hrand & Hc & Hk).
    exists r, g1. split; [exact Hrand|].
    unfold generate_random_equipment in H.
    rewrite (bind_returns _ _ _ _ _ _ Hrand eq_refl) in H.
    rewrite (bind_returns _ _ _ _ _ _ Hc eq_refl) in H.
    apply generate_item_Some in H. destruct H as (total & H).
    destruct (generate_item_rolled_fields _ _ _ _ _ _ _ _ _ H)
      as (_ & _ & _ & _ & _ & _ & Hty & _).
    rewrite (Hty ty eq_refl). exact Hk.
Qed.

Lemma generate_random_equipment_total_witness :
  (exists it g' t,
     generate_random_equipment 7 10 25 [1; 2; 3] = Some (it, g')
     /\ owner_id it = 7 /\ stat_total it = Some t /\ 0 <= t <= 25)
  /\ generate_random_equipment 7 51 50 [1; 2; 3] = None.
Proof.
  split.
  - apply (proj1 (generate_random_equipment_total 7 10 25 [1; 2; 3])). lia.
  - apply (proj1 (proj2 (generate_random_equipment_total 7 51 50 [1; 2; 3]))). lia.
Defined.

Lemma crate_rarity_returns crate_type g :
  exists r g1 c,
    (if String.eqb crate_type "mystery"
     then Py.choices (map fst mystery_rarities) (map snd mystery_rarities)
     else Py.ret (crate_map crate_type)) g = Some (r, g1)
    /\ CRATE_CONTENTS r = Some c
    /\ Z.max 4 (crate_min_stat c) <= crate_max_stat c <= 2000
    /\ fst (money_range c) <= snd (money_range c)
    /\ (String.eqb crate_type "mystery" = false ->
        r = crate_map crate_type /\ g1 = g).
Proof.
  assert (Hall : forall r, In r (map fst mystery_rarities) ->
            exists c, CRATE_CONTENTS r = Some c
                      /\ Z.max 4 (crate_min_stat c) <= crate_max_stat c <= 2000
                      /\ fst (money_range c) <= snd (money_range c)).
  { simpl. intros r [<-|[<-|[<-|[<-|[<-|[]]]]]]; eexists;
      (split; [reflexivity|simpl; lia]). }
  destruct (String.eqb crate_type "mystery") eqn:Em.
  - destruct (choices_returns (map fst mystery_rarities) (map snd mystery_rarities) g
                eq_refl ltac:(discriminate) eq_refl eq_refl)
      as (r & g1 & Hc & Hin).
    destruct (Hall r Hin) as (c & H1 & H2 & H3).
    exists r, g1, c. repeat (split; [assumption|]). discriminate.
  - assert (Hin : In (crate_map crate_type) (map fst mystery_rarities)).
    { unfold crate_map.
      repeat match goal with
             | |- context [String.eqb crate_type ?s] => destruct (String.eqb crate_type s)
             end; simpl; tauto. }
    destruct (Hall _ Hin) as (c & H1 & H2 & H3).
    exists (crate_map crate_type), g, c. split; [reflexivity|].
    repeat (split; [assumption|]). intros _. split; reflexivity.
Qed.

(** X10. [CrateSystem.open_crate] never raises, for any crate name (an
    unknown name opens a common crate), any owner and any state of the
    random source.  The crate's tier is one of the five tiers that have
    contents; a money reward lies in the tier's [money_range]; an item reward
    belongs to the owner and has a stat total of at most the tier's
    [max_stat]. *)
Theorem open_crate_never_raises :
  forall crate_type owner g,
    exists r c reward g',
      open_crate_rolled crate_type owner g = Some ((r, reward), g')
      /\ open_crate crate_type owner g = Some (reward, g')
      /\ CRATE_CONTENTS r = Some c
      /\ (String.eqb crate_type "mystery" = false -> r = crate_map crate_type)
      /\ match reward with
         | money_reward money =>
             fst (money_range c) <= money <= snd (money_range c)
         | item_reward it =>
             owner_id it = owner
             /\ exists t, stat_total it = Some t /\ 0 <= t <= crate_max_stat c
         end.
Proof.
  intros crate_type owner g.
  destruct (crate_rarity_returns crate_type g)
    as (r & g1 & c & Hr & Hc & Hstat & Hmoney & Hmap).
  destruct (random_returns g1) as (x & g2 & Hx).
  assert (E : exists reward g',
            open_crate_rolled crate_type owner g = Some ((r, reward), g')
            /\ match reward with
               | money_reward money =>
                   fst (money_range c) <= money <= snd (money_range c)
               | item_reward it =>
                   owner_id it = owner
                   /\ exists t, stat_total it = Some t /\ 0 <= t <= crate_max_stat c
               end).
  { destruct (Py.flt x (money_chance c)) eqn:Ef.
    - destruct (randint_returns _ _ g2 Hmoney) as (m & g3 & Hm & Hb).
      exists (money_reward m), g3. split; [|exact Hb].
      unfold open_crate_rolled.
      eapply bind_returns; [exact Hr|].
      eapply bind_returns; [unfold Py.lift; rewrite Hc; reflexivity|].
      eapply bind_returns; [exact Hx|]. rewrite Ef.
      eapply bind_returns; [exact Hm|reflexivity].
    - destruct (generate_random_equipment_valid owner _ _ g2 Hstat)
        as (it & g3 & t & Hg & Ho & Ht).
      exists (item_reward it), g3. split; [|split; [exact Ho|now exists t]].
      unfold open_crate_rolled.
      eapply bind_returns; [exact Hr|].
      eapply bind_returns; [unfold Py.lift; rewrite Hc; reflexivity|].
      eapply bind_returns; [exact Hx|]. rewrite Ef.
      eapply bind_returns; [exact Hg|reflexivity]. }
  destruct E as (reward & g' & E & Hrew).
  exists r, c, reward, g'. split; [exact E|]. split.
  - unfold open_crate. eapply bind_returns; [exact E|reflexivity].
  - split; [exact Hc|]. split; [|exact Hrew].
    intros Hm. apply (Hmap Hm).
Qed.

End EquipmentAndCrates.

(** ** The inventory *)

Section InventoryProps.
Import Items.

Lemma hand_eqb_spec a b : hand_eqb a b = true <-> a = b.
Proof. destruct a, b; simpl; split; intros H; try discriminate; reflexivity. Qed.

Lemma holds_spec h items :
  holds h items = true <-> exists e, In e (equipped_items items) /\ hand e = h.
Proof.
  unfold holds. rewrite existsb_exists. split.
  - intros (e & Hin & He). exists e. split; [exact Hin|now apply hand_eqb_spec].
  - intros (e & Hin & He). exists e. split; [exact Hin|now apply hand_eqb_spec].
Qed.

Lemma taken_spec h items :
  existsb (fun e => hand_eqb (hand e) h || hand_eqb (hand e) ANY)
          (equipped_items items)
  = holds h items || holds ANY items.
Proof.
  unfold holds. induction (equipped_items items) as [|e l IH]; [reflexivity|].
  simpl. rewrite IH.
  destruct (hand_eqb (hand e) h), (hand_eqb (hand e) ANY),
    (existsb (fun e0 => hand_eqb (hand e0) h) l),
    (existsb (fun e0 => hand_eqb (hand e0) ANY) l); reflexivity.
Qed.

(** [can_equip] in terms of which hands are held. *)
Lemma can_equip_ok_inv items item :
  can_equip items item = can_equip_ok ->
  holds BOTH items = false
  /\ match hand item with
     | BOTH => equipped_items items = []
     | LEFT => holds LEFT items = false /\ holds ANY items = false
     | RIGHT => holds RIGHT items = false /\ holds ANY items = false
     | ANY => holds ANY items = false
              /\ (holds LEFT items = false \/ holds RIGHT items = false)
     end.
Proof.
  unfold can_equip.
  destruct (is_primary_weapon (type item) && _); [discriminate|].
  destruct (hand item) eqn:Eh; simpl hand_eqb; cbv iota.
  - fold (holds BOTH items). destruct (holds BOTH items); [discriminate|].
    rewrite taken_spec.
    destruct (holds LEFT items), (holds ANY items); simpl; try discriminate.
    auto.
  - fold (holds BOTH items). destruct (holds BOTH items); [discriminate|].
    rewrite taken_spec.
    destruct (holds RIGHT items), (holds ANY items); simpl; try discriminate.
    auto.
  - unfold holds. destruct (equipped_items items) as [|e l]; [auto|].
    simpl length. destruct (0 <? Z.of_nat (S (length l))) eqn:E; [discriminate|].
    apply Z.ltb_ge in E. lia.
  - fold (holds BOTH items). destruct (holds BOTH items); [discriminate|].
    rewrite !taken_spec.
    destruct (holds LEFT items), (holds RIGHT items), (holds ANY items);
      simpl; try discriminate; auto.
Qed.

Lemma can_equip_nothing_equipped items item :
  equipped_items items = [] -> can_equip items item = can_equip_ok.
Proof.
  intros He. unfold can_equip. rewrite He. simpl.
  rewrite andb_false_r. destruct (hand item); reflexivity.
Qed.

Lemma can_equip_blocked items item e :
  In e (equipped_items items) -> hand e = ANY \/ hand e = BOTH ->
  can_equip items item <> can_equip_ok.
Proof.
  intros Hin Hh Hok. apply can_equip_ok_inv in Hok. destruct Hok as [Hb Hok].
  destruct Hh as [Hh|Hh].
  - assert (Ha : holds ANY items = true) by (apply holds_spec; eauto).
    destruct (hand item).
    + destruct Hok as [_ H]. congruence.
    + destruct Hok as [_ H]. congruence.
    + rewrite Hok in Hin. destruct Hin.
    + destruct Hok as [H _]. congruence.
  - assert (Ha : holds BOTH items = true) by (apply holds_spec; eauto).
    congruence.
Qed.

(** X11. [Inventory.can_equip] accepts every item when nothing is equipped,
    and refuses every item as soon as one equipped item has the hand [ANY]
    or [BOTH] (the hands the generator gives to every weapon and every piece
    of armor, the shield apart). *)
Theorem can_equip_first_item_blocks :
  forall items item,
    (equipped_items items = [] -> can_equip items item = can_equip_ok)
    /\ (forall e, In e (equipped_items items) -> hand e = ANY \/ hand e = BOTH ->
          can_equip items item <> can_equip_ok).
Proof.
  intros items item. split.
  - apply can_equip_nothing_equipped.
  - intros e. apply can_equip_blocked.
Qed.

Lemma can_equip_first_item_blocks_witness :
  can_equip [spare_shield; spare_sword] spare_sword = can_equip_ok.
Proof.
  apply (proj1 (can_equip_first_item_blocks [spare_shield; spare_sword] spare_sword)).
  reflexivity.
Defined.

Lemma equip_at_spec : forall items i item,
  nth_error items i = Some item -> equipped item = false ->
  length (equipped_items (set_equipped_at items i true))
  = S (length (equipped_items items))
  /\ In (set_equipped item true) (equipped_items (set_equipped_at items i true))
  /\ (forall e, In e (equipped_items items) ->
        In e (equipped_items (set_equipped_at items i true)))
  /\ nth_error (set_equipped_at items i true) i = Some (set_equipped item true)
  /\ set_equipped_at (set_equipped_at items i true) i false = items.
Proof.
  unfold equipped_items.
  induction items as [|x rest IH]; intros [|i] item Hn He; simpl in Hn;
    try discriminate.
  - injection Hn as ->. simpl. rewrite He. simpl.
    split; [reflexivity|]. split; [now left|]. split; [intros e H; now right|].
    split; [reflexivity|]. f_equal. destruct item; simpl in *. now subst.
  - destruct (IH i item Hn He) as (H1 & H2 & H3 & H4 & H5).
    simpl. destruct (equipped x); simpl.
    + split; [now rewrite H1|]. split; [now right|].
      split; [intros e [->|H]; [now left|right; now apply H3]|].
      split; [exact H4|now rewrite H5].
    + split; [exact H1|]. split; [exact H2|]. split; [exact H3|].
      split; [exact H4|now rewrite H5].
Qed.

Lemma unequip_at_spec : forall items i item,
  nth_error items i = Some item -> equipped item = true ->
  S (length (equipped_items (set_equipped_at items i false)))
  = length (equipped_items items).
Proof.
  unfold equipped_items.
  induction items as [|x rest IH]; intros [|i] item Hn He; simpl in Hn;
    try discriminate.
  - injection Hn as ->. simpl. rewrite He. reflexivity.
  - specialize (IH i item Hn He). simpl. destruct (equipped x); simpl; lia.
Qed.

Lemma nth_error_equipped items i item :
  nth_error items i = Some item -> equipped item = true ->
  In item (equipped_items items).
Proof.
  intros Hn He. unfold equipped_items. apply filter_In.
  split; [eapply nth_error_In, Hn|exact He].
Qed.

(** An item that is equipped stands in its own way. *)
Lemma can_equip_ok_not_equipped items i item :
  nth_error items i = Some item -> can_equip items item = can_equip_ok ->
  equipped item = false.
Proof.
  intros Hn Hok. destruct (equipped item) eqn:He; [|reflexivity].
  pose proof (nth_error_equipped _ _ _ Hn He) as Hin.
  assert (Hh : holds (hand item) items = true) by (apply holds_spec; eauto).
  apply can_equip_ok_inv in Hok. destruct Hok as [Hb Hok].
  destruct (hand item).
  - destruct Hok. congruence.
  - destruct Hok. congruence.
  - congruence.
  - destruct Hok. congruence.
Qed.

Lemma can_equip_answers items item :
  can_equip items item <> equipped_ok.
Proof.
  unfold can_equip.
  repeat match goal with
         | |- context [if ?b then _ else _] => destruct b
         | |- context [match hand item with _ => _ end] => destruct (hand item)
         end; discriminate.
Qed.

Lemma equip_item_ok_inv items i items' :
  equip_item items i = (items', equipped_ok) ->
  exists k item,
    i = Some k /\ nth_error items k = Some item
    /\ can_equip items item = can_equip_ok
    /\ items' = set_equipped_at items k true.
Proof.
  unfold equip_item. destruct i as [k|]; [|discriminate].
  destruct (nth_error items k) as [item|] eqn:Hn; [|discriminate].
  pose proof (can_equip_answers items item) as Hne.
  destruct (can_equip items item) eqn:Hc; intros H; inversion H;
    [now exists k, item|congruence].
Qed.

Lemma equip_item_refused items i items' a :
  equip_item items i = (items', a) -> a <> equipped_ok -> items' = items.
Proof.
  unfold equip_item. destruct i as [k|]; [|intros H; now inversion H].
  destruct (nth_error items k) as [item|]; [|intros H; now inversion H].
  destruct (can_equip items item); intros H Ha; inversion H; subst;
    congruence.
Qed.

(** X12. Equipping an item and then unequipping it gives back the very
    inventory one started from: a successful [equip_item] is only possible
    for an item that was not equipped, it sets the flag of that item alone,
    and [unequip_item] on the same item succeeds and restores the list. *)
Theorem equip_unequip_round_trip :
  forall items i items',
    equip_item items i = (items', equipped_ok) ->
    unequip_item items' i = (items, unequipped_ok)
    /\ length (equipped_items items') = S (length (equipped_items items)).
Proof.
  intros items i items' H.
  destruct (equip_item_ok_inv _ _ _ H) as (k & item & -> & Hn & Hok & ->).
  pose proof (can_equip_ok_not_equipped _ _ _ Hn Hok) as He.
  destruct (equip_at_spec _ _ _ Hn He) as (Hlen & _ & _ & Hn' & Hback).
  split; [|exact Hlen].
  unfold unequip_item. rewrite Hn'. simpl. rewrite Hback. reflexivity.
Qed.

Lemma equip_unequip_round_trip_witness :
  unequip_item [set_equipped spare_shield true; spare_sword] (Some 0%nat)
  = ([spare_shield; spare_sword], unequipped_ok)
  /\ length (equipped_items [set_equipped spare_shield true; spare_sword])
     = S (length (equipped_items [spare_shield; spare_sword])).
Proof.
  apply (equip_unequip_round_trip [spare_shield; spare_sword] (Some 0%nat)).
  reflexivity.
Defined.

Lemma equip_keeps_consistent items i :
  hands_consistent items -> hands_consistent (fst (equip_item items i)).
Proof.
  intros Hc. destruct (equip_item items i) as [items' a] eqn:E. simpl.
  assert (Ha : a = equipped_ok \/ a <> equipped_ok)
    by (destruct a; auto; right; discriminate).
  destruct Ha as [->|Ha]; [|now rewrite (equip_item_refused _ _ _ _ E Ha)].
  destruct (equip_item_ok_inv _ _ _ E) as (k & item & -> & Hn & Hok & ->).
  pose proof (can_equip_ok_not_equipped _ _ _ Hn Hok) as He.
  destruct (equip_at_spec _ _ _ Hn He) as (Hlen & Hnew & Hold & _ & _).
  pose proof (can_equip_ok_inv _ _ Hok) as [Hb Hh].
  assert (Hnewh : holds (hand item) (set_equipped_at items k true) = true).
  { apply holds_spec. exists (set_equipped item true). split; [exact Hnew|reflexivity]. }
  assert (Hkeep : forall h, holds h items = true ->
                            holds h (set_equipped_at items k true) = true).
  { intros h Hh'. apply holds_spec in Hh'. destruct Hh' as (e & Hin & Heh).
    apply holds_spec. exists e. split; [now apply Hold|exact Heh]. }
  unfold hands_consistent in *. rewrite Hlen.
  destruct Hc as [Hle|[H2 Hc]].
  - destruct (equipped_items items) as [|x [|y l]] eqn:Eq; simpl in Hle; try lia.
    + left. simpl. lia.
    + right. split; [reflexivity|].
      assert (Hx : holds (hand x) items = true).
      { apply holds_spec. exists x. rewrite Eq. split; [now left|reflexivity]. }
      destruct (hand item) eqn:Ehi.
      * destruct Hh as [HL HA].
        destruct (hand x) eqn:Ehx; try congruence.
        right. split; [exact Hnewh|now apply Hkeep].
      * destruct Hh as [HR HA].
        destruct (hand x) eqn:Ehx; try congruence.
        right. split; [now apply Hkeep|exact Hnewh].
      * discriminate.
      * left. exact Hnewh.
  - exfalso. destruct Hc as [HA|[HL HR]].
    + destruct (hand item).
      * destruct Hh. congruence.
      * destruct Hh. congruence.
      * rewrite Hh in H2. discriminate.
      * destruct Hh. congruence.
    + destruct (hand item).
      * destruct Hh. congruence.
      * destruct Hh. congruence.
      * rewrite Hh in H2. discriminate.
      * destruct Hh as [_ [H|H]]; congruence.
Qed.

Lemma unequip_keeps_consistent items i :
  hands_consistent items -> hands_consistent (fst (unequip_item items i)).
Proof.
  intros Hc. unfold unequip_item.
  destruct i as [k|]; [|exact Hc].
  destruct (nth_error items k) as [item|] eqn:Hn; [|exact Hc].
  destruct (equipped item) eqn:He; simpl; [|exact Hc].
  pose proof (unequip_at_spec _ _ _ Hn He) as Hlen.
  left. destruct Hc as [Hle|[H2 _]]; lia.
Qed.

Lemma run_calls_consistent : forall calls items,
  hands_consistent items -> hands_consistent (run_calls items calls).
Proof.
  unfold run_calls.
  induction calls as [|c calls IH]; intros items Hc; [exact Hc|].
  simpl. apply IH. destruct c as [i|i]; simpl.
  - now apply equip_keeps_consistent.
  - now apply unequip_keeps_consistent.
Qed.

(** X13. However many [equip_item] and [unequip_item] calls are made on an
    inventory that starts with nothing equipped, at most two items are ever
    equipped, and two only as an [ANY]-hand item beside another or as a
    left-hand item beside a right-hand item. *)
Theorem inventory_at_most_two_equipped :
  forall items calls,
    equipped_items items = [] ->
    (length (equipped_items (run_calls items calls)) <= 2)%nat
    /\ hands_consistent (run_calls items calls).
Proof.
  intros items calls He.
  assert (Hc : hands_consistent (run_calls items calls)).
  { apply run_calls_consistent. left. rewrite He. simpl. lia. }
  split; [|exact Hc].
  destruct Hc as [H|[H _]]; lia.
Qed.

Lemma inventory_at_most_two_equipped_witness :
  (length (equipped_items
             (run_calls [spare_shield; spare_sword]
                        [call_equip (Some 0%nat); call_equip (Some 1%nat)])) <= 2)%nat
  /\ hands_consistent
       (run_calls [spare_shield; spare_sword]
                  [call_equip (Some 0%nat); call_equip (Some 1%nat)]).
Proof.
  apply (inventory_at_most_two_equipped
           [spare_shield; spare_sword]
           [call_equip (Some 0%nat); call_equip (Some 1%nat)]).
  reflexivity.
Defined.

End InventoryProps.

(** ** The blacksmith's material economy *)

Section BlacksmithMore.
Import Items.

Lemma dismantle_yield_spec (r : ItemRarity) g :
  exists n g',
    Blacksmith._get_dismantle_yield r g = Some ((get_material_tier r, n), g')
    /\ 1 <= n <= Blacksmith.REROLL_COSTS (get_material_tier r)
    /\ n <= 3
    /\ (get_material_tier r = essence -> n = 1 /\ g' = g).
Proof.
  unfold Blacksmith._get_dismantle_yield.
  destruct (get_material_tier r) eqn:Em.
  - destruct (randint_returns 1 3 g ltac:(lia)) as (n & g' & Hn & Hb).
    exists n, g'. split.
    + eapply bind_returns; [exact Hn|reflexivity].
    + simpl. split; [lia|]. split; [lia|discriminate].
  - destruct (randint_returns 1 3 g ltac:(lia)) as (n & g' & Hn & Hb).
    exists n, g'. split.
    + eapply bind_returns; [exact Hn|reflexivity].
    + simpl. split; [lia|]. split; [lia|discriminate].
  - exists 1, g. split; [reflexivity|]. simpl. split; [lia|]. split; [lia|auto].
Qed.

(** X14. Dismantling never raises and never pays more than a reforge of the
    same tier costs: the yield is of the material of the item's tier, at
    least 1 and at most the reroll cost of that material (3 scrap, 3 dust,
    2 essence); for the tiers paid in essence it is exactly 1 and no random
    number is drawn. *)
Theorem dismantle_yield_within_reroll_cost :
  forall r g,
    exists n g',
      Blacksmith._get_dismantle_yield r g = Some ((get_material_tier r, n), g')
      /\ 1 <= n <= Blacksmith.REROLL_COSTS (get_material_tier r)
      /\ n <= 3
      /\ (get_material_tier r = essence -> n = 1 /\ g' = g).
Proof. exact dismantle_yield_spec. Qed.

Lemma yield_loop_spec (r : ItemRarity) :
  forall (items : list Store.ItemRow) acc g,
    exists total g',
      Py.for_each
        (fun acc _ =>
           y <- Blacksmith._get_dismantle_yield r ;;
           Py.ret (acc + snd y)) items acc g = Some (total, g')
      /\ acc + Z.of_nat (length items) <= total <= acc + 3 * Z.of_nat (length items)
      /\ (get_material_tier r = essence ->
          total = acc + Z.of_nat (length items) /\ g' = g).
Proof.
  induction items as [|x items IH]; intros acc g.
  - exists acc, g. split; [reflexivity|]. simpl. split; [lia|]. intros _. split; [lia|reflexivity].
  - destruct (dismantle_yield_spec r g) as (n & g1 & Hy & Hb & H3 & He).
    destruct (IH (acc + n) g1) as (total & g' & Hl & Hbt & Het).
    exists total, g'. split.
    + simpl Py.for_each. eapply bind_returns.
      * eapply bind_returns; [exact Hy|reflexivity].
      * exact Hl.
    + simpl length. split; [lia|]. intros Hm.
      destruct (He Hm) as [-> ->]. destruct (Het Hm) as [-> ->]. split; [lia|reflexivity].
Qed.

(** X15. In a bulk dismantle of [n] matching items, the yield announced in
    the confirmation and the yield credited afterwards are two separate
    series of draws: both lie between [n] and [3 n]; for the tiers paid in
    essence both are exactly [n]; for the other tiers they can differ (three
    common items: 3 announced, 9 credited with the draws 0,0,0,2,2,2). *)
Theorem bulk_dismantle_yields :
  (forall r (items : list Store.ItemRow) g,
     exists total actual g',
       Blacksmith.bulk_yields r items g = Some ((total, actual), g')
       /\ Z.of_nat (length items) <= total <= 3 * Z.of_nat (length items)
       /\ Z.of_nat (length items) <= actual <= 3 * Z.of_nat (length items)
       /\ (get_material_tier r = essence ->
           total = Z.of_nat (length items) /\ actual = total /\ g' = g))
  /\ Blacksmith.bulk_yields COMMON [worn_dagger; worn_dagger; worn_dagger]
       [0; 0; 0; 2; 2; 2] = Some ((3, 9), []).
Proof.
  split; [|reflexivity].
  intros r items g.
  destruct (yield_loop_spec r items 0 g) as (total & g1 & H1 & B1 & E1).
  destruct (yield_loop_spec r items 0 g1) as (actual & g2 & H2 & B2 & E2).
  exists total, actual, g2. split.
  - unfold Blacksmith.bulk_yields, Blacksmith.yield_loop.
    eapply bind_returns; [exact H1|].
    eapply bind_returns; [exact H2|reflexivity].
  - split; [lia|]. split; [lia|]. intros Hm.
    destruct (E1 Hm) as [-> ->]. destruct (E2 Hm) as [-> ->].
    split; [lia|]. split; reflexivity.
Qed.

Lemma upgrade_cost_bounds target_level m :
  1 <= Blacksmith._get_upgrade_cost target_level m <= 5.
Proof.
  unfold Blacksmith._get_upgrade_cost, Blacksmith.UPGRADE_COSTS. simpl.
  repeat match goal with
         | |- context [?a <=? ?b] => destruct (Z.leb_spec a b); simpl
         end; destruct m; lia.
Qed.

Lemma upgrade_returns current_level g :
  exists res g',
    Blacksmith.upgrade current_level g = Some (res, g')
    /\ (10 <= current_level -> res = None /\ g' = g)
    /\ (current_level < 10 ->
        exists l, res = Some l
                  /\ (l = current_level + 1
                      \/ (l = current_level /\ current_level + 1 < 7)
                      \/ (l = Z.max 0 (current_level - 1)
                          /\ 7 <= current_level + 1 < 10)
                      \/ (l = 0 /\ current_level + 1 = 10))).
Proof.
  unfold Blacksmith.upgrade.
  destruct (Z.geb_spec current_level 10) as [Hge|Hlt].
  - exists None, g. split; [reflexivity|]. split; [auto|lia].
  - destruct (random_returns g) as (r & g' & Hr).
    destruct (Py.flt r (Blacksmith._get_upgrade_success_rate (current_level + 1)))
      eqn:Ef.
    + exists (Some (current_level + 1)), g'. split.
      * eapply bind_returns; [exact Hr|]. rewrite Ef. reflexivity.
      * split; [lia|]. intros _. exists (current_level + 1). auto.
    + destruct (Z.eqb_spec (current_level + 1) 10) as [E10|N10].
      * exists (Some 0), g'. split.
        -- eapply bind_returns; [exact Hr|]. rewrite Ef.
           destruct (Z.eqb_spec (current_level + 1) 10); [reflexivity|lia].
        -- split; [lia|]. intros _. exists 0. split; [reflexivity|].
           right. right. right. split; [reflexivity|exact E10].
      * destruct (Z.geb_spec (current_level + 1) 7) as [H7|H7].
        -- exists (Some (Z.max 0 (current_level - 1))), g'. split.
           ++ eapply bind_returns; [exact Hr|]. rewrite Ef.
              destruct (Z.eqb_spec (current_level + 1) 10); [lia|].
              destruct (Z.geb_spec (current_level + 1) 7); [reflexivity|lia].
           ++ split; [lia|]. intros _. eexists. split; [reflexivity|].
              right. right. left. split; [reflexivity|lia].
        -- exists (Some current_level), g'. split.
           ++ eapply bind_returns; [exact Hr|]. rewrite Ef.
              destruct (Z.eqb_spec (current_level + 1) 10); [lia|].
              destruct (Z.geb_spec (current_level + 1) 7); [lia|reflexivity].
           ++ split; [lia|]. intros _. eexists. split; [reflexivity|].
              right. left. split; [reflexivity|lia].
Qed.

(** X16. The [upgrade] command on an item whose tier is defined never
    raises.  It ends in a refusal (item at +10 or more; fewer materials than
    the cost; prompt declined) or in an attempt, and an attempt always takes
    the cost, between 1 and 5, from the materials, on failure as on success,
    without making them negative; the level written is the next level, or on
    failure the same level (target up to 6), one level less but not below 0
    (target 7 to 9) or 0 (target 10). *)
Theorem upgrade_command_pays_once :
  forall item current_materials confirm g r,
    Blacksmith._get_item_rarity item = Some r ->
    let current_level := Blacksmith.get_or_0 (Store.i_upgrade_level item) in
    let cost :=
      Blacksmith._get_upgrade_cost (current_level + 1) (get_material_tier r) in
    exists outcome g',
      Blacksmith.upgrade_command item current_materials confirm g = Some (outcome, g')
      /\ match outcome with
         | Blacksmith.upgrade_max_level => 10 <= current_level /\ g' = g
         | Blacksmith.upgrade_not_enough c =>
             c = cost /\ current_materials < cost /\ g' = g
         | Blacksmith.upgrade_declined => confirm = false /\ g' = g
         | Blacksmith.upgrade_attempted materials level =>
             confirm = true /\ current_level < 10
             /\ materials = current_materials - cost
             /\ 1 <= cost <= 5 /\ 0 <= materials
             /\ (level = current_level + 1
                 \/ (level = current_level /\ current_level + 1 < 7)
                 \/ (level = Z.max 0 (current_level - 1)
                     /\ 7 <= current_level + 1 < 10)
                 \/ (level = 0 /\ current_level + 1 = 10))
         end.
Proof.
  intros item current_materials confirm g r Hr current_level cost.
  unfold Blacksmith.upgrade_command. fold current_level.
  destruct (Z.geb_spec current_level 10) as [Hge|Hlt].
  - exists Blacksmith.upgrade_max_level, g. split; [reflexivity|auto].
  - rewrite Hr. unfold Py.bind at 1. simpl Py.lift. cbv beta iota. fold cost.
    destruct (Z.ltb_spec current_materials cost) as [Hm|Hm].
    + exists (Blacksmith.upgrade_not_enough cost), g. split; [reflexivity|auto].
    + destruct confirm; simpl negb; cbv iota.
      * destruct (upgrade_returns current_level g) as (res & g' & Hu & _ & Hl).
        destruct (Hl Hlt) as (l & -> & Hcases).
        exists (Blacksmith.upgrade_attempted (current_materials - cost) l), g'.
        split.
        -- eapply bind_returns; [exact Hu|reflexivity].
        -- pose proof (upgrade_cost_bounds (current_level + 1) (get_material_tier r)).
           fold cost in H.
           split; [reflexivity|]. split; [exact Hlt|]. split; [reflexivity|].
           split; [exact H|]. split; [lia|exact Hcases].
      * exists Blacksmith.upgrade_declined, g. split; [reflexivity|auto].
Qed.

Lemma upgrade_command_pays_once_witness :
  exists outcome g',
    Blacksmith.upgrade_command worn_dagger 4 true [0] = Some (outcome, g')
    /\ match outcome with
       | Blacksmith.upgrade_max_level => 10 <= 0 /\ g' = [0]
       | Blacksmith.upgrade_not_enough c => c = 1 /\ 4 < 1 /\ g' = [0]
       | Blacksmith.upgrade_declined => true = false /\ g' = [0]
       | Blacksmith.upgrade_attempted materials level =>
           true = true /\ 0 < 10 /\ materials = 4 - 1
           /\ 1 <= 1 <= 5 /\ 0 <= materials
           /\ (level = 0 + 1
               \/ (level = 0 /\ 0 + 1 < 7)
               \/ (level = Z.max 0 (0 - 1) /\ 7 <= 0 + 1 < 10)
               \/ (level = 0 /\ 0 + 1 = 10))
       end.
Proof.
  apply (upgrade_command_pays_once worn_dagger 4 true [0] UNCOMMON).
  reflexivity.
Defined.

Lemma bonus_percent_all :
  forallb (fun level =>
             opt_is (Blacksmith.bonus_percent level)
                    (if level =? 3 then 14 else 5 * level))
          (range_from 0 11) = true.
Proof. vm_compute. reflexivity. Qed.

(** X17. The "Bonus" percentage the [upgrade] command shows for an upgrade
    level from 0 to 10, [int(multiplier * 100 - 100)], is five times the
    level, except at level 3, where the floating-point product falls just
    below 115 and 14 is shown. *)
Theorem upgrade_bonus_display :
  forall level,
    0 <= level <= 10 ->
    Blacksmith.bonus_percent level = Some (if level =? 3 then 14 else 5 * level).
Proof.
  intros level Hl.
  pose proof (forallb_range _ _ _ bonus_percent_all level ltac:(simpl; lia)) as H.
  now apply opt_is_Some in H.
Qed.

Lemma upgrade_bonus_display_witness :
  Blacksmith.bonus_percent 3 = Some (if 3 =? 3 then 14 else 5 * 3).
Proof. apply (upgrade_bonus_display 3). lia. Defined.

End BlacksmithMore.

(** ** Blessings *)

Section Blessings.
Import Store.

Lemma fmax_cases x y : Py.fmax x y = x \/ Py.fmax x y = y.
Proof. unfold Py.fmax. destruct (PrimFloat.ltb x y); auto. Qed.

Lemma apply_blessings_values : forall (l : list Blessing) (a0 : Religion.Active),
  let a := fold_left Religion.apply_blessing l a0 in
  (Religion.xp_mult a = Religion.xp_mult a0
   \/ exists b, In b l /\ b_effect b = eff_xp_mult /\ Religion.xp_mult a = b_value b)
  /\ (Religion.gold_mult a = Religion.gold_mult a0
      \/ exists b, In b l /\ b_effect b = eff_gold_mult
                   /\ Religion.gold_mult a = b_value b)
  /\ (Religion.battle_mult a = Religion.battle_mult a0
      \/ exists b, In b l /\ b_effect b = eff_battle_mult
                   /\ Religion.battle_mult a = b_value b)
  /\ (Religion.protection a = true
      <-> Religion.protection a0 = true
          \/ exists b, In b l /\ b_effect b = eff_protection)
  /\ (Religion.adventure_success a = true
      <-> Religion.adventure_success a0 = true
          \/ exists b, In b l /\ b_effect b = eff_adventure_success).
Proof.
  induction l as [|b l IH]; intros a0; simpl.
  - repeat split; auto; intros [H|(b & [] & _)]; exact H.
  - specialize (IH (Religion.apply_blessing a0 b)). simpl in IH.
    destruct IH as (Hx & Hg & Hb & Hp & Hs).
    assert (Hstep :
      (Religion.xp_mult (Religion.apply_blessing a0 b) = Religion.xp_mult a0
       \/ (b_effect b = eff_xp_mult
           /\ Religion.xp_mult (Religion.apply_blessing a0 b) = b_value b))
      /\ (Religion.gold_mult (Religion.apply_blessing a0 b) = Religion.gold_mult a0
          \/ (b_effect b = eff_gold_mult
              /\ Religion.gold_mult (Religion.apply_blessing a0 b) = b_value b))
      /\ (Religion.battle_mult (Religion.apply_blessing a0 b) = Religion.battle_mult a0
          \/ (b_effect b = eff_battle_mult
              /\ Religion.battle_mult (Religion.apply_blessing a0 b) = b_value b))
      /\ (Religion.protection (Religion.apply_blessing a0 b) = true
          <-> Religion.protection a0 = true \/ b_effect b = eff_protection)
      /\ (Religion.adventure_success (Religion.apply_blessing a0 b) = true
          <-> Religion.adventure_success a0 = true
              \/ b_effect b = eff_adventure_success)).
    { unfold Religion.apply_blessing. destruct (b_effect b) eqn:Ee; simpl;
        repeat split; auto;
        try (intros [H|H]; [exact H|discriminate]);
        try (destruct (fmax_cases (Religion.xp_mult a0) (b_value b)); auto);
        try (destruct (fmax_cases (Religion.gold_mult a0) (b_value b)); auto);
        try (destruct (fmax_cases (Religion.battle_mult a0) (b_value b)); auto). }
    destruct Hstep as (Sx & Sg & Sb & Sp & Ss).
    split; [|split; [|split; [|split]]].
    + destruct Hx as [Hx|(b' & Hin & He & Hv)].
      * rewrite Hx. destruct Sx as [Sx|[He Hv]]; [now left|].
        right. exists b. split; [now left|auto].
      * right. exists b'. split; [now right|auto].
    + destruct Hg as [Hg|(b' & Hin & He & Hv)].
      * rewrite Hg. destruct Sg as [Sg|[He Hv]]; [now left|].
        right. exists b. split; [now left|auto].
      * right. exists b'. split; [now right|auto].
    + destruct Hb as [Hb|(b' & Hin & He & Hv)].
      * rewrite Hb. destruct Sb as [Sb|[He Hv]]; [now left|].
        right. exists b. split; [now left|auto].
      * right. exists b'. split; [now right|auto].
    + rewrite Hp, Sp. split.
      * intros [[H|H]|(b' & Hin & He)]; [now left| |].
        -- right. exists b. split; [now left|exact H].
        -- right. exists b'. split; [now right|exact He].
      * intros [H|(b' & [<-|Hin] & He)]; [now left; left| |].
        -- left. now right.
        -- right. now exists b'.
    + rewrite Hs, Ss. split.
      * intros [[H|H]|(b' & Hin & He)]; [now left| |].
        -- right. exists b. split; [now left|exact H].
        -- right. exists b'. split; [now right|exact He].
      * intros [H|(b' & [<-|Hin] & He)]; [now left; left| |].
        -- left. now right.
        -- right. now exists b'.
Qed.

Lemma active_filter_spec user_id now (l : list Blessing) b :
  In b (filter (fun b => (b_user_id b =? user_id) && (now <? b_expires_at b)) l)
  <-> In b l /\ is_active_blessing user_id now b.
Proof.
  rewrite filter_In. unfold is_active_blessing.
  rewrite andb_true_iff, Z.eqb_eq, Z.ltb_lt. tauto.
Qed.

(** X18. What [get_active_blessings] reports: each of the three multipliers
    is 1.0 or the value of one unexpired blessing of that effect of the user
    (values are never multiplied together, and never taken from another
    user's or an expired row); each of the two flags is set exactly when an
    unexpired blessing of that effect of the user exists. *)
Theorem active_blessings_report :
  forall db user_id now,
    let act := fst (Religion.get_active_blessings db user_id now) in
    let mine b := In b (divine_blessings db) /\ is_active_blessing user_id now b in
    (Religion.xp_mult act = 1.0%float
     \/ exists b, mine b /\ b_effect b = eff_xp_mult /\ Religion.xp_mult act = b_value b)
    /\ (Religion.gold_mult act = 1.0%float
        \/ exists b, mine b /\ b_effect b = eff_gold_mult
                     /\ Religion.gold_mult act = b_value b)
    /\ (Religion.battle_mult act = 1.0%float
        \/ exists b, mine b /\ b_effect b = eff_battle_mult
                     /\ Religion.battle_mult act = b_value b)
    /\ (Religion.protection act = true
        <-> exists b, mine b /\ b_effect b = eff_protection)
    /\ (Religion.adventure_success act = true
        <-> exists b, mine b /\ b_effect b = eff_adventure_success).
Proof.
  intros db user_id now act mine.
  pose proof (apply_blessings_values
                (filter (fun b => (b_user_id b =? user_id) && (now <? b_expires_at b))
                        (divine_blessings db))
                Religion.no_blessing) as H.
  simpl in H. fold act in H.
  change (fst (Religion.get_active_blessings db user_id now)) with
    (fold_left Religion.apply_blessing
       (filter (fun b => (b_user_id b =? user_id) && (now <? b_expires_at b))
               (divine_blessings db)) Religion.no_blessing) in act.
  destruct H as (Hx & Hg & Hb & Hp & Hs).
  split; [|split; [|split; [|split]]].
  - destruct Hx as [Hx|(b & Hin & He & Hv)]; [now left|].
    right. exists b. split; [now apply active_filter_spec|auto].
  - destruct Hg as [Hg|(b & Hin & He & Hv)]; [now left|].
    right. exists b. split; [now apply active_filter_spec|auto].
  - destruct Hb as [Hb|(b & Hin & He & Hv)]; [now left|].
    right. exists b. split; [now apply active_filter_spec|auto].
  - unfold act. rewrite Hp. split.
    + intros [H|(b & Hin & He)]; [discriminate|].
      exists b. split; [now apply active_filter_spec|exact He].
    + intros (b & Hin & He). right. exists b.
      split; [now apply active_filter_spec|exact He].
  - unfold act. rewrite Hs. split.
    + intros [H|(b & Hin & He)]; [discriminate|].
      exists b. split; [now apply active_filter_spec|exact He].
    + intros (b & Hin & He). right. exists b.
      split; [now apply active_filter_spec|exact He].
Qed.

Lemma filter_twice {A} (p : A -> bool) (l : list A) :
  filter p (filter p l) = filter p l.
Proof.
  induction l as [|x l IH]; simpl; [reflexivity|].
  destruct (p x) eqn:E; simpl; [rewrite E, IH|]; auto.
Qed.

Lemma filter_filter_swap {A} (p q : A -> bool) (l : list A) :
  (forall x, p x = true -> q x = true) ->
  filter p (filter q l) = filter p l.
Proof.
  intros Hpq. induction l as [|x l IH]; simpl; [reflexivity|].
  destruct (q x) eqn:Eq; simpl.
  - destruct (p x); [f_equal|]; exact IH.
  - destruct (p x) eqn:Ep; [|exact IH].
    rewrite (Hpq x Ep) in Eq. discriminate.
Qed.

(** X19. The clean-up inside [get_active_blessings]: after a call at clock
    [now] no expired blessing of the user is left, every other row (another
    user's, or unexpired) is kept in place, no other table changes, and the
    journal gains one delete and one commit.  A second call at the same
    clock reports the same dictionary and leaves the blessings as they
    are. *)
Theorem active_blessings_cleanup :
  forall db user_id now,
    let db' := snd (Religion.get_active_blessings db user_id now) in
    (forall b, In b (divine_blessings db') <->
               In b (divine_blessings db)
               /\ ~ (b_user_id b = user_id /\ b_expires_at b <= now))
    /\ profile db' = profile db /\ inventory db' = inventory db
    /\ adventures db' = adventures db /\ epic_adventures db' = epic_adventures db
    /\ journal db' = journal db ++ [W_delete_blessings user_id; W_commit]
    /\ fst (Religion.get_active_blessings db' user_id now)
       = fst (Religion.get_active_blessings db user_id now)
    /\ divine_blessings (snd (Religion.get_active_blessings db' user_id now))
       = divine_blessings db'.
Proof.
  intros db user_id now db'. unfold db'. simpl.
  split; [|split; [|split; [|split; [|split; [|split; [|split]]]]]];
    try reflexivity.
  - intros b. rewrite filter_In, negb_true_iff, andb_false_iff, Z.eqb_neq, Z.leb_gt.
    split; intros [Hin H]; (split; [exact Hin|]); [intros [H1 H2]|].
    + destruct H; lia.
    + destruct (Z.eq_dec (b_user_id b) user_id); [|now left].
      right. destruct (Z.lt_ge_cases now (b_expires_at b)); [assumption|].
      exfalso. apply H. split; [assumption|lia].
  - now rewrite <- app_assoc.
  - f_equal. apply filter_filter_swap. intros b Hb.
    apply andb_true_iff in Hb. destruct Hb as [_ Hb]. apply Z.ltb_lt in Hb.
    apply negb_true_iff, andb_false_iff. right. apply Z.leb_gt. lia.
  - apply filter_twice.
Qed.

End Blessings.

(** ** Adventures and their rewards *)

Section AdventuresMore.
Import Store.

Lemma adventure_types_unknown :
  forallb (fun name =>
             match Adventure.find_adventure_info name with
             | None => true
             | Some _ => false
             end) Autoplay.adventure_types = true.
Proof. vm_compute. reflexivity. Qed.

Lemma start_adventure_returns now insert_fails db char g :
  exists duration name g',
    Autoplay.start_adventure now insert_fails db char g
    = Some (if insert_fails (c_user_id char) then db
            else insert_adventure db
                   (mkAdventure (c_user_id char) name 1 now (now + duration * 60) active),
            g')
    /\ In name Autoplay.adventure_types
    /\ (c_level char < 10 -> 5 <= duration <= 10)
    /\ (10 <= c_level char < 20 -> 20 <= duration <= 30)
    /\ (20 <= c_level char -> 60 <= duration <= 120).
Proof.
  assert (Hd : exists duration g1,
            (if c_level char <? 10 then Py.randint 5 10
             else if c_level char <? 20 then Py.randint 20 30
             else Py.randint 60 120) g = Some (duration, g1)
            /\ (c_level char < 10 -> 5 <= duration <= 10)
            /\ (10 <= c_level char < 20 -> 20 <= duration <= 30)
            /\ (20 <= c_level char -> 60 <= duration <= 120)).
  { destruct (Z.ltb_spec (c_level char) 10) as [H10|H10].
    - destruct (randint_returns 5 10 g ltac:(lia)) as (d & g1 & H & Hb).
      exists d, g1. split; [exact H|]. repeat split; lia.
    - destruct (Z.ltb_spec (c_level char) 20) as [H20|H20].
      + destruct (randint_returns 20 30 g ltac:(lia)) as (d & g1 & H & Hb).
        exists d, g1. split; [exact H|]. repeat split; lia.
      + destruct (randint_returns 60 120 g ltac:(lia)) as (d & g1 & H & Hb).
        exists d, g1. split; [exact H|]. repeat split; lia. }
  destruct Hd as (duration & g1 & Hd & Hbands).
  destruct (choice_returns Autoplay.adventure_types g1 ltac:(discriminate))
    as (name & g' & Hn & Hin).
  exists duration, name, g'. split; [|split; [exact Hin|exact Hbands]].
  unfold Autoplay.start_adventure.
  eapply bind_returns; [exact Hd|].
  eapply bind_returns; [exact Hn|].
  destruct (insert_fails (c_user_id char)); reflexivity.
Qed.

(** X20. [start_adventure] of the automatic loop never raises.  The row it
    inserts is active, starts at [now], has difficulty 1, lasts 5 to 10
    minutes below level 10, 20 to 30 below level 20 and 60 to 120 from
    level 20, and carries one of the twelve automatic names, none of which
    is in the table [ADVENTURES]: the lookup of the manual completion finds
    no entry for it. *)
Theorem auto_adventure_row :
  forall now insert_fails db char g,
    exists db' g',
      Autoplay.start_adventure now insert_fails db char g = Some (db', g')
      /\ (insert_fails (c_user_id char) = true -> db' = db)
      /\ (insert_fails (c_user_id char) = false ->
          exists row,
            adventures db' = adventures db ++ [row]
            /\ a_user_id row = c_user_id char
            /\ a_status row = active /\ a_difficulty row = 1
            /\ a_started_at row = now
            /\ Adventure.find_adventure_info (a_adventure_name row) = None
            /\ (c_level char < 10 ->
                now + 300 <= a_finish_at row <= now + 600)
            /\ (10 <= c_level char < 20 ->
                now + 1200 <= a_finish_at row <= now + 1800)
            /\ (20 <= c_level char ->
                now + 3600 <= a_finish_at row <= now + 7200)).
Proof.
  intros now insert_fails db char g.
  destruct (start_adventure_returns now insert_fails db char g)
    as (duration & name & g' & H & Hin & H1 & H2 & H3).
  eexists. exists g'. split; [exact H|].
  destruct (insert_fails (c_user_id char)).
  - split; [reflexivity|discriminate].
  - split; [discriminate|]. intros _. eexists. split; [reflexivity|].
    simpl. repeat (split; [reflexivity|]). split.
    + pose proof adventure_types_unknown as Hu. rewrite forallb_forall in Hu.
      specialize (Hu name Hin).
      destruct (Adventure.find_adventure_info name); [discriminate|reflexivity].
    + split; [|split]; intros Hl;
        [specialize (H1 Hl)|specialize (H2 Hl)|specialize (H3 Hl)]; lia.
Qed.

Lemma item_reward_unfold owner difficulty g r g1 :
  Py.random g = Some (r, g1) ->
  Adventure.item_reward owner difficulty g
  = (if Py.flt r (PrimFloat.add 0.1%float
                    (PrimFloat.mul (Py.float_of_int difficulty) 0.02%float))
     then
       item <- Items.generate_item owner (Z.max 4 (difficulty + 1))
                 (Z.min 50 (difficulty + 8)) None None ;;
       Py.ret (Some item)
     else Py.ret None) g1.
Proof.
  intros Hr. unfold Adventure.item_reward.
  eapply bind_returns; [exact Hr|reflexivity].
Qed.

(** X21. The bonus item of a successful manual completion.  For a
    difficulty from -4 to 49 the step never raises, and an item it yields
    belongs to the owner and has a stat total of at most
    [min(50, difficulty + 8)].  From difficulty 50 on (the last entry of
    [ADVENTURES] has difficulty 50) the range [max(4, difficulty + 1) ..
    min(50, difficulty + 8)] is empty and no item is ever yielded: the step
    raises whenever the chance draw succeeds, and at difficulty 50 the
    chance is 1.1, so that it raises even with the largest draw. *)
Theorem adventure_item_reward :
  forall owner difficulty g,
    (-4 <= difficulty <= 49 ->
     exists res g',
       Adventure.item_reward owner difficulty g = Some (res, g')
       /\ forall item, res = Some item ->
            Items.owner_id item = owner
            /\ exists t, Items.stat_total item = Some t
                         /\ 0 <= t <= Z.min 50 (difficulty + 8))
    /\ (50 <= difficulty ->
        forall item g', Adventure.item_reward owner difficulty g <> Some (Some item, g'))
    /\ Adventure.item_reward owner 50 [2 ^ 53 - 1] = None.
Proof.
  intros owner difficulty g. split; [|split].
  - intros Hd.
    destruct (random_returns g) as (r & g1 & Hr).
    rewrite (item_reward_unfold owner difficulty g r g1 Hr).
    destruct (Py.flt r _).
    + destruct (generate_item_valid_range owner (Z.max 4 (difficulty + 1))
                  (Z.min 50 (difficulty + 8)) None g1 ltac:(lia))
        as (it & g' & t & H & Ho & _ & Ht).
      exists (Some it), g'. split.
      * eapply bind_returns; [exact H|reflexivity].
      * intros item E. inversion E; subst item. split; [exact Ho|now exists t].
    + exists None, g1. split; [reflexivity|discriminate].
  - intros Hd item g' H.
    destruct (random_returns g) as (r & g1 & Hr).
    rewrite (item_reward_unfold owner difficulty g r g1 Hr) in H.
    destruct (Py.flt r _).
    + rewrite (bind_raises _ _ _
                 (generate_item_empty_range owner (Z.max 4 (difficulty + 1))
                    (Z.min 50 (difficulty + 8)) None _ ltac:(lia))) in H.
      discriminate.
    + apply ret_Some in H. destruct H as [H _]. discriminate.
  - rewrite (item_reward_unfold owner 50 [2 ^ 53 - 1] _ [] eq_refl).
    change (Py.flt _ _) with true. cbv iota.
    apply bind_raises. apply generate_item_empty_range. lia.
Qed.

Lemma adventure_item_reward_witness :
  exists res g',
    Adventure.item_reward 7 49 [0; 1; 2; 3; 4] = Some (res, g')
    /\ forall item, res = Some item ->
         Items.owner_id item = 7
         /\ exists t, Items.stat_total item = Some t /\ 0 <= t <= Z.min 50 (49 + 8).
Proof.
  apply (proj1 (adventure_item_reward 7 49 [0; 1; 2; 3; 4])). lia.
Defined.

End AdventuresMore.

(** ** Automatic battles *)

Section BattlesMore.
Import Store.

Lemma choices_types_return (population : list Autoplay.BattleType) weights g :
  Nat.eqb (length (Py.accumulate weights)) (length population) = true ->
  population <> [] ->
  PrimFloat.leb (PrimFloat.add (last (Py.accumulate weights) 0%float) 0%float)
                0%float = false ->
  PrimFloat.is_finite
    (PrimFloat.add (last (Py.accumulate weights) 0%float) 0%float) = true ->
  forall n, (forall t, In t population -> (Autoplay.fighters_needed t <= n)%nat) ->
  exists t g',
    (t <- Py.choices population weights ;; Py.ret (Some t)) g = Some (Some t, g')
    /\ (Autoplay.fighters_needed t <= n)%nat.
Proof.
  intros H1 H2 H3 H4 n Hall.
  destruct (choices_returns population weights g H1 H2 H3 H4) as (t & g' & Hc & Hin).
  exists t, g'. split; [|now apply Hall].
  eapply bind_returns; [exact Hc|reflexivity].
Qed.

(** X22. The format chosen by [auto_battle_loop] never asks for more
    characters than are available: the choice never raises, no battle is
    run with fewer than two characters, and a 1v1, 3v3, 5v5 or 10v10 is
    chosen only with at least 2, 6, 10 or 20 characters, so that the
    [random.sample] of the battle cannot fail. *)
Theorem battle_type_fits_available :
  forall available g,
    exists res g',
      Autoplay.choose_battle_type available g = Some (res, g')
      /\ (res = None <-> (available < 2)%nat)
      /\ forall t, res = Some t -> (Autoplay.fighters_needed t <= available)%nat.
Proof.
  intros available g. unfold Autoplay.choose_battle_type.
  destruct (Nat.ltb_spec available 2) as [Hlt|Hge].
  - exists None, g. split; [reflexivity|]. split; [tauto|discriminate].
  - assert (E : exists t g',
              (t <- (if Nat.leb 20 available then
                       Py.choices [Autoplay.type_10v10; Autoplay.type_5v5;
                                   Autoplay.type_3v3; Autoplay.type_1v1]
                                  [25; 25; 30; 20]%float
                     else if Nat.leb 10 available then
                       Py.choices [Autoplay.type_5v5; Autoplay.type_3v3;
                                   Autoplay.type_1v1] [35; 40; 25]%float
                     else if Nat.leb 6 available then
                       Py.choices [Autoplay.type_3v3; Autoplay.type_1v1]
                                  [55; 45]%float
                     else Py.ret Autoplay.type_1v1) ;;
               Py.ret (Some t)) g = Some (Some t, g')
              /\ (Autoplay.fighters_needed t <= available)%nat).
    { destruct (Nat.leb_spec 20 available) as [H20|H20].
      - apply choices_types_return; try reflexivity; [discriminate|].
        simpl. intros t [<-|[<-|[<-|[<-|[]]]]]; simpl; lia.
      - destruct (Nat.leb_spec 10 available) as [H10|H10].
        + apply choices_types_return; try reflexivity; [discriminate|].
          simpl. intros t [<-|[<-|[<-|[]]]]; simpl; lia.
        + destruct (Nat.leb_spec 6 available) as [H6|H6].
          * apply choices_types_return; try reflexivity; [discriminate|].
            simpl. intros t [<-|[<-|[]]]; simpl; lia.
          * exists Autoplay.type_1v1, g. split; [reflexivity|simpl; lia]. }
    destruct E as (t & g' & E & Hn).
    exists (Some t), g'. split; [exact E|]. split.
    + split; [discriminate|lia].
    + intros t' Ht. inversion Ht; subst t'. exact Hn.
Qed.

(** *** Pairing by level band *)

Lemma group_append_ok seen groups c :
  groups_ok seen groups ->
  ~ In (c_user_id c) (map c_user_id seen) ->
  groups_ok (seen ++ [c]) (Autoplay.group_append (level_band c) c groups).
Proof.
  intros Hok Hfresh.
  assert (Hwiden : forall members, incl members seen -> incl members (seen ++ [c])).
  { intros members Hi x Hx. apply in_or_app. left. now apply Hi. }
  induction groups as [|[k ms] rest IH]; simpl.
  - intros k members [E|[]]. inversion E; subst. split; [|split].
    + intros x [<-|[]]. apply in_or_app. right. now left.
    + intros x [<-|[]]. reflexivity.
    + simpl. constructor; [intros []|constructor].
  - assert (Hrest : groups_ok seen rest).
    { intros k' m' Hin. apply Hok. now right. }
    destruct (Hok k ms (or_introl eq_refl)) as (Hi & Hb & Hnd).
    destruct (Z.eqb_spec k (level_band c)) as [->|Hne].
    + intros k' m' [E|Hin].
      * inversion E; subst. split; [|split].
        -- intros x Hx. apply in_app_or in Hx. apply in_or_app.
           destruct Hx as [Hx|Hx]; [left; now apply Hi|right; exact Hx].
        -- intros x Hx. apply in_app_or in Hx.
           destruct Hx as [Hx|[<-|[]]]; [now apply Hb|reflexivity].
        -- rewrite map_app. simpl. apply NoDup_snoc; [exact Hnd|].
           intros Hin. apply Hfresh.
           apply in_map_iff in Hin. destruct Hin as (x & Hx & Hxin).
           apply in_map_iff. exists x. split; [exact Hx|now apply Hi].
      * destruct (Hrest k' m' Hin) as (Hi' & Hb' & Hnd').
        split; [now apply Hwiden|]. split; assumption.
    + intros k' m' [E|Hin].
      * inversion E; subst. split; [now apply Hwiden|]. split; assumption.
      * apply (IH Hrest k' m' Hin).
Qed.

Lemma level_groups_from : forall chars seen groups,
  groups_ok seen groups ->
  NoDup (map c_user_id (seen ++ chars)) ->
  groups_ok (seen ++ chars)
    (fold_left (fun groups char =>
                  Autoplay.group_append (c_level char / 5 * 5) char groups)
               chars groups).
Proof.
  induction chars as [|c chars IH]; intros seen groups Hok Hnd; simpl.
  - now rewrite app_nil_r.
  - replace (seen ++ c :: chars) with ((seen ++ [c]) ++ chars) in *
      by (rewrite <- app_assoc; reflexivity).
    apply IH; [|exact Hnd].
    apply (group_append_ok seen groups c Hok).
    rewrite map_app in Hnd. apply NoDup_app_remove_r in Hnd.
    rewrite map_app in Hnd. simpl in Hnd.
    apply NoDup_remove_2 in Hnd. now rewrite app_nil_r in Hnd.
Qed.

Lemma level_groups_ok chars :
  NoDup (map c_user_id chars) -> groups_ok chars (Autoplay.level_groups chars).
Proof.
  intros Hnd. apply (level_groups_from chars [] []); [|exact Hnd].
  intros k members [].
Qed.

Lemma sample_returns {A} : forall (k : nat) (l : list A) g,
  (k <= length l)%nat ->
  exists sel g', Py.sample l k g = Some (sel, g') /\ length sel = k.
Proof.
  induction k as [|k IH]; intros l g Hk.
  - exists [], g. split; reflexivity.
  - destruct l as [|d l0]; [simpl in Hk; lia|].
    destruct (draw_returns g) as (u & g1 & Hu).
    set (j := Z.to_nat (u mod Z.of_nat (length (d :: l0)))).
    assert (Hj : (j < length (d :: l0))%nat).
    { subst j. pose proof (Z.mod_pos_bound u (Z.of_nat (length (d :: l0)))) as Hb.
      simpl length in *. lia. }
    destruct (remove_nth_split d j (d :: l0) Hj) as (l1 & l2 & E1 & E2).
    assert (Hlen : (k <= length (firstn j (d :: l0) ++ skipn (S j) (d :: l0)))%nat).
    { rewrite E2. rewrite E1 in Hk. rewrite length_app in *. simpl in Hk. lia. }
    destruct (IH _ g1 Hlen) as (rest & g' & Hrest & Hlr).
    exists (nth j (d :: l0) d :: rest), g'. split; [|simpl; now rewrite Hlr].
    change (Py.sample (d :: l0) (S k))
      with (Py.bind Py.draw (fun u =>
              let j := Z.to_nat (u mod Z.of_nat (length (d :: l0))) in
              Py.bind (Py.sample (firstn j (d :: l0) ++ skipn (S j) (d :: l0)) k)
                      (fun rest => Py.ret (nth j (d :: l0) d :: rest)))).
    eapply bind_returns; [exact Hu|].
    eapply bind_returns; [exact Hrest|reflexivity].
Qed.

(** X23. The pairing of [run_1v1_battle] never raises.  When it pairs two
    fighters, both are in the list it was given, both are in the same band
    of five levels ([level // 5] agrees, so their levels differ by at most
    4), and, the user ids of the list being distinct, they are two different
    users. *)
Theorem duel_pairing_same_band :
  forall chars g,
    NoDup (map c_user_id chars) ->
    exists res g',
      Autoplay.pick_fighters chars g = Some (res, g')
      /\ forall fighter1 fighter2,
           res = Some (fighter1, fighter2) ->
           In fighter1 chars /\ In fighter2 chars
           /\ c_level fighter1 / 5 = c_level fighter2 / 5
           /\ -4 <= c_level fighter1 - c_level fighter2 <= 4
           /\ c_user_id fighter1 <> c_user_id fighter2.
Proof.
  intros chars g Hnd. unfold Autoplay.pick_fighters.
  pose proof (level_groups_ok chars Hnd) as Hok.
  set (valid := filter (fun g0 : list Character => Nat.leb 2 (length g0))
                       (map snd (Autoplay.level_groups chars))).
  assert (Hvalid : forall grp, In grp valid ->
            (2 <= length grp)%nat
            /\ exists k, incl grp chars
                         /\ (forall c, In c grp -> level_band c = k)
                         /\ NoDup (map c_user_id grp)).
  { intros grp Hin. apply filter_In in Hin. destruct Hin as [Hin Hlen].
    apply Nat.leb_le in Hlen. split; [exact Hlen|].
    apply in_map_iff in Hin. destruct Hin as ([k ms] & E & Hin). simpl in E. subst ms.
    exists k. apply (Hok k grp Hin). }
  destruct valid as [|v0 vs] eqn:Ev.
  - exists None, g. split; [reflexivity|discriminate].
  - rewrite <- Ev in *.
    destruct (choice_returns valid g ltac:(rewrite Ev; discriminate))
      as (grp & g1 & Hc & Hin).
    destruct (Hvalid grp Hin) as (Hlen & k & Hincl & Hband & Hndg).
    destruct (sample_returns 2 grp g1 Hlen) as (sel & g2 & Hs & Hl2).
    destruct sel as [|f1 [|f2 [|f3 sel]]]; simpl in Hl2; try lia.
    destruct (sample_spec c_user_id 2 grp g1 _ g2 Hs Hndg) as [Hnd2 Hsub].
    exists (Some (f1, f2)), g2. split.
    + rewrite Ev. rewrite <- Ev.
      eapply bind_returns; [exact Hc|].
      eapply bind_returns; [exact Hs|reflexivity].
    + intros a b E. inversion E; subst a b.
      assert (H1 : In f1 grp) by (apply Hsub; now left).
      assert (H2 : In f2 grp) by (apply Hsub; right; now left).
      pose proof (Hband f1 H1) as B1. pose proof (Hband f2 H2) as B2.
      unfold level_band in B1, B2.
      assert (Hq : c_level f1 / 5 = c_level f2 / 5) by lia.
      split; [now apply Hincl|]. split; [now apply Hincl|].
      split; [exact Hq|]. split.
      * pose proof (Z.div_mod (c_level f1) 5 ltac:(lia)).
        pose proof (Z.div_mod (c_level f2) 5 ltac:(lia)).
        pose proof (Z.mod_pos_bound (c_level f1) 5 ltac:(lia)).
        pose proof (Z.mod_pos_bound (c_level f2) 5 ltac:(lia)).
        lia.
      * simpl in Hnd2. inversion Hnd2 as [|? ? Hnot _]; subst.
        intros Heq. apply Hnot. left. now symmetry.
Qed.

Lemma duel_pairing_same_band_witness :
  exists res g',
    Autoplay.pick_fighters [fighter_1; fighter_2] [0; 1; 1] = Some (res, g')
    /\ forall fighter1 fighter2,
         res = Some (fighter1, fighter2) ->
         In fighter1 [fighter_1; fighter_2] /\ In fighter2 [fighter_1; fighter_2]
         /\ c_level fighter1 / 5 = c_level fighter2 / 5
         /\ -4 <= c_level fighter1 - c_level fighter2 <= 4
         /\ c_user_id fighter1 <> c_user_id fighter2.
Proof.
  apply (duel_pairing_same_band [fighter_1; fighter_2] [0; 1; 1]).
  simpl. constructor; [|constructor; [|constructor]]; simpl; intuition discriminate.
Defined.

End BattlesMore.

(** ** Race multipliers and the shared table *)

Section RaceTable.
Import Store.

Lemma table_get_set_same : forall table key b0 b,
  Race.table_get table key = Some b0 ->
  Race.table_get (Race.table_set table key b) key = Some b.
Proof.
  induction table as [|[k old] rest IH]; intros key b0 b H; simpl in *.
  - discriminate.
  - destruct (String.eqb k key) eqn:E; simpl; rewrite E; [reflexivity|].
    eapply IH, H.
Qed.

Lemma table_get_set_other : forall table key b key',
  key' <> key ->
  Race.table_get (Race.table_set table key b) key' = Race.table_get table key'.
Proof.
  induction table as [|[k old] rest IH]; intros key b key' Hne; simpl.
  - reflexivity.
  - destruct (String.eqb_spec k key) as [->|Hk]; simpl.
    + destruct (String.eqb_spec key key'); [congruence|reflexivity].
    + destruct (String.eqb k key'); [reflexivity|]. now apply IH.
Qed.

Lemma imul_xp_shared table key b m :
  Race.table_get table key = Some b ->
  Race.imul_xp_gain table (Race.shared key) m
  = (Race.table_set table key
       (Race.mkBonuses (Race.luck b) (PrimFloat.mul (Race.xp_gain b) m)
                       (Race.gold_find b) (Race.favor_gain b)),
     Race.shared key).
Proof. intros H. unfold Race.imul_xp_gain, Race.read. now rewrite H. Qed.

Lemma imul_gold_shared table key b m :
  Race.table_get table key = Some b ->
  Race.imul_gold_find table (Race.shared key) m
  = (Race.table_set table key
       (Race.mkBonuses (Race.luck b) (Race.xp_gain b)
                       (PrimFloat.mul (Race.gold_find b) m) (Race.favor_gain b)),
     Race.shared key).
Proof. intros H. unfold Race.imul_gold_find, Race.read. now rewrite H. Qed.

Lemma race_multipliers_shared table r b :
  Race.table_get table (Race.lower r) = Some b ->
  Race.get_race_multipliers table (Some (Some r)) = Race.shared (Race.lower r).
Proof. intros H. unfold Race.get_race_multipliers. now rewrite H. Qed.

(** The amounts and the table that [award_1v1] computes when both
    dictionaries are the table's own. *)
Lemma award_1v1_shared now race_of table db winner loser g a table' db' g'
      kw kl :
  Race.get_race_multipliers table (race_of (c_user_id winner)) = Race.shared kw ->
  Race.get_race_multipliers table (race_of (c_user_id loser)) = Race.shared kl ->
  Autoplay.award_1v1 true now race_of table db winner loser g
  = Some ((a, table', db'), g') ->
  let winner_blessings := fst (Religion.get_active_blessings db (c_user_id winner) now) in
  let loser_blessings :=
    fst (Religion.get_active_blessings
           (snd (Religion.get_active_blessings db (c_user_id winner) now))
           (c_user_id loser) now) in
  let t1 := fst (Race.imul_xp_gain table (Race.shared kw)
                   (Religion.xp_mult winner_blessings)) in
  let t2 := fst (Race.imul_gold_find t1 (Race.shared kw)
                   (Religion.gold_mult winner_blessings)) in
  let t3 := fst (Race.imul_xp_gain t2 (Race.shared kl)
                   (Religion.xp_mult loser_blessings)) in
  table' = t3
  /\ exists base_winner_xp base_loser_xp base_winner_gold,
       50 <= base_winner_xp <= 150 /\ 10 <= base_loser_xp <= 50
       /\ 100 <= base_winner_gold <= 300
       /\ Py.int_of_float
            (PrimFloat.mul (Py.float_of_int base_winner_xp)
               (Race.xp_gain (Race.read t3 (Race.shared kw))))
          = Some (Autoplay.winner_xp a)
       /\ Py.int_of_float
            (PrimFloat.mul (Py.float_of_int base_loser_xp)
               (Race.xp_gain (Race.read t3 (Race.shared kl))))
          = Some (Autoplay.loser_xp a)
       /\ Py.int_of_float
            (PrimFloat.mul (Py.float_of_int base_winner_gold)
               (Race.gold_find (Race.read t3 (Race.shared kw))))
          = Some (Autoplay.winner_gold a).
Proof.
  intros Hw Hl H. unfold Autoplay.award_1v1 in H.
  step_bind H as bwx Hbwx. step_bind H as blx Hblx. step_bind H as bwg Hbwg.
  apply randint_range in Hbwx. apply randint_range in Hblx.
  apply randint_range in Hbwg.
  rewrite Hw, Hl in H. cbv zeta in H.
  destruct (Religion.get_active_blessings db (c_user_id winner) now)
    as [wb db1] eqn:Ewb.
  cbn [fst snd].
  destruct (Religion.get_active_blessings db1 (c_user_id loser) now)
    as [lb db2] eqn:Elb.
  cbn [fst snd].
  unfold Race.imul_xp_gain at 1 in H. cbv iota beta in H.
  unfold Race.imul_gold_find at 1 in H. cbv iota beta in H.
  unfold Race.imul_xp_gain at 1 in H. cbv iota beta in H.
  step_bind H as wxp Hwxp. apply lift_Some in Hwxp. destruct Hwxp as [Hwxp ->].
  step_bind H as lxp Hlxp. apply lift_Some in Hlxp. destruct Hlxp as [Hlxp ->].
  step_bind H as wg Hwg. apply lift_Some in Hwg. destruct Hwg as [Hwg ->].
  step_bind H as wc Hwc. step_bind H as lc Hlc.
  step_bind H as r1 Hr1. step_bind H as dbw Hdbw.
  step_bind H as r2 Hr2. step_bind H as dbl Hdbl.
  apply ret_Some in H. destruct H as [H _]. inversion H; subst a table' db'; clear H.
  split; [reflexivity|].
  exists bwx, blx, bwg. simpl.
  split; [exact Hbwx|]. split; [exact Hblx|]. split; [exact Hbwg|].
  split; [exact Hwxp|]. split; [exact Hlxp|exact Hwg].
Qed.

(** X24. A duel between two characters of the same race, with the religion
    cog loaded: [get_race_multipliers] hands out the table's own dictionary
    twice, so the winner's and the loser's blessings are multiplied into one
    and the same entry.  The xp of both fighters is computed with the race's
    xp gain times the winner's xp blessing times the loser's xp blessing,
    and the entry of the race in [RACES] keeps these products (and the
    winner's gold blessing) after the duel. *)
Theorem duel_same_race_shares_blessings :
  forall now race_of table db winner loser g a table' db' g' rw rl b,
    race_of (c_user_id winner) = Some (Some rw) ->
    race_of (c_user_id loser) = Some (Some rl) ->
    Race.lower rw = Race.lower rl ->
    Race.table_get table (Race.lower rw) = Some b ->
    Autoplay.award_1v1 true now race_of table db winner loser g
    = Some ((a, table', db'), g') ->
    let winner_blessings :=
      fst (Religion.get_active_blessings db (c_user_id winner) now) in
    let loser_blessings :=
      fst (Religion.get_active_blessings
             (snd (Religion.get_active_blessings db (c_user_id winner) now))
             (c_user_id loser) now) in
    let xp_gain :=
      PrimFloat.mul (PrimFloat.mul (Race.xp_gain b) (Religion.xp_mult winner_blessings))
                    (Religion.xp_mult loser_blessings) in
    let gold_find :=
      PrimFloat.mul (Race.gold_find b) (Religion.gold_mult winner_blessings) in
    Race.table_get table' (Race.lower rw)
    = Some (Race.mkBonuses (Race.luck b) xp_gain gold_find (Race.favor_gain b))
    /\ exists base_winner_xp base_loser_xp base_winner_gold,
         50 <= base_winner_xp <= 150 /\ 10 <= base_loser_xp <= 50
         /\ 100 <= base_winner_gold <= 300
         /\ Py.int_of_float (PrimFloat.mul (Py.float_of_int base_winner_xp) xp_gain)
            = Some (Autoplay.winner_xp a)
         /\ Py.int_of_float (PrimFloat.mul (Py.float_of_int base_loser_xp) xp_gain)
            = Some (Autoplay.loser_xp a)
         /\ Py.int_of_float (PrimFloat.mul (Py.float_of_int base_winner_gold) gold_find)
            = Some (Autoplay.winner_gold a).
Proof.
  intros now race_of table db winner loser g a table' db' g' rw rl b
         Hrw Hrl Hsame Hb H.
  cbv zeta.
  pose proof (award_1v1_shared now race_of table db winner loser g a table' db' g'
                (Race.lower rw) (Race.lower rw)) as Hs.
  rewrite Hrw, Hrl in Hs.
  assert (Hl : Race.get_race_multipliers table (Some (Some rl))
               = Race.shared (Race.lower rw)).
  { unfold Race.get_race_multipliers. rewrite <- Hsame, Hb. reflexivity. }
  specialize (Hs (race_multipliers_shared table rw b Hb) Hl H).
  cbv zeta in Hs.
  rewrite (imul_xp_shared table _ b _ Hb) in Hs. cbn [fst] in Hs.
  rewrite (imul_gold_shared _ _ _ _ (table_get_set_same table _ b _ Hb)) in Hs.
  cbn [fst Race.luck Race.xp_gain Race.gold_find Race.favor_gain] in Hs.
  rewrite (imul_xp_shared _ _ _ _
             (table_get_set_same _ _ _ _ (table_get_set_same table _ b _ Hb))) in Hs.
  cbn [fst Race.luck Race.xp_gain Race.gold_find Race.favor_gain] in Hs.
  destruct Hs as [-> Hs].
  split.
  - eapply table_get_set_same, table_get_set_same, table_get_set_same, Hb.
  - unfold Race.read in Hs.
    rewrite (table_get_set_same _ _ _ _
               (table_get_set_same _ _ _ _ (table_get_set_same table _ b _ Hb)))
      in Hs.
    exact Hs.
Qed.

Lemma duel_same_race_shares_blessings_witness :
  exists a table' db' g',
    Autoplay.award_1v1 true 0 all_human Race.RACES blessed_arena_db
      fighter_1 fighter_2 [0; 0; 0; 2 ^ 52; 2 ^ 52] = Some ((a, table', db'), g')
    /\ Race.table_get table' "human"
       = Some (Race.mkBonuses 1%float 3.3000000000000003%float 1%float 1%float)
    /\ Autoplay.winner_xp a = 165 /\ Autoplay.loser_xp a = 33.
Proof.
  do 4 eexists. split; [vm_compute; reflexivity|].
  pose proof (duel_same_race_shares_blessings 0 all_human Race.RACES blessed_arena_db
                fighter_1 fighter_2 [0; 0; 0; 2 ^ 52; 2 ^ 52] _ _ _ _
                "Human" "Human" (Race.mkBonuses 1.0 1.1 1.0 1.0)
                eq_refl eq_refl eq_refl eq_refl ltac:(vm_compute; reflexivity))
    as [Ht _].
  split; [exact Ht|]. split; reflexivity.
Defined.

(** X25. A duel between characters of two different races of the table,
    with the religion cog loaded: the blessings of the duel stay in the
    table.  After it the winner's race has its xp gain multiplied by the
    winner's xp blessing and its gold find by the winner's gold blessing,
    the loser's race has its xp gain multiplied by the loser's xp blessing,
    and every other race is unchanged; the next caller of
    [get_race_multipliers] for one of the two races starts from these
    products. *)
Theorem duel_blessings_stay_in_race_table :
  forall now race_of table db winner loser g a table' db' g' rw rl bw bl,
    race_of (c_user_id winner) = Some (Some rw) ->
    race_of (c_user_id loser) = Some (Some rl) ->
    Race.lower rw <> Race.lower rl ->
    Race.table_get table (Race.lower rw) = Some bw ->
    Race.table_get table (Race.lower rl) = Some bl ->
    Autoplay.award_1v1 true now race_of table db winner loser g
    = Some ((a, table', db'), g') ->
    let winner_blessings :=
      fst (Religion.get_active_blessings db (c_user_id winner) now) in
    let loser_blessings :=
      fst (Religion.get_active_blessings
             (snd (Religion.get_active_blessings db (c_user_id winner) now))
             (c_user_id loser) now) in
    Race.table_get table' (Race.lower rw)
    = Some (Race.mkBonuses (Race.luck bw)
              (PrimFloat.mul (Race.xp_gain bw) (Religion.xp_mult winner_blessings))
              (PrimFloat.mul (Race.gold_find bw) (Religion.gold_mult winner_blessings))
              (Race.favor_gain bw))
    /\ Race.table_get table' (Race.lower rl)
       = Some (Race.mkBonuses (Race.luck bl)
                 (PrimFloat.mul (Race.xp_gain bl) (Religion.xp_mult loser_blessings))
                 (Race.gold_find bl) (Race.favor_gain bl))
    /\ forall key, key <> Race.lower rw -> key <> Race.lower rl ->
         Race.table_get table' key = Race.table_get table key.
Proof.
  intros now race_of table db winner loser g a table' db' g' rw rl bw bl
         Hrw Hrl Hdiff Hbw Hbl H.
  cbv zeta.
  pose proof (award_1v1_shared now race_of table db winner loser g a table' db' g'
                (Race.lower rw) (Race.lower rl)) as Hs.
  rewrite Hrw, Hrl in Hs.
  specialize (Hs (race_multipliers_shared table rw bw Hbw)
                 (race_multipliers_shared table rl bl Hbl) H).
  cbv zeta in Hs.
  rewrite (imul_xp_shared table _ bw _ Hbw) in Hs. cbn [fst] in Hs.
  rewrite (imul_gold_shared _ _ _ _ (table_get_set_same table _ bw _ Hbw)) in Hs.
  cbn [fst Race.luck Race.xp_gain Race.gold_find Race.favor_gain] in Hs.
  assert (Hbl2 : forall b1 b2,
            Race.table_get
              (Race.table_set (Race.table_set table (Race.lower rw) b1)
                              (Race.lower rw) b2) (Race.lower rl) = Some bl).
  { intros b1 b2.
    rewrite !table_get_set_other by (intros E; apply Hdiff; now symmetry).
    exact Hbl. }
  rewrite (imul_xp_shared _ _ bl _ (Hbl2 _ _)) in Hs. cbn [fst] in Hs.
  destruct Hs as [-> _].
  split; [|split].
  - rewrite table_get_set_other by exact Hdiff.
    eapply table_get_set_same, table_get_set_same, Hbw.
  - eapply table_get_set_same, Hbl2.
  - intros key H1 H2. now rewrite !table_get_set_other.
Qed.

Lemma duel_blessings_stay_in_race_table_witness :
  exists a table' db' g',
    Autoplay.award_1v1 true 0 elf_and_dwarves Race.RACES blessed_arena_db
      fighter_1 fighter_2 [0; 0; 0; 2 ^ 52; 2 ^ 52] = Some ((a, table', db'), g')
    /\ Race.table_get table' "elf"
       = Some (Race.mkBonuses 1.2%float 2%float 0.9%float 1.3%float)
    /\ Race.table_get table' "dwarf"
       = Some (Race.mkBonuses 0.9%float 1.3500000000000001%float 1.4%float 0.8%float).
Proof.
  do 4 eexists. split; [vm_compute; reflexivity|].
  pose proof (duel_blessings_stay_in_race_table 0 elf_and_dwarves Race.RACES
                blessed_arena_db fighter_1 fighter_2 [0; 0; 0; 2 ^ 52; 2 ^ 52]
                _ _ _ _ "Elf" "Dwarf"
                (Race.mkBonuses 1.2 1.0 0.9 1.3) (Race.mkBonuses 0.9 0.9 1.4 0.8)
                eq_refl eq_refl ltac:(discriminate) eq_refl eq_refl
                ltac:(vm_compute; reflexivity))
    as (Hw & Hl & _).
  split; [exact Hw|exact Hl].
Defined.

End RaceTable.

(** ** Items of epic adventures *)

Section EpicItems.
Import Store.

Lemma revalued_check_all :
  forallb revalued_check (range_from 0 (Z.to_nat 6001)) = true.
Proof. vm_compute. reflexivity. Qed.

Lemma revalued (kind : EpicKind) (value : Z) :
  0 <= value <= 6000 ->
  Py.int_of_float
    (PrimFloat.mul (Py.float_of_int value)
       (match kind with epic => 1.5%float | legendary => 2%float end))
  = Some (epic_value kind value).
Proof.
  intros Hv.
  pose proof (forallb_range _ _ _ revalued_check_all value ltac:(lia)) as H.
  unfold revalued_check in H. apply andb_true_iff in H. destruct H as [H1 H2].
  apply opt_is_Some in H1. apply opt_is_Some in H2.
  destruct kind; assumption.
Qed.

Lemma epic_tables_item_quality :
  forallb (fun d => (Z.max 4 (fst (Epic.item_quality d)) <=? snd (Epic.item_quality d))
                    && (snd (Epic.item_quality d) <=? 50))
          (Epic.EPIC_ADVENTURES ++ Epic.LEGENDARY_ADVENTURES) = true.
Proof. vm_compute. reflexivity. Qed.

Lemma create_items_spec : forall n adventure db g,
  Z.max 4 (e_item_quality_min adventure) <= e_item_quality_max adventure <= 50 ->
  exists db' g' rows,
    Epic.create_items n adventure db g = Some (db', g')
    /\ inventory db' = inventory db ++ rows
    /\ length rows = n
    /\ profile db' = profile db
    /\ forall row, In row rows ->
         i_owner row = e_user_id adventure
         /\ i_equipped row = false
         /\ (exists base_name,
               i_name row = (epic_prefix (e_adventure_type adventure) ++ base_name)%string)
         /\ (exists total k,
               Z.max 4 (e_item_quality_min adventure) <= total
               /\ total <= e_item_quality_max adventure
               /\ 80 <= k <= 120
               /\ i_value row = epic_value (e_adventure_type adventure) (total * k))
         /\ exists t, Blacksmith.row_stat_total row = Some t
                      /\ 0 <= t <= e_item_quality_max adventure.
Proof.
  induction n as [|n IH]; intros adventure db g Hq.
  - exists db, g, []. split; [reflexivity|]. split; [now rewrite app_nil_r|].
    split; [reflexivity|]. split; [reflexivity|]. intros row [].
  - destruct (generate_random_equipment_valid (e_user_id adventure)
                (e_item_quality_min adventure) (e_item_quality_max adventure) g
                ltac:(lia)) as (item & g1 & t & Hg & _ & Ht & Htb).
    destruct (generate_random_equipment_inv _ _ _ _ _ _ Hg)
      as (Ho & He & total & k & Htot & Hk & Hv).
    assert (Hval : 0 <= Items.value item <= 6000) by (rewrite Hv; nia).
    pose proof (revalued (e_adventure_type adventure) (Items.value item) Hval) as Hr.
    set (item' :=
           Items.mkItem (Items.id item) (Items.owner_id item)
             (epic_prefix (e_adventure_type adventure) ++ Items.name item)%string
             (Items.type item)
             (epic_value (e_adventure_type adventure) (Items.value item))
             (Items.damage item) (Items.armor item) (Items.hand item)
             (Items.equipped item) (Items.health_bonus item) (Items.speed_bonus item)
             (Items.luck_bonus item) (Items.crit_bonus item) (Items.magic_bonus item)
             (Items.slot_type item) (Items.upgrade_level item)).
    destruct (IH adventure (create_item_in_db db item') g1 Hq)
      as (db' & g' & rows & Hc & Hinv & Hlen & Hprof & Hrows).
    exists db', g',
      (row_of_item (Z.of_nat (length (inventory db)) + 1) item' :: rows).
    split; [|split; [|split; [|split]]].
    + simpl Epic.create_items.
      eapply bind_returns; [exact Hg|].
      destruct (e_adventure_type adventure); simpl in Hr |- *;
        (eapply bind_returns; [unfold Py.lift; rewrite Hr; reflexivity|exact Hc]).
    + rewrite Hinv. simpl. now rewrite <- app_assoc.
    + simpl. now rewrite Hlen.
    + rewrite Hprof. reflexivity.
    + intros row [<-|Hin]; [|now apply Hrows].
      simpl. split; [exact Ho|]. split; [exact He|].
      split; [now exists (Items.name item)|].
      split; [exists total, k; rewrite Hv; repeat split; lia|].
      exists t. split; [|exact Htb].
      change (Blacksmith.row_stat_total
                (row_of_item (Z.of_nat (length (inventory db)) + 1) item'))
        with (Items.stat_total item).
      exact Ht.
Qed.

(** X26. The item loop of a successful epic or legendary adventure never
    raises when the row's quality range is not empty and ends at 50 or
    below, which holds for every entry of the two tables.  It adds exactly
    the requested number of rows to the inventory, after the existing ones
    and in order; each belongs to the adventurer, is not equipped, has the
    generated name behind the prefix "Epic " or "Legendary ", has the
    generated value times 1.5 (truncated) or times 2, and a stat total of at
    most the range's maximum. *)
Theorem epic_items_created :
  (forall n adventure db g,
     Z.max 4 (e_item_quality_min adventure) <= e_item_quality_max adventure <= 50 ->
     exists db' g' rows,
       Epic.create_items n adventure db g = Some (db', g')
       /\ inventory db' = inventory db ++ rows
       /\ length rows = n
       /\ profile db' = profile db
       /\ forall row, In row rows ->
            i_owner row = e_user_id adventure
            /\ i_equipped row = false
            /\ (exists base_name,
                  i_name row
                  = (epic_prefix (e_adventure_type adventure) ++ base_name)%string)
            /\ (exists total k,
                  Z.max 4 (e_item_quality_min adventure) <= total
                  /\ total <= e_item_quality_max adventure
                  /\ 80 <= k <= 120
                  /\ i_value row = epic_value (e_adventure_type adventure) (total * k))
            /\ exists t, Blacksmith.row_stat_total row = Some t
                         /\ 0 <= t <= e_item_quality_max adventure)
  /\ (forall d, In d (Epic.EPIC_ADVENTURES ++ Epic.LEGENDARY_ADVENTURES) ->
        Z.max 4 (fst (Epic.item_quality d)) <= snd (Epic.item_quality d) <= 50).
Proof.
  split; [exact create_items_spec|].
  intros d Hin.
  pose proof epic_tables_item_quality as H. rewrite forallb_forall in H.
  specialize (H d Hin). apply andb_true_iff in H. destruct H as [H1 H2].
  apply Z.leb_le in H1. apply Z.leb_le in H2. lia.
Qed.

Lemma epic_items_created_witness :
  exists db' g' rows,
    Epic.create_items 2 veteran_epic veteran_db [0; 1; 2; 3; 4] = Some (db', g')
    /\ inventory db' = inventory veteran_db ++ rows
    /\ length rows = 2%nat.
Proof.
  destruct (proj1 epic_items_created 2%nat veteran_epic veteran_db [0; 1; 2; 3; 4]
              ltac:(vm_compute; split; discriminate))
    as (db' & g' & rows & H1 & H2 & H3 & _).
  exists db', g', rows. split; [exact H1|]. split; [exact H2|exact H3].
Defined.

End EpicItems.

(** ** Character classes and levels *)

Section ClassesProps.
Import Classes.

Lemma all_classes_complete : forall c, In c all_classes.
Proof. intros []; simpl; tauto. Qed.

Lemma class_eqb_spec a b : class_eqb a b = true <-> a = b.
Proof.
  split.
  - destruct a, b; intros H; try reflexivity; discriminate H.
  - intros ->. apply String.eqb_refl.
Qed.

Lemma evolution_raises_tier c c' :
  In c' (get_evolutions c) -> class_tier c' = S (class_tier c).
Proof.
  destruct c; simpl; intros H;
    repeat match type of H with
           | _ \/ _ => destruct H as [H|H]
           | False => destruct H
           end; subst; reflexivity.
Qed.

Lemma evolves_tier n c c' :
  evolves n c c' -> class_tier c' = (n + class_tier c)%nat.
Proof.
  induction 1 as [c|n c c1 c' Hin _ IH]; [reflexivity|].
  rewrite IH, (evolution_raises_tier _ _ Hin). lia.
Qed.

Lemma class_tier_max c : (class_tier c <= 6)%nat.
Proof. destruct c; simpl; lia. Qed.

Lemma reaches_immortal c : evolves (6 - class_tier c) c IMMORTAL.
Proof.
  destruct c; simpl;
    repeat first [ apply evolves_refl
                 | eapply evolves_step; [simpl; left; reflexivity|] ].
Qed.

(** X27. The evolution paths form a graph without cycles in which every
    class leads to Immortal: each evolution raises the tier of the class by
    exactly one (Novice 0 ... Immortal 6), so a chain of evolutions has at
    most six steps; from every class a chain of [6 - tier] evolutions
    reaches Immortal; and Immortal is the only class without evolutions.
    Class values are pairwise different, so comparing values compares
    classes. *)
Theorem evolution_paths_end_at_immortal :
  (forall a b, class_eqb a b = true <-> a = b)
  /\ (forall c c', In c' (get_evolutions c) -> class_tier c' = S (class_tier c))
  /\ (forall n c c', evolves n c c' ->
        (n <= 6)%nat /\ class_tier c' = (n + class_tier c)%nat)
  /\ (forall c, evolves (6 - class_tier c) c IMMORTAL)
  /\ (forall c, get_evolutions c = [] <-> c = IMMORTAL).
Proof.
  split; [exact class_eqb_spec|]. split; [exact evolution_raises_tier|].
  split; [|split; [exact reaches_immortal|]].
  - intros n c c' H. pose proof (evolves_tier _ _ _ H) as Ht.
    pose proof (class_tier_max c'). split; [lia|exact Ht].
  - intros c. split.
    + destruct c; simpl; intros H; try discriminate; reflexivity.
    + intros ->. reflexivity.
Qed.

Lemma evolution_paths_end_at_immortal_witness :
  class_tier MARKSMAN = S (class_tier BOWMASTER).
Proof.
  apply (proj1 (proj2 evolution_paths_end_at_immortal) BOWMASTER MARKSMAN).
  simpl. now left.
Defined.

(** X28. [evolve_class] checks the path and nothing else: it succeeds,
    changing only the class, exactly when the new class is among the
    evolutions of the current one.  The level is not read, so a new
    character (level 1, for which [can_evolve] answers no) can be evolved. *)
Theorem evolve_class_follows_paths :
  (forall self new_class,
     In new_class (get_evolutions (char_class self)) ->
     evolve_class self new_class
     = (mkCharacter new_class (race self) (level self) (xp self) (hp self)
          (max_hp self) (base_attack self) (base_defense self) (base_magic self)
          (base_speed self) (reset_points self), true))
  /\ (forall self new_class,
        ~ In new_class (get_evolutions (char_class self)) ->
        evolve_class self new_class = (self, false))
  /\ can_evolve (level new_character) = false
  /\ snd (evolve_class new_character WARRIOR) = true.
Proof.
  assert (Hex : forall new_class l,
            existsb (class_eqb new_class) l = true <-> In new_class l).
  { intros new_class l. rewrite existsb_exists. split.
    - intros (x & Hin & Hx). apply class_eqb_spec in Hx. now subst.
    - intros Hin. exists new_class. split; [exact Hin|now apply class_eqb_spec]. }
  split; [|split; [|split; reflexivity]].
  - intros self new_class Hin. unfold evolve_class.
    apply Hex in Hin. now rewrite Hin.
  - intros self new_class Hin. unfold evolve_class.
    destruct (existsb (class_eqb new_class) (get_evolutions (char_class self)))
      eqn:E; [|reflexivity].
    apply Hex in E. contradiction.
Qed.

Lemma evolve_class_follows_paths_witness :
  evolve_class new_character MAGE
  = (mkCharacter MAGE HUMAN 1 0 100 100 10 10 10 10 2, true).
Proof.
  apply (proj1 evolve_class_follows_paths new_character MAGE).
  simpl. tauto.
Defined.

Lemma xp_required_bounds self :
  0 <= xp_required self /\ (level self <> 0 -> 100 <= xp_required self).
Proof.
  unfold xp_required. rewrite Z.pow_2_r. split; [nia|]. intros H. nia.
Qed.

Lemma gain_xp_loop_spec : forall rounds self n0,
  xp self / 100 + (if level self <=? 0 then 1 else 0) <= Z.of_nat rounds ->
  exists c' k,
    gain_xp_loop rounds self n0 = Some (c', n0 + Z.of_nat k)
    /\ xp c' < xp_required c'
    /\ level c' = level self + Z.of_nat k
    /\ xp self = xp c' + xp_spent (level self) k
    /\ max_hp c' = max_hp self + 10 * Z.of_nat k
    /\ base_attack c' = base_attack self + 2 * Z.of_nat k
    /\ base_defense c' = base_defense self + 2 * Z.of_nat k
    /\ base_magic c' = base_magic self + Z.of_nat k
    /\ base_speed c' = base_speed self + Z.of_nat k
    /\ char_class c' = char_class self /\ race c' = race self
    /\ reset_points c' = reset_points self
    /\ (k = 0%nat -> c' = self)
    /\ (k <> 0%nat -> hp c' = max_hp c').
Proof.
  induction rounds as [|r IH]; intros self n0 Hfuel.
  - pose proof (xp_required_bounds self) as [H0 H100].
    assert (Hstop : xp self < xp_required self).
    { revert Hfuel. destruct (Z.leb_spec (level self) 0) as [Hl|Hl]; intros Hfuel.
      - Z.div_mod_to_equations. lia.
      - specialize (H100 ltac:(lia)). Z.div_mod_to_equations. lia. }
    exists self, 0%nat. simpl.
    destruct (Z.geb_spec (xp self) (xp_required self)) as [Hge|_]; [lia|].
    rewrite Z.add_0_r. split; [reflexivity|]. repeat (split; [lia|]).
    split; [reflexivity|]. split; [reflexivity|]. split; [reflexivity|].
    split; [auto|intros H; now elim H].
  - simpl gain_xp_loop.
    destruct (Z.geb_spec (xp self) (xp_required self)) as [Hge|Hlt].
    + pose proof (xp_required_bounds self) as [H0 H100].
      assert (Hfuel' : xp (level_up self) / 100
                       + (if level (level_up self) <=? 0 then 1 else 0)
                       <= Z.of_nat r).
      { cbn [level_up xp level].
        destruct (Z.eq_dec (level self) 0) as [Hz|Hnz].
        - assert (xp_required self = 0) by (unfold xp_required; rewrite Hz; reflexivity).
          rewrite H, Z.sub_0_r. rewrite Hz in Hfuel |- *.
          change (0 <=? 0) with true in Hfuel. change (0 + 1 <=? 0) with false.
          cbv iota in Hfuel |- *. lia.
        - specialize (H100 Hnz).
          assert ((xp self - xp_required self) / 100 <= xp self / 100 - 1)
            by (Z.div_mod_to_equations; lia).
          revert Hfuel.
          destruct (Z.leb_spec (level self) 0), (Z.leb_spec (level self + 1) 0); lia. }
      destruct (IH (level_up self) (n0 + 1) Hfuel')
        as (c' & k & Hl & Hx & Hlev & Hxp & Hhp & Ha & Hd & Hm & Hs & Hc & Hr & Hp
            & Hk0 & Hk).
      exists c', (S k).
      cbn [level_up add_xp xp level hp max_hp base_attack base_defense base_magic
           base_speed char_class race reset_points]
        in Hlev, Hxp, Hhp, Ha, Hd, Hm, Hs, Hc, Hr, Hp.
      split; [rewrite Hl; f_equal; f_equal; lia|].
      split; [exact Hx|]. split; [lia|].
      split; [simpl xp_spent; unfold xp_required in Hxp; lia|].
      repeat (split; [lia|]).
      split; [exact Hc|]. split; [exact Hr|]. split; [exact Hp|].
      split; [discriminate|]. intros _.
      destruct k as [|k].
      * rewrite (Hk0 eq_refl). reflexivity.
      * apply Hk. discriminate.
    + exists self, 0%nat. rewrite Z.add_0_r. split; [reflexivity|].
      simpl. repeat (split; [lia|]).
      split; [reflexivity|]. split; [reflexivity|]. split; [reflexivity|].
      split; [auto|intros H; now elim H].
Qed.

(** X29. [gain_xp] terminates and levels the character up as far as the xp
    reaches.  With [actual] the amount after the xp multiplier,
    [int(amount * stats["xp_mult"])], it returns a character whose xp is
    below the requirement of its level; the levels gained, [k], are reported,
    and reported as a level-up exactly when [k > 0]; the xp added is all
    accounted for (what is left plus [100 * level^2] for each level passed);
    each level gained adds 10 to the maximal hp, 2 to attack and defense and
    1 to magic and speed, and after a level-up the hp are full; class, race
    and reset points are untouched.  When [total_stats] or the conversion of
    the amount raises, so does [gain_xp].  The multiplier is the race's; the
    amount is converted as an [int] of any size: [2^63] gives
    [10145709240540254208] to a new character and [2^1024] raises. *)
Theorem gain_xp_levels_up :
  (forall self luck raid_stats amount actual,
    actual_xp self luck raid_stats amount = Some actual ->
    exists c' k,
      gain_xp self luck raid_stats amount
        = Some (c', (Z.of_nat k >? 0, Z.of_nat k))
      /\ xp c' < xp_required c'
      /\ level c' = level self + Z.of_nat k
      /\ xp self + actual = xp c' + xp_spent (level self) k
      /\ max_hp c' = max_hp self + 10 * Z.of_nat k
      /\ base_attack c' = base_attack self + 2 * Z.of_nat k
      /\ base_defense c' = base_defense self + 2 * Z.of_nat k
      /\ base_magic c' = base_magic self + Z.of_nat k
      /\ base_speed c' = base_speed self + Z.of_nat k
      /\ char_class c' = char_class self /\ race c' = race self
      /\ reset_points c' = reset_points self
      /\ (k <> 0%nat -> hp c' = max_hp c'))
  /\ (forall self luck raid_stats amount,
        actual_xp self luck raid_stats amount = None ->
        gain_xp self luck raid_stats amount = None)
  /\ (forall self luck raid_stats amount,
        actual_xp self luck raid_stats amount
        = match total_stats self luck raid_stats with
          | Some _ => scaled amount (xp_mult (get_race_bonuses (race self)))
          | None => None
          end)
  /\ actual_xp new_character 1%float 0 (2 ^ 63) = Some 10145709240540254208
  /\ actual_xp new_character 1%float 0 (2 ^ 53 + 1) = Some 9907919180215092
  /\ actual_xp new_character 1%float 0 (2 ^ 1024) = None
  /\ total_stats new_character 1%float (2 ^ 1024) = None.
Proof.
  split; [|split; [|split]].
  - intros self luck raid_stats amount actual Ha.
    assert (Hfuel : xp (add_xp self actual) / 100
                    + (if level (add_xp self actual) <=? 0 then 1 else 0)
                    <= Z.of_nat (Z.to_nat (xp (add_xp self actual) / 100) + 1)).
    { destruct (level (add_xp self actual) <=? 0); lia. }
    destruct (gain_xp_loop_spec _ (add_xp self actual) 0 Hfuel)
      as (c' & k & Hl & Hx & Hlev & Hxp & Hhp & Hat & Hd & Hm & Hs & Hc & Hr & Hp
          & _ & Hk).
    exists c', k. split.
    + unfold gain_xp. rewrite Ha. rewrite Hl. reflexivity.
    + cbn [level_up add_xp xp level hp max_hp base_attack base_defense base_magic
           base_speed char_class race reset_points]
        in Hlev, Hxp, Hhp, Hat, Hd, Hm, Hs, Hc, Hr, Hp.
      repeat (split; [assumption|]). exact Hk.
  - intros self luck raid_stats amount Ha. unfold gain_xp. rewrite Ha. reflexivity.
  - intros self luck raid_stats amount. unfold actual_xp, total_stats.
    repeat match goal with
           | |- context [scaled ?n ?m] =>
               lazymatch n with
               | amount => fail
               | _ => destruct (scaled n m); [|reflexivity]
               end
           | |- context [Py.float_of_long (luck_bonus ?r)] =>
               destruct (Py.float_of_long (luck_bonus r)); [|reflexivity]
           end.
    reflexivity.
  - repeat split; vm_compute; reflexivity.
Qed.

Lemma gain_xp_levels_up_witness :
  exists c' k,
    gain_xp new_character 1%float 0 1000
      = Some (c', (Z.of_nat k >? 0, Z.of_nat k))
    /\ xp c' < xp_required c'
    /\ level c' = 1 + Z.of_nat k
    /\ 0 + 1100 = xp c' + xp_spent 1 k.
Proof.
  destruct (proj1 gain_xp_levels_up new_character 1%float 0 1000 1100 eq_refl)
    as (c' & k & H1 & H2 & H3 & H4 & _).
  exists c', k. repeat (split; [assumption|]). exact H4.
Defined.

Lemma class_lines_all :
  forallb (fun c =>
             match line_of (class_value c), class_line c with
             | Some warrior_line, Some warrior_line
             | Some thief_line, Some thief_line
             | Some mage_line, Some mage_line
             | Some ranger_line, Some ranger_line
             | Some raider_line, Some raider_line
             | Some ritualist_line, Some ritualist_line
             | Some paragon_line, Some paragon_line
             | None, None => true
             | _, _ => false
             end
             && forallb (fun name =>
                           Bool.eqb (contains (class_value c) name)
                                    (String.eqb (class_value c) name))
                        special_names)
          all_classes = true.
Proof. vm_compute. reflexivity. Qed.

(** X30. The string tests of [get_class_bonuses] sort every class into the
    line it is listed under: the first [endswith] tuple that matches the
    class value is the one of its own line, and Novice matches none; each of
    the ten names tested with [in] occurs in the value of the class of that
    name only.  A Novice therefore has the base bonuses at every level, and
    the tier used for the bonuses is between 0 and 6 and does not fall when
    the level rises. *)
Theorem class_bonus_lines :
  (forall c, line_of (class_value c) = class_line c)
  /\ (forall c name, In name special_names ->
        (contains (class_value c) name = true <-> class_value c = name))
  /\ (forall level, get_class_bonuses NOVICE level = base_bonuses)
  /\ (forall l1 l2, l1 <= l2 ->
        0 <= tier_of_level l1 <= tier_of_level l2 /\ tier_of_level l2 <= 6).
Proof.
  pose proof class_lines_all as Hall. rewrite forallb_forall in Hall.
  split; [|split; [|split]].
  - intros c. specialize (Hall c (all_classes_complete c)).
    apply andb_true_iff in Hall. destruct Hall as [H _].
    destruct (line_of (class_value c)) as [[]|], (class_line c) as [[]|];
      try discriminate; reflexivity.
  - intros c name Hin. specialize (Hall c (all_classes_complete c)).
    apply andb_true_iff in Hall. destruct Hall as [_ H].
    rewrite forallb_forall in H. specialize (H name Hin).
    apply Bool.eqb_prop in H. rewrite H. apply String.eqb_eq.
  - intros level. reflexivity.
  - intros l1 l2 Hl. unfold tier_of_level.
    repeat match goal with
           | |- context [?a >=? ?b] => destruct (Z.geb_spec a b)
           end; lia.
Qed.

Lemma class_bonus_lines_witness :
  0 <= tier_of_level 12 <= tier_of_level 27 /\ tier_of_level 27 <= 6.
Proof.
  apply (proj2 (proj2 (proj2 class_bonus_lines)) 12 27). lia.
Defined.

End ClassesProps.
